(* ===== verification/_CoqProject ===== *)
-Q . S2P
Prelude.v
Firebase.v
Json.v
RatesEngine.v
RatesStore.v
RatesForms.v
RatesPage.v
Auth.v
ContractService.v
Wallet.v
Chain.v
Users.v
Deploy.v
DeployViews.v
Distribution.v
Collection.v
APIManagement.v
Token.v
Tokenomics.v
Shell.v
