(* ===== verification/Prelude.v ===== *)
(** * A verification library for the xlCAdministrator dashboard

    ** The program

    xlCAdministrator ([src/src]) is a React/TypeScript administration
    dashboard for the XLC token on BNB Smart Chain.  Its parts, and how they
    talk to each other:
    - the rates-and-weights engine [lib/ratesAndWeights.ts] (pure
      [normalizeValue], [calculateDailyRate], [validateWeights], and five
      persistence functions over the Firebase node [ratesAndWeights]), its
      forms [components/RatesAndWeights] and the page
      [pages/TokenOperations], which validates a form against its last
      snapshot of the store, writes, and fetches again;
    - authentication: the singleton [auth/authService.ts] (token and user
      mirrored as JSON text in [localStorage]), [AuthContext],
      [ProtectedRoute], the axios instance [lib/api.ts] that sends the
      stored token, and the login page;
    - the wallet: the shared injected provider [window.ethereum], the
      context [web3/WalletContext.tsx] and its copy [web3/hooks/useWallet.ts]
      used by [AccountSelector];
    - on-chain reads through web3 ([lib/web3]): recent transfers with a
      module-level cache, the holder count, and the pages that show them;
    - users and statistics read from Firebase ([pages/Users],
      [services/dashboardService.ts], [pages/Dashboard/api]);
    - the contract deployment page [pages/Deploy];
    - the distribution page [pages/Distribution]: offers and staking pools
      edited in Firebase, and the rewards list;
    - the API management page [pages/APIManagement] over simulated
      services, and the tokenomics page [pages/Tokenomics], a form that
      [set]s one Firebase node and a display subscribed to it.

    ** Files (in dependency order)

    - [Prelude] (this file): the JavaScript [number] type as [num] (a
      rational or NaN) with its operations and the setoid [≡] that compares
      rationals by value, with [Proper] instances for every operation;
      JavaScript truthiness; the [jsres] error monad for code that throws
      and [jsres_map], a list rendered by a function that may throw;
      [tab_panel], the panel a page's tabs show;
      generic lemmas on folds over permutations and over [gmap]s, used
      wherever the code iterates [Object.entries]; the hint database [xlc].
    - [Firebase]: the part of the Realtime Database the code relies on, as
      a typeclass [FbData] of storable values (Firebase refuses NaN) and the
      write operations [fb_set], [fb_remove], [fb_push] on one collection.
    - [Json]: flat JSON objects, [JSON.stringify] and [JSON.parse] on them
      and their round trip; [toLowerCase], [includes] and [toFixed].
    - [RatesEngine]: [Metric], [Weight], [MetricCategory] and the three pure
      functions, with their range, clamping, skipping, linearity and bound
      theorems (the testable properties of the specification).
    - [RatesStore]: the node [ratesAndWeights], the five persistence
      functions, and the invariants they keep (keys agree with the ids
      stored under them, every number is finite).
    - [RatesForms]: [WeightForm.handleSubmit] (the 100% cap) and
      [MetricForm.handleSubmit] with their inputs.
    - [RatesPage]: the TokenOperations page as a step function over (remote
      store, page state) and the system of several administrators' pages
      interleaved on one store: the cap invariant for one page, and the
      reachable states that break it for two.
    - [Auth]: [authService] ([login], [logout], [loadFromStorage], the role
      tests), [AuthProvider], [ProtectedRoute] and the routes of [App.tsx],
      the request interceptor of [lib/api.ts] and [useLogin].
    - [ContractService]: the functions of [services/contractService.ts]
      as the requests they send through the axios instance of
      [lib/api.ts] (base URL, JSON content type, the interceptor's
      [Authorization] header) and their results, with the response
      interceptor's toast on failure; a deployment request after a login
      carries the JSON text of the stored token object.
    - [Wallet]: the shared provider object with its listener list, the two
      copies of the wallet code, their handlers and the mounting of
      [AccountSelector], as a world stepped by user actions and wallet
      events; hexadecimal chain ids ([parseInt]/[toString(16)]) and
      [formatAddress].
    - [Chain]: the BSC node as a value, [getTransactions] with its cache,
      [getTokenHolderCount], [fromWei], and the Transactions and Dashboard
      views.
    - [Users]: Firebase queries ordered by a child ([orderByChild] with
      [startAt], [endAt], [equalTo]), [fetchUsers] with its search filter,
      [fetchUserStats], the dashboard counters and [UserRow]; the Users
      page's filters ([useUserFilters]) and the query they key.
    - [Deploy]: [ParameterConfig] (validation, change and submit handlers),
      [TemplateSelector], [ContractDashboard] as a step function over user
      events, [DeploymentMonitor], [ContractRegistry], [SecurityControls],
      [XLCIntegration] and [TokenDeployment]; [Number], [parseInt] and
      [parseFloat] on decimal text.
    - [DeployViews]: what the registry, XLC integration and security tabs
      render (the registry's render throws on an audited contract) and
      the page's tabs.
    - [Distribution]: Firebase [update] (a merge that recreates a missing
      key) and [push] on records of fields; [OffersManagement] and
      [StakingDashboard] as one manager ([Section Manager]) with their
      forms' handlers and HTML constraint validation; [togglePoolStatus]
      and the pools' cards; [RewardsOverview]'s statistics and rows; the
      page's tabs.
    - [Collection]: the abstract collection an offers or pools page may
      change (create under an unused key, write fields into one key,
      remove one key) and [interface StakingPool] as a field typing; the
      pages refine the collection and create only well-typed pools.
    - [APIManagement]: every tab of the page over its simulated services:
      the react-query state a panel reads ([query]) and the shape all list
      panels share ([panel_view]), the metrics dashboard, the users,
      transactions, staking and liquidity panels with their rows and
      handlers (which only log or select), the liquidity overview, and the
      settings form as a step function with its tab bar and Refresh.
    - [Token]: the XLC contract's reads as a value ([name], [totalSupply],
      [balanceOf]), [getXLCBalance], the dashboard's cards,
      [StatsOverview], [useAccountBalance], the provider choice of
      [provider.ts], and the second [connectWallet] of
      [lib/web3/wallet.ts] over the wallet model of [Wallet].
    - [Tokenomics]: the form's fields, inputs and handlers, its [set] on
      the node, and the display's subscription.
    - [Shell]: the sidebar's links with react-router's [isActive] and the
      contract owner, the user menu and its sign out, the notifications
      bell, the header composing them with the wallet button of [Wallet],
      and [land], which follows the redirects of [App] for a navigation.

    ** What the theorems show

    The engine meets the testable properties of the specification; every
    persistence function keeps the store's invariants and fails exactly on
    NaN; [validateWeights] accepts exactly the maps whose values are all
    numbers with an exact total within 0.01 of 100; one administrator
    cannot exceed the 100% cap but two interleaved ones can, even when
    every write passes a check (the system of pages as a step relation,
    [rtc] over [sys_step_capped]); adding the first metric to an empty
    database breaks the rates page on every later load; a stored session reads back until it expires and logout ends
    it; the wallet context goes deaf after [AccountSelector] unmounts;
    [JSON.parse] inverts [JSON.stringify]; [parseInt] inverts
    [toString(16)]; the transaction cache serves the first caller's limit;
    [newUsers] counts every user whose [createdAt] is a string; a required
    deployment parameter cannot be 0 or false, and a template switch keeps
    the previous template's values; saving an unchanged record is a no-op,
    while a stale form or card recreates a record another administrator
    deleted; a tokenomics update erases every field it does not retype.
    Property kinds beyond these: the transactions search is equivalent to
    case-insensitive substring search ([includes] is proved equivalent to
    occurrence); following [App]'s redirects terminates after one; the
    Distribution pages refine the abstract collection and only create
    pools of [StakingPool]'s type; a failed metrics query would read as
    a healthy API (latent: the service is a mock); after one refused wallet request no action of the page
    brings the Connect button back (a liveness failure); the contract
    registry tab throws on its first render; the Users page lists only
    users of the last status chosen; the sidebar highlights at most one
    link on any path; a deployment request carries the stored token
    object's JSON text and its template identifier reaches the URL
    unescaped; a cleared settings field is submitted as NaN.  Each theorem that has hypotheses comes
    with a witness that applies it on concrete data.

    ** Numbers, time and fuel

    TypeScript [number] is IEEE double.  The model keeps the values the
    code can produce, finite ones and NaN (what [parseFloat] returns on an
    empty field), but computes with exact rationals: rounding is not
    modelled, so the theorems speak of the real-number result the code
    approximates.  Division by zero, which JavaScript answers with an
    infinity, is NaN in [num]: the engine never reaches it (it is guarded
    by [min === max] or divides by 100), and the one display that can, the
    liquidity panel's token ratio, is modelled by [div_toFixed], which
    prints the infinity as JavaScript does.  Time ([Date.now()])
    is a [Z] of milliseconds passed as an argument.  The JSON parser runs
    on fuel equal to the length of its input, which bounds the number of
    fields; hexadecimal printing runs on fuel [1 + log2 n], the number of
    hexadecimal digits bounded by the number of bits.  [land] follows
    redirects on fuel; [Shell.navigation_settles] shows that fuel 1 is
    enough for every path and authentication state.

    ** Not modelled

    The Firebase and web3 libraries themselves (only the behaviour the code
    relies on is stated), React's scheduling (each handler runs to its end
    before the next event), react-query's scheduling (a fetch, refetch or
    the dashboard's 30-second interval is a new [query] state), layout and
    icons, the modules the code imports that are not in the repository
    ([components/Layout], [StatCard], [ErrorBoundary], [ui/Tabs], the
    search bar, [lib/firebase], the Users page's [UserList]), the
    request timeout of the axios instance, the conversion of numbers to text by
    [toString] and [toLocaleString], and the IEEE rounding of [number]
    (so [toFixed] rounds the exact rational).
*)

From Stdlib Require Export QArith Qabs Qminmax Lqa Psatz.
From stdpp Require Export gmap strings list fin_maps.

Declare Scope js_scope.
Delimit Scope js_scope with js.
Open Scope Q_scope.

Create HintDb xlc.

(** ** The JavaScript number *)

Inductive num : Type :=
| Fin (q : Q)
| NaN.

Definition num_add (a b : num) : num :=
  match a, b with Fin x, Fin y => Fin (x + y) | _, _ => NaN end.
Definition num_sub (a b : num) : num :=
  match a, b with Fin x, Fin y => Fin (x - y) | _, _ => NaN end.
Definition num_mul (a b : num) : num :=
  match a, b with Fin x, Fin y => Fin (x * y) | _, _ => NaN end.
Definition num_div (a b : num) : num :=
  match a, b with
  | Fin x, Fin y => if Qeq_bool y 0 then NaN else Fin (x / y)
  | _, _ => NaN
  end.

(** [a < b] and [a > b] are false as soon as one side is NaN. *)
Definition num_lt (a b : num) : bool :=
  match a, b with Fin x, Fin y => negb (Qle_bool y x) | _, _ => false end.
Definition num_gt (a b : num) : bool := num_lt b a.

(** [a === b]: NaN is equal to nothing, not even to itself. *)
Definition num_strict_eq (a b : num) : bool :=
  match a, b with Fin x, Fin y => Qeq_bool x y | _, _ => false end.

(** [Math.min], [Math.max], [Math.abs]: NaN as soon as an argument is. *)
Definition math_min (a b : num) : num :=
  match a, b with Fin x, Fin y => Fin (if Qle_bool x y then x else y) | _, _ => NaN end.
Definition math_max (a b : num) : num :=
  match a, b with Fin x, Fin y => Fin (if Qle_bool x y then y else x) | _, _ => NaN end.
Definition math_abs (a : num) : num :=
  match a with Fin x => Fin (Qabs x) | NaN => NaN end.

(** Truthiness of a number ([0] and NaN are falsy) and [a || b]. *)
Definition num_truthy (a : num) : bool :=
  match a with Fin x => negb (Qeq_bool x 0) | NaN => false end.
Definition num_or (a b : num) : num := if num_truthy a then a else b.

Definition num_finite (a : num) : bool :=
  match a with Fin _ => true | NaN => false end.

Infix "+" := num_add : js_scope.
Infix "-" := num_sub : js_scope.
Infix "*" := num_mul : js_scope.
Infix "/" := num_div : js_scope.
Infix "<?" := num_lt (at level 70) : js_scope.
Infix ">?" := num_gt (at level 70) : js_scope.
Infix "===" := num_strict_eq (at level 70) : js_scope.
Infix "||" := num_or : js_scope.

(** Two numbers are equivalent when both are NaN or both are finite with
    the same value: [Fin (1#2) ≡ Fin (2#4)]. *)
Definition num_equiv (a b : num) : Prop :=
  match a, b with
  | Fin x, Fin y => x == y
  | NaN, NaN => True
  | _, _ => False
  end.
#[export] Instance num_equiv_inst : Equiv num := num_equiv.

Ltac num_cases :=
  repeat match goal with
  | a : num |- _ => destruct a as [?|]
  end.

Ltac num_unfold :=
  unfold equiv, num_equiv_inst, num_equiv in *;
  cbn [num_add num_sub num_mul num_div num_lt num_gt num_strict_eq math_min
       math_max math_abs num_truthy num_or num_finite] in *.

#[export] Instance num_equivalence : Equivalence (≡@{num}).
Proof.
  split.
  - intros [x|]; num_unfold; [reflexivity | exact I].
  - intros [x|] [y|]; num_unfold; auto; intros H; symmetry; exact H.
  - intros [x|] [y|] [z|]; num_unfold; try tauto. intros H1 H2; rewrite H1; exact H2.
Qed.

#[export] Instance num_equiv_dec : RelDecision (≡@{num}).
Proof.
  intros [x|] [y|]; [apply Qeq_dec | right; intros [] | right; intros [] | left; exact I].
Defined.

(** ** Errors *)

(** [JsErrorNum pre n post] is [new Error(`${pre}${n}${post}`)], a message
    that prints a number. *)
Inductive exn : Type :=
| TypeError (msg : string)
| JsError (msg : string)
| SyntaxError (msg : string)
| JsErrorNum (pre : string) (n : num) (post : string).

Inductive jsres (A : Type) : Type :=
| Ok (a : A)
| Throw (e : exn).
Arguments Ok {A} a.
Arguments Throw {A} e.

(** [jsres] is a monad in stdpp's sense, so handlers that throw are written
    with [x ← c; k]. *)
#[export] Instance jsres_ret : MRet jsres := λ A a, Ok a.
#[export] Instance jsres_bind : MBind jsres :=
  λ A B k c, match c with Ok a => k a | Throw e => Throw e end.

(** [xs.map(f)] with an [f] that may throw, as a render's list does: the
    results in order, or the first exception. *)
Fixpoint jsres_map {A B} (f : A → jsres B) (l : list A) : jsres (list B) :=
  match l with
  | [] => Ok []
  | x :: l' => y ← f x; ys ← jsres_map f l'; Ok (y :: ys)
  end.

(** ** Tabs *)

(** A page's [<Tabs>] ([components/ui/Tabs], not in the repository): the
    triggers (value and label) and the content of each value; the panel
    shown is the content of the selected value. *)
Definition tab_panel {T} (tabs : list (string * string * T)) (value : string) : option T :=
  option_map snd (find (λ t, String.eqb t.1.1 value) tabs).

(** ** Lemmas on the error monad *)

(** A mapped list throws exactly when one of its elements does. *)
Lemma jsres_map_throws {A B} (f : A → jsres B) l :
  (∃ e, jsres_map f l = Throw e) ↔ Exists (λ x, ∃ e, f x = Throw e) l.
Proof.
  induction l as [|x l IH]; simpl.
  - split; [by intros [e ?]|intros H; inversion H].
  - rewrite Exists_cons, <- IH. destruct (f x) as [y|e]; simpl.
    + destruct (jsres_map f l) as [ys|e]; simpl; naive_solver.
    + naive_solver.
Qed.

Lemma jsres_map_ok {A B} (g : A → B) l : jsres_map (λ x, Ok (g x)) l = Ok (map g l).
Proof. induction l as [|x l IH]; [done|]. simpl. by rewrite IH. Qed.

(** ** Lemmas on numbers *)

Lemma Fin_equiv (x y : Q) : Fin x ≡ Fin y ↔ x == y.
Proof. reflexivity. Qed.

Lemma num_equiv_NaN_l a : NaN ≡ a → a = NaN.
Proof. destruct a; num_unfold; tauto. Qed.

#[export] Instance Fin_proper : Proper (Qeq ==> (≡)) Fin.
Proof. intros x y H. exact H. Qed.

#[export] Instance num_add_proper : Proper ((≡) ==> (≡) ==> (≡)) num_add.
Proof. intros a a' Ha b b' Hb. num_cases; num_unfold; try tauto. rewrite Ha, Hb; reflexivity. Qed.
#[export] Instance num_sub_proper : Proper ((≡) ==> (≡) ==> (≡)) num_sub.
Proof. intros a a' Ha b b' Hb. num_cases; num_unfold; try tauto. rewrite Ha, Hb; reflexivity. Qed.
#[export] Instance num_mul_proper : Proper ((≡) ==> (≡) ==> (≡)) num_mul.
Proof. intros a a' Ha b b' Hb. num_cases; num_unfold; try tauto. rewrite Ha, Hb; reflexivity. Qed.

#[export] Instance num_div_proper : Proper ((≡) ==> (≡) ==> (≡)) num_div.
Proof.
  intros [x|] [x'|] Ha [y|] [y'|] Hb; num_unfold; try tauto.
  destruct (Qeq_bool y 0) eqn:E1, (Qeq_bool y' 0) eqn:E2; num_unfold; try exact I.
  - apply Qeq_bool_iff in E1. apply Qeq_bool_neq in E2. apply E2. rewrite <- Hb. exact E1.
  - apply Qeq_bool_iff in E2. apply Qeq_bool_neq in E1. apply E1. rewrite Hb. exact E2.
  - rewrite Ha, Hb. reflexivity.
Qed.

#[export] Instance num_lt_proper : Proper ((≡) ==> (≡) ==> (=)) num_lt.
Proof. intros a a' Ha b b' Hb. num_cases; num_unfold; try tauto. rewrite Ha, Hb; reflexivity. Qed.

#[export] Instance num_gt_proper : Proper ((≡) ==> (≡) ==> (=)) num_gt.
Proof. intros a a' Ha b b' Hb. unfold num_gt. by apply num_lt_proper. Qed.

#[export] Instance num_strict_eq_proper : Proper ((≡) ==> (≡) ==> (=)) num_strict_eq.
Proof. intros a a' Ha b b' Hb. num_cases; num_unfold; try tauto. rewrite Ha, Hb; reflexivity. Qed.

#[export] Instance num_finite_proper : Proper ((≡) ==> (=)) num_finite.
Proof. intros a a' Ha. num_cases; num_unfold; tauto. Qed.

#[export] Instance num_truthy_proper : Proper ((≡) ==> (=)) num_truthy.
Proof. intros a a' Ha. num_cases; num_unfold; try tauto. rewrite Ha; reflexivity. Qed.

Lemma Qle_bool_sel (x y : Q) : (if Qle_bool x y then x else y) == Qmin x y.
Proof.
  destruct (Qle_bool x y) eqn:E.
  - apply Qle_bool_iff in E. rewrite Q.min_l by exact E. reflexivity.
  - assert (y <= x) by (apply Qnot_lt_le; intros Hlt; apply Qlt_le_weak, Qle_bool_iff in Hlt; congruence).
    rewrite Q.min_r by assumption. reflexivity.
Qed.

Lemma Qle_bool_sel_max (x y : Q) : (if Qle_bool x y then y else x) == Qmax x y.
Proof.
  destruct (Qle_bool x y) eqn:E.
  - apply Qle_bool_iff in E. rewrite Q.max_r by exact E. reflexivity.
  - assert (y <= x) by (apply Qnot_lt_le; intros Hlt; apply Qlt_le_weak, Qle_bool_iff in Hlt; congruence).
    rewrite Q.max_l by assumption. reflexivity.
Qed.

#[export] Instance math_min_proper : Proper ((≡) ==> (≡) ==> (≡)) math_min.
Proof.
  intros a a' Ha b b' Hb. num_cases; num_unfold; try tauto.
  rewrite !Qle_bool_sel, Ha, Hb. reflexivity.
Qed.

#[export] Instance math_max_proper : Proper ((≡) ==> (≡) ==> (≡)) math_max.
Proof.
  intros a a' Ha b b' Hb. num_cases; num_unfold; try tauto.
  rewrite !Qle_bool_sel_max, Ha, Hb. reflexivity.
Qed.

#[export] Instance math_abs_proper : Proper ((≡) ==> (≡)) math_abs.
Proof. intros a a' Ha. num_cases; num_unfold; try tauto. by rewrite Ha. Qed.

Lemma num_add_comm a b : (a + b)%js ≡ (b + a)%js.
Proof. num_cases; num_unfold; try tauto. ring. Qed.

Lemma num_add_assoc a b c : (a + (b + c))%js ≡ ((a + b) + c)%js.
Proof. num_cases; num_unfold; try tauto. ring. Qed.

Lemma num_add_0_l a : (Fin 0 + a)%js ≡ a.
Proof. num_cases; num_unfold; try tauto. ring. Qed.

Lemma num_add_NaN_r a : (a + NaN)%js = NaN.
Proof. by destruct a. Qed.

(** The step of a running sum [acc + t x]: the order of two steps does not
    matter, which is what lets a fold over [Object.entries] be reordered. *)
Lemma num_add_swap a x y : ((a + x) + y)%js ≡ ((a + y) + x)%js.
Proof. num_cases; num_unfold; try tauto. ring. Qed.

#[export] Hint Resolve num_add_comm num_add_assoc num_add_0_l num_add_swap : xlc.

(** Percentages are divided by 100; [lra] reads [q * (1#100)] but not
    [q / 100]. *)
Lemma Qdiv_100 (q : Q) : q / 100 == q * (1#100).
Proof. reflexivity. Qed.

(** A filter keeps at most one element of a duplicate-free list when two
    elements it keeps are always equal. *)
Lemma filter_at_most_one {A} (P : A → Prop) `{∀ x, Decision (P x)} (l : list A) :
  NoDup l → (∀ x y, x ∈ l → y ∈ l → P x → P y → x = y) → length (filter P l) ≤ 1.
Proof.
  intros Hnd Huniq. destruct (filter P l) as [|x [|y r]] eqn:E; simpl; [lia|lia|].
  assert (Hx : x ∈ filter P l) by (rewrite E; left). assert (Hy : y ∈ filter P l) by (rewrite E; right; left).
  apply list_elem_of_filter in Hx as [Px Hx], Hy as [Py Hy]. pose proof (Huniq x y Hx Hy Px Py) as <-.
  pose proof (NoDup_filter P l Hnd) as Hf. rewrite E in Hf. apply NoDup_cons in Hf as [Hn _]. set_solver.
Qed.

Lemma foldl_map_fn {A B C} (f : A → B → A) (g : C → B) (a : A) (l : list C) :
  foldl f a (map g l) = foldl (λ acc x, f acc (g x)) a l.
Proof. revert a. induction l as [|x l IH]; intros a; simpl; [done | apply IH]. Qed.

Lemma foldl_ext_in {A B} (f g : A → B → A) (a : A) (l : list B) :
  (∀ acc x, x ∈ l → f acc x = g acc x) → foldl f a l = foldl g a l.
Proof.
  revert a. induction l as [|x l IH]; intros a Hfg; simpl; [done|].
  rewrite Hfg by constructor. apply IH. intros acc y Hy. apply Hfg. by constructor.
Qed.

(** ** Folds that may be reordered *)

Section fold_comm.
Context {A B : Type} `{Equiv A} `{!Equivalence (≡@{A})}.
Context (step : A → B → A).
Context `{!Proper ((≡) ==> (=) ==> (≡)) step}.
Hypothesis step_swap : ∀ a x y, step (step a x) y ≡ step (step a y) x.

#[local] Instance foldl_step_proper : Proper ((≡) ==> (=) ==> (≡)) (foldl step).
Proof.
  intros a a' Ha l ? <-. revert a a' Ha.
  induction l as [|x l IH]; intros a a' Ha; simpl; [exact Ha|].
  apply IH. by rewrite Ha.
Qed.

Lemma foldl_step_last (l : list B) (a : A) (x : B) :
  foldl step (step a x) l ≡ step (foldl step a l) x.
Proof.
  revert a. induction l as [|y l IH]; intros a; simpl; [reflexivity|].
  rewrite <- IH. apply foldl_step_proper; [apply step_swap | done].
Qed.

Lemma foldl_permutation (l1 l2 : list B) (a : A) :
  l1 ≡ₚ l2 → foldl step a l1 ≡ foldl step a l2.
Proof.
  intros Hp. revert a. induction Hp as [|x l1 l2 _ IH|x y l|l1 l2 l3 _ IH1 _ IH2];
    intros a; simpl.
  - reflexivity.
  - apply IH.
  - apply foldl_step_proper; [apply step_swap | done].
  - by rewrite IH1, IH2.
Qed.

End fold_comm.

(** Iterating [Object.entries m] of a map: inserting a fresh key adds one
    step at the end, whatever position the key takes in the entry list. *)
Section map_fold_comm.
Context {A K V : Type} `{Countable K} `{Equiv A} `{!Equivalence (≡@{A})}.
Context (step : A → K * V → A).
Context `{!Proper ((≡) ==> (=) ==> (≡)) step}.
Hypothesis step_swap : ∀ a x y, step (step a x) y ≡ step (step a y) x.

Lemma foldl_map_insert (m : gmap K V) (k : K) (v : V) (a : A) :
  m !! k = None →
  foldl step a (map_to_list (<[k:=v]> m)) ≡ step (foldl step a (map_to_list m)) (k, v).
Proof.
  intros Hk.
  rewrite (foldl_permutation step step_swap _ _ a (map_to_list_insert m k v Hk)).
  apply (foldl_step_last step step_swap).
Qed.

Lemma foldl_map_delete (m : gmap K V) (k : K) (v : V) (a : A) :
  m !! k = Some v →
  foldl step a (map_to_list m) ≡ step (foldl step a (map_to_list (delete k m))) (k, v).
Proof.
  intros Hk. rewrite <- (insert_id m k v Hk) at 1. rewrite <- insert_delete_eq.
  apply foldl_map_insert, lookup_delete_eq.
Qed.
End map_fold_comm.
