(* ===== verification/Firebase.v ===== *)
(** * The Firebase Realtime Database, as the code uses it

    The client library ([firebase/database], configured in a [lib/firebase]
    module that is not part of the repository) is modelled by the contract
    the code relies on, one collection (a JSON object under a path) at a
    time: a collection is a [gmap string V];

    - [set(ref(db, path/k), v)] validates [v] and replaces the child [k]
      ([fb_set]); the client refuses a value that holds NaN or an infinity,
      and the promise rejects;
    - [remove(ref(db, path/k))] and a multi-path [update] with [null]
      values delete children ([fb_remove]);
    - [push(ref(db, path), v)] stores [v] under a key not yet used
      ([fb_push]; the library's time-based key is abstracted as [fresh]).

    Values that can be stored are the instances of the class [FbData]. *)

From S2P Require Import Prelude.

Class FbData (V : Type) := fb_valid : V → bool.
Arguments fb_valid {_ _} _.

#[export] Instance num_FbData : FbData num := num_finite.

Definition fb_error : exn := JsError "set failed: value argument contains NaN".

Section collection.
Context {V : Type} `{FbData V}.

(** [set] on a leaf: the value itself is validated and stored. *)
Definition fb_set_leaf (v : V) : jsres V :=
  if fb_valid v then Ok v else Throw fb_error.

Definition fb_set (k : string) (v : V) (m : gmap string V) : jsres (gmap string V) :=
  if fb_valid v then Ok (<[k:=v]> m) else Throw fb_error.

Definition fb_remove (k : string) (m : gmap string V) : gmap string V := delete k m.

Definition fb_push (v : V) (m : gmap string V) : jsres (string * gmap string V) :=
  let k := fresh (dom m) in
  if fb_valid v then Ok (k, <[k:=v]> m) else Throw fb_error.

(** Every value of the collection passed validation. *)
Definition fb_all_valid (m : gmap string V) : Prop :=
  map_Forall (λ _ v, fb_valid v = true) m.

Lemma fb_set_spec k v m m' :
  fb_set k v m = Ok m' ↔ fb_valid v = true ∧ m' = <[k:=v]> m.
Proof.
  unfold fb_set. destruct (fb_valid v); naive_solver.
Qed.

Lemma fb_set_invalid k v m : fb_valid v = false → fb_set k v m = Throw fb_error.
Proof. unfold fb_set. by intros ->. Qed.

Lemma fb_set_all_valid k v m m' :
  fb_all_valid m → fb_set k v m = Ok m' → fb_all_valid m'.
Proof.
  intros Hm [Hv ->]%fb_set_spec. by apply map_Forall_insert_2.
Qed.

Lemma fb_remove_all_valid k m : fb_all_valid m → fb_all_valid (fb_remove k m).
Proof. intros Hm. by apply map_Forall_delete. Qed.

Lemma fb_push_spec v m k m' :
  fb_push v m = Ok (k, m') ↔
    fb_valid v = true ∧ k = fresh (dom m) ∧ m' = <[k:=v]> m.
Proof.
  unfold fb_push. destruct (fb_valid v); naive_solver.
Qed.

(** A pushed record never overwrites one that exists. *)
Lemma fb_push_fresh v m k m' : fb_push v m = Ok (k, m') → m !! k = None.
Proof.
  intros (_ & -> & _)%fb_push_spec. apply not_elem_of_dom, is_fresh.
Qed.

Lemma fb_push_all_valid v m k m' :
  fb_all_valid m → fb_push v m = Ok (k, m') → fb_all_valid m'.
Proof.
  intros Hm (Hv & _ & ->)%fb_push_spec. by apply map_Forall_insert_2.
Qed.
End collection.

#[export] Hint Resolve fb_set_all_valid fb_remove_all_valid fb_push_all_valid : xlc.
