(* ===== verification/Json.v ===== *)
(** * JSON text as [JSON.stringify] writes it and [JSON.parse] reads it

    The code stores objects in [localStorage] with [JSON.stringify] and
    reads them back with [JSON.parse] ([auth/authService.ts]), and reads
    the stored text raw in the axios interceptor ([lib/api.ts]).  This file
    models the part of JSON those objects use: flat objects whose values
    are [null], booleans, integers (the timestamps the code stores) and
    8-bit strings.  [stringify_obj] writes the compact form with
    ECMAScript's escapes (QuoteJSONString: the quote and the backslash
    behind a backslash, backspace, tab, newline, form feed and carriage
    return as their one-letter escapes, other control characters as a
    four-digit hexadecimal escape); [parse_obj_text] reads that compact
    form (no insignificant whitespace, integers only), and the round trip [parse_stringify] holds for every object. *)

From S2P Require Import Prelude.
From Stdlib Require Import Ascii DecimalString DecimalZ Qround.

Inductive jprim : Type :=
| JNull
| JBool (b : bool)
| JNum (z : Z)
| JStr (s : string).

(** A flat object, its properties in insertion order. *)
Definition jobj : Type := list (string * jprim).

#[export] Instance jprim_eq_dec : EqDecision jprim.
Proof. solve_decision. Defined.

(** [o.k]: [JSON.parse] keeps the last of duplicate keys. *)
Definition jget (k : string) (o : jobj) : option jprim :=
  foldl (λ acc kv, if bool_decide (kv.1 = k) then Some kv.2 else acc) None o.

(** JavaScript truthiness of a property value, [undefined] being [None]. *)
Definition jtruthy (v : option jprim) : bool :=
  match v with
  | None | Some JNull | Some (JBool false) | Some (JNum 0) | Some (JStr "") => false
  | _ => true
  end.

Local Open Scope nat_scope.
Local Open Scope string_scope.

Definition dquote : ascii := ascii_of_nat 34.
Definition bslash : ascii := "\"%char.

(** ** Printing *)

Definition hex_digit (n : nat) : ascii :=
  if Nat.ltb n 10 then ascii_of_nat (48 + n) else ascii_of_nat (87 + n).

Definition escape_char (c : ascii) : string :=
  let n := nat_of_ascii c in
  if Nat.eqb n 34 then String bslash (String dquote "")
  else if Nat.eqb n 92 then String bslash (String bslash "")
  else if Nat.eqb n 8 then "\b"
  else if Nat.eqb n 9 then "\t"
  else if Nat.eqb n 10 then "\n"
  else if Nat.eqb n 12 then "\f"
  else if Nat.eqb n 13 then "\r"
  else if Nat.ltb n 32 then
    String bslash (String "u" (String "0" (String "0"
      (String (hex_digit (n / 16)) (String (hex_digit (n mod 16)) "")))))
  else String c "".

Fixpoint escape (s : string) : string :=
  match s with
  | EmptyString => ""
  | String c s' => escape_char c ++ escape s'
  end.

Definition quote (s : string) : string := String dquote (escape s ++ String dquote "").

Definition print_Z (z : Z) : string := NilZero.string_of_int (Z.to_int z).

Definition print_prim (v : jprim) : string :=
  match v with
  | JNull => "null"
  | JBool true => "true"
  | JBool false => "false"
  | JNum z => print_Z z
  | JStr s => quote s
  end.

Definition print_field (kv : string * jprim) : string := quote kv.1 ++ ":" ++ print_prim kv.2.

Fixpoint print_fields (o : jobj) : string :=
  match o with
  | [] => ""
  | [kv] => print_field kv
  | kv :: o' => print_field kv ++ "," ++ print_fields o'
  end.

(** [JSON.stringify(o)]. *)
Definition stringify_obj (o : jobj) : string := "{" ++ print_fields o ++ "}".

(** ** Parsing *)

Definition hex_val (c : ascii) : option nat :=
  let n := nat_of_ascii c in
  if (Nat.leb 48 n) && (Nat.leb n 57) then Some (n - 48)
  else if (Nat.leb 97 n) && (Nat.leb n 102) then Some (n - 87)
  else if (Nat.leb 65 n) && (Nat.leb n 70) then Some (n - 55)
  else None.

Definition hex4 (a b c d : ascii) : option nat :=
  match hex_val a, hex_val b, hex_val c, hex_val d with
  | Some x, Some y, Some z, Some w => Some (((x * 16 + y) * 16 + z) * 16 + w)
  | _, _, _, _ => None
  end.

Definition str_cons (c : ascii) (r : option (string * string)) : option (string * string) :=
  match r with Some (t, rest) => Some (String c t, rest) | None => None end.

(** The characters of a string literal after its opening quote, up to
    and without its closing quote; [None] on a raw control character, a
    bad escape or a code unit beyond 8 bits. *)
Fixpoint parse_str (s : string) : option (string * string) :=
  match s with
  | EmptyString => None
  | String c s1 =>
      if Ascii.eqb c dquote then Some ("", s1)
      else if Ascii.eqb c bslash then
        match s1 with
        | EmptyString => None
        | String e s2 =>
            if Ascii.eqb e dquote then str_cons dquote (parse_str s2)
            else if Ascii.eqb e bslash then str_cons bslash (parse_str s2)
            else if Ascii.eqb e "/" then str_cons "/" (parse_str s2)
            else if Ascii.eqb e "b" then str_cons (ascii_of_nat 8) (parse_str s2)
            else if Ascii.eqb e "t" then str_cons (ascii_of_nat 9) (parse_str s2)
            else if Ascii.eqb e "n" then str_cons (ascii_of_nat 10) (parse_str s2)
            else if Ascii.eqb e "f" then str_cons (ascii_of_nat 12) (parse_str s2)
            else if Ascii.eqb e "r" then str_cons (ascii_of_nat 13) (parse_str s2)
            else if Ascii.eqb e "u" then
              match s2 with
              | String h1 (String h2 (String h3 (String h4 s3))) =>
                  match hex4 h1 h2 h3 h4 with
                  | Some n => if Nat.ltb n 256 then str_cons (ascii_of_nat n) (parse_str s3) else None
                  | None => None
                  end
              | _ => None
              end
            else None
        end
      else if Nat.ltb (nat_of_ascii c) 32 then None
      else str_cons c (parse_str s1)
  end.

Definition is_digit (c : ascii) : bool := (Nat.leb 48 (nat_of_ascii c)) && (Nat.leb (nat_of_ascii c) 57).

Fixpoint take_digits (s : string) : string * string :=
  match s with
  | String c s' => if is_digit c then let '(d, r) := take_digits s' in (String c d, r) else ("", s)
  | EmptyString => ("", "")
  end.

Definition parse_num (s : string) : option (Z * string) :=
  let num_of (ds : string) (neg : bool) (r : string) :=
    match NilZero.uint_of_string ds with
    | Some d => Some (Z.of_int (if neg then Decimal.Neg d else Decimal.Pos d), r)
    | None => None
    end in
  match s with
  | String c s' =>
      if Ascii.eqb c "-" then let '(ds, r) := take_digits s' in num_of ds true r
      else let '(ds, r) := take_digits s in num_of ds false r
  | EmptyString => None
  end.

Definition parse_prim (s : string) : option (jprim * string) :=
  match s with
  | String c s' =>
      if Ascii.eqb c dquote then
        match parse_str s' with Some (t, r) => Some (JStr t, r) | None => None end
      else if Ascii.eqb c "n" then
        match s' with String "u" (String "l" (String "l" r)) => Some (JNull, r) | _ => None end
      else if Ascii.eqb c "t" then
        match s' with String "r" (String "u" (String "e" r)) => Some (JBool true, r) | _ => None end
      else if Ascii.eqb c "f" then
        match s' with String "a" (String "l" (String "s" (String "e" r))) => Some (JBool false, r) | _ => None end
      else match parse_num s with Some (z, r) => Some (JNum z, r) | None => None end
  | EmptyString => None
  end.

(** The properties of an object after its [{], through its [}]. *)
Fixpoint parse_fields (fuel : nat) (s : string) : option (jobj * string) :=
  match fuel with
  | O => None
  | S f =>
      match s with
      | String c s1 =>
          if Ascii.eqb c dquote then
            match parse_str s1 with
            | Some (k, String ":" s2) =>
                match parse_prim s2 with
                | Some (v, String "," s3) =>
                    match parse_fields f s3 with
                    | Some (o, r) => Some ((k, v) :: o, r)
                    | None => None
                    end
                | Some (v, String "}" r) => Some ([(k, v)], r)
                | _ => None
                end
            | _ => None
            end
          else None
      | EmptyString => None
      end
  end.

Definition parse_obj (s : string) : option (jobj * string) :=
  match s with
  | String c s1 =>
      if Ascii.eqb c "{" then
        match s1 with
        | String c2 r => if Ascii.eqb c2 "}" then Some ([], r) else parse_fields (String.length s1) s1
        | EmptyString => None
        end
      else None
  | EmptyString => None
  end.

(** [JSON.parse(text)] for a text that holds an object; [None] is the
    [SyntaxError] it throws. *)
Definition parse_obj_text (s : string) : option jobj :=
  match parse_obj s with Some (o, EmptyString) => Some o | _ => None end.

(** [String(v)], as [new Error(v)] and template literals convert. *)
Definition jprim_to_string (v : jprim) : string :=
  match v with
  | JNull => "null"
  | JBool true => "true"
  | JBool false => "false"
  | JNum z => print_Z z
  | JStr s => s
  end.

(** [`${v}`] of a property that may be [undefined]. *)
Definition template (v : option jprim) : string :=
  match v with Some p => jprim_to_string p | None => "undefined" end.

(** [v < now] for a property [v] and a number [now]: [v] goes through
    ToNumber ([undefined] and text that is not an integer give NaN, and
    every comparison with NaN is false; the empty text gives 0). *)
Definition jprim_lt (v : option jprim) (now : Z) : bool :=
  match v with
  | None => false
  | Some JNull => Z.ltb 0 now
  | Some (JBool b) => Z.ltb (if b then 1 else 0) now
  | Some (JNum z) => Z.ltb z now
  | Some (JStr "") => Z.ltb 0 now
  | Some (JStr s) => match parse_num s with Some (z, "") => Z.ltb z now | _ => false end
  end.

(** ** String built-ins *)

(** [String.prototype.toLowerCase] on 8-bit text: [A-Z] and the Latin-1
    capitals [U+00C0-U+00DE] but the multiplication sign [U+00D7]. *)
Definition lower_char (c : ascii) : ascii :=
  let n := nat_of_ascii c in
  if (Nat.leb 65 n && Nat.leb n 90) || (Nat.leb 192 n && Nat.leb n 222 && negb (Nat.eqb n 215))
  then ascii_of_nat (n + 32) else c.

Fixpoint toLowerCase (s : string) : string :=
  match s with EmptyString => EmptyString | String c s' => String (lower_char c) (toLowerCase s') end.

(** [s.includes(t)]. *)
Fixpoint includes (s t : string) : bool :=
  String.prefix t s || match s with EmptyString => false | String _ s' => includes s' t end.

(** [k] zero digits. *)
Fixpoint zeros (k : nat) : string := match k with O => "" | S k' => String "0"%char (zeros k') end.

(** [x.toFixed(f)]: the integer [n] nearest to [x * 10^f] (the larger one
    on a tie), written with [f] decimals; [NaN] gives ["NaN"].  Numbers of
    [10^21] and more, which [toFixed] prints like [String(x)], do not occur
    in the code that calls it. *)
Definition toFixed (f : nat) (x : num) : string :=
  match x with
  | NaN => "NaN"
  | Fin q =>
      let neg := negb (Qle_bool 0 q) in
      let n := Qfloor (Qabs q * inject_Z (10 ^ Z.of_nat f) + (1 # 2)) in
      let ds := print_Z n in
      let ds' := if Nat.leb (String.length ds) f then zeros (S f - String.length ds) ++ ds else ds in
      let k := String.length ds' - f in
      (if neg then "-" else "") ++ String.substring 0 k ds'
      ++ (if Nat.eqb f 0 then "" else "." ++ String.substring k f ds')
  end.

(** ** The round trip *)

Lemma str_app_assoc (s1 s2 s3 : string) : (s1 ++ s2) ++ s3 = s1 ++ (s2 ++ s3).
Proof. induction s1 as [|c s1 IH]; [reflexivity | exact (f_equal (String c) IH)]. Qed.

Lemma str_length_app (s1 s2 : string) : String.length (s1 ++ s2) = String.length s1 + String.length s2.
Proof. induction s1 as [|c s1 IH]; [reflexivity | exact (f_equal S IH)]. Qed.

(** Every character reads back from its escape. *)
Lemma parse_escape_char c rest : parse_str (escape_char c ++ rest) = str_cons c (parse_str rest).
Proof. destruct c as [[] [] [] [] [] [] [] []]; reflexivity. Qed.

Lemma parse_str_quote s rest : parse_str (escape s ++ String dquote rest) = Some (s, rest).
Proof.
  induction s as [|c s IH]; [reflexivity|].
  cbn [escape]. by rewrite str_app_assoc, parse_escape_char, IH.
Qed.

(** A text that does not continue a number. *)
Definition digit_free (s : string) : Prop :=
  match s with String c _ => is_digit c = false | EmptyString => True end.

Lemma take_digits_free s : digit_free s → take_digits s = ("", s).
Proof. destruct s as [|c s]; [done|]. simpl. by intros ->. Qed.

Lemma take_digits_cons c s rest :
  is_digit c = true →
  take_digits (String c s ++ rest) = let '(ds, r) := take_digits (s ++ rest) in (String c ds, r).
Proof. intros Hc. change (String c s ++ rest) with (String c (s ++ rest)). cbn [take_digits]. by rewrite Hc. Qed.

Lemma take_digits_uint d rest :
  digit_free rest → take_digits (NilEmpty.string_of_uint d ++ rest) = (NilEmpty.string_of_uint d, rest).
Proof.
  intros Hr. induction d as [|d IH|d IH|d IH|d IH|d IH|d IH|d IH|d IH|d IH|d IH];
    [exact (take_digits_free _ Hr)|..];
    cbn [NilEmpty.string_of_uint]; rewrite take_digits_cons by reflexivity; by rewrite IH.
Qed.

Lemma take_digits_nz u rest :
  digit_free rest → take_digits (NilZero.string_of_uint u ++ rest) = (NilZero.string_of_uint u, rest).
Proof.
  intros Hr. destruct u; [|exact (take_digits_uint _ _ Hr)..].
  change (NilZero.string_of_uint Decimal.Nil) with (String "0" "").
  rewrite take_digits_cons by reflexivity. change ("" ++ rest) with rest. by rewrite (take_digits_free _ Hr).
Qed.

Lemma nz_head u : ∃ c s, NilZero.string_of_uint u = String c s ∧ Ascii.eqb c "-" = false.
Proof. destruct u; eexists _, _; split; reflexivity. Qed.

(** Reading the digits back gives the same number (the empty digit
    string prints as [0]). *)
Lemma nz_roundtrip u :
  ∃ u', NilZero.uint_of_string (NilZero.string_of_uint u) = Some u' ∧
        Z.of_int (Decimal.Pos u') = Z.of_int (Decimal.Pos u) ∧
        Z.of_int (Decimal.Neg u') = Z.of_int (Decimal.Neg u).
Proof.
  destruct u; [by eexists|..]; eexists;
    (split; [apply NilZero.usu; discriminate | done]).
Qed.

Lemma parse_num_int i rest :
  digit_free rest → parse_num (NilZero.string_of_int i ++ rest) = Some (Z.of_int i, rest).
Proof.
  intros Hr. destruct i as [u|u]; destruct (nz_roundtrip u) as (u' & Hu' & Hpos & Hneg).
  - destruct (nz_head u) as (c & s & Hs & Hc).
    change (NilZero.string_of_int (Decimal.Pos u)) with (NilZero.string_of_uint u).
    rewrite Hs. change (String c s ++ rest) with (String c (s ++ rest)).
    unfold parse_num. cbv beta iota zeta. rewrite Hc.
    change (String c (s ++ rest)) with (String c s ++ rest).
    rewrite <- Hs, take_digits_nz by done. cbv beta iota. by rewrite Hu', Hpos.
  - change (NilZero.string_of_int (Decimal.Neg u) ++ rest)
      with (String "-" (NilZero.string_of_uint u ++ rest)).
    unfold parse_num. cbv beta iota zeta. change (Ascii.eqb "-" "-") with true. cbv iota.
    rewrite take_digits_nz by done. cbv beta iota. by rewrite Hu', Hneg.
Qed.

Lemma parse_num_print z rest : digit_free rest → parse_num (print_Z z ++ rest) = Some (z, rest).
Proof. intros Hr. unfold print_Z. by rewrite parse_num_int, DecimalZ.of_to. Qed.

Lemma print_Z_head z :
  ∃ c s, print_Z z = String c s ∧ Ascii.eqb c dquote = false ∧ Ascii.eqb c "n" = false ∧
         Ascii.eqb c "t" = false ∧ Ascii.eqb c "f" = false.
Proof.
  unfold print_Z. destruct (Z.to_int z) as [u|u]; [destruct u|];
    eexists _, _; (split; [reflexivity | repeat split]).
Qed.

Lemma parse_prim_print v rest : digit_free rest → parse_prim (print_prim v ++ rest) = Some (v, rest).
Proof.
  intros Hr. destruct v as [|[]|z|s]; try reflexivity.
  - destruct (print_Z_head z) as (c & s & Hs & H1 & H2 & H3 & H4).
    change (print_prim (JNum z)) with (print_Z z). rewrite Hs.
    change (String c s ++ rest) with (String c (s ++ rest)).
    unfold parse_prim. cbv beta iota. rewrite H1, H2, H3, H4.
    change (String c (s ++ rest)) with (String c s ++ rest).
    by rewrite <- Hs, parse_num_print.
  - change (print_prim (JStr s) ++ rest) with (String dquote ((escape s ++ String dquote "") ++ rest)).
    rewrite str_app_assoc. unfold parse_prim. cbv beta iota.
    change (Ascii.eqb dquote dquote) with true. cbv iota.
    change (String dquote "" ++ rest) with (String dquote rest). by rewrite parse_str_quote.
Qed.

Lemma str_app_nil (s : string) : s ++ "" = s.
Proof. induction s as [|c s IH]; [reflexivity | exact (f_equal (String c) IH)]. Qed.

Lemma print_field_app k v r :
  print_field (k, v) ++ r = String dquote (escape k ++ String dquote (String ":" (print_prim v ++ r))).
Proof.
  unfold print_field, quote. cbn [fst snd].
  change (String dquote (escape k ++ String dquote "") ++ ":" ++ print_prim v)
    with (String dquote ((escape k ++ String dquote "") ++ ":" ++ print_prim v)).
  change (String dquote ((escape k ++ String dquote "") ++ ":" ++ print_prim v) ++ r)
    with (String dquote (((escape k ++ String dquote "") ++ ":" ++ print_prim v) ++ r)).
  by rewrite !str_app_assoc.
Qed.

(** The first property of an object text, and what follows it. *)
Lemma parse_fields_field f k v r :
  parse_fields (S f) (print_field (k, v) ++ r) =
    match parse_prim (print_prim v ++ r) with
    | Some (v', String "," s3) =>
        match parse_fields f s3 with Some (o, r') => Some ((k, v') :: o, r') | None => None end
    | Some (v', String "}" r') => Some ([(k, v')], r')
    | _ => None
    end.
Proof.
  rewrite print_field_app. cbn [parse_fields]. change (Ascii.eqb dquote dquote) with true.
  cbv iota. by rewrite parse_str_quote.
Qed.

Lemma parse_fields_print o rest fuel :
  o ≠ [] → (length o ≤ fuel)%nat → parse_fields fuel (print_fields o ++ String "}" rest) = Some (o, rest).
Proof.
  revert fuel. induction o as [|[k v] o IH]; intros fuel Hne Hf; [done|].
  destruct fuel as [|f]; [simpl in Hf; lia|].
  destruct o as [|kv o'].
  - change (print_fields [(k, v)]) with (print_field (k, v)).
    rewrite parse_fields_field, parse_prim_print by reflexivity. done.
  - change (print_fields ((k, v) :: kv :: o')) with (print_field (k, v) ++ "," ++ print_fields (kv :: o')).
    rewrite str_app_assoc, parse_fields_field.
    change (("," ++ print_fields (kv :: o')) ++ String "}" rest)
      with (String "," (print_fields (kv :: o') ++ String "}" rest)).
    rewrite parse_prim_print by reflexivity. cbv iota.
    rewrite IH by (done || (simpl in *; lia)). done.
Qed.

Lemma print_field_length kv : (1 ≤ String.length (print_field kv))%nat.
Proof. destruct kv as [k v]. rewrite <- (str_app_nil (print_field (k, v))), print_field_app. simpl; lia. Qed.

Lemma print_fields_length o : (length o ≤ String.length (print_fields o))%nat.
Proof.
  induction o as [|kv o IH]; [simpl; lia|].
  pose proof (print_field_length kv).
  destruct o as [|kv' o']; [simpl; lia|].
  change (print_fields (kv :: kv' :: o')) with (print_field kv ++ "," ++ print_fields (kv' :: o')).
  rewrite !str_length_app. simpl in *. lia.
Qed.

Lemma print_fields_head kv o : ∃ s, print_fields (kv :: o) = String dquote s.
Proof. destruct o; eexists; reflexivity. Qed.

(** The round trip: [JSON.parse(JSON.stringify(o))] gives back [o]. *)
Theorem parse_stringify o : parse_obj_text (stringify_obj o) = Some o.
Proof.
  destruct o as [|kv o]; [reflexivity|].
  unfold parse_obj_text, stringify_obj, parse_obj.
  change ("{" ++ print_fields (kv :: o) ++ "}") with (String "{" (print_fields (kv :: o) ++ "}")).
  cbv beta iota. change (Ascii.eqb "{" "{") with true. cbv iota.
  destruct kv as [k v].
  destruct (print_fields_head (k, v) o) as [s Hs].
  rewrite Hs. change (String dquote s ++ "}") with (String dquote (s ++ "}")). cbv iota.
  change (Ascii.eqb dquote "}") with false. cbv iota.
  change (String dquote (s ++ "}")) with (String dquote s ++ String "}" ""). rewrite <- Hs.
  rewrite parse_fields_print; [done | done |].
  rewrite str_length_app. pose proof (print_fields_length ((k, v) :: o)). lia.
Qed.

Lemma escape_char_length c : (1 ≤ String.length (escape_char c))%nat.
Proof. apply Nat.leb_le. destruct c as [[] [] [] [] [] [] [] []]; reflexivity. Qed.

Lemma escape_length s : (String.length s ≤ String.length (escape s))%nat.
Proof.
  induction s as [|c s IH]; [simpl; lia|]. cbn [escape String.length].
  rewrite str_length_app. pose proof (escape_char_length c). lia.
Qed.

(** The text of an object is longer than any string it holds. *)
Lemma stringify_longer_than_field k s (o1 o2 : jobj) :
  (String.length s < String.length (stringify_obj (app o1 ((k, JStr s) :: o2))))%nat.
Proof.
  unfold stringify_obj. change ("{" ++ ?x) with (String "{" x). cbn [String.length].
  rewrite str_length_app. enough (String.length s < S (String.length (print_fields (app o1 ((k, JStr s) :: o2)))))%nat by lia.
  induction o1 as [|kv o1 IH].
  - simpl app. destruct o2 as [|kv2 o2].
    + change (print_fields [(k, JStr s)]) with (print_field (k, JStr s)).
      rewrite <- (str_app_nil (print_field _)), print_field_app, str_app_nil.
      cbn [String.length print_prim]. unfold quote.
      repeat progress (rewrite ?str_length_app; cbn [String.length]). pose proof (escape_length s). lia.
    + change (print_fields ((k, JStr s) :: kv2 :: o2)) with (print_field (k, JStr s) ++ "," ++ print_fields (kv2 :: o2)).
      rewrite print_field_app. cbn [String.length print_prim]. unfold quote.
      repeat progress (rewrite ?str_length_app; cbn [String.length]). pose proof (escape_length s). lia.
  - simpl app. destruct (app o1 ((k, JStr s) :: o2)) as [|kv' o'] eqn:E; [destruct o1; discriminate|].
    change (print_fields (kv :: kv' :: o')) with (print_field kv ++ "," ++ print_fields (kv' :: o')).
    rewrite !str_length_app. cbn [String.length]. lia.
Qed.

(** ** Substring search *)

Lemma prefix_spec (t s : string) : String.prefix t s = true ↔ ∃ b, s = t ++ b.
Proof.
  revert s. induction t as [|c t IH]; intros [|c' s]; simpl.
  - split; [by exists ""|done].
  - split; [by exists (String c' s)|done].
  - split; [done|by intros [b Hb]].
  - case_match; subst.
    + rewrite IH. split; intros [b Hb]; exists b; [by rewrite Hb|by injection Hb].
    + split; [done|intros [b Hb]; injection Hb as Hc _; congruence].
Qed.

(** Two prefixes of one string are prefixes of each other. *)
Lemma prefix_comparable (a b s : string) :
  String.prefix a s = true → String.prefix b s = true → String.prefix a b = true ∨ String.prefix b a = true.
Proof.
  intros Ha Hb. apply prefix_spec in Ha as [x ->]. apply prefix_spec in Hb. revert b x Hb.
  induction a as [|c a IH]; intros [|d b] x [y Hy]; simpl in *; auto.
  injection Hy as <- Hy. destruct (Ascii.ascii_dec c c); [|done]. apply (IH b x). eauto.
Qed.

(** [s.includes(t)] holds exactly when [t] occurs in [s]. *)
Lemma includes_spec s t : includes s t = true ↔ ∃ a b, s = a ++ t ++ b.
Proof.
  induction s as [|c s IH]; cbn [includes]; rewrite orb_true_iff, prefix_spec.
  - split.
    + intros [[b Hb]|H]; [by exists "", b|discriminate].
    + intros ([|c a] & b & H); [left; by exists b|discriminate].
  - rewrite IH. split.
    + intros [[b Hb]|(a & b & ->)]; [by exists "", b|by exists (String c a), b].
    + intros ([|c' a] & b & H); [left; by exists b|right; injection H as -> ->; eauto].
Qed.
