(* ===== verification/RatesEngine.v ===== *)
(** * The rates-and-weights engine ([src/src/lib/ratesAndWeights.ts])

    The types of [src/src/types/ratesAndWeights.ts] and the three pure
    functions [normalizeValue], [calculateDailyRate] and [validateWeights],
    with [calculateDailyRate_js], the same function run on arguments that
    may be [undefined] (what the page passes it when Firebase has dropped
    an empty child).  A [Record<string, T>] is a [gmap string T]; iterating
    [Object.entries] is a left fold over [map_to_list], whose order the
    theorems show to be irrelevant. *)

From S2P Require Import Prelude.

Inductive MetricCategory : Type :=
| UserActivity
| Transactions
| Revenue
| Network
| Market.

Record Metric : Type := {
  id : string;
  name : string;
  description : string;
  category : MetricCategory;
  minValue : num;
  maxValue : num;
  currentValue : option num
}.

Record Weight : Type := {
  metricId : string;
  value : num
}.

(** [RatesAndWeightsState] as the TypeScript type declares it. *)
Record RatesAndWeightsState : Type := {
  metrics : gmap string Metric;
  weights : gmap string Weight;
  baselineRate : num
}.

Local Open Scope js_scope.

Definition normalizeValue (value min max : num) : num :=
  if min === max then Fin 0
  else math_max (Fin 0) (math_min (Fin 1) ((value - min) / (max - min))).

(** The body of the [forEach] callback: the term a weight adds to the
    running sum, or nothing when [metric?.currentValue] is [undefined]. *)
Definition contribution (metrics : gmap string Metric) (entry : string * Weight) : option num :=
  let '(metricId, weight) := entry in
  match metrics !! metricId with
  | Some metric =>
      match currentValue metric with
      | Some cv => Some (normalizeValue cv (minValue metric) (maxValue metric) * (value weight / Fin 100))
      | None => None
      end
  | None => None
  end.

Definition rate_step (metrics : gmap string Metric) (weightedSum : num) (entry : string * Weight) : num :=
  match contribution metrics entry with
  | Some t => weightedSum + t
  | None => weightedSum
  end.

Definition calculateDailyRate (metrics : gmap string Metric) (weights : gmap string Weight)
    (baselineRate : num) : num :=
  baselineRate + foldl (rate_step metrics) (Fin 0) (map_to_list weights).

(** [Object.values(weights).reduce((acc, weight) => acc + weight.value, 0)]. *)
Definition weightSum (weights : gmap string Weight) : num :=
  foldl (λ acc weight, acc + value weight) (Fin 0) (map snd (map_to_list weights)).

Definition validateWeights (weights : gmap string Weight) : bool :=
  math_abs (weightSum weights - Fin 100) <? Fin (1 # 100).

(** ** The same function on JavaScript values that may be [undefined]

    [Object.entries(undefined)] throws; [metrics[id]] with [metrics]
    undefined throws as soon as there is a weight to look up; and
    [undefined + weightedSum] is NaN. *)
Definition num_of_undef (x : option num) : num :=
  match x with Some n => n | None => NaN end.

Definition calculateDailyRate_js (metrics : option (gmap string Metric))
    (weights : option (gmap string Weight)) (baselineRate : option num) : jsres num :=
  match weights with
  | None => Throw (TypeError "Cannot convert undefined or null to object")
  | Some ws =>
      match metrics, map_to_list ws with
      | Some ms, _ => Ok (num_of_undef baselineRate + foldl (rate_step ms) (Fin 0) (map_to_list ws))
      | None, [] => Ok (num_of_undef baselineRate + Fin 0)
      | None, (k, _) :: _ =>
          Throw (TypeError ("Cannot read properties of undefined (reading '" +:+ k +:+ "')"))
      end
  end.

Local Close Scope js_scope.

(** ** Helper lemmas *)

(** A number in the closed interval [[lo, hi]]; NaN is in none. *)
Definition num_between (lo hi : Q) (n : num) : Prop :=
  match n with Fin q => lo <= q <= hi | NaN => False end.

#[export] Instance num_between_proper : Proper (Qeq ==> Qeq ==> (≡) ==> iff) num_between.
Proof.
  intros lo lo' Hlo hi hi' Hhi [x|] [y|] Hxy; unfold num_between; num_unfold; try tauto.
  rewrite Hlo, Hhi, Hxy. reflexivity.
Qed.

Lemma normalizeValue_Fin (v mn mx : Q) :
  ~ mn == mx →
  normalizeValue (Fin v) (Fin mn) (Fin mx) ≡ Fin (Qmax 0 (Qmin 1 ((v - mn) / (mx - mn)))).
Proof.
  intros Hne. unfold normalizeValue. num_unfold.
  destruct (Qeq_bool mn mx) eqn:E; [apply Qeq_bool_iff in E; contradiction|].
  destruct (Qeq_bool (mx - mn) 0) eqn:E0.
  { apply Qeq_bool_iff in E0. exfalso. apply Hne. lra. }
  num_unfold. rewrite Qle_bool_sel_max, Qle_bool_sel. reflexivity.
Qed.

Lemma Qmax_0_min_1_between (x : Q) : 0 <= Qmax 0 (Qmin 1 x) <= 1.
Proof.
  split; [apply Q.le_max_l|]. apply Q.max_lub; [lra|apply Q.le_min_l].
Qed.

Lemma Qdiv_nonpos (x d : Q) : 0 < d → x <= 0 → x / d <= 0.
Proof. intros Hd Hx. apply Qle_shift_div_r; [exact Hd|]. lra. Qed.

Lemma Qdiv_ge_1 (x d : Q) : 0 < d → d <= x → 1 <= x / d.
Proof. intros Hd Hx. apply Qle_shift_div_l; [exact Hd|]. lra. Qed.

Lemma Qdiv_self (d : Q) : ~ d == 0 → d / d == 1.
Proof. intros Hd. unfold Qdiv. apply Qmult_inv_r, Hd. Qed.

#[export] Hint Resolve Qmax_0_min_1_between : xlc.

(** The clamp [Math.max(0, Math.min(1, x))] on each side of the interval. *)
Lemma clamp_inside (x : Q) : 0 <= x <= 1 → Qmax 0 (Qmin 1 x) == x.
Proof. intros [H0 H1]. rewrite Q.min_r by exact H1. rewrite Q.max_r by exact H0. reflexivity. Qed.

Lemma clamp_below (x : Q) : x <= 0 → Qmax 0 (Qmin 1 x) == 0.
Proof. intros H. rewrite Q.min_r by lra. rewrite Q.max_l by exact H. reflexivity. Qed.

Lemma clamp_above (x : Q) : 1 <= x → Qmax 0 (Qmin 1 x) == 1.
Proof. intros H. rewrite Q.min_l by exact H. rewrite Q.max_r by lra. reflexivity. Qed.

(** ** Normalizer *)

Lemma normalizeValue_range (value min max : num) :
  num_finite value = true → num_finite min = true → num_finite max = true →
  num_between 0 1 (normalizeValue value min max).
Proof.
  destruct value as [v|], min as [mn|], max as [mx|]; try discriminate. intros _ _ _.
  destruct (Qeq_dec mn mx) as [E|E].
  - unfold normalizeValue. num_unfold. apply Qeq_bool_iff in E. rewrite E. simpl. lra.
  - rewrite (normalizeValue_Fin v mn mx E). apply Qmax_0_min_1_between.
Qed.

(** A degenerate range ([min === max]) yields 0 for any value, NaN
    included. *)
Theorem normalizeValue_degenerate (value min max : num) :
  (min === max)%js = true → normalizeValue value min max = Fin 0.
Proof. intros H. unfold normalizeValue. by rewrite H. Qed.

(** The ends of a non-degenerate range map to 0 and 1. *)
Theorem normalizeValue_endpoints (mn mx : Q) :
  ~ mn == mx →
  normalizeValue (Fin mn) (Fin mn) (Fin mx) ≡ Fin 0 ∧
  normalizeValue (Fin mx) (Fin mn) (Fin mx) ≡ Fin 1.
Proof.
  intros Hne. rewrite !normalizeValue_Fin by exact Hne. num_unfold. split.
  - assert (E : (mn - mn) / (mx - mn) == 0) by (unfold Qdiv; ring).
    rewrite E. apply clamp_inside. lra.
  - rewrite Qdiv_self by (intros H; apply Hne; lra). apply clamp_inside. lra.
Qed.

(** On finite inputs, [normalizeValue] returns a number of [[0, 1]],
    whatever the range, degenerate or inverted; on a non-degenerate
    range it maps [min] to 0 and [max] to 1. *)
Theorem normalizeValue_in_unit (value min max : num) :
  num_finite value = true → num_finite min = true → num_finite max = true →
  num_between 0 1 (normalizeValue value min max) ∧
  ((min === max)%js = false → normalizeValue min min max ≡ Fin 0 ∧ normalizeValue max min max ≡ Fin 1).
Proof.
  intros Hv Hmn Hmx. split; [by apply normalizeValue_range|].
  destruct min as [mn|], max as [mx|]; try discriminate. intros Hne.
  apply normalizeValue_endpoints. intros E. apply Qeq_bool_iff in E. simpl in Hne. congruence.
Qed.

(** Inside an increasing range the result is the linear fraction. *)
Theorem normalizeValue_linear (v mn mx : Q) :
  mn < mx → mn <= v <= mx →
  normalizeValue (Fin v) (Fin mn) (Fin mx) ≡ Fin ((v - mn) / (mx - mn)).
Proof.
  intros Hlt [Hlo Hhi]. assert (Hne : ~ mn == mx) by (intros H; rewrite H in Hlt; apply (Qlt_irrefl _ Hlt)).
  rewrite normalizeValue_Fin by exact Hne. num_unfold. apply clamp_inside. split.
  - apply Qle_shift_div_l; lra.
  - apply Qle_shift_div_r; lra.
Qed.

(** C1: on an increasing range, [normalizeValue] is the clamped linear
    fraction: readings at or below [min] give 0, readings at or above
    [max] give 1, and readings in between give [(value - min) / (max - min)]. *)
Theorem normalizeValue_clamps (v mn mx : Q) :
  mn < mx →
  (v <= mn → normalizeValue (Fin v) (Fin mn) (Fin mx) ≡ Fin 0) ∧
  (mx <= v → normalizeValue (Fin v) (Fin mn) (Fin mx) ≡ Fin 1) ∧
  (mn <= v <= mx → normalizeValue (Fin v) (Fin mn) (Fin mx) ≡ Fin ((v - mn) / (mx - mn))).
Proof.
  intros Hlt. assert (Hne : ~ mn == mx) by (intros H; rewrite H in Hlt; apply (Qlt_irrefl _ Hlt)).
  split; [|split]; intros Hv; [..|by apply normalizeValue_linear];
    rewrite normalizeValue_Fin by exact Hne; num_unfold.
  - apply clamp_below, Qdiv_nonpos; lra.
  - apply clamp_above, Qdiv_ge_1; lra.
Qed.

(** A NaN reading (a field left empty) propagates through a
    non-degenerate range: [Math.min] and [Math.max] return NaN. *)
Theorem normalizeValue_NaN (mn mx : Q) :
  normalizeValue NaN (Fin mn) (Fin mx) = if Qeq_bool mn mx then Fin 0 else NaN.
Proof. unfold normalizeValue. simpl. by destruct (Qeq_bool mn mx). Qed.

(** The spec's "a value below [min] normalizes to 0" needs [min < max]:
    on an inverted range the fraction is positive. *)
Example normalizeValue_inverted_range :
  normalizeValue (Fin 5) (Fin 10) (Fin 0) ≡ Fin (1 # 2).
Proof. vm_compute. reflexivity. Qed.

(** ** Daily-rate calculator *)

#[export] Instance rate_step_proper ms : Proper ((≡) ==> (=) ==> (≡)) (rate_step ms).
Proof.
  intros a a' Ha e ? <-. unfold rate_step.
  destruct (contribution ms e); [by rewrite Ha | exact Ha].
Qed.

Lemma rate_step_swap ms a x y :
  rate_step ms (rate_step ms a x) y ≡ rate_step ms (rate_step ms a y) x.
Proof.
  unfold rate_step. destruct (contribution ms x), (contribution ms y); try reflexivity.
  apply num_add_swap.
Qed.

Lemma rate_fold_insert ms (ws : gmap string Weight) k w a :
  ws !! k = None →
  foldl (rate_step ms) a (map_to_list (<[k:=w]> ws)) ≡
    rate_step ms (foldl (rate_step ms) a (map_to_list ws)) (k, w).
Proof. intros Hk. eapply foldl_map_insert; [apply _ | apply rate_step_swap | exact Hk]. Qed.

Lemma rate_fold_delete ms (ws : gmap string Weight) k w a :
  ws !! k = Some w →
  foldl (rate_step ms) a (map_to_list ws) ≡
    rate_step ms (foldl (rate_step ms) a (map_to_list (delete k ws))) (k, w).
Proof. intros Hk. eapply foldl_map_delete; [apply _ | apply rate_step_swap | exact Hk]. Qed.

(** A weight whose term is skipped can be dropped from the map. *)
Lemma calculateDailyRate_delete_skipped ms ws b k :
  (∀ w, ws !! k = Some w → contribution ms (k, w) = None) →
  calculateDailyRate ms ws b ≡ calculateDailyRate ms (delete k ws) b.
Proof.
  intros Hskip. unfold calculateDailyRate.
  destruct (ws !! k) as [w|] eqn:Hk.
  - rewrite (rate_fold_delete ms ws k w _ Hk). unfold rate_step at 1.
    by rewrite (Hskip w eq_refl).
  - by rewrite delete_id.
Qed.

Lemma rate_empty (ms : gmap string Metric) (b : num) : calculateDailyRate ms ∅ b ≡ b.
Proof.
  unfold calculateDailyRate. rewrite map_to_list_empty. simpl.
  rewrite num_add_comm. apply num_add_0_l.
Qed.

Lemma rate_insert ms ws b k w :
  ws !! k = None →
  calculateDailyRate ms (<[k:=w]> ws) b ≡
    match contribution ms (k, w) with
    | Some t => (calculateDailyRate ms ws b + t)%js
    | None => calculateDailyRate ms ws b
    end.
Proof.
  intros Hk. unfold calculateDailyRate. rewrite (rate_fold_insert ms ws k w _ Hk).
  unfold rate_step at 1. destruct (contribution ms (k, w)); [|reflexivity].
  apply num_add_assoc.
Qed.

(** With no weights the daily rate is the baseline. *)
Theorem calculateDailyRate_empty (ms : gmap string Metric) (b : num) :
  calculateDailyRate ms ∅ b ≡ b.
Proof. apply rate_empty. Qed.

(** Adding the weight of a metric that had none adds exactly that
    weight's term, [normalizeValue(current, min, max) * (value / 100)], or
    nothing when its term is skipped; the other weights are untouched. *)
Theorem calculateDailyRate_insert ms ws b k w :
  ws !! k = None →
  calculateDailyRate ms (<[k:=w]> ws) b ≡
    match contribution ms (k, w) with
    | Some t => (calculateDailyRate ms ws b + t)%js
    | None => calculateDailyRate ms ws b
    end.
Proof. apply rate_insert. Qed.

(** A weight whose metric id is not a key of [metrics] is skipped. *)
Lemma calculateDailyRate_orphan_weight ms ws b k :
  ms !! k = None →
  calculateDailyRate ms ws b ≡ calculateDailyRate ms (delete k ws) b.
Proof.
  intros Hm. apply calculateDailyRate_delete_skipped. intros w _. simpl. by rewrite Hm.
Qed.

(** C2: a weight is skipped, not read as 0, when its metric id is not a
    key of [metrics] or its metric has no [currentValue]: removing it does
    not change the daily rate. *)
Theorem calculateDailyRate_no_current_value ms ws b k :
  (ms !! k = None ∨ ∃ m, ms !! k = Some m ∧ currentValue m = None) →
  calculateDailyRate ms ws b ≡ calculateDailyRate ms (delete k ws) b.
Proof.
  intros [Hm|(m & Hm & Hcv)]; [by apply calculateDailyRate_orphan_weight|].
  apply calculateDailyRate_delete_skipped. intros w _. simpl. by rewrite Hm, Hcv.
Qed.

(** ** Weight sum and validator *)

Definition weight_step (acc : num) (entry : string * Weight) : num := (acc + value entry.2)%js.

#[export] Instance weight_step_proper : Proper ((≡) ==> (=) ==> (≡)) weight_step.
Proof. intros a a' Ha e ? <-. unfold weight_step. by rewrite Ha. Qed.

Lemma weight_step_swap a x y : weight_step (weight_step a x) y ≡ weight_step (weight_step a y) x.
Proof. apply num_add_swap. Qed.

Lemma weightSum_entries ws : weightSum ws = foldl weight_step (Fin 0) (map_to_list ws).
Proof. unfold weightSum. by rewrite foldl_map_fn. Qed.

Lemma weightSum_empty : weightSum ∅ = Fin 0.
Proof. by rewrite weightSum_entries, map_to_list_empty. Qed.

Lemma weightSum_insert ws k w :
  ws !! k = None → weightSum (<[k:=w]> ws) ≡ (weightSum ws + value w)%js.
Proof.
  intros Hk. rewrite !weightSum_entries.
  exact (foldl_map_insert weight_step weight_step_swap ws k w (Fin 0) Hk).
Qed.

Lemma weightSum_delete ws k w :
  ws !! k = Some w → weightSum ws ≡ (weightSum (delete k ws) + value w)%js.
Proof.
  intros Hk. rewrite !weightSum_entries.
  exact (foldl_map_delete weight_step weight_step_swap ws k w (Fin 0) Hk).
Qed.

(** The value a number contributes to an exact total ([0] for NaN, which
    is reported separately). *)
Definition num_val (a : num) : Q := match a with Fin q => q | NaN => 0 end.

(** The exact total of the weights' values in a list of entries. *)
Definition values_total (l : list (string * Weight)) : Q :=
  fold_right (λ kw acc, num_val (value kw.2) + acc) 0 l.

Lemma foldl_weight_step_NaN l : foldl weight_step NaN l = NaN.
Proof. induction l; [done|]. apply IHl. Qed.

(** The running sum from [q] is [q] plus the exact total, or NaN as soon
    as one value is NaN. *)
Lemma foldl_weight_step l q :
  foldl weight_step (Fin q) l ≡
  if forallb (λ kw, num_finite (value kw.2)) l then Fin (q + values_total l) else NaN.
Proof.
  revert q. induction l as [|[k w] l IH]; intros q; simpl.
  - apply Fin_proper. ring.
  - change (weight_step (Fin q) (k, w)) with (Fin q + value w)%js. destruct (value w) as [x|]; simpl.
    + rewrite IH. destruct (forallb _ l); [|reflexivity]. apply Fin_proper. ring.
    + by rewrite foldl_weight_step_NaN.
Qed.

Lemma forallb_map_Forall (ws : gmap string Weight) :
  forallb (λ kw, num_finite (value kw.2)) (map_to_list ws) = true ↔
  map_Forall (λ _ w, num_finite (value w) = true) ws.
Proof.
  rewrite forallb_forall, map_Forall_to_list, Forall_forall.
  split; intros H [k w] Hin; [apply (H (k, w)); by apply list_elem_of_In|apply (H (k, w)); by apply list_elem_of_In].
Qed.

(** C3: [validateWeights] holds exactly when every weight's value is a
    number (not NaN) and the exact total of all the values is strictly
    within 0.01 of 100. *)
Theorem validateWeights_spec (ws : gmap string Weight) :
  validateWeights ws = true ↔
  map_Forall (λ _ w, num_finite (value w) = true) ws ∧ Qabs (values_total (map_to_list ws) - 100) < 1 # 100.
Proof.
  unfold validateWeights. rewrite weightSum_entries, foldl_weight_step, <-forallb_map_Forall.
  destruct (forallb _ _); num_unfold; [|split; [discriminate|by intros []]].
  rewrite (Qplus_0_l (values_total _)).
  destruct (Qle_bool (1 # 100) (Qabs (values_total (map_to_list ws) - 100))) eqn:E; cbn [negb]; split.
  - discriminate.
  - intros [_ Hlt]. apply Qle_bool_iff in E. destruct (Qlt_not_le _ _ Hlt E).
  - intros _. split; [done|]. apply Qnot_le_lt. intros Hle. apply Qle_bool_iff in Hle. congruence.
  - done.
Qed.

(** ** Bounds of the daily rate *)

Definition metric_finite (m : Metric) : bool :=
  num_finite (minValue m) && num_finite (maxValue m) &&
  match currentValue m with Some c => num_finite c | None => true end.

Definition weight_nonneg (w : Weight) : Prop := ∃ q, value w = Fin q ∧ 0 <= q.

(** A term of the sum lies between 0 and [value / 100]. *)
Lemma contribution_between ms k w q t :
  map_Forall (λ _ m, metric_finite m = true) ms →
  value w = Fin q → 0 <= q →
  contribution ms (k, w) = Some t → num_between 0 (q / 100) t.
Proof.
  intros Hms Hq Hq0 Hc. simpl in Hc.
  destruct (ms !! k) as [m|] eqn:Hm; [|discriminate].
  destruct (currentValue m) as [cv|] eqn:Hcv; [|discriminate]. injection Hc as <-.
  pose proof (Hms k m Hm) as Hfin. unfold metric_finite in Hfin. rewrite Hcv in Hfin.
  apply andb_prop in Hfin as [[Hmin Hmax]%andb_prop Hc].
  pose proof (normalizeValue_range cv (minValue m) (maxValue m) Hc Hmin Hmax) as Hn.
  destruct (normalizeValue cv (minValue m) (maxValue m)) as [n|]; [|contradiction].
  rewrite Hq. cbn [num_between num_mul num_div] in *.
  replace (Qeq_bool 100 0) with false by reflexivity. cbn [num_between].
  rewrite !Qdiv_100. nra.
Qed.

(** C4: with finite metrics and non-negative weights, the daily rate
    lies between the baseline and the baseline plus the weights' total
    over 100: each metric adds between none and all of its weight. *)
Theorem calculateDailyRate_bounds (ms : gmap string Metric) (ws : gmap string Weight) (qb : Q) :
  map_Forall (λ _ m, metric_finite m = true) ms →
  map_Forall (λ _ w, weight_nonneg w) ws →
  ∃ s, weightSum ws ≡ Fin s ∧
       num_between qb (qb + s / 100) (calculateDailyRate ms ws (Fin qb)).
Proof.
  intros Hms. induction ws as [|k w ws Hk IH] using map_ind; intros Hws.
  - exists 0. rewrite weightSum_empty, rate_empty. split; [reflexivity|].
    simpl. rewrite Qdiv_100. lra.
  - apply map_Forall_insert in Hws as [(q & Hq & Hq0) Hws]; [|exact Hk].
    destruct (IH Hws) as (s & Hs & Hb). exists (s + q). split.
    { rewrite weightSum_insert, Hs, Hq by exact Hk. reflexivity. }
    rewrite rate_insert by exact Hk.
    destruct (calculateDailyRate ms ws (Fin qb)) as [r|]; [|contradiction].
    simpl in Hb. rewrite !Qdiv_100 in *.
    destruct (contribution ms (k, w)) as [t|] eqn:Hc.
    + pose proof (contribution_between ms k w q t Hms Hq Hq0 Hc) as Ht.
      destruct t as [t|]; [|contradiction]. simpl in *. rewrite Qdiv_100 in Ht. lra.
    + simpl. lra.
Qed.

(** ** The scenarios of the specification *)

Definition sample_metric (i : string) (cv : Q) : Metric :=
  {| id := i; name := i; description := "sample"; category := Market;
     minValue := Fin 0; maxValue := Fin 100; currentValue := Some (Fin cv) |}.

Definition sample_weight (i : string) (v : Q) : Weight := {| metricId := i; value := Fin v |}.

(** [validateWeights] accepts a single 100% weight, rejects 50 + 49,
    and its tolerance is strict: 99.995 passes, 99.99 does not. *)
Example validateWeights_examples :
  validateWeights {["a" := sample_weight "a" 100]} = true ∧
  validateWeights (<["a" := sample_weight "a" 50]> {["b" := sample_weight "b" 49]}) = false ∧
  validateWeights {["a" := sample_weight "a" (19999 # 200)]} = true ∧
  validateWeights {["a" := sample_weight "a" (9999 # 100)]} = false.
Proof. vm_compute. repeat split. Qed.

(** The two end-to-end scenarios: one metric at the middle of its
    range with weight 100 on baseline 1 gives 1.5; two metrics normalized
    to 0.2 and 0.8 with weights 50 and 50 on baseline 0 give 0.5. *)
Example calculateDailyRate_scenarios :
  calculateDailyRate {["m1" := sample_metric "m1" 50]} {["m1" := sample_weight "m1" 100]} (Fin 1)
    ≡ Fin (3 # 2) ∧
  calculateDailyRate (<["m1" := sample_metric "m1" 20]> {["m2" := sample_metric "m2" 80]})
    (<["m1" := sample_weight "m1" 50]> {["m2" := sample_weight "m2" 50]}) (Fin 0)
    ≡ Fin (1 # 2).
Proof. vm_compute. split; reflexivity. Qed.

(** ** Arguments that may be [undefined] *)

(** On defined arguments the JavaScript run is the typed function. *)
Theorem calculateDailyRate_js_defined ms ws b :
  calculateDailyRate_js (Some ms) (Some ws) (Some b) = Ok (calculateDailyRate ms ws b).
Proof. reflexivity. Qed.

(** An undefined weights map throws a [TypeError]; so does an
    undefined metrics map as soon as there is a weight; an undefined
    baseline makes the rate NaN. *)
Theorem calculateDailyRate_js_undefined (oms : option (gmap string Metric))
    (ms : gmap string Metric) (ws : gmap string Weight) (b : option num) :
  (∃ msg, calculateDailyRate_js oms None b = Throw (TypeError msg)) ∧
  (ws ≠ ∅ → ∃ msg, calculateDailyRate_js None (Some ws) b = Throw (TypeError msg)) ∧
  calculateDailyRate_js (Some ms) (Some ws) None = Ok NaN.
Proof.
  split; [by eexists|]. split.
  - intros Hne. unfold calculateDailyRate_js.
    destruct (map_to_list ws) as [|[k w] l] eqn:E.
    + by apply map_to_list_empty_iff in E.
    + by eexists.
  - done.
Qed.

(** ** Witnesses: the theorems applied at concrete inputs *)

Lemma normalizeValue_in_unit_witness :
  num_between 0 1 (normalizeValue (Fin 150) (Fin 0) (Fin 100)) ∧
  ((Fin 0 === Fin 100)%js = false →
   normalizeValue (Fin 0) (Fin 0) (Fin 100) ≡ Fin 0 ∧ normalizeValue (Fin 100) (Fin 0) (Fin 100) ≡ Fin 1).
Proof. apply (normalizeValue_in_unit (Fin 150) (Fin 0) (Fin 100)); reflexivity. Defined.

Lemma normalizeValue_degenerate_witness : normalizeValue NaN (Fin 3) (Fin 3) = Fin 0.
Proof. apply normalizeValue_degenerate. reflexivity. Defined.

Lemma normalizeValue_clamps_witness :
  normalizeValue (Fin (-5)) (Fin 0) (Fin 100) ≡ Fin 0 ∧
  normalizeValue (Fin 250) (Fin 0) (Fin 100) ≡ Fin 1 ∧
  normalizeValue (Fin 25) (Fin 0) (Fin 100) ≡ Fin ((25 - 0) / (100 - 0)).
Proof.
  split; [|split]; apply (normalizeValue_clamps _ 0 100); lra.
Defined.

Lemma calculateDailyRate_insert_witness :
  calculateDailyRate {["m1" := sample_metric "m1" 50]} (<["m1" := sample_weight "m1" 100]> ∅) (Fin 1) ≡
    match contribution {["m1" := sample_metric "m1" 50]} ("m1", sample_weight "m1" 100) with
    | Some t => (calculateDailyRate {["m1" := sample_metric "m1" 50]} ∅ (Fin 1) + t)%js
    | None => calculateDailyRate {["m1" := sample_metric "m1" 50]} ∅ (Fin 1)
    end.
Proof. apply calculateDailyRate_insert. reflexivity. Defined.

Definition metric_without_reading : Metric :=
  {| id := "m"; name := "m"; description := "no reading"; category := Network;
     minValue := Fin 0; maxValue := Fin 10; currentValue := None |}.

Lemma calculateDailyRate_no_current_value_witness :
  calculateDailyRate {["m" := metric_without_reading]} {["m" := sample_weight "m" 60]} (Fin 1) ≡
    calculateDailyRate {["m" := metric_without_reading]} (delete "m" {["m" := sample_weight "m" 60]}) (Fin 1).
Proof. apply calculateDailyRate_no_current_value. right. exists metric_without_reading. split; reflexivity. Defined.

Lemma calculateDailyRate_bounds_witness :
  ∃ s, weightSum {["a" := sample_weight "a" 40]} ≡ Fin s ∧
       num_between 1 (1 + s / 100)
         (calculateDailyRate {["a" := sample_metric "a" 70]} {["a" := sample_weight "a" 40]} (Fin 1)).
Proof.
  apply calculateDailyRate_bounds.
  - apply map_Forall_singleton. reflexivity.
  - apply map_Forall_singleton. exists 40. split; [reflexivity | lra].
Defined.

Lemma calculateDailyRate_js_undefined_witness :
  ∃ msg, calculateDailyRate_js None (Some {["m1" := sample_weight "m1" 100]}) (Some (Fin 1)) =
         Throw (TypeError msg).
Proof.
  apply (calculateDailyRate_js_undefined None ∅ {["m1" := sample_weight "m1" 100]} (Some (Fin 1))).
  apply map_non_empty_singleton.
Defined.
