(* ===== verification/RatesStore.v ===== *)
(** * Persistence of the rates and weights ([src/src/lib/ratesAndWeights.ts])

    The database node [ratesAndWeights] as a record [RWNode] of its three
    children, and the functions that read and write it: [fetchRatesAndWeights]
    (which returns the JavaScript value [snapshot.val()], whose fields are
    missing when Firebase has dropped an empty child), [saveMetric],
    [saveWeight], [updateBaselineRate] and [deleteMetric].  The invariant
    [node_ok] (each record is stored under its own id, every number is
    finite) is kept by every write. *)

From S2P Require Import Prelude Firebase RatesEngine.

#[export] Instance Metric_FbData : FbData Metric := metric_finite.
#[export] Instance Weight_FbData : FbData Weight := λ w, num_finite (value w).

Record RWNode : Type := {
  n_metrics : gmap string Metric;
  n_weights : gmap string Weight;
  n_baseline : option num
}.

Definition emptyNode : RWNode := {| n_metrics := ∅; n_weights := ∅; n_baseline := None |}.

(** [snapshot.val()]: the TypeScript type [RatesAndWeightsState], with the
    fields JavaScript may find [undefined]. *)
Record RWValue : Type := {
  v_metrics : option (gmap string Metric);
  v_weights : option (gmap string Weight);
  v_baseline : option num
}.

Definition map_is_empty {A} (m : gmap string A) : bool := Nat.eqb (size m) 0.

(** A child with no entries is not stored, hence missing from the value. *)
Definition child {A} (m : gmap string A) : option (gmap string A) :=
  if map_is_empty m then None else Some m.

Definition node_exists (n : RWNode) : bool :=
  negb (map_is_empty (n_metrics n) && map_is_empty (n_weights n) &&
        match n_baseline n with None => true | Some _ => false end).

Definition fetchRatesAndWeights (n : RWNode) : RWValue :=
  if node_exists n then
    {| v_metrics := child (n_metrics n); v_weights := child (n_weights n);
       v_baseline := n_baseline n |}
  else {| v_metrics := Some ∅; v_weights := Some ∅; v_baseline := Some (Fin 0) |}.

Definition saveMetric (metric : Metric) (n : RWNode) : jsres RWNode :=
  ms ← fb_set (id metric) metric (n_metrics n);
  Ok {| n_metrics := ms; n_weights := n_weights n; n_baseline := n_baseline n |}.

Definition saveWeight (weight : Weight) (n : RWNode) : jsres RWNode :=
  ws ← fb_set (metricId weight) weight (n_weights n);
  Ok {| n_metrics := n_metrics n; n_weights := ws; n_baseline := n_baseline n |}.

Definition updateBaselineRate (rate : num) (n : RWNode) : jsres RWNode :=
  r ← fb_set_leaf rate;
  Ok {| n_metrics := n_metrics n; n_weights := n_weights n; n_baseline := Some r |}.

(** One multi-path [update] with two [null]s: both children go at once. *)
Definition deleteMetric (metricId : string) (n : RWNode) : RWNode :=
  {| n_metrics := fb_remove metricId (n_metrics n);
     n_weights := fb_remove metricId (n_weights n);
     n_baseline := n_baseline n |}.

(** ** Invariant of the node *)

Definition node_keys (n : RWNode) : Prop :=
  map_Forall (λ k m, id m = k) (n_metrics n) ∧
  map_Forall (λ k w, metricId w = k) (n_weights n).

Definition node_valid (n : RWNode) : Prop :=
  fb_all_valid (n_metrics n) ∧ fb_all_valid (n_weights n) ∧
  match n_baseline n with Some r => num_finite r = true | None => True end.

Definition node_ok (n : RWNode) : Prop := node_keys n ∧ node_valid n.

(** The write operations of the module, as one type of requests. *)
Inductive store_op : Type :=
| SaveMetric (m : Metric)
| SaveWeight (w : Weight)
| UpdateBaselineRate (r : num)
| DeleteMetric (k : string).

Definition apply_op (o : store_op) (n : RWNode) : jsres RWNode :=
  match o with
  | SaveMetric m => saveMetric m n
  | SaveWeight w => saveWeight w n
  | UpdateBaselineRate r => updateBaselineRate r n
  | DeleteMetric k => Ok (deleteMetric k n)
  end.

(** The value a request asks Firebase to store, valid or not. *)
Definition op_valid (o : store_op) : bool :=
  match o with
  | SaveMetric m => fb_valid m
  | SaveWeight w => fb_valid w
  | UpdateBaselineRate r => fb_valid r
  | DeleteMetric _ => true
  end.

Lemma map_is_empty_spec {A} (m : gmap string A) : map_is_empty m = true ↔ m = ∅.
Proof. unfold map_is_empty. rewrite Nat.eqb_eq. apply map_size_empty_iff. Qed.

Lemma child_nonempty {A} (m : gmap string A) : m ≠ ∅ → child m = Some m.
Proof.
  intros Hne. unfold child. destruct (map_is_empty m) eqn:E; [|done].
  by apply map_is_empty_spec in E.
Qed.

Lemma child_empty {A} : child (∅ : gmap string A) = None.
Proof. done. Qed.

Lemma saveMetric_spec m n n' :
  saveMetric m n = Ok n' ↔
    metric_finite m = true ∧
    n' = {| n_metrics := <[id m:=m]> (n_metrics n); n_weights := n_weights n; n_baseline := n_baseline n |}.
Proof.
  unfold saveMetric. destruct (fb_set (id m) m (n_metrics n)) as [ms|e] eqn:E; simpl.
  - apply fb_set_spec in E as [Hv ->]. naive_solver.
  - unfold fb_set in E. destruct (fb_valid m) eqn:Hv; [discriminate|]. split; [discriminate|].
    intros [Hm _]. change (metric_finite m) with (fb_valid m) in Hm. congruence.
Qed.

Lemma saveWeight_spec w n n' :
  saveWeight w n = Ok n' ↔
    num_finite (value w) = true ∧
    n' = {| n_metrics := n_metrics n; n_weights := <[metricId w:=w]> (n_weights n); n_baseline := n_baseline n |}.
Proof.
  unfold saveWeight. destruct (fb_set (metricId w) w (n_weights n)) as [ws|e] eqn:E; simpl.
  - apply fb_set_spec in E as [Hv ->]. naive_solver.
  - unfold fb_set in E. destruct (fb_valid w) eqn:Hv; [discriminate|]. split; [discriminate|].
    intros [Hw _]. change (num_finite (value w)) with (fb_valid w) in Hw. congruence.
Qed.

Lemma updateBaselineRate_spec r n n' :
  updateBaselineRate r n = Ok n' ↔
    num_finite r = true ∧
    n' = {| n_metrics := n_metrics n; n_weights := n_weights n; n_baseline := Some r |}.
Proof.
  unfold updateBaselineRate, fb_set_leaf. change (fb_valid r) with (num_finite r).
  destruct (num_finite r); simpl; naive_solver.
Qed.

Lemma apply_op_ok (o : store_op) (n n' : RWNode) :
  node_ok n → apply_op o n = Ok n' → node_ok n'.
Proof.
  intros [[Hkm Hkw] (Hvm & Hvw & Hb)] Ho.
  destruct o as [m|w|r|k]; simpl in Ho.
  - apply saveMetric_spec in Ho as [Hm ->].
    repeat split; simpl; try done; by apply map_Forall_insert_2.
  - apply saveWeight_spec in Ho as [Hw ->].
    repeat split; simpl; try done; by apply map_Forall_insert_2.
  - apply updateBaselineRate_spec in Ho as [Hr ->]. repeat split; done.
  - injection Ho as <-. repeat split; simpl; try done; by apply map_Forall_delete.
Qed.

(** C5: every write of the module keeps the node well formed: each
    metric and weight is stored under its own id, and every number in it
    is finite. *)
Theorem apply_op_preserves_ok (o : store_op) (n n' : RWNode) :
  node_ok n → apply_op o n = Ok n' → node_ok n'.
Proof. apply apply_op_ok. Qed.

(** C6: a write fails exactly when the value it stores holds NaN, and
    then with Firebase's error; a failed write changes nothing, since the
    node is only replaced on success. *)
Theorem apply_op_rejects (o : store_op) (n : RWNode) (e : exn) :
  apply_op o n = Throw e ↔ op_valid o = false ∧ e = fb_error.
Proof.
  destruct o as [m|w|r|k]; simpl.
  - unfold saveMetric, fb_set. destruct (fb_valid m); simpl; naive_solver.
  - unfold saveWeight, fb_set. destruct (fb_valid w); simpl; naive_solver.
  - unfold updateBaselineRate, fb_set_leaf. destruct (fb_valid r); simpl; naive_solver.
  - naive_solver.
Qed.

(** C7: [deleteMetric] removes the metric and its weight together and
    touches nothing else. *)
Theorem deleteMetric_cascade (k : string) (n : RWNode) :
  n_metrics (deleteMetric k n) !! k = None ∧
  n_weights (deleteMetric k n) !! k = None ∧
  (∀ k', k' ≠ k →
     n_metrics (deleteMetric k n) !! k' = n_metrics n !! k' ∧
     n_weights (deleteMetric k n) !! k' = n_weights n !! k') ∧
  n_baseline (deleteMetric k n) = n_baseline n.
Proof.
  unfold deleteMetric, fb_remove; simpl. split; [apply lookup_delete_eq|].
  split; [apply lookup_delete_eq|]. split; [|done].
  intros k' Hne. split; by apply lookup_delete_ne.
Qed.

(** C8: what was saved is what is read back: after a successful
    [saveMetric] (resp. [saveWeight]) the fetched value has its metrics
    (resp. weights) field, and it maps the id to the record. *)
Theorem fetch_after_save (n n' : RWNode) (m : Metric) (w : Weight) :
  (saveMetric m n = Ok n' →
     ∃ ms, v_metrics (fetchRatesAndWeights n') = Some ms ∧ ms !! id m = Some m) ∧
  (saveWeight w n = Ok n' →
     ∃ ws, v_weights (fetchRatesAndWeights n') = Some ws ∧ ws !! metricId w = Some w).
Proof.
  split.
  - intros [_ ->]%saveMetric_spec.
    assert (Hne : <[id m:=m]> (n_metrics n) ≠ ∅) by apply insert_non_empty.
    unfold fetchRatesAndWeights, node_exists; simpl.
    destruct (map_is_empty (<[id m:=m]> (n_metrics n))) eqn:E;
      [by apply map_is_empty_spec in E|].
    simpl. rewrite child_nonempty by exact Hne. eexists; split; [done|]. apply lookup_insert_eq.
  - intros [_ ->]%saveWeight_spec.
    assert (Hne : <[metricId w:=w]> (n_weights n) ≠ ∅) by apply insert_non_empty.
    unfold fetchRatesAndWeights, node_exists; simpl.
    destruct (map_is_empty (<[metricId w:=w]> (n_weights n))) eqn:E;
      [by apply map_is_empty_spec in E|].
    rewrite andb_false_r. simpl. rewrite child_nonempty by exact Hne.
    eexists; split; [done|]. apply lookup_insert_eq.
Qed.

(** [fetchRatesAndWeights] returns the default [{}, {}, 0] only for
    a node that does not exist; for a node that exists, an empty child is
    missing from the value, unlike what the TypeScript type promises. *)
Theorem fetch_missing_children (n : RWNode) :
  (node_exists n = false → fetchRatesAndWeights n = {| v_metrics := Some ∅; v_weights := Some ∅; v_baseline := Some (Fin 0) |}) ∧
  (node_exists n = true →
     (n_metrics n = ∅ → v_metrics (fetchRatesAndWeights n) = None) ∧
     (n_weights n = ∅ → v_weights (fetchRatesAndWeights n) = None) ∧
     (n_baseline n = None → v_baseline (fetchRatesAndWeights n) = None)).
Proof.
  unfold fetchRatesAndWeights. split; intros He; rewrite He; [done|].
  simpl. split; [by intros ->|]. split; [by intros ->|]. done.
Qed.

(** ** Witnesses *)

Lemma emptyNode_ok : node_ok emptyNode.
Proof. repeat split; try apply map_Forall_empty. Qed.

Lemma apply_op_preserves_ok_witness :
  node_ok {| n_metrics := ∅; n_weights := {["m1" := sample_weight "m1" 40]}; n_baseline := None |}.
Proof.
  apply (apply_op_preserves_ok (SaveWeight (sample_weight "m1" 40)) emptyNode).
  - apply emptyNode_ok.
  - reflexivity.
Defined.

Lemma apply_op_rejects_witness :
  apply_op (SaveWeight {| metricId := "m1"; value := NaN |}) emptyNode = Throw fb_error.
Proof. apply apply_op_rejects. split; reflexivity. Defined.

Lemma deleteMetric_cascade_witness :
  n_weights (deleteMetric "m1" {| n_metrics := {["m1" := sample_metric "m1" 5]};
                                  n_weights := {["m1" := sample_weight "m1" 40]};
                                  n_baseline := Some (Fin 1) |}) !! "m1" = None.
Proof. apply deleteMetric_cascade. Defined.

Lemma fetch_after_save_witness :
  ∃ ws, v_weights (fetchRatesAndWeights
          {| n_metrics := ∅; n_weights := {["m1" := sample_weight "m1" 40]}; n_baseline := None |}) = Some ws ∧
        ws !! "m1" = Some (sample_weight "m1" 40).
Proof.
  apply (fetch_after_save emptyNode _ (sample_metric "m1" 5) (sample_weight "m1" 40)).
  reflexivity.
Defined.

Lemma fetch_missing_children_witness :
  v_metrics (fetchRatesAndWeights
    {| n_metrics := ∅; n_weights := {["m1" := sample_weight "m1" 40]}; n_baseline := None |}) = None.
Proof. apply fetch_missing_children; reflexivity. Defined.
