(* ===== verification/RatesForms.v ===== *)
(** * The forms and the page that drive the engine

    [WeightForm] and [MetricForm] ([src/src/components/RatesAndWeights/])
    and the rates tab of [src/src/pages/TokenOperations/index.tsx].  A form
    handler checks its input against the page's last snapshot of the
    store, writes one record through [RatesStore], shows a toast and calls
    [onSave], which makes the page fetch the store again.  The page is a
    record of its React state; its handlers and its render are functions
    of (remote node, page state), and [system_step] lets several pages
    (several administrators) act on one remote node in any order. *)

From S2P Require Import Prelude Firebase RatesEngine RatesStore.

Inductive toast : Type :=
| ToastSuccess (msg : string)
| ToastError (e : exn).

(** What a submit handler leaves behind: the remote node, the form's
    state, the toast it showed, and whether it called [onSave]. *)
Record FormOutcome (S : Type) : Type := {
  fo_remote : RWNode;
  fo_form : S;
  fo_toast : toast;
  fo_saved : bool
}.
Arguments fo_remote {S} _.
Arguments fo_form {S} _.
Arguments fo_toast {S} _.
Arguments fo_saved {S} _.

Local Open Scope js_scope.

(** ** WeightForm *)

(** [useState<Partial<Weight>>]: the selected metric id and the number the
    input holds ([parseFloat] of its text, NaN when empty). *)
Record WeightFormState : Type := {
  wf_metricId : string;
  wf_value : num
}.

Definition WeightForm_blank : WeightFormState := {| wf_metricId := ""; wf_value := Fin 0 |}.

Definition WeightForm_init (initialWeight : option Weight) : WeightFormState :=
  match initialWeight with
  | Some w => {| wf_metricId := metricId w; wf_value := value w |}
  | None => WeightForm_blank
  end.

(** The total of the other metrics' weights. *)
Definition getCurrentTotal (weights : gmap string Weight) (metricId : string) : num :=
  foldl (λ sum '(id, w), sum + (if bool_decide (id ≠ metricId) then value w else Fin 0))
    (Fin 0) (map_to_list weights).

Definition WeightForm_submit (weights : gmap string Weight) (st : WeightFormState)
    (n : RWNode) : jsres RWNode :=
  if bool_decide (wf_metricId st = "") then Throw (JsError "Please select a metric")
  else
    let currentTotal := getCurrentTotal weights (wf_metricId st) in
    let newTotal := currentTotal + (wf_value st || Fin 0) in
    if newTotal >? Fin 100 then
      Throw (JsErrorNum "Total weights cannot exceed 100%. Current total: " currentTotal "%")
    else saveWeight {| metricId := wf_metricId st; value := wf_value st |} n.

Definition WeightForm_handleSubmit (weights : gmap string Weight) (initialWeight : option Weight)
    (st : WeightFormState) (n : RWNode) : FormOutcome WeightFormState :=
  match WeightForm_submit weights st n with
  | Ok n' =>
      {| fo_remote := n';
         fo_form := match initialWeight with Some _ => st | None => WeightForm_blank end;
         fo_toast := ToastSuccess "Weight saved successfully"; fo_saved := true |}
  | Throw e => {| fo_remote := n; fo_form := st; fo_toast := ToastError e; fo_saved := false |}
  end.

(** The label's "Maximum Available" and the input's [max] attribute. *)
Definition WeightForm_available (weights : gmap string Weight) (st : WeightFormState) : num :=
  Fin 100 - getCurrentTotal weights (wf_metricId st).

Definition WeightForm_inputMax (weights : gmap string Weight) (st : WeightFormState) : num :=
  Fin 100 - getCurrentTotal weights (wf_metricId st) +
  match weights !! wf_metricId st with Some w => value w || Fin 0 | None => Fin 0 end.

(** ** MetricForm *)

(** [useState<Partial<Metric>>]: the blank form has no [id] and no
    [currentValue], and no input of the form sets them; an edited metric
    brings its own. *)
Record MetricFormState : Type := {
  mf_id : option string;
  mf_name : string;
  mf_description : string;
  mf_category : MetricCategory;
  mf_minValue : num;
  mf_maxValue : num;
  mf_currentValue : option num
}.

Definition MetricForm_blank : MetricFormState :=
  {| mf_id := None; mf_name := ""; mf_description := ""; mf_category := UserActivity;
     mf_minValue := Fin 0; mf_maxValue := Fin 100; mf_currentValue := None |}.

Definition MetricForm_init (initialMetric : option Metric) : MetricFormState :=
  match initialMetric with
  | Some m =>
      {| mf_id := Some (id m); mf_name := name m; mf_description := description m;
         mf_category := category m; mf_minValue := minValue m; mf_maxValue := maxValue m;
         mf_currentValue := currentValue m |}
  | None => MetricForm_blank
  end.

(** [{...metric, id: initialMetric?.id || crypto.randomUUID()}]; the UUID
    the browser would draw is the argument [uuid]. *)
Definition MetricForm_newMetric (initialMetric : option Metric) (uuid : string)
    (st : MetricFormState) : Metric :=
  {| id := match initialMetric with
           | Some m => if bool_decide (id m = "") then uuid else id m
           | None => uuid
           end;
     name := mf_name st; description := mf_description st; category := mf_category st;
     minValue := mf_minValue st; maxValue := mf_maxValue st; currentValue := mf_currentValue st |}.

Definition MetricForm_submit (initialMetric : option Metric) (uuid : string)
    (st : MetricFormState) (n : RWNode) : jsres RWNode :=
  if orb (bool_decide (mf_name st = "")) (bool_decide (mf_description st = "")) then
    Throw (JsError "Please fill in all required fields")
  else saveMetric (MetricForm_newMetric initialMetric uuid st) n.

Definition MetricForm_handleSubmit (initialMetric : option Metric) (uuid : string)
    (st : MetricFormState) (n : RWNode) : FormOutcome MetricFormState :=
  match MetricForm_submit initialMetric uuid st n with
  | Ok n' =>
      {| fo_remote := n';
         fo_form := match initialMetric with Some _ => st | None => MetricForm_blank end;
         fo_toast := ToastSuccess "Metric saved successfully"; fo_saved := true |}
  | Throw e => {| fo_remote := n; fo_form := st; fo_toast := ToastError e; fo_saved := false |}
  end.

Local Close Scope js_scope.

(** ** The inputs of the forms ([onChange] handlers) *)

(** WeightForm: the [<select>] of metrics and the number input. *)
Inductive WeightFormInput : Type :=
| SelectMetric (metricId : string)
| SetWeightValue (v : num).

Definition WeightForm_onChange (i : WeightFormInput) (st : WeightFormState) : WeightFormState :=
  match i with
  | SelectMetric k => {| wf_metricId := k; wf_value := wf_value st |}
  | SetWeightValue v => {| wf_metricId := wf_metricId st; wf_value := v |}
  end.

(** MetricForm: name, description, category, minimum and maximum; no
    input sets [id] or [currentValue]. *)
Inductive MetricFormInput : Type :=
| SetName (s : string)
| SetDescription (s : string)
| SetCategory (c : MetricCategory)
| SetMinValue (v : num)
| SetMaxValue (v : num).

Definition MetricForm_onChange (i : MetricFormInput) (st : MetricFormState) : MetricFormState :=
  match i with
  | SetName s => {| mf_id := mf_id st; mf_name := s; mf_description := mf_description st;
                    mf_category := mf_category st; mf_minValue := mf_minValue st;
                    mf_maxValue := mf_maxValue st; mf_currentValue := mf_currentValue st |}
  | SetDescription s => {| mf_id := mf_id st; mf_name := mf_name st; mf_description := s;
                    mf_category := mf_category st; mf_minValue := mf_minValue st;
                    mf_maxValue := mf_maxValue st; mf_currentValue := mf_currentValue st |}
  | SetCategory c => {| mf_id := mf_id st; mf_name := mf_name st; mf_description := mf_description st;
                    mf_category := c; mf_minValue := mf_minValue st;
                    mf_maxValue := mf_maxValue st; mf_currentValue := mf_currentValue st |}
  | SetMinValue v => {| mf_id := mf_id st; mf_name := mf_name st; mf_description := mf_description st;
                    mf_category := mf_category st; mf_minValue := v;
                    mf_maxValue := mf_maxValue st; mf_currentValue := mf_currentValue st |}
  | SetMaxValue v => {| mf_id := mf_id st; mf_name := mf_name st; mf_description := mf_description st;
                    mf_category := mf_category st; mf_minValue := mf_minValue st;
                    mf_maxValue := v; mf_currentValue := mf_currentValue st |}
  end.

Definition MetricForm_edit (st : MetricFormState) (inputs : list MetricFormInput) : MetricFormState :=
  foldl (λ s i, MetricForm_onChange i s) st inputs.

(** ** Lemmas on the running total *)

Definition total_step (k : string) (sum : num) (entry : string * Weight) : num :=
  (sum + (if bool_decide (entry.1 ≠ k) then value entry.2 else Fin 0))%js.

#[export] Instance total_step_proper k : Proper ((≡) ==> (=) ==> (≡)) (total_step k).
Proof. intros a a' Ha e ? <-. unfold total_step. by rewrite Ha. Qed.

Lemma total_step_swap k a x y : total_step k (total_step k a x) y ≡ total_step k (total_step k a y) x.
Proof. apply num_add_swap. Qed.

Lemma getCurrentTotal_entries ws k : getCurrentTotal ws k = foldl (total_step k) (Fin 0) (map_to_list ws).
Proof. unfold getCurrentTotal. apply foldl_ext_in. by intros acc [i w] _. Qed.

(** The running total is the sum of the weights of the other metrics. *)
Lemma getCurrentTotal_delete ws k : getCurrentTotal ws k ≡ weightSum (delete k ws).
Proof.
  assert (Hother : foldl (total_step k) (Fin 0) (map_to_list (delete k ws)) =
                   foldl weight_step (Fin 0) (map_to_list (delete k ws))).
  { apply foldl_ext_in. intros acc [i w] Hin%elem_of_map_to_list. unfold total_step, weight_step; simpl.
    rewrite bool_decide_true; [done|]. intros ->. by rewrite lookup_delete_eq in Hin. }
  rewrite getCurrentTotal_entries, weightSum_entries, <- Hother.
  destruct (ws !! k) as [w0|] eqn:Hk.
  - rewrite (foldl_map_delete (total_step k) (total_step_swap k) ws k w0 (Fin 0) Hk).
    unfold total_step at 1; simpl. rewrite bool_decide_false by (intros H; by apply H).
    rewrite num_add_comm. apply num_add_0_l.
  - by rewrite delete_id.
Qed.

Lemma weightSum_finite ws : fb_all_valid ws → ∃ s, weightSum ws ≡ Fin s.
Proof.
  induction ws as [|k w ws Hk IH] using map_ind; intros Hv.
  - exists 0. by rewrite weightSum_empty.
  - apply map_Forall_insert in Hv as [Hw Hv]; [|exact Hk]. destruct (IH Hv) as [s Hs].
    change (num_finite (value w) = true) in Hw.
    destruct (value w) as [q|] eqn:Hq; [|discriminate]. exists (s + q).
    rewrite weightSum_insert, Hs, Hq by exact Hk. reflexivity.
Qed.

Lemma num_or_zero_Fin (q : Q) : (Fin q || Fin 0)%js ≡ Fin q.
Proof.
  unfold num_or, num_truthy. destruct (Qeq_bool q 0) eqn:E; simpl; num_unfold; [|reflexivity].
  apply Qeq_bool_iff in E. by rewrite E.
Qed.

Lemma MetricForm_edit_no_reading st inputs :
  mf_currentValue st = None → mf_currentValue (MetricForm_edit st inputs) = None.
Proof.
  unfold MetricForm_edit. revert st. induction inputs as [|i inputs IH]; intros st Hst; simpl; [done|].
  apply IH. by destruct i.
Qed.

(** ** Theorems of the forms *)

Lemma weight_submit_cap (st : WeightFormState) (n n' : RWNode) :
  fb_all_valid (n_weights n) →
  WeightForm_submit (n_weights n) st n = Ok n' →
  ∃ s, weightSum (n_weights n') ≡ Fin s ∧ s <= 100.
Proof.
  intros Hv. unfold WeightForm_submit.
  case_bool_decide as Hid; [discriminate|].
  pose proof (getCurrentTotal_delete (n_weights n) (wf_metricId st)) as Hct.
  destruct (weightSum_finite (delete (wf_metricId st) (n_weights n))) as [c Hc];
    [by apply map_Forall_delete|].
  destruct (_ >? _)%js eqn:G; [discriminate|].
  intros [Hfin ->]%saveWeight_spec. simpl in Hfin |- *.
  destruct (wf_value st) as [q|] eqn:Hq; [|discriminate].
  exists (c + q). split.
  - rewrite <- insert_delete_eq, weightSum_insert by apply lookup_delete_eq. simpl.
    rewrite Hc. reflexivity.
  - rewrite Hct, Hc, num_or_zero_Fin in G. simpl in G.
    apply negb_false_iff, Qle_bool_iff in G. exact G.
Qed.

(** C9: the 100% cap.  When the form's snapshot is the weights stored
    remotely, a submission that succeeds leaves the stored weights summing
    to at most 100, whatever they summed to before: the edited metric's old
    weight is excluded from the running total and then overwritten. *)
Theorem WeightForm_submit_cap (st : WeightFormState) (n n' : RWNode) :
  fb_all_valid (n_weights n) →
  WeightForm_submit (n_weights n) st n = Ok n' →
  ∃ s, weightSum (n_weights n') ≡ Fin s ∧ s <= 100.
Proof. apply weight_submit_cap. Qed.

(** The cap is only as good as the snapshot.  Two administrators who
    loaded the same weights [{a: 40}] both pass the check: one adds [b: 60],
    the other raises [a] to 100, and the stored weights sum to 160. *)
Definition two_metrics_node : RWNode :=
  {| n_metrics := <["a" := sample_metric "a" 10]> {["b" := sample_metric "b" 20]};
     n_weights := {["a" := sample_weight "a" 40]};
     n_baseline := Some (Fin 0) |}.

Example WeightForm_stale_snapshots_exceed_cap :
  ∃ n1 n2,
    WeightForm_submit (n_weights two_metrics_node) {| wf_metricId := "b"; wf_value := Fin 60 |}
      two_metrics_node = Ok n1 ∧
    WeightForm_submit (n_weights two_metrics_node) {| wf_metricId := "a"; wf_value := Fin 100 |}
      n1 = Ok n2 ∧
    weightSum (n_weights n2) ≡ Fin 160.
Proof.
  eexists; eexists. split; [reflexivity|]. split; [reflexivity|]. vm_compute. reflexivity.
Qed.

(** C10: a rejected submission (no metric selected, or a total above
    100) writes nothing, keeps the form as it was, shows an error and does
    not call [onSave]; an accepted one stores the weight under its metric,
    resets a blank form and calls [onSave]. *)
Theorem WeightForm_handleSubmit_outcomes ws iw st n :
  (wf_metricId st = "" ∨ (getCurrentTotal ws (wf_metricId st) + (wf_value st || Fin 0) >? Fin 100)%js = true →
     fo_remote (WeightForm_handleSubmit ws iw st n) = n ∧
     fo_form (WeightForm_handleSubmit ws iw st n) = st ∧
     fo_saved (WeightForm_handleSubmit ws iw st n) = false ∧
     ∃ e, fo_toast (WeightForm_handleSubmit ws iw st n) = ToastError e) ∧
  (∀ n', WeightForm_submit ws st n = Ok n' →
     n_weights n' = <[wf_metricId st := {| metricId := wf_metricId st; value := wf_value st |}]> (n_weights n) ∧
     fo_remote (WeightForm_handleSubmit ws iw st n) = n' ∧
     fo_form (WeightForm_handleSubmit ws None st n) = WeightForm_blank ∧
     fo_saved (WeightForm_handleSubmit ws iw st n) = true).
Proof.
  split.
  - intros Hrej. unfold WeightForm_handleSubmit.
    assert (∃ e, WeightForm_submit ws st n = Throw e) as [e ->].
    { unfold WeightForm_submit. destruct Hrej as [-> | Hgt].
      - by eexists.
      - case_bool_decide; [by eexists|]. rewrite Hgt. by eexists. }
    naive_solver.
  - intros n' Hs. unfold WeightForm_handleSubmit. rewrite Hs.
    unfold WeightForm_submit in Hs. case_bool_decide; [discriminate|].
    destruct (_ >? _)%js; [discriminate|]. apply saveWeight_spec in Hs as [_ ->]. done.
Qed.

(** The input's [max] attribute adds the edited metric's weight back
    to a total that already excludes it: with [{a: 40, b: 60}] and [a]
    selected, the label says 40 are available and the input accepts up to
    80, but submitting 50 is refused. *)
Example WeightForm_inputMax_exceeds_available :
  let ws := <["a" := sample_weight "a" 40]> {["b" := sample_weight "b" 60]} in
  let st := {| wf_metricId := "a"; wf_value := Fin 50 |} in
  WeightForm_available ws st ≡ Fin 40 ∧
  WeightForm_inputMax ws st ≡ Fin 80 ∧
  (wf_value st >? WeightForm_inputMax ws st)%js = false ∧
  WeightForm_submit ws st two_metrics_node =
    Throw (JsErrorNum "Total weights cannot exceed 100%. Current total: " (getCurrentTotal ws "a") "%").
Proof. vm_compute. repeat split; reflexivity. Qed.

(** A metric created through [MetricForm] never changes the daily
    rate: no input of the form sets [currentValue], so the new metric is
    skipped by [calculateDailyRate] even once a weight refers to it. *)
Theorem MetricForm_new_metric_inert (uuid : string) (inputs : list MetricFormInput)
    (n n' : RWNode) (b : num) :
  n_metrics n !! uuid = None →
  MetricForm_submit None uuid (MetricForm_edit (MetricForm_init None) inputs) n = Ok n' →
  calculateDailyRate (n_metrics n') (n_weights n') b = calculateDailyRate (n_metrics n) (n_weights n) b.
Proof.
  intros Hfresh. unfold MetricForm_submit.
  destruct (orb _ _); [discriminate|]. intros [_ ->]%saveMetric_spec. simpl.
  unfold calculateDailyRate. f_equal. apply foldl_ext_in. intros acc [k w] _.
  unfold rate_step, contribution.
  destruct (decide (k = uuid)) as [->|Hne].
  - rewrite lookup_insert_eq, Hfresh. simpl.
    by rewrite (MetricForm_edit_no_reading MetricForm_blank inputs eq_refl).
  - by rewrite lookup_insert_ne by congruence.
Qed.

(** [MetricForm] refuses a metric without a name or a description,
    and then writes nothing. *)
Theorem MetricForm_requires_fields im uuid st n :
  mf_name st = "" ∨ mf_description st = "" →
  MetricForm_submit im uuid st n = Throw (JsError "Please fill in all required fields") ∧
  fo_remote (MetricForm_handleSubmit im uuid st n) = n ∧
  fo_saved (MetricForm_handleSubmit im uuid st n) = false.
Proof.
  intros Hempty.
  assert (Hs : MetricForm_submit im uuid st n = Throw (JsError "Please fill in all required fields")).
  { unfold MetricForm_submit. destruct Hempty as [-> | ->].
    - by rewrite bool_decide_true.
    - rewrite (bool_decide_true ("" = "")) by done. by rewrite orb_true_r. }
  unfold MetricForm_handleSubmit. by rewrite Hs.
Qed.

(** ** Witnesses *)

Definition node_after_b60 : RWNode :=
  {| n_metrics := n_metrics two_metrics_node;
     n_weights := <["b" := {| metricId := "b"; value := Fin 60 |}]> (n_weights two_metrics_node);
     n_baseline := n_baseline two_metrics_node |}.

Lemma WeightForm_submit_cap_witness :
  ∃ s, weightSum (n_weights node_after_b60) ≡ Fin s ∧ s <= 100.
Proof.
  apply (WeightForm_submit_cap {| wf_metricId := "b"; wf_value := Fin 60 |} two_metrics_node).
  - apply map_Forall_singleton. reflexivity.
  - reflexivity.
Defined.

Lemma WeightForm_handleSubmit_outcomes_witness :
  fo_remote (WeightForm_handleSubmit (n_weights two_metrics_node) None
               {| wf_metricId := ""; wf_value := Fin 10 |} two_metrics_node) = two_metrics_node.
Proof.
  refine (proj1 (proj1 (WeightForm_handleSubmit_outcomes _ None _ _) _)). left. reflexivity.
Defined.

Definition sample_inputs : list MetricFormInput :=
  [SetName "Active users"; SetDescription "Daily active wallets"; SetCategory UserActivity;
   SetMaxValue (Fin 5000)].

Definition node_after_new_metric : RWNode :=
  {| n_metrics := <["u1" := MetricForm_newMetric None "u1" (MetricForm_edit MetricForm_blank sample_inputs)]>
                    (n_metrics two_metrics_node);
     n_weights := n_weights two_metrics_node;
     n_baseline := n_baseline two_metrics_node |}.

Lemma MetricForm_new_metric_inert_witness :
  calculateDailyRate (n_metrics node_after_new_metric) (n_weights node_after_new_metric) (Fin 1) =
  calculateDailyRate (n_metrics two_metrics_node) (n_weights two_metrics_node) (Fin 1).
Proof. apply (MetricForm_new_metric_inert "u1" sample_inputs); reflexivity. Defined.

Lemma MetricForm_requires_fields_witness :
  MetricForm_submit None "u1" MetricForm_blank two_metrics_node =
    Throw (JsError "Please fill in all required fields").
Proof. apply MetricForm_requires_fields. left. reflexivity. Defined.
