(* ===== verification/RatesPage.v ===== *)
(** * The TokenOperations page ([src/src/pages/TokenOperations/index.tsx])

    The page's React state ([PageState]), the events a user or React
    produces ([PageEvent]), one handler per event ([page_step]), and the
    render ([page_render]), which computes [calculateDailyRate] on every
    render and, on the rates tab, lets [WeightForm] iterate the snapshot.
    The remote side ([Remote]) is the node [ratesAndWeights] and the node
    [xlc] that [handlePriceSubmit] writes.  [sys_step] runs any number of
    pages (administrators) against one remote in any interleaving;
    [sys_step_capped] is its restriction to runs in which "Initialize
    System" writes at most 100, so that every stored weight passed a
    100% check of some page.  Each
    handler awaits its write and its re-fetch before the next event: the
    interleavings are those of whole handlers. *)

From S2P Require Import Prelude Firebase Json RatesEngine RatesStore RatesForms.

Inductive TabType : Type := TabToken | TabRates.

Record Remote : Type := {
  r_rw : RWNode;
  r_price : option num
}.

(** The text fields hold what [parseFloat] makes of them when the handler
    reads them: [price] (['']), [initialRate] (['0']), [initialWeight]
    (['0']); [baselineRate] holds a number, or [undefined] after a load of
    a node without a baseline. *)
Record PageState : Type := {
  ps_activeTab : TabType;
  ps_price : num;
  ps_baselineRate : option num;
  ps_initialRate : num;
  ps_initialWeight : num;
  ps_rw : RWValue;
  ps_weightForm : WeightFormState;
  ps_metricForm : MetricFormState
}.

Definition default_rw : RWValue := {| v_metrics := Some ∅; v_weights := Some ∅; v_baseline := Some (Fin 0) |}.

Definition page_initial : PageState :=
  {| ps_activeTab := TabToken; ps_price := NaN; ps_baselineRate := Some (Fin 0);
     ps_initialRate := Fin 0; ps_initialWeight := Fin 0; ps_rw := default_rw;
     ps_weightForm := WeightForm_blank; ps_metricForm := MetricForm_blank |}.

Inductive PageEvent : Type :=
| Mount
| SelectTab (t : TabType)
| EditPrice (v : num)
| SubmitPrice
| EditInitialRate (v : num)
| EditInitialWeight (v : num)
| SubmitInitialSetup
| EditBaseline (v : num)
| SubmitBaseline
| WeightInput (i : WeightFormInput)
| SubmitWeight
| MetricInput (i : MetricFormInput)
| SubmitMetric (uuid : string).

(** The node [handleInitialSetup] writes with one [set]. *)
Definition initialMetric (rate : num) : Metric :=
  {| id := "initial"; name := "Initial Metric"; description := "Initial system metric";
     category := Market; minValue := Fin 0; maxValue := Fin 100; currentValue := Some rate |}.

Definition initialSetupNode (rate weight : num) : RWNode :=
  {| n_metrics := {["initial" := initialMetric rate]};
     n_weights := {["initial" := {| metricId := "initial"; value := weight |}]};
     n_baseline := Some (Fin 0) |}.

Definition initialSetup (rate weight : num) : jsres RWNode :=
  if metric_finite (initialMetric rate) && num_finite weight
  then Ok (initialSetupNode rate weight) else Throw fb_error.

Definition set_rw (p : PageState) (rw : RWValue) : PageState :=
  {| ps_activeTab := ps_activeTab p; ps_price := ps_price p; ps_baselineRate := ps_baselineRate p;
     ps_initialRate := ps_initialRate p; ps_initialWeight := ps_initialWeight p; ps_rw := rw;
     ps_weightForm := ps_weightForm p; ps_metricForm := ps_metricForm p |}.

Definition set_rw_node (r : Remote) (n : RWNode) : Remote :=
  {| r_rw := n; r_price := r_price r |}.

Definition page_step (r : Remote) (p : PageState) (e : PageEvent) : Remote * PageState :=
  match e with
  | Mount =>
      let data := fetchRatesAndWeights (r_rw r) in
      (r, {| ps_activeTab := ps_activeTab p; ps_price := ps_price p; ps_baselineRate := v_baseline data;
             ps_initialRate := ps_initialRate p; ps_initialWeight := ps_initialWeight p; ps_rw := data;
             ps_weightForm := ps_weightForm p; ps_metricForm := ps_metricForm p |})
  | SelectTab t =>
      (r, {| ps_activeTab := t; ps_price := ps_price p; ps_baselineRate := ps_baselineRate p;
             ps_initialRate := ps_initialRate p; ps_initialWeight := ps_initialWeight p; ps_rw := ps_rw p;
             ps_weightForm := ps_weightForm p; ps_metricForm := ps_metricForm p |})
  | EditPrice v =>
      (r, {| ps_activeTab := ps_activeTab p; ps_price := v; ps_baselineRate := ps_baselineRate p;
             ps_initialRate := ps_initialRate p; ps_initialWeight := ps_initialWeight p; ps_rw := ps_rw p;
             ps_weightForm := ps_weightForm p; ps_metricForm := ps_metricForm p |})
  | SubmitPrice =>
      match fb_set_leaf (ps_price p) with
      | Ok x =>
          ({| r_rw := r_rw r; r_price := Some x |},
           {| ps_activeTab := ps_activeTab p; ps_price := NaN; ps_baselineRate := ps_baselineRate p;
              ps_initialRate := ps_initialRate p; ps_initialWeight := ps_initialWeight p; ps_rw := ps_rw p;
              ps_weightForm := ps_weightForm p; ps_metricForm := ps_metricForm p |})
      | Throw _ => (r, p)
      end
  | EditInitialRate v =>
      (r, {| ps_activeTab := ps_activeTab p; ps_price := ps_price p; ps_baselineRate := ps_baselineRate p;
             ps_initialRate := v; ps_initialWeight := ps_initialWeight p; ps_rw := ps_rw p;
             ps_weightForm := ps_weightForm p; ps_metricForm := ps_metricForm p |})
  | EditInitialWeight v =>
      (r, {| ps_activeTab := ps_activeTab p; ps_price := ps_price p; ps_baselineRate := ps_baselineRate p;
             ps_initialRate := ps_initialRate p; ps_initialWeight := v; ps_rw := ps_rw p;
             ps_weightForm := ps_weightForm p; ps_metricForm := ps_metricForm p |})
  | SubmitInitialSetup =>
      match initialSetup (ps_initialRate p) (ps_initialWeight p) with
      | Ok n => (set_rw_node r n, set_rw p (fetchRatesAndWeights n))
      | Throw _ => (r, p)
      end
  | EditBaseline v =>
      (r, {| ps_activeTab := ps_activeTab p; ps_price := ps_price p; ps_baselineRate := Some v;
             ps_initialRate := ps_initialRate p; ps_initialWeight := ps_initialWeight p; ps_rw := ps_rw p;
             ps_weightForm := ps_weightForm p; ps_metricForm := ps_metricForm p |})
  | SubmitBaseline =>
      match ps_baselineRate p with
      | None => (r, p)
      | Some b =>
          match updateBaselineRate b (r_rw r) with
          | Ok n =>
              (set_rw_node r n,
               set_rw p {| v_metrics := v_metrics (ps_rw p); v_weights := v_weights (ps_rw p);
                           v_baseline := Some b |})
          | Throw _ => (r, p)
          end
      end
  | WeightInput i =>
      (r, {| ps_activeTab := ps_activeTab p; ps_price := ps_price p; ps_baselineRate := ps_baselineRate p;
             ps_initialRate := ps_initialRate p; ps_initialWeight := ps_initialWeight p; ps_rw := ps_rw p;
             ps_weightForm := WeightForm_onChange i (ps_weightForm p); ps_metricForm := ps_metricForm p |})
  | SubmitWeight =>
      let out := WeightForm_handleSubmit (default ∅ (v_weights (ps_rw p))) None (ps_weightForm p) (r_rw r) in
      (set_rw_node r (fo_remote out),
       {| ps_activeTab := ps_activeTab p; ps_price := ps_price p; ps_baselineRate := ps_baselineRate p;
          ps_initialRate := ps_initialRate p; ps_initialWeight := ps_initialWeight p;
          ps_rw := if fo_saved out then fetchRatesAndWeights (fo_remote out) else ps_rw p;
          ps_weightForm := fo_form out; ps_metricForm := ps_metricForm p |})
  | MetricInput i =>
      (r, {| ps_activeTab := ps_activeTab p; ps_price := ps_price p; ps_baselineRate := ps_baselineRate p;
             ps_initialRate := ps_initialRate p; ps_initialWeight := ps_initialWeight p; ps_rw := ps_rw p;
             ps_weightForm := ps_weightForm p; ps_metricForm := MetricForm_onChange i (ps_metricForm p) |})
  | SubmitMetric uuid =>
      let out := MetricForm_handleSubmit None uuid (ps_metricForm p) (r_rw r) in
      (set_rw_node r (fo_remote out),
       {| ps_activeTab := ps_activeTab p; ps_price := ps_price p; ps_baselineRate := ps_baselineRate p;
          ps_initialRate := ps_initialRate p; ps_initialWeight := ps_initialWeight p;
          ps_rw := if fo_saved out then fetchRatesAndWeights (fo_remote out) else ps_rw p;
          ps_weightForm := ps_weightForm p; ps_metricForm := fo_form out |})
  end.

(** The render: [calculatedRate] is computed on every render; on the rates
    tab [WeightForm] also runs [Object.entries] on both maps. *)
Definition page_render (p : PageState) : jsres num :=
  rate ← calculateDailyRate_js (v_metrics (ps_rw p)) (v_weights (ps_rw p)) (v_baseline (ps_rw p));
  match ps_activeTab p, v_metrics (ps_rw p), v_weights (ps_rw p) with
  | TabToken, _, _ => Ok rate
  | TabRates, Some _, Some _ => Ok rate
  | TabRates, _, _ => Throw (TypeError "Cannot convert undefined or null to object")
  end.

(** The Current Daily Rate card, shown on the rates tab only:
    [calculatedRate.toFixed(4)]. *)
Definition daily_rate_text (p : PageState) : jsres (option string) :=
  rate ← page_render p;
  Ok (match ps_activeTab p with TabRates => Some (toFixed 4 rate) | TabToken => None end).

Definition renders (p : PageState) : bool :=
  match page_render p with Ok _ => true | Throw _ => false end.

Definition page_run (r : Remote) (p : PageState) (es : list PageEvent) : Remote * PageState :=
  foldl (λ rp e, page_step rp.1 rp.2 e) (r, p) es.

(** ** Several administrators *)

Record System : Type := {
  sys_remote : Remote;
  sys_pages : list PageState
}.

Definition init_system : System :=
  {| sys_remote := {| r_rw := emptyNode; r_price := None |}; sys_pages := [] |}.

(** A new page opens, or a page that renders handles one event. *)
Inductive sys_step : System → System → Prop :=
| sys_open s :
    sys_step s {| sys_remote := sys_remote s; sys_pages := sys_pages s ++ [page_initial] |}
| sys_event s i p e r' p' :
    sys_pages s !! i = Some p →
    renders p = true →
    page_step (sys_remote s) p e = (r', p') →
    sys_step s {| sys_remote := r'; sys_pages := <[i:=p']> (sys_pages s) |}.

(** ** One administrator *)

(** The page's weights are those stored remotely. *)
Definition rw_fresh (rw : RWValue) (n : RWNode) : Prop :=
  match v_weights rw with Some ws => ws = n_weights n | None => n_weights n = ∅ end.

Definition cap_ok (ws : gmap string Weight) : Prop := ∃ s, weightSum ws ≡ Fin s ∧ s <= 100.

Definition admin_inv (r : Remote) (p : PageState) : Prop :=
  node_ok (r_rw r) ∧ rw_fresh (ps_rw p) (r_rw r) ∧ cap_ok (n_weights (r_rw r)).

Lemma fetch_fresh n : rw_fresh (fetchRatesAndWeights n) n.
Proof.
  unfold fetchRatesAndWeights, rw_fresh. destruct (node_exists n) eqn:E; simpl.
  - unfold child. destruct (map_is_empty (n_weights n)) eqn:W; [by apply map_is_empty_spec|done].
  - unfold node_exists in E. apply negb_false_iff, andb_prop in E as [E _].
    apply andb_prop in E as [_ W]. symmetry. by apply map_is_empty_spec.
Qed.

Lemma fresh_default rw n : rw_fresh rw n → default ∅ (v_weights rw) = n_weights n.
Proof. unfold rw_fresh. destruct (v_weights rw); simpl; by intros ->. Qed.

Lemma WeightForm_handleSubmit_cases ws iw st n :
  (fo_saved (WeightForm_handleSubmit ws iw st n) = true ∧
   WeightForm_submit ws st n = Ok (fo_remote (WeightForm_handleSubmit ws iw st n))) ∨
  (fo_saved (WeightForm_handleSubmit ws iw st n) = false ∧
   fo_remote (WeightForm_handleSubmit ws iw st n) = n).
Proof. unfold WeightForm_handleSubmit. destruct (WeightForm_submit ws st n); [left|right]; done. Qed.

Lemma MetricForm_handleSubmit_cases im uuid st n :
  (fo_saved (MetricForm_handleSubmit im uuid st n) = true ∧
   MetricForm_submit im uuid st n = Ok (fo_remote (MetricForm_handleSubmit im uuid st n))) ∨
  (fo_saved (MetricForm_handleSubmit im uuid st n) = false ∧
   fo_remote (MetricForm_handleSubmit im uuid st n) = n).
Proof. unfold MetricForm_handleSubmit. destruct (MetricForm_submit im uuid st n); [left|right]; done. Qed.

Lemma WeightForm_submit_saves ws st n n' :
  WeightForm_submit ws st n = Ok n' → apply_op (SaveWeight {| metricId := wf_metricId st; value := wf_value st |}) n = Ok n'.
Proof.
  unfold WeightForm_submit. case_bool_decide; [discriminate|].
  destruct (_ >? _)%js; [discriminate | done].
Qed.

Lemma MetricForm_submit_saves im uuid st n n' :
  MetricForm_submit im uuid st n = Ok n' →
  apply_op (SaveMetric (MetricForm_newMetric im uuid st)) n = Ok n' ∧ n_weights n' = n_weights n.
Proof.
  unfold MetricForm_submit. destruct (orb _ _); [discriminate|].
  intros Hs. split; [exact Hs|]. by apply saveMetric_spec in Hs as [_ ->].
Qed.

Lemma initialSetup_ok ir iw q n :
  iw = Fin q → q <= 100 → initialSetup ir iw = Ok n → node_ok n ∧ cap_ok (n_weights n).
Proof.
  intros -> Hq. unfold initialSetup. destruct (metric_finite _ && num_finite _) eqn:E; [|discriminate].
  intros [= <-]. apply andb_prop in E as [Em _]. split; [split; split|].
  - by apply map_Forall_singleton.
  - by apply map_Forall_singleton.
  - by apply map_Forall_singleton.
  - split; [by apply map_Forall_singleton | done].
  - exists q. split; [|exact Hq]. simpl.
    rewrite <- insert_empty, weightSum_insert, weightSum_empty by apply lookup_empty.
    apply num_add_0_l.
Qed.

(** C12: with one administrator, every event of the page keeps the
    stored node well formed, the page's weights equal to the stored ones,
    and the stored weights summing to at most 100; the one exception is
    "Initialize System" with a weight above 100, which no check guards. *)
Theorem single_admin_cap (r : Remote) (p : PageState) (e : PageEvent) :
  admin_inv r p →
  (e = SubmitInitialSetup → ∃ q, ps_initialWeight p = Fin q ∧ q <= 100) →
  admin_inv (page_step r p e).1 (page_step r p e).2.
Proof.
  intros (Hok & Hfresh & Hcap) Hinit. unfold admin_inv.
  destruct e as [| | |v| | | |v| |i| |i|uuid]; simpl; try (by refine (conj _ (conj _ _))).
  - refine (conj Hok (conj (fetch_fresh _) Hcap)).
  - destruct (fb_set_leaf (ps_price p)); by refine (conj _ (conj _ _)).
  - destruct (initialSetup _ _) as [n|] eqn:Hs; simpl; [|by refine (conj _ (conj _ _))].
    destruct (Hinit eq_refl) as (q & Hq & Hq100).
    destruct (initialSetup_ok _ _ q n Hq Hq100 Hs) as [Hok' Hcap'].
    exact (conj Hok' (conj (fetch_fresh _) Hcap')).
  - destruct (ps_baselineRate p) as [b|]; [|by refine (conj _ (conj _ _))].
    destruct (updateBaselineRate b (r_rw r)) as [n|] eqn:Hb; simpl; [|by refine (conj _ (conj _ _))].
    pose proof (apply_op_ok (UpdateBaselineRate b) _ _ Hok Hb) as Hok'.
    apply updateBaselineRate_spec in Hb as [_ ->]. by refine (conj _ (conj _ _)).
  - rewrite (fresh_default _ _ Hfresh).
    destruct (WeightForm_handleSubmit_cases (n_weights (r_rw r)) None (ps_weightForm p) (r_rw r))
      as [[-> Hs] | [-> ->]]; simpl; [|by refine (conj _ (conj _ _))].
    refine (conj _ (conj (fetch_fresh _) _)).
    + exact (apply_op_ok _ _ _ Hok (WeightForm_submit_saves _ _ _ _ Hs)).
    + destruct Hok as [_ [_ [Hvw _]]]. exact (weight_submit_cap _ _ _ Hvw Hs).
  - destruct (MetricForm_handleSubmit_cases None uuid (ps_metricForm p) (r_rw r))
      as [[-> Hs] | [-> ->]]; simpl; [|by refine (conj _ (conj _ _))].
    destruct (MetricForm_submit_saves _ _ _ _ _ Hs) as [Hsave Hw].
    refine (conj (apply_op_ok _ _ _ Hok Hsave) (conj (fetch_fresh _) _)).
    by rewrite Hw.
Qed.

(** ** Runs *)

Definition empty_remote : Remote := {| r_rw := emptyNode; r_price := None |}.

(** The page renders before each event of the run. *)
Fixpoint runs_rendering (r : Remote) (p : PageState) (es : list PageEvent) : bool :=
  match es with
  | [] => true
  | e :: es' => renders p && (let rp := page_step r p e in runs_rendering rp.1 rp.2 es')
  end.

(** The natural first action on an empty database: open the rates tab
    and add a metric with the given name and description. *)
Definition first_metric_events (name desc uuid : string) : list PageEvent :=
  [Mount; SelectTab TabRates; MetricInput (SetName name); MetricInput (SetDescription desc); SubmitMetric uuid].

(** A stored node with metrics but no weights: its [weights] child does not exist. *)
Definition metrics_without_weights (n : RWNode) : Prop := n_metrics n ≠ ∅ ∧ n_weights n = ∅.

Lemma fetch_no_weights n : metrics_without_weights n → v_weights (fetchRatesAndWeights n) = None.
Proof.
  intros [Hm Hw]. unfold fetchRatesAndWeights, node_exists.
  assert (map_is_empty (n_metrics n) = false) as ->.
  { destruct (map_is_empty _) eqn:E; [|done]. by apply map_is_empty_spec in E. }
  simpl. unfold child. by rewrite Hw.
Qed.

Lemma page_render_no_weights p : v_weights (ps_rw p) = None → ∃ msg, page_render p = Throw (TypeError msg).
Proof. intros H. unfold page_render. rewrite H. by eexists. Qed.

Lemma mount_no_weights r p :
  metrics_without_weights (r_rw r) → ∃ msg, page_render (page_step r p Mount).2 = Throw (TypeError msg).
Proof. intros H. apply page_render_no_weights. simpl. by apply fetch_no_weights. Qed.

(** Adding the first metric stores it without any weight, and the page
    shows the node fetched after the write. *)
Lemma first_metric_run name desc uuid :
  name ≠ "" → desc ≠ "" →
  ∃ n p, page_run empty_remote page_initial (first_metric_events name desc uuid) = ({| r_rw := n; r_price := None |}, p) ∧
         metrics_without_weights n ∧ ps_rw p = fetchRatesAndWeights n.
Proof.
  intros Hn Hd. unfold page_run, first_metric_events. cbn [foldl].
  cbn [page_step fst snd ps_metricForm]. unfold MetricForm_handleSubmit, MetricForm_submit.
  cbn [MetricForm_onChange mf_name mf_description].
  rewrite !bool_decide_false by done. cbn [orb].
  match goal with |- context [saveMetric ?m ?n] =>
    rewrite (proj2 (saveMetric_spec m n _) (conj (eq_refl : metric_finite m = true) eq_refl)) end. cbn [fo_remote fo_saved set_rw_node r_rw r_price fst snd ps_rw].
  eexists _, _. split; [reflexivity|]. split; [|reflexivity]. split; [apply insert_non_empty|reflexivity].
Qed.

(** C13: on an empty database, adding the first metric (any name and
    description the form accepts) breaks the page for good: the run
    renders before each of its events, the store then has metrics but no
    weights, the re-fetched value has no [weights] field, and the render
    throws a [TypeError], both right after the submit and on every later
    load of the page, whatever the page's state. *)
Theorem first_metric_breaks_page name desc uuid :
  name ≠ "" → desc ≠ "" →
  let rp := page_run empty_remote page_initial (first_metric_events name desc uuid) in
  runs_rendering empty_remote page_initial (first_metric_events name desc uuid) = true ∧
  (∃ msg, page_render rp.2 = Throw (TypeError msg)) ∧
  ∀ p, ∃ msg, page_render (page_step rp.1 p Mount).2 = Throw (TypeError msg).
Proof.
  intros Hn Hd. destruct (first_metric_run name desc uuid Hn Hd) as (n & p & Hrun & Hbad & Hrw).
  cbv zeta. rewrite Hrun. split; [reflexivity|]. split.
  - apply page_render_no_weights. cbn [snd]. rewrite Hrw. by apply fetch_no_weights.
  - intros p'. by apply mount_no_weights.
Qed.

Lemma first_metric_breaks_page_witness :
  ∃ msg, page_render (page_run empty_remote page_initial
                        (first_metric_events "Volume" "Daily transfer volume" "u1")).2 = Throw (TypeError msg).
Proof. apply (first_metric_breaks_page "Volume" "Daily transfer volume" "u1"); discriminate. Defined.

Definition oversized_setup_events : list PageEvent :=
  [Mount; SelectTab TabRates; EditInitialRate (Fin 50); EditInitialWeight (Fin 150); SubmitInitialSetup].

(** "Initialize System" writes its weight without the 100% check:
    an initial weight of 150 is stored, and the page keeps rendering. *)
Example initial_setup_bypasses_cap :
  runs_rendering empty_remote page_initial oversized_setup_events = true ∧
  weightSum (n_weights (r_rw (page_run empty_remote page_initial oversized_setup_events).1)) ≡ Fin 150 ∧
  validateWeights (n_weights (r_rw (page_run empty_remote page_initial oversized_setup_events).1)) = false ∧
  renders (page_run empty_remote page_initial oversized_setup_events).2 = true.
Proof. vm_compute. repeat split; reflexivity. Qed.

(** ** Scheduling several pages *)

Inductive action : Type :=
| Open
| Act (i : nat) (e : PageEvent).

Definition sys_do (s : System) (a : action) : option System :=
  match a with
  | Open => Some {| sys_remote := sys_remote s; sys_pages := sys_pages s ++ [page_initial] |}
  | Act i e =>
      match sys_pages s !! i with
      | Some p =>
          if renders p then
            Some {| sys_remote := (page_step (sys_remote s) p e).1;
                    sys_pages := <[i:=(page_step (sys_remote s) p e).2]> (sys_pages s) |}
          else None
      | None => None
      end
  end.

(** "Initialize System" with a weight of at most 100, or any other event:
    the events after which every stored weight passed a 100% check. *)
Definition initial_within_cap (p : PageState) (e : PageEvent) : bool :=
  match e with
  | SubmitInitialSetup => match ps_initialWeight p with Fin q => Qle_bool q 100 | NaN => false end
  | _ => true
  end.

(** The system's steps restricted to those events. *)
Inductive sys_step_capped : System → System → Prop :=
| capped_open s :
    sys_step_capped s {| sys_remote := sys_remote s; sys_pages := sys_pages s ++ [page_initial] |}
| capped_event s i p e r' p' :
    sys_pages s !! i = Some p →
    renders p = true →
    initial_within_cap p e = true →
    page_step (sys_remote s) p e = (r', p') →
    sys_step_capped s {| sys_remote := r'; sys_pages := <[i:=p']> (sys_pages s) |}.

Definition sys_do_capped (s : System) (a : action) : option System :=
  match a with
  | Act i e => match sys_pages s !! i with
               | Some p => if initial_within_cap p e then sys_do s a else None
               | None => None
               end
  | Open => sys_do s a
  end.

(** A schedule of actions run by a step function, [None] at the first
    action it refuses. *)
Fixpoint sys_exec_with (step : System → action → option System) (s : System) (acts : list action) : option System :=
  match acts with
  | [] => Some s
  | a :: acts' => match step s a with Some s' => sys_exec_with step s' acts' | None => None end
  end.

(** A capped step is a step of the system. *)
Lemma sys_step_capped_sub s s' : sys_step_capped s s' → sys_step s s'.
Proof. destruct 1; [constructor | eapply sys_event; eauto]. Qed.

Lemma sys_do_capped_step s a s' : sys_do_capped s a = Some s' → sys_step_capped s s'.
Proof.
  destruct a as [|i e]; simpl; [intros [= <-]; constructor|].
  destruct (sys_pages s !! i) as [p|] eqn:Hp; [|discriminate].
  destruct (initial_within_cap p e) eqn:Hc; [|discriminate].
  destruct (renders p) eqn:Hr; [|discriminate]. intros [= <-].
  eapply capped_event; [exact Hp | exact Hr | exact Hc | apply surjective_pairing].
Qed.

Lemma sys_exec_with_rtc (R : relation System) step s acts s' :
  (∀ s a s', step s a = Some s' → R s s') → sys_exec_with step s acts = Some s' → rtc R s s'.
Proof.
  intros Hstep. revert s. induction acts as [|a acts IH]; intros s; simpl; [intros [= <-]; reflexivity|].
  destruct (step s a) as [s1|] eqn:Hs1; [|discriminate].
  intros Hrun. eapply rtc_l; [exact (Hstep _ _ _ Hs1) | exact (IH _ Hrun)].
Qed.

(** Administrator 0 initializes the system with weight 40 and adds a
    metric [u2]; administrator 1 opens the page; 0 gives [u2] 60 (total
    100); 1, whose snapshot still reads [{initial: 40}], raises [initial]
    to 100. *)
Definition two_admins : list action :=
  [Open; Act 0 Mount; Act 0 (SelectTab TabRates); Act 0 (EditInitialRate (Fin 50));
   Act 0 (EditInitialWeight (Fin 40)); Act 0 SubmitInitialSetup;
   Act 0 (MetricInput (SetName "Volume")); Act 0 (MetricInput (SetDescription "Daily volume"));
   Act 0 (SubmitMetric "u2");
   Open; Act 1 Mount; Act 1 (SelectTab TabRates);
   Act 0 (WeightInput (SelectMetric "u2")); Act 0 (WeightInput (SetWeightValue (Fin 60))); Act 0 SubmitWeight;
   Act 1 (WeightInput (SelectMetric "initial")); Act 1 (WeightInput (SetWeightValue (Fin 100)));
   Act 1 SubmitWeight].

Definition two_admins_final : System :=
  match sys_exec_with sys_do_capped init_system two_admins with Some s => s | None => init_system end.

(** C14: two administrators break the 100% cap that one cannot: in a run
    where every page renders before each of its events, "Initialize
    System" writes a weight of at most 100, and every weight submission
    passes [WeightForm]'s check against its own page's snapshot, the two
    open pages leave stored weights summing to 160.  (With a single page
    the same events keep the sum at most 100, [single_admin_cap].) *)
Theorem two_admins_exceed_cap :
  ∃ s, rtc sys_step_capped init_system s ∧ length (sys_pages s) = 2%nat ∧
       weightSum (n_weights (r_rw (sys_remote s))) ≡ Fin 160.
Proof.
  exists two_admins_final. split; [|split].
  - apply (sys_exec_with_rtc _ sys_do_capped _ two_admins); [exact sys_do_capped_step|]. vm_compute. reflexivity.
  - vm_compute. reflexivity.
  - vm_compute. reflexivity.
Qed.

Lemma empty_remote_inv : admin_inv empty_remote page_initial.
Proof.
  refine (conj emptyNode_ok (conj _ _)); [reflexivity|].
  exists 0. split; [reflexivity | lra].
Qed.

Lemma single_admin_cap_witness :
  admin_inv (page_step empty_remote page_initial Mount).1 (page_step empty_remote page_initial Mount).2.
Proof.
  apply (single_admin_cap empty_remote page_initial Mount).
  - exact empty_remote_inv.
  - discriminate.
Defined.

(** Initializing the system with rate 50 and weight 40 on an empty
    database shows a daily rate of 0.2000 on the rates tab: the initial
    metric's range is 0 to 100, so its normalized reading 0.5 weighted by
    40% is added to the baseline 0. *)
Example initial_setup_daily_rate :
  daily_rate_text
    (page_run empty_remote page_initial
       [Mount; EditInitialRate (Fin 50); EditInitialWeight (Fin 40); SubmitInitialSetup; SelectTab TabRates]).2
  = Ok (Some "0.2000").
Proof. vm_compute. reflexivity. Qed.
