(* ===== verification/Auth.v ===== *)
(** * Authentication: [auth/authService.ts], [auth/AuthContext.tsx],
      [components/ProtectedRoute.tsx], [lib/api.ts], [pages/Login]

    The singleton [authService] keeps a token and a user, both plain
    objects, and mirrors them in [localStorage] as JSON text ([Auth]: its
    two fields and the storage).  [login] posts the credentials and, on a
    response it can read, builds the token ([expiresAt] one hour after
    [Date.now()]) and the user ([role] defaulting to ['user']); every
    failure clears the session.  [loadFromStorage] runs once, when the
    module is loaded, and drops an expired token.  [AuthProvider] copies
    the user into React state, [ProtectedRoute] gates the dashboard on that
    user, and the axios instance of [lib/api.ts] reads the stored token
    text for its [Authorization] header.  Time ([Date.now()]) and the
    server's responses are arguments. *)

From S2P Require Import Prelude Json.

Local Open Scope string_scope.

Definition TOKEN_KEY : string := "auth_token".
Definition REFRESH_TOKEN_KEY : string := "refresh_token".
Definition USER_KEY : string := "auth_user".

Abbreviation storage := (gmap string string).

(** The service's two fields and [localStorage]. *)
Record Auth : Type := {
  a_token : option jobj;
  a_user : option jobj;
  a_storage : storage
}.

Record LoginCredentials : Type := { email : string; password : string }.

(** What [fetch] gives: a rejection, or a response with its [ok] flag, its
    status and its body read by [response.json()] ([None]: not a JSON
    object, and [json()] rejects with a [SyntaxError]). *)
Inductive fetch_result : Type :=
| FetchRejected (msg : string)
| FetchResponse (ok : bool) (status : Z) (body : option jobj).

Definition json_error_msg : string := "Unexpected token in JSON".

Definition clearAuth (a : Auth) : Auth :=
  {| a_token := None; a_user := None;
     a_storage := delete USER_KEY (delete REFRESH_TOKEN_KEY (delete TOKEN_KEY (a_storage a))) |}.

Definition saveToStorage (a : Auth) : Auth :=
  let st1 := match a_token a with Some t => <[TOKEN_KEY := stringify_obj t]> (a_storage a) | None => a_storage a end in
  let st2 := match a_user a with Some u => <[USER_KEY := stringify_obj u]> st1 | None => st1 end in
  {| a_token := a_token a; a_user := a_user a; a_storage := st2 |}.

(** [if (s)] on [localStorage.getItem(k)]: absent and empty are falsy. *)
Definition stored (st : storage) (k : string) : option string :=
  match st !! k with Some "" | None => None | Some s => Some s end.

(** The constructor's [loadFromStorage], on a fresh service; [Throw] is the
    [SyntaxError] of [JSON.parse] on stored text that is not an object.
    [JSON.parse] also accepts the texts of [null], numbers, strings and
    arrays, which are read here as errors too; the service itself only
    ever stores the JSON text of objects ([saveToStorage]). *)
Definition loadFromStorage (now : Z) (st : storage) : jsres Auth :=
  let a0 := {| a_token := None; a_user := None; a_storage := st |} in
  let load_user (a : Auth) : jsres Auth :=
    match stored st USER_KEY with
    | Some s =>
        match parse_obj_text s with
        | Some u => Ok {| a_token := a_token a; a_user := Some u; a_storage := a_storage a |}
        | None => Throw (SyntaxError json_error_msg)
        end
    | None => Ok a
    end in
  match stored st TOKEN_KEY with
  | Some s =>
      match parse_obj_text s with
      | Some t =>
          if jprim_lt (jget "expiresAt" t) now then Ok (clearAuth a0)
          else load_user {| a_token := Some t; a_user := None; a_storage := st |}
      | None => Throw (SyntaxError json_error_msg)
      end
  | None => load_user a0
  end.

(** [JSON.stringify({email, password})], the request body. *)
Definition login_body (c : LoginCredentials) : string :=
  stringify_obj [("email", JStr (email c)); ("password", JStr (password c))].

(** [{token: data.token, expiresAt}]; an [undefined] property is left out. *)
Definition token_obj (tok : option jprim) (expiresAt : Z) : jobj :=
  app (match tok with Some t => [("token", t)] | None => [] end) [("expiresAt", JNum expiresAt)].

(** [{id: data.userId, role: data.role || 'user'}]. *)
Definition user_obj (id : option jprim) (role : option jprim) : jobj :=
  app (match id with Some i => [("id", i)] | None => [] end)
      [("role", if jtruthy role then default (JStr "user") role else JStr "user")].

(** The value [login] resolves to: [{user, error}]. *)
Record LoginResponse : Type := { lr_user : option jobj; lr_error : option string }.

(** [login(credentials)] at time [now] ([Date.now()]), given what the
    request to the login endpoint gives. *)
Definition login (now : Z) (c : LoginCredentials) (r : fetch_result) (a : Auth) : Auth * LoginResponse :=
  let fail (msg : string) :=
    (clearAuth a, {| lr_user := None; lr_error := Some (if bool_decide (msg = "") then "Login failed" else msg) |}) in
  match r with
  | FetchRejected msg => fail msg
  | FetchResponse false status None => fail json_error_msg
  | FetchResponse false status (Some errorData) =>
      fail (if jtruthy (jget "message" errorData) then template (jget "message" errorData)
            else "HTTP error! status: " ++ print_Z status)
  | FetchResponse true _ None => fail json_error_msg
  | FetchResponse true _ (Some data) =>
      let a' := saveToStorage {| a_token := Some (token_obj (jget "token" data) (now + 3600000)%Z);
                                 a_user := Some (user_obj (jget "userId" data) (jget "role" data));
                                 a_storage := a_storage a |} in
      (a', {| lr_user := a_user a'; lr_error := None |})
  end.

(** [logout()]: the [Authorization] header of the request it sends, if it
    sends one (whatever the request gives, [finally] clears the session). *)
Definition logout (a : Auth) : Auth * option string :=
  (clearAuth a, match a_token a with Some t => Some ("Bearer " ++ template (jget "token" t)) | None => None end).

Definition getToken (a : Auth) : option jprim :=
  match a_token a with
  | Some t => if jtruthy (jget "token" t) then jget "token" t else None
  | None => None
  end.

Definition getUser (a : Auth) : option jobj := a_user a.

Definition isAuthenticated (a : Auth) : bool := bool_decide (is_Some (a_token a) ∧ is_Some (a_user a)).

(** [this.user?.role === role]. *)
Definition hasRole (a : Auth) (role : string) : bool :=
  match a_user a with Some u => bool_decide (jget "role" u = Some (JStr role)) | None => false end.

Definition isAdmin (a : Auth) : bool := hasRole a "admin" || hasRole a "super_admin".

Definition isSuperAdmin (a : Auth) : bool := hasRole a "super_admin".

(** ** [AuthProvider] *)

Record AuthState : Type := {
  st_user : option jobj;
  st_token : option jobj;
  st_isLoading : bool;
  st_error : option string
}.

Definition AuthProvider_init (a : Auth) : AuthState :=
  {| st_user := getUser a; st_token := None; st_isLoading := false; st_error := None |}.

(** The mount effect: copies [authService.getUser()] again when it is set. *)
Definition AuthProvider_mount (a : Auth) (st : AuthState) : AuthState :=
  match getUser a with
  | Some u => {| st_user := Some u; st_token := st_token st; st_isLoading := st_isLoading st; st_error := st_error st |}
  | None => st
  end.

(** The context's [login] before its [await] ... *)
Definition ctx_login_start (st : AuthState) : AuthState :=
  {| st_user := st_user st; st_token := st_token st; st_isLoading := true; st_error := None |}.

(** ... and after it: [authService.login] does not throw, so the [catch]
    of the context is never taken. *)
Definition ctx_login_finish (now : Z) (c : LoginCredentials) (r : fetch_result) (a : Auth) (st : AuthState) :
    Auth * AuthState * LoginResponse :=
  let '(a', res) := login now c r a in
  (a', {| st_user := lr_user res; st_token := st_token st; st_isLoading := false; st_error := lr_error res |}, res).

Definition ctx_logout_start (st : AuthState) : AuthState :=
  {| st_user := st_user st; st_token := st_token st; st_isLoading := true; st_error := st_error st |}.

Definition ctx_logout_finish (a : Auth) : Auth * AuthState :=
  ((logout a).1, {| st_user := None; st_token := None; st_isLoading := false; st_error := None |}).

(** ** [ProtectedRoute] and the route table of [App.tsx] *)

Inductive route_view : Type :=
| ShowLoading
| RedirectLogin
| RedirectHome
| ShowChildren.

#[export] Instance route_view_eq_dec : EqDecision route_view.
Proof. solve_decision. Defined.

(** [isAdmin] and [isSuperAdmin] of the context ask [authService], not
    the context's [user]. *)
Definition ProtectedRoute (requireAdmin requireSuperAdmin : bool) (st : AuthState) (a : Auth) : route_view :=
  if st_isLoading st then ShowLoading
  else match st_user st with
       | None => RedirectLogin
       | Some _ =>
           if requireSuperAdmin && negb (isSuperAdmin a) then RedirectHome
           else if requireAdmin && negb (isAdmin a) then RedirectHome
           else ShowChildren
       end.

Inductive Page : Type :=
| PDashboard | PUsers | PTransactions | PAPIManagement | PTokenOperations
| PDistribution | PDeploy | PTokenomics.

Inductive app_view : Type :=
| ViewLoading
| ViewRedirect (to : string)
| ViewLoginForm
| ViewPage (p : Page).

(** The routes inside [<ProtectedRoute><Layout/></ProtectedRoute>]. *)
Definition protected_routes : list (string * Page) :=
  [("/", PDashboard); ("/users", PUsers); ("/transactions", PTransactions);
   ("/api-management", PAPIManagement); ("/token-operations", PTokenOperations);
   ("/distribution", PDistribution); ("/deploy", PDeploy); ("/tokenomics", PTokenomics)].

(** [pages/Login/index.tsx]. *)
Definition Login_view (st : AuthState) : app_view :=
  if st_isLoading st then ViewLoading
  else match st_user st with Some _ => ViewRedirect "/" | None => ViewLoginForm end.

(** What [App] shows at [path]; [None]: no route matches. *)
Definition App_view (path : string) (st : AuthState) (a : Auth) : option app_view :=
  if bool_decide (path = "/login") then Some (Login_view st)
  else match list_find (λ r, r.1 = path) protected_routes with
       | Some (_, (_, p)) =>
           Some match ProtectedRoute false false st a with
                | ShowLoading => ViewLoading
                | RedirectLogin => ViewRedirect "/login"
                | RedirectHome => ViewRedirect "/"
                | ShowChildren => ViewPage p
                end
       | None => None
       end.

(** ** The axios instance of [lib/api.ts] *)

(** The request interceptor: the [Authorization] header it sets. *)
Definition api_auth_header (st : storage) : option string :=
  match stored st TOKEN_KEY with Some token => Some ("Bearer " ++ token) | None => None end.

Inductive api_error : Type :=
| ErrResponse (status : Z) (message : option jprim)
| ErrNoResponse
| ErrSetup.

(** The response interceptor: the toast it shows before rejecting. *)
Definition api_error_toast (e : api_error) : string :=
  match e with
  | ErrResponse 401 _ => "Authentication required. Please log in again."
  | ErrResponse 403 _ => "You do not have permission to perform this action."
  | ErrResponse 429 _ => "Rate limit exceeded. Please try again later."
  | ErrResponse _ m => if jtruthy m then template m else "An error occurred"
  | ErrNoResponse => "Network error. Please check your connection."
  | ErrSetup => "An unexpected error occurred."
  end.

(** ** [useLogin] *)

Record LoginHookState : Type := { lh_error : option string; lh_isLoading : bool }.

(** [handleLogin]: the new hook state and the value it resolves to. *)
Definition handleLogin (now : Z) (c : LoginCredentials) (r : fetch_result) (a : Auth) :
    Auth * LoginHookState * bool :=
  let '(a', res) := login now c r a in
  match lr_error res with
  | Some e => (a', {| lh_error := Some e; lh_isLoading := false |}, false)
  | None => (a', {| lh_error := None; lh_isLoading := false |}, true)
  end.

(** ** Lemmas *)

Lemma stringify_obj_nonempty o : stringify_obj o ≠ "".
Proof. unfold stringify_obj. discriminate. Qed.

Lemma stored_insert st k s : s ≠ "" → stored (<[k:=s]> st) k = Some s.
Proof. intros Hs. unfold stored. rewrite lookup_insert_eq. by destruct s. Qed.

Lemma stored_insert_ne st k k' s : k ≠ k' → stored (<[k:=s]> st) k' = stored st k'.
Proof. intros Hk. unfold stored. by rewrite lookup_insert_ne. Qed.

Lemma stored_delete st k : stored (delete k st) k = None.
Proof. unfold stored. by rewrite lookup_delete_eq. Qed.

Lemma stored_delete_ne st k k' : k ≠ k' → stored (delete k st) k' = stored st k'.
Proof. intros Hk. unfold stored. by rewrite lookup_delete_ne. Qed.

Lemma jget_token_expiresAt tok e : jget "expiresAt" (token_obj tok e) = Some (JNum e).
Proof. by destruct tok. Qed.

Lemma jget_token_token tok e : jget "token" (token_obj tok e) = tok.
Proof. by destruct tok. Qed.

(** What a successful [login] leaves behind. *)
Lemma login_ok now c status data a :
  login now c (FetchResponse true status (Some data)) a =
    (let t := token_obj (jget "token" data) (now + 3600000)%Z in
     let u := user_obj (jget "userId" data) (jget "role" data) in
     ({| a_token := Some t; a_user := Some u;
         a_storage := <[USER_KEY := stringify_obj u]> (<[TOKEN_KEY := stringify_obj t]> (a_storage a)) |},
      {| lr_user := Some u; lr_error := None |})).
Proof. reflexivity. Qed.

Definition login_succeeds (r : fetch_result) : bool :=
  match r with FetchResponse true _ (Some _) => true | _ => false end.

(** Every other outcome clears the session and reports a non-empty message. *)
Lemma login_fail now c r a :
  login_succeeds r = false →
  ∃ msg, msg ≠ "" ∧ login now c r a = (clearAuth a, {| lr_user := None; lr_error := Some msg |}).
Proof.
  intros Hr.
  assert (Hfail : ∀ m : string, (if bool_decide (m = "") then "Login failed" else m) ≠ "").
  { intros m. case_bool_decide; [discriminate | done]. }
  destruct r as [m|[] status [body|]]; try discriminate; eexists; (split; [apply Hfail | reflexivity]).
Qed.

Lemma clearAuth_stored a k :
  k ∈ [TOKEN_KEY; REFRESH_TOKEN_KEY; USER_KEY] → stored (a_storage (clearAuth a)) k = None.
Proof.
  rewrite !elem_of_cons, elem_of_nil. intros [->|[->|[->|[]]]]; simpl;
    rewrite ?stored_delete_ne, ?stored_delete by done; done.
Qed.

(** A storage without a session loads as no session. *)
Lemma loadFromStorage_cleared now st :
  stored st TOKEN_KEY = None → stored st USER_KEY = None →
  loadFromStorage now st = Ok {| a_token := None; a_user := None; a_storage := st |}.
Proof. intros Ht Hu. unfold loadFromStorage. by rewrite Ht, Hu. Qed.

(** The session a successful [login] stores reads back from storage. *)
Lemma reload_after_login now later c status data a :
  let a' := (login now c (FetchResponse true status (Some data)) a).1 in
  loadFromStorage later (a_storage a') =
    Ok (if bool_decide (now + 3600000 < later)%Z
        then clearAuth {| a_token := None; a_user := None; a_storage := a_storage a' |}
        else a').
Proof.
  rewrite login_ok. cbn zeta. cbn [fst a_storage].
  set (t := token_obj _ _). set (u := user_obj _ _).
  unfold loadFromStorage. cbv zeta.
  rewrite stored_insert_ne by done. rewrite stored_insert by apply stringify_obj_nonempty.
  rewrite parse_stringify. unfold t at 1. rewrite jget_token_expiresAt. cbn [jprim_lt].
  case_bool_decide as Hexp; [by rewrite (proj2 (Z.ltb_lt _ _) Hexp)|].
  rewrite (proj2 (Z.ltb_ge _ _)) by lia.
  rewrite stored_insert by apply stringify_obj_nonempty. by rewrite parse_stringify.
Qed.

Lemma ProtectedRoute_open st a :
  st_isLoading st = false → is_Some (st_user st) → ProtectedRoute false false st a = ShowChildren.
Proof. intros Hl [u Hu]. unfold ProtectedRoute. by rewrite Hl, Hu. Qed.

(** Every protected path shows its page to a loaded user, whatever the role. *)
Lemma App_view_protected path p st a :
  (path, p) ∈ protected_routes → st_isLoading st = false → is_Some (st_user st) →
  App_view path st a = Some (ViewPage p).
Proof.
  intros Hin Hl Hu. unfold App_view. rewrite (ProtectedRoute_open st a Hl Hu).
  unfold protected_routes in Hin.
  repeat (apply elem_of_cons in Hin as [Hin|Hin]; [injection Hin as -> ->; reflexivity|]).
  by apply elem_of_nil in Hin.
Qed.

Lemma App_view_no_user path p st a :
  (path, p) ∈ protected_routes → st_isLoading st = false → st_user st = None →
  App_view path st a = Some (ViewRedirect "/login").
Proof.
  intros Hin Hl Hu. unfold App_view, ProtectedRoute. rewrite Hl, Hu.
  unfold protected_routes in Hin.
  repeat (apply elem_of_cons in Hin as [Hin|Hin]; [injection Hin as -> ->; reflexivity|]).
  by apply elem_of_nil in Hin.
Qed.

(** C15: a session lasts one hour only across reloads.  After a successful
    login, the stored session reads back unchanged and the dashboard shows
    on a reload up to [expiresAt]; a reload after it finds no session and
    redirects to the login page.  Without a reload nothing checks the
    expiry: the page state the login produced shows the dashboard, with no
    time involved. *)
Theorem session_expires_only_on_reload now later c status data a st :
  let '(a', st', _) := ctx_login_finish now c (FetchResponse true status (Some data)) a st in
  App_view "/" st' a' = Some (ViewPage PDashboard) ∧
  ((later <= now + 3600000)%Z →
     loadFromStorage later (a_storage a') = Ok a' ∧
     App_view "/" (AuthProvider_init a') a' = Some (ViewPage PDashboard)) ∧
  ((now + 3600000 < later)%Z →
     ∃ a'', loadFromStorage later (a_storage a') = Ok a'' ∧ a_token a'' = None ∧ a_user a'' = None ∧
            App_view "/" (AuthProvider_init a'') a'' = Some (ViewRedirect "/login")).
Proof.
  unfold ctx_login_finish.
  pose proof (reload_after_login now later c status data a) as Hre. cbv zeta in Hre.
  destruct (login now c (FetchResponse true status (Some data)) a) as [a' res] eqn:Hl.
  rewrite login_ok in Hl. injection Hl as <- <-. cbn [fst] in Hre.
  split; [|split].
  - apply App_view_protected; [by left | done | by eexists].
  - intros Hle. rewrite Hre, bool_decide_false by lia. split; [done|].
    apply App_view_protected; [by left | done | by eexists].
  - intros Hlt. rewrite Hre, bool_decide_true by lia.
    eexists; split; [reflexivity|]. split; [done|]. split; [done|].
    apply (App_view_no_user _ PDashboard); [by left | done | done].
Qed.

(** After a successful login the interceptor's header is ["Bearer "]
    followed by the stored JSON text of the token object. *)
Lemma login_header now c status data a :
  api_auth_header (a_storage (login now c (FetchResponse true status (Some data)) a).1) =
    Some ("Bearer " ++ stringify_obj (token_obj (jget "token" data) (now + 3600000)%Z)).
Proof.
  rewrite login_ok. cbn [fst a_storage]. unfold api_auth_header.
  rewrite stored_insert_ne by done. by rewrite stored_insert by apply stringify_obj_nonempty.
Qed.

(** C16: the axios interceptor sends the stored JSON text of the token
    object, not the token: after a successful login the [Authorization]
    header is ["Bearer "] followed by [JSON.stringify(token)], and it is
    never ["Bearer "] followed by the token string the server returned. *)
Theorem auth_header_is_token_json now c status data a :
  let a' := (login now c (FetchResponse true status (Some data)) a).1 in
  api_auth_header (a_storage a') =
    Some ("Bearer " ++ stringify_obj (token_obj (jget "token" data) (now + 3600000)%Z)) ∧
  ∀ t, jget "token" data = Some (JStr t) → api_auth_header (a_storage a') ≠ Some ("Bearer " ++ t).
Proof.
  cbv zeta. rewrite login_header. split; [done|]. intros t Ht [= Heq]. change ("" ++ ?x = "" ++ ?y) with (x = y) in Heq.
  pose proof (stringify_longer_than_field "token" t [] [("expiresAt", JNum (now + 3600000)%Z)]) as Hlen.
  rewrite Ht in Heq. unfold token_obj in Heq. simpl app in Hlen, Heq. rewrite Heq in Hlen. lia.
Qed.

Lemma clearAuth_no_session now a :
  loadFromStorage now (a_storage (clearAuth a)) = Ok {| a_token := None; a_user := None; a_storage := a_storage (clearAuth a) |} ∧
  api_auth_header (a_storage (clearAuth a)) = None.
Proof.
  rewrite loadFromStorage_cleared by (apply clearAuth_stored; set_solver).
  unfold api_auth_header. by rewrite clearAuth_stored by set_solver.
Qed.

(** C17: [logout] ends the session whatever its request gives: both
    fields are [null], none of the three keys is left in storage, so a
    reload finds no session and the interceptor sends no header; the
    logout request itself is sent exactly when there was a token. *)
Theorem logout_ends_session now a :
  let '(a', header) := logout a in
  a_token a' = None ∧ a_user a' = None ∧
  (∀ k, k ∈ [TOKEN_KEY; REFRESH_TOKEN_KEY; USER_KEY] → stored (a_storage a') k = None) ∧
  loadFromStorage now (a_storage a') = Ok {| a_token := None; a_user := None; a_storage := a_storage a' |} ∧
  api_auth_header (a_storage a') = None ∧
  (is_Some header ↔ is_Some (a_token a)).
Proof.
  unfold logout. destruct (clearAuth_no_session now a) as [Hload Hhdr].
  split; [done|]. split; [done|]. split; [intros k; apply clearAuth_stored|].
  split; [done|]. split; [done|]. destruct (a_token a); [split; by eexists | split; intros [? ?]; discriminate].
Qed.

Lemma jget_user_role id role :
  jget "role" (user_obj id role) = Some (if jtruthy role then default (JStr "user") role else JStr "user").
Proof. by destruct id. Qed.

(** C18: the route table never asks for a role.  A login whose response
    carries no [role] gives a user with role ['user'] (the type [AuthUser]
    allows only ['admin'] and ['super_admin']), who is neither admin nor
    super admin and still gets every page of the dashboard. *)
Theorem default_role_sees_every_page now c status data a st path p :
  jget "role" data = None → (path, p) ∈ protected_routes →
  let '(a', st', _) := ctx_login_finish now c (FetchResponse true status (Some data)) a st in
  hasRole a' "user" = true ∧ isAdmin a' = false ∧ isSuperAdmin a' = false ∧
  App_view path st' a' = Some (ViewPage p).
Proof.
  intros Hrole Hin. unfold ctx_login_finish. rewrite login_ok. cbv zeta.
  unfold isAdmin, isSuperAdmin, hasRole. cbn [a_user]. rewrite jget_user_role, Hrole.
  split; [done|]. split; [done|]. split; [done|].
  apply App_view_protected; [done | done | by eexists].
Qed.

Lemma default_role_sees_every_page_witness :
  jget "role" [("token", JStr "t0"); ("userId", JStr "u0")] = None ∧
  ("/users", PUsers) ∈ protected_routes ∧
  (let '(a', st', _) := ctx_login_finish 0 {| email := "e"; password := "p" |}
        (FetchResponse true 200 (Some [("token", JStr "t0"); ("userId", JStr "u0")]))
        {| a_token := None; a_user := None; a_storage := ∅ |}
        (AuthProvider_init {| a_token := None; a_user := None; a_storage := ∅ |}) in
   hasRole a' "user" = true ∧ isAdmin a' = false ∧ isSuperAdmin a' = false ∧
   App_view "/users" st' a' = Some (ViewPage PUsers)).
Proof.
  assert (Hr : jget "role" [("token", JStr "t0"); ("userId", JStr "u0")] = None) by reflexivity.
  assert (Hin : ("/users", PUsers) ∈ protected_routes) by (unfold protected_routes; set_solver).
  split; [exact Hr|]. split; [exact Hin|].
  exact (default_role_sees_every_page 0 {| email := "e"; password := "p" |} 200 _
    {| a_token := None; a_user := None; a_storage := ∅ |}
    (AuthProvider_init {| a_token := None; a_user := None; a_storage := ∅ |}) "/users" PUsers Hr Hin).
Defined.

(** [useLogin]'s [handleLogin] resolves to [true] exactly when the
    server answered [ok] with a readable body; it always ends with
    [isLoading] false; on [false] its [error] holds a non-empty message and
    the service's session has been cleared (the [catch] of [handleLogin]
    is never reached: [authService.login] does not throw). *)
Theorem handleLogin_outcome now c r a :
  let '(a', hs, ok) := handleLogin now c r a in
  ok = login_succeeds r ∧ lh_isLoading hs = false ∧ (lh_error hs = None ↔ ok = true) ∧
  (ok = false → a' = clearAuth a ∧ ∃ m, m ≠ "" ∧ lh_error hs = Some m).
Proof.
  unfold handleLogin. destruct (login_succeeds r) eqn:Hs.
  - destruct r as [|[] status [data|]]; try discriminate. rewrite login_ok. cbv zeta. cbn.
    split; [done|]. split; [done|]. split; [done|]. discriminate.
  - destruct (login_fail now c r a Hs) as (m & Hm & ->). cbn.
    split; [done|]. split; [done|]. split; [split; discriminate|]. intros _. split; [done|]. by exists m.
Qed.
