(* ===== verification/ContractService.v ===== *)
(** * The deployment API client: [services/contractService.ts] over the
      axios instance of [lib/api.ts]

    Each function sends one request through [api] and resolves to
    [response.data].  A request is a value ([ApiRequest]): method, full
    URL, body, and the [Authorization] header that the request interceptor
    ([Auth.api_auth_header]) reads from [localStorage].  The server is a
    function from requests to answers; a failed request shows the toast
    of the response interceptor ([Auth.api_error_toast]) and rejects.  The
    identifiers are put into the URL unescaped ([url_path] reads the path
    the request reaches).  No
    component calls these functions: [ContractDashboard.handleDeploy]
    only logs ([Deploy]). *)

From S2P Require Import Prelude Json Auth.
From Stdlib Require Import Ascii.

Local Open Scope string_scope.

Inductive http_method : Type := GET | POST.

Record ApiRequest : Type := {
  rq_method : http_method;
  rq_url : string;
  rq_body : option jobj;
  rq_contentType : string;
  rq_authorization : option string
}.

Definition api_baseURL : string := "https://xlcapi.replit.app".

(** [api.get(path)] and [api.post(path, body)] with the instance's
    defaults and the request interceptor. *)
Definition api_request (st : storage) (m : http_method) (path : string) (body : option jobj) : ApiRequest :=
  {| rq_method := m; rq_url := api_baseURL ++ path; rq_body := body;
     rq_contentType := "application/json"; rq_authorization := api_auth_header st |}.

(** What the server answers: the response's data, or the error axios
    rejects with. *)
Inductive api_answer (A : Type) : Type :=
| Answered (data : A)
| Failed (e : api_error).
Arguments Answered {A} data.
Arguments Failed {A} e.

Definition axios_error : exn := JsError "AxiosError".

(** One call: the request sent, the toast of the response interceptor,
    and [response.data] or the rejection. *)
Definition api_call {A} (server : ApiRequest → api_answer A) (st : storage) (m : http_method) (path : string)
    (body : option jobj) : ApiRequest * option string * jsres A :=
  let rq := api_request st m path body in
  match server rq with
  | Answered d => (rq, None, Ok d)
  | Failed e => (rq, Some (api_error_toast e), Throw axios_error)
  end.

Section Service.
Context {A : Type} (server : ApiRequest → api_answer A) (st : storage).

Definition fetchContractTemplates := api_call server st GET "/contract-templates" None.

Definition deployContract (templateId : string) (parameters : jobj) :=
  api_call server st POST ("/contract-templates/" ++ templateId ++ "/deploy") (Some parameters).

Definition getDeploymentStatus (deploymentId : string) :=
  api_call server st GET ("/deployments/" ++ deploymentId) None.

Definition verifyContract (address network : string) :=
  api_call server st POST "/contract/verify" (Some [("address", JStr address); ("network", JStr network)]).

Definition getContractRegistry := api_call server st GET "/contract/registry" None.

End Service.

(** ** Theorems *)

Lemma api_call_request {A} (server : ApiRequest → api_answer A) st m path body :
  (api_call server st m path body).1.1 = api_request st m path body.
Proof. unfold api_call. by destruct (server _). Qed.

(** A deployment request goes to the template's deploy endpoint with the
    parameters as its body, and carries the header that the interceptor
    builds from the stored [auth_token]: after a login that is ["Bearer "]
    followed by the JSON text of the token object, after a logout there is
    none. *)
Theorem deploy_request_session {A} (server : ApiRequest → api_answer A) now c status data a templateId params :
  let a' := (login now c (FetchResponse true status (Some data)) a).1 in
  (deployContract server (a_storage a') templateId params).1.1 =
    {| rq_method := POST; rq_url := api_baseURL ++ "/contract-templates/" ++ templateId ++ "/deploy";
       rq_body := Some params; rq_contentType := "application/json";
       rq_authorization := Some ("Bearer " ++ stringify_obj (token_obj (jget "token" data) (now + 3600000)%Z)) |} ∧
  rq_authorization (deployContract server (a_storage (clearAuth a')) templateId params).1.1 = None.
Proof.
  cbv zeta. unfold deployContract. rewrite !api_call_request. split.
  - unfold api_request. by rewrite login_header.
  - exact (proj2 (clearAuth_no_session 0%Z _)).
Qed.

(** A failed call shows the interceptor's toast and rejects; a 401 only
    shows its toast: the session stays. *)
Lemma api_call_failure {A} st m path body e :
  api_call (λ _, @Failed A e) st m path body = (api_request st m path body, Some (api_error_toast e), Throw axios_error).
Proof. reflexivity. Qed.

(** The path of a URL: the text before its first [?] or [#] (the query
    and the fragment do not select the resource). *)
Fixpoint url_path (u : string) : string :=
  match u with
  | EmptyString => EmptyString
  | String c r => if Ascii.eqb c "?"%char || Ascii.eqb c "#"%char then EmptyString else String c (url_path r)
  end.

Definition no_query_mark (s : string) : Prop := url_path s = s.

Lemma url_path_app s t : no_query_mark s → url_path (s ++ t) = s ++ url_path t.
Proof.
  unfold no_query_mark. induction s as [|c s IH]; intros H; [done|]. simpl in *.
  destruct (Ascii.eqb c "?"%char || Ascii.eqb c "#"%char); [discriminate|]. injection H as H. by rewrite IH.
Qed.

(** [templateId] goes into the URL unescaped: an identifier holding a
    [?] cuts the path there, so the [POST] of [deployContract] reaches the
    template's own resource and ["/deploy"] becomes part of the query. *)
Theorem deploy_templateId_unescaped {A} (server : ApiRequest → api_answer A) st t rest params :
  no_query_mark t →
  url_path (rq_url (deployContract server st (t ++ "?" ++ rest) params).1.1) =
    api_baseURL ++ "/contract-templates/" ++ t.
Proof.
  intros Ht. unfold deployContract. rewrite api_call_request. cbn [api_request rq_url].
  rewrite !str_app_assoc, !url_path_app by (done || reflexivity). by rewrite str_app_nil.
Qed.

Lemma deploy_templateId_unescaped_witness :
  url_path (rq_url (deployContract (λ _, @Answered unit tt) ∅ ("erc20" ++ "?" ++ "v=2") []).1.1) =
    "https://xlcapi.replit.app/contract-templates/erc20".
Proof. apply (deploy_templateId_unescaped _ ∅ "erc20" "v=2" []). reflexivity. Defined.
