(* ===== verification/Wallet.v ===== *)
(** * The wallet: [web3/WalletContext.tsx], [web3/hooks/useWallet.ts],
      [web3/components/AccountSelector.tsx], [components/WalletConnect],
      [web3/constants.ts], [lib/web3/provider.ts], [utils/format.ts]

    The injected provider [window.ethereum] is one object shared by every
    component: its accounts and chain, the accounts it exposes to the
    page, and its list of event listeners ([Eth]).  [WalletProvider] (the
    context every page reads) and the hook [useWallet] of
    [web3/hooks/useWallet.ts] (which [AccountSelector] calls) are two
    copies of the same code, each with its own React state
    ([WalletState]); both register listeners on the shared object and the
    hook's cleanup calls [removeAllListeners()], which removes every
    listener of every owner.  [World] holds the shared object, the
    provider's state and the state of the mounted [AccountSelector], if
    any; [world_do] runs one user action or wallet event, and [reconcile]
    mounts or unmounts [AccountSelector] as [WalletConnect] renders. *)

From S2P Require Import Prelude Json.
From Stdlib Require Import Ascii.

Local Open Scope nat_scope.
Local Open Scope string_scope.

(** ** [parseInt(s, 16)] and [n.toString(16)] *)

Fixpoint skip_space (s : string) : string :=
  match s with
  | String c s' => if Ascii.is_space c then skip_space s' else s
  | EmptyString => EmptyString
  end.

(** The longest run of hexadecimal digits, read into [acc]. *)
Fixpoint hex_fold (s : string) (acc : N) : N * string :=
  match s with
  | String c s' =>
      match hex_val c with
      | Some v => hex_fold s' (16 * acc + N.of_nat v)%N
      | None => (acc, s)
      end
  | EmptyString => (acc, EmptyString)
  end.

Definition strip_sign (s : string) : bool * string :=
  match s with
  | String c r => if Ascii.eqb c "-" then (true, r) else if Ascii.eqb c "+" then (false, r) else (false, s)
  | EmptyString => (false, s)
  end.

Definition strip_0x (s : string) : string :=
  match s with
  | String "0" (String x r) => if Ascii.eqb x "x" || Ascii.eqb x "X" then r else s
  | _ => s
  end.

(** [parseInt(s, 16)]: leading white space, a sign, an optional [0x],
    then the longest run of hexadecimal digits; [NaN] when there is none. *)
Definition parseInt16 (s : string) : num :=
  let '(neg, s2) := strip_sign (skip_space s) in
  let s3 := strip_0x s2 in
  match s3 with
  | String c _ =>
      match hex_val c with
      | Some _ => let v := Z.of_N (hex_fold s3 0).1 in Fin (inject_Z (if neg then - v else v)%Z)
      | None => NaN
      end
  | EmptyString => NaN
  end.

Fixpoint to_hex_go (fuel : nat) (n : N) (acc : string) : string :=
  match fuel with
  | O => acc
  | S f =>
      let acc' := String (hex_digit (N.to_nat (n mod 16))) acc in
      if (n <? 16)%N then acc' else to_hex_go f (n / 16)%N acc'
  end.

(** [n.toString(16)] for a natural number [n]. *)
Definition toString16 (n : N) : string := to_hex_go (S (N.to_nat (N.log2 n))) n "".

(** ** [web3/constants.ts] *)

Definition BSC_CHAIN_ID : Z := 56.

(** [BSC_CHAIN_CONFIG.chainId], [`0x${BSC_CHAIN_ID.toString(16)}`]. *)
Definition BSC_CHAIN_CONFIG_chainId : string := "0x" ++ toString16 (Z.to_N BSC_CHAIN_ID).

(** ** [utils/format.ts] *)

(** [address.slice(-4)]. *)
Definition slice_last4 (a : string) : string :=
  let n := String.length a in if Nat.leb 4 n then String.substring (n - 4) 4 a else a.

(** [`${address.slice(0, 6)}...${address.slice(-4)}`]. *)
Definition formatAddress (a : string) : string := String.substring 0 6 a ++ "..." ++ slice_last4 a.

(** ** The wallet state of one owner ([web3/types.ts]) *)

Record Web3Error : Type := { err_code : option Z; err_message : string }.

(** [address] is [null] or [undefined] ([None]: the code only tests its
    truthiness and compares it with account strings). *)
Record WalletState : Type := {
  address : option string;
  accounts : list string;
  chainId : option num;
  isConnecting : bool;
  error : option Web3Error
}.

Definition initialState : WalletState :=
  {| address := None; accounts := []; chainId := None; isConnecting := false; error := None |}.

Definition set_accounts (acs : list string) (st : WalletState) : WalletState :=
  {| address := head acs; accounts := acs; chainId := chainId st;
     isConnecting := isConnecting st; error := error st |}.

(** [accounts[0] || null], in the [accountsChanged] listener. *)
Definition first_or_null (acs : list string) : option string :=
  match acs with a :: _ => if bool_decide (a = "") then None else Some a | [] => None end.

Definition set_accounts_or_null (acs : list string) (st : WalletState) : WalletState :=
  {| address := first_or_null acs; accounts := acs; chainId := chainId st;
     isConnecting := isConnecting st; error := error st |}.

Definition set_chain (c : string) (st : WalletState) : WalletState :=
  {| address := address st; accounts := accounts st; chainId := Some (parseInt16 c);
     isConnecting := isConnecting st; error := error st |}.

Definition set_error (e : Web3Error) (st : WalletState) : WalletState :=
  {| address := address st; accounts := accounts st; chainId := chainId st;
     isConnecting := isConnecting st; error := Some e |}.

(** ** The shared [window.ethereum] *)

(** Who registered a listener: the context, the hook of the mounted
    [AccountSelector], or the module [lib/web3/provider.ts]. *)
Inductive owner : Type := OProvider | OSelector | OWeb3Module.

Inductive eth_event : Type := EvAccountsChanged | EvChainChanged | EvDisconnect.

#[export] Instance owner_eq_dec : EqDecision owner.
Proof. solve_decision. Defined.
#[export] Instance eth_event_eq_dec : EqDecision eth_event.
Proof. solve_decision. Defined.

Record Eth : Type := {
  eth_wallet_accounts : list string;   (** the accounts of the wallet, selected first *)
  eth_exposed : list string;           (** the accounts the page may see *)
  eth_chain : string;                  (** the current chain, as hex text *)
  eth_chains : list string             (** the chains the wallet knows *)
}.

(** What the user answers to the wallet's prompts. *)
Record prompts : Type := {
  pr_connect : bool;
  pr_switch : bool;
  pr_add : bool;
  pr_permissions : option (list string)
}.

Definition rejected : Web3Error := {| err_code := Some 4001%Z; err_message := "User rejected the request." |}.
Definition unrecognized_chain : Web3Error := {| err_code := Some 4902%Z; err_message := "Unrecognized chain ID." |}.
Definition not_installed : Web3Error := {| err_code := None; err_message := "MetaMask is not installed" |}.

(** The page: the shared object (the wallet's state and the object's
    listener list, [None] when there is no [window.ethereum]), the
    context's state, the state of the mounted [AccountSelector]'s hook, and
    how many times [provider.ts] re-created its provider. *)
Record World : Type := {
  w_eth : option Eth;
  w_listeners : list (owner * eth_event);
  w_provider : WalletState;
  w_selector : option WalletState;
  w_web3_resets : nat
}.

Definition set_eth (e : Eth) (w : World) : World :=
  {| w_eth := Some e; w_listeners := w_listeners w; w_provider := w_provider w; w_selector := w_selector w;
     w_web3_resets := w_web3_resets w |}.

Definition map_owner (o : owner) (f : WalletState → WalletState) (w : World) : World :=
  match o with
  | OProvider => {| w_eth := w_eth w; w_listeners := w_listeners w; w_provider := f (w_provider w);
                    w_selector := w_selector w; w_web3_resets := w_web3_resets w |}
  | OSelector => {| w_eth := w_eth w; w_listeners := w_listeners w; w_provider := w_provider w;
                    w_selector := f <$> w_selector w; w_web3_resets := w_web3_resets w |}
  | OWeb3Module => w
  end.

(** The listeners of [useWallet]'s effect (both copies), and the one of
    [provider.ts] ([web3.setProvider(getWeb3Provider())]). *)
Definition on_event (o : owner) (ev : eth_event) (payload : list string + string) (w : World) : World :=
  match o, ev, payload with
  | OWeb3Module, EvAccountsChanged, _ =>
      {| w_eth := w_eth w; w_listeners := w_listeners w; w_provider := w_provider w; w_selector := w_selector w;
         w_web3_resets := S (w_web3_resets w) |}
  | OWeb3Module, _, _ => w
  | _, EvAccountsChanged, inl acs => map_owner o (set_accounts_or_null acs) w
  | _, EvChainChanged, inr c => map_owner o (set_chain c) w
  | _, EvDisconnect, _ => map_owner o (λ _, initialState) w
  | _, _, _ => w
  end.

(** [emit]: every listener of the event, in registration order. *)
Definition emit (ev : eth_event) (payload : list string + string) (w : World) : World :=
  foldl (λ w' l, if decide (l.2 = ev) then on_event l.1 ev payload w' else w') w (w_listeners w).

(** ** Requests to the wallet ([window.ethereum.request]) *)

Definition eth_with_exposed (acs : list string) (e : Eth) : Eth :=
  {| eth_wallet_accounts := eth_wallet_accounts e; eth_exposed := acs; eth_chain := eth_chain e;
     eth_chains := eth_chains e |}.

Definition eth_with_chain (c : string) (e : Eth) : Eth :=
  {| eth_wallet_accounts := eth_wallet_accounts e; eth_exposed := eth_exposed e; eth_chain := c;
     eth_chains := if decide (c ∈ eth_chains e) then eth_chains e else c :: eth_chains e |}.

(** The page's accounts change: the wallet emits [accountsChanged]. *)
Definition expose (acs : list string) (e : Eth) (w : World) : World :=
  let w' := set_eth (eth_with_exposed acs e) w in
  if decide (acs = eth_exposed e) then w' else emit EvAccountsChanged (inl acs) w'.

Definition change_chain (c : string) (e : Eth) (w : World) : World :=
  let w' := set_eth (eth_with_chain c e) w in
  if decide (c = eth_chain e) then w' else emit EvChainChanged (inr c) w'.

Definition req_requestAccounts (pr : prompts) (e : Eth) (w : World) : World * (Web3Error + list string) :=
  if pr_connect pr then (expose (eth_wallet_accounts e) e w, inr (eth_wallet_accounts e)) else (w, inl rejected).

Definition req_switchChain (c : string) (pr : prompts) (e : Eth) (w : World) : World * option Web3Error :=
  if decide (c ∈ eth_chains e) then
    if pr_switch pr then (change_chain c e w, None) else (w, Some rejected)
  else (w, Some unrecognized_chain).

Definition req_addChain (c : string) (pr : prompts) (e : Eth) (w : World) : World * option Web3Error :=
  if pr_add pr then (change_chain c e w, None) else (w, Some rejected).

Definition req_requestPermissions (pr : prompts) (e : Eth) (w : World) : World * option Web3Error :=
  match pr_permissions pr with
  | Some acs => (expose acs e w, None)
  | None => (w, Some rejected)
  end.

Definition cur_eth (w : World) (e : Eth) : Eth := default e (w_eth w).

(** ** The handlers of [useWallet] (both copies) *)

Definition connect_fail (o : owner) (err : Web3Error) (w : World) : World :=
  map_owner o (λ st, {| address := address st; accounts := accounts st; chainId := chainId st;
                        isConnecting := false; error := Some err |}) w.

(** [connectWallet]: the chain switch (or addition) emits [chainChanged]
    while the handler awaits; its final [setState] then writes the chain
    it read before the switch. *)
Definition connectWallet (o : owner) (pr : prompts) (w : World) : World :=
  match w_eth w with
  | None => map_owner o (set_error not_installed) w
  | Some e =>
      let w1 := map_owner o (λ st, {| address := address st; accounts := accounts st; chainId := chainId st;
                                      isConnecting := true; error := None |}) w in
      match req_requestAccounts pr e w1 with
      | (w2, inl err) => connect_fail o err w2
      | (w2, inr acs) =>
          let chain := eth_chain (cur_eth w2 e) in
          let '(w3, res) :=
            if negb (num_strict_eq (parseInt16 chain) (Fin (inject_Z BSC_CHAIN_ID))) then
              match req_switchChain BSC_CHAIN_CONFIG_chainId pr (cur_eth w2 e) w2 with
              | (w3, Some err) =>
                  if decide (err_code err = Some 4902%Z) then req_addChain BSC_CHAIN_CONFIG_chainId pr (cur_eth w3 e) w3
                  else (w3, Some err)
              | (w3, None) => (w3, None)
              end
            else (w2, None) in
          match res with
          | Some err => connect_fail o err w3
          | None =>
              map_owner o (λ st, {| address := head acs; accounts := acs; chainId := Some (parseInt16 chain);
                                    isConnecting := false; error := error st |}) w3
          end
      end
  end.

(** [switchAccount(account)] and [addAccount()]: the same request; the
    [account] argument is not used. *)
Definition switchAccount (o : owner) (account : string) (pr : prompts) (w : World) : World :=
  match w_eth w with
  | None => map_owner o (set_error {| err_code := None; err_message := "Cannot read properties of undefined" |}) w
  | Some e =>
      match req_requestPermissions pr e w with
      | (w1, Some err) => map_owner o (set_error err) w1
      | (w1, None) => map_owner o (set_accounts (eth_exposed (cur_eth w1 e))) w1
      end
  end.

Definition addAccount (o : owner) (pr : prompts) (w : World) : World :=
  match w_eth w with
  | None => map_owner o (set_error {| err_code := None; err_message := "Cannot read properties of undefined" |}) w
  | Some e =>
      match req_requestPermissions pr e w with
      | (w1, Some err) => map_owner o (set_error err) w1
      | (w1, None) => map_owner o (set_accounts (eth_exposed (cur_eth w1 e))) w1
      end
  end.

Definition disconnectWallet (o : owner) (w : World) : World := map_owner o (λ _, initialState) w.

(** The effect's registration, and its cleanup [removeAllListeners()]. *)
Definition register (o : owner) (w : World) : World :=
  match w_eth w with
  | Some _ =>
      {| w_eth := w_eth w; w_listeners := app (w_listeners w) [(o, EvAccountsChanged); (o, EvChainChanged); (o, EvDisconnect)];
         w_provider := w_provider w; w_selector := w_selector w; w_web3_resets := w_web3_resets w |}
  | None => w
  end.

Definition removeAllListeners (w : World) : World :=
  match w_eth w with
  | Some _ => {| w_eth := w_eth w; w_listeners := []; w_provider := w_provider w; w_selector := w_selector w;
                 w_web3_resets := w_web3_resets w |}
  | None => w
  end.

(** What [useWallet] returns besides its state: the same operations in
    both copies, acting on the state of the owner that holds the hook. *)
Record WalletApi : Type := {
  api_connectWallet : prompts → World → World;
  api_disconnectWallet : World → World;
  api_switchAccount : string → prompts → World → World;
  api_addAccount : prompts → World → World
}.

Definition WalletProvider_api : WalletApi :=
  {| api_connectWallet := connectWallet OProvider; api_disconnectWallet := disconnectWallet OProvider;
     api_switchAccount := switchAccount OProvider; api_addAccount := addAccount OProvider |}.

(** The copy in [web3/hooks/useWallet.ts], as [AccountSelector] holds it. *)
Definition useWallet_hook : WalletApi :=
  {| api_connectWallet := connectWallet OSelector; api_disconnectWallet := disconnectWallet OSelector;
     api_switchAccount := switchAccount OSelector; api_addAccount := addAccount OSelector |}.

(** ** [WalletConnect] and [AccountSelector] *)

Inductive wc_view : Type :=
| WCError (msg : string)
| WCConnected
| WCConnectButton (disabled : bool) (label : string).

Definition WalletConnect_view (st : WalletState) : wc_view :=
  match error st, address st with
  | Some e, _ => WCError (err_message e)
  | None, Some a => if bool_decide (a = "") then WCConnectButton (isConnecting st) (if isConnecting st then "Connecting..." else "Connect Wallet") else WCConnected
  | None, None => WCConnectButton (isConnecting st) (if isConnecting st then "Connecting..." else "Connect Wallet")
  end.

(** The button's label and the menu's items (label, highlighted). *)
Definition AccountSelector_view (st : WalletState) : string * list (string * bool) :=
  (match address st with Some a => if bool_decide (a = "") then "Select Account" else formatAddress a | None => "Select Account" end,
   map (λ acc, (formatAddress acc, bool_decide (Some acc = address st))) (accounts st)).

Definition selector_shown (w : World) : bool :=
  match WalletConnect_view (w_provider w) with WCConnected => true | _ => false end.

(** React mounts [AccountSelector] (a fresh hook, whose effect registers
    its listeners) or unmounts it (its cleanup runs). *)
Definition reconcile (w : World) : World :=
  match selector_shown w, w_selector w with
  | true, None =>
      register OSelector {| w_eth := w_eth w; w_listeners := w_listeners w; w_provider := w_provider w;
                            w_selector := Some initialState; w_web3_resets := w_web3_resets w |}
  | false, Some _ =>
      removeAllListeners {| w_eth := w_eth w; w_listeners := w_listeners w; w_provider := w_provider w;
                            w_selector := None; w_web3_resets := w_web3_resets w |}
  | _, _ => w
  end.

(** ** The page *)

Inductive wallet_action : Type :=
| ClickConnect (pr : prompts)                (** [WalletConnect]'s connect button *)
| ClickDisconnect                            (** its disconnect button *)
| ClickAddAccount (pr : prompts)             (** [AccountSelector]'s [+] *)
| ClickAccount (a : string) (pr : prompts)   (** an item of its menu *)
| WalletAccountsChange (acs : list string)   (** the user changes accounts in the wallet *)
| WalletChainChange (c : string)             (** the user changes the chain in the wallet *)
| WalletDisconnect.

(** One action, on what is rendered ([None]: the control is not there). *)
Definition wallet_step (w : World) (act : wallet_action) : option World :=
  match act with
  | ClickConnect pr =>
      match WalletConnect_view (w_provider w) with
      | WCConnectButton false _ => Some (api_connectWallet WalletProvider_api pr w)
      | _ => None
      end
  | ClickDisconnect => if selector_shown w then Some (api_disconnectWallet WalletProvider_api w) else None
  | ClickAddAccount pr => if bool_decide (is_Some (w_selector w)) then Some (api_addAccount useWallet_hook pr w) else None
  | ClickAccount a pr =>
      match w_selector w with
      | Some st => if decide (a ∈ accounts st) then Some (api_switchAccount useWallet_hook a pr w) else None
      | None => None
      end
  | WalletAccountsChange acs =>
      match w_eth w with
      | Some e =>
          let e' := {| eth_wallet_accounts := acs; eth_exposed := eth_exposed e; eth_chain := eth_chain e;
                       eth_chains := eth_chains e |} in
          Some (if bool_decide (eth_exposed e = []) then set_eth e' w else expose acs e' w)
      | None => None
      end
  | WalletChainChange c => match w_eth w with Some e => Some (change_chain c e w) | None => None end
  | WalletDisconnect => match w_eth w with Some _ => Some (emit EvDisconnect (inl []) w) | None => None end
  end.

Definition world_do (w : World) (act : wallet_action) : option World := reconcile <$> wallet_step w act.

Fixpoint world_run (w : World) (acts : list wallet_action) : option World :=
  match acts with
  | [] => Some w
  | act :: acts' => match world_do w act with Some w' => world_run w' acts' | None => None end
  end.

(** The page loads: [lib/web3/provider.ts] registers its listener when it
    is imported, then [WalletProvider]'s effect registers its three. *)
Definition app_start (e : Eth) : World :=
  register OProvider
    {| w_eth := Some e; w_listeners := [(OWeb3Module, EvAccountsChanged)];
       w_provider := initialState; w_selector := None; w_web3_resets := 0 |}.

(** ** The round trip *)

Fixpoint hex_pow (fuel : nat) (n : N) : N :=
  match fuel with
  | O => 1
  | S f => if (n <? 16)%N then 16 else 16 * hex_pow f (n / 16)
  end%N.

Lemma hex_val_digit n : n < 16 → hex_val (hex_digit n) = Some n.
Proof. intros Hn. do 16 (destruct n as [|n]; [reflexivity|]). lia. Qed.

Lemma to_hex_go_fold fuel n acc a :
  (n < 16 ^ N.of_nat fuel)%N →
  hex_fold (to_hex_go fuel n acc) a = hex_fold acc (a * hex_pow fuel n + n)%N.
Proof.
  revert n acc a. induction fuel as [|f IH]; intros n acc a Hn.
  - simpl in Hn. assert (n = 0%N) as -> by lia. f_equal. simpl. lia.
  - cbn [to_hex_go hex_pow].
    assert (Hd : hex_val (hex_digit (N.to_nat (n mod 16))) = Some (N.to_nat (n mod 16))).
    { apply hex_val_digit. pose proof (N.mod_lt n 16). lia. }
    destruct (N.ltb_spec n 16).
    + cbn [hex_fold]. rewrite Hd. f_equal. rewrite N.mod_small by done. lia.
    + rewrite IH.
      * cbn [hex_fold]. rewrite Hd. f_equal. rewrite N2Nat.id.
        pose proof (N.div_mod n 16). lia.
      * rewrite Nat2N.inj_succ, N.pow_succ_r' in Hn. apply N.Div0.div_lt_upper_bound; lia.
Qed.

Lemma toString16_fuel n : (n < 16 ^ N.of_nat (S (N.to_nat (N.log2 n))))%N.
Proof.
  rewrite Nat2N.inj_succ, N2Nat.id.
  destruct (N.eq_dec n 0%N) as [->|Hn]; [simpl; lia|].
  destruct (N.log2_spec n) as [_ Hlt]; [lia|].
  eapply N.lt_le_trans; [exact Hlt|].
  change 16%N with (2 ^ 4)%N. rewrite <- N.pow_mul_r. apply N.pow_le_mono_r; lia.
Qed.

Definition hex_head (s : string) : Prop :=
  match s with String c _ => is_Some (hex_val c) | EmptyString => False end.

Lemma to_hex_go_head fuel n acc : (0 < fuel ∨ hex_head acc) → hex_head (to_hex_go fuel n acc).
Proof.
  revert n acc. induction fuel as [|f IH]; intros n acc H; [destruct H; [lia | done]|].
  assert (Hd : hex_head (String (hex_digit (N.to_nat (n mod 16))) acc)).
  { cbn [hex_head]. rewrite hex_val_digit; [by eexists|]. pose proof (N.mod_lt n 16). lia. }
  cbn [to_hex_go]. destruct (n <? 16)%N; [done|]. apply IH. by right.
Qed.

Lemma parseInt16_hex n : parseInt16 ("0x" ++ toString16 n) = Fin (inject_Z (Z.of_N n)).
Proof.
  pose proof (to_hex_go_fold _ n "" 0 (toString16_fuel n)) as Hf.
  pose proof (to_hex_go_head (S (N.to_nat (N.log2 n))) n "" (or_introl (Nat.lt_0_succ _))) as Hh.
  change (to_hex_go (S (N.to_nat (N.log2 n))) n "") with (toString16 n) in Hf, Hh.
  rewrite N.mul_0_l, N.add_0_l in Hf. cbn [hex_fold] in Hf.
  unfold parseInt16.
  change (strip_sign (skip_space ("0x" ++ toString16 n))) with (false, String "0" (String "x" (toString16 n))).
  cbv beta iota zeta. change (strip_0x (String "0" (String "x" ?t))) with t.
  revert Hf Hh. generalize (toString16 n) as t. intros [|c s] Hf Hh; [done|].
  destruct Hh as [v Hv]. rewrite Hv, Hf. done.
Qed.

(** [parseInt] reads back what [toString(16)] writes:
    [parseInt(`0x${n.toString(16)}`, 16) === n] for every natural number
    [n]; in particular [BSC_CHAIN_CONFIG.chainId] is ["0x38"] and reads
    back as [BSC_CHAIN_ID]. *)
Theorem parseInt16_toString16 n :
  parseInt16 ("0x" ++ toString16 n) = Fin (inject_Z (Z.of_N n)) ∧
  BSC_CHAIN_CONFIG_chainId = "0x38" ∧ parseInt16 BSC_CHAIN_CONFIG_chainId = Fin (inject_Z BSC_CHAIN_ID).
Proof.
  split; [apply parseInt16_hex|]. split; [reflexivity|].
  exact (parseInt16_hex (Z.to_N BSC_CHAIN_ID)).
Qed.


(** ** Lemmas: who touches the listeners *)

Lemma map_owner_listeners o f w : w_listeners (map_owner o f w) = w_listeners w.
Proof. by destruct o. Qed.

Lemma map_owner_provider_other o f w : o ≠ OProvider → w_provider (map_owner o f w) = w_provider w.
Proof. by destruct o. Qed.

Lemma on_event_listeners o ev p w : w_listeners (on_event o ev p w) = w_listeners w.
Proof. destruct o, ev, p; try reflexivity; apply map_owner_listeners. Qed.

(** An emission runs the handlers of a fixed list of listeners. *)
Lemma emit_fold_listeners ev p ls w :
  w_listeners (foldl (λ w' l, if decide (l.2 = ev) then on_event l.1 ev p w' else w') w ls) = w_listeners w.
Proof.
  revert w. induction ls as [|l ls IH]; intros w; [done|]. simpl.
  rewrite IH. case_decide; [apply on_event_listeners | done].
Qed.

Lemma emit_listeners ev p w : w_listeners (emit ev p w) = w_listeners w.
Proof. apply emit_fold_listeners. Qed.

Lemma expose_listeners acs e w : w_listeners (expose acs e w) = w_listeners w.
Proof. unfold expose. by case_decide; rewrite ?emit_listeners. Qed.

Lemma change_chain_listeners c e w : w_listeners (change_chain c e w) = w_listeners w.
Proof. unfold change_chain. by case_decide; rewrite ?emit_listeners. Qed.

Create Rewrite HintDb listeners.
#[local] Hint Rewrite map_owner_listeners on_event_listeners emit_listeners expose_listeners
  change_chain_listeners : listeners.

Lemma connectWallet_listeners o pr w : w_listeners (connectWallet o pr w) = w_listeners w.
Proof.
  unfold connectWallet, connect_fail, req_requestAccounts, req_switchChain, req_addChain.
  repeat (case_match; simplify_eq/=; autorewrite with listeners in *); try congruence.
Qed.

Lemma account_request_listeners o pr w :
  w_listeners (addAccount o pr w) = w_listeners w ∧
  ∀ a, w_listeners (switchAccount o a pr w) = w_listeners w.
Proof.
  unfold addAccount, switchAccount, req_requestPermissions.
  split; [|intros a]; repeat (case_match; simplify_eq/=; autorewrite with listeners in *); try congruence.
Qed.

(** A user action or a wallet event leaves the listener list as it is;
    only mounting and unmounting [AccountSelector] change it. *)
Lemma wallet_step_listeners w act w' : wallet_step w act = Some w' → w_listeners w' = w_listeners w.
Proof.
  destruct act; simpl; intros Hs; repeat case_match; simplify_eq/=;
    rewrite ?connectWallet_listeners, ?(proj1 (account_request_listeners _ _ _)),
      ?(proj2 (account_request_listeners _ _ _)); autorewrite with listeners; try done; by destruct w.
Qed.

(** [reconcile] leaves the context's state as it is. *)
Lemma reconcile_provider w : w_provider (reconcile w) = w_provider w.
Proof. unfold reconcile, register, removeAllListeners. by repeat case_match. Qed.

(** After [reconcile], [AccountSelector] is mounted exactly when
    [WalletConnect] shows it. *)
Definition sel_inv (w : World) : Prop := is_Some (w_selector w) ↔ selector_shown w = true.

Lemma selector_shown_provider w w' : w_provider w' = w_provider w → selector_shown w' = selector_shown w.
Proof. unfold selector_shown. by intros ->. Qed.

Lemma reconcile_sel_inv w : sel_inv (reconcile w).
Proof.
  unfold sel_inv. rewrite (selector_shown_provider _ _ (reconcile_provider w)).
  unfold reconcile, register, removeAllListeners.
  destruct (selector_shown w) eqn:Hs, (w_selector w) eqn:Hsel, (w_eth w); simpl;
    rewrite ?Hsel; split; intros; try done; try by eexists; by destruct H.
Qed.

Lemma world_do_sel_inv w act w' : world_do w act = Some w' → sel_inv w'.
Proof. unfold world_do. intros (w1 & _ & ->)%fmap_Some. apply reconcile_sel_inv. Qed.

Lemma app_start_sel_inv e : sel_inv (app_start e).
Proof. split; [intros [? Hs]; discriminate | discriminate]. Qed.

Lemma world_run_sel_inv w acts w' : sel_inv w → world_run w acts = Some w' → sel_inv w'.
Proof.
  revert w. induction acts as [|act acts IH]; intros w Hw; simpl; [by intros [= <-]|].
  destruct (world_do w act) as [w1|] eqn:H1; [|discriminate].
  apply IH. exact (world_do_sel_inv _ _ _ H1).
Qed.

(** ** Lemmas: the shared object and the owners' states *)

Lemma on_event_provider_other o ev p w : o ≠ OProvider → w_provider (on_event o ev p w) = w_provider w.
Proof. intros Ho. destruct o, ev, p; try done; by apply map_owner_provider_other. Qed.

(** Listeners of other owners leave the context's state alone. *)
Lemma emit_fold_provider ev p ls w :
  (∀ l, l ∈ ls → l.1 ≠ OProvider) →
  w_provider (foldl (λ w' l, if decide (l.2 = ev) then on_event l.1 ev p w' else w') w ls) = w_provider w.
Proof.
  revert w. induction ls as [|l ls IH]; intros w Hls; [done|]. simpl.
  rewrite IH by set_solver. case_decide; [|done].
  apply on_event_provider_other, Hls. set_solver.
Qed.

Lemma on_event_selector_none o ev p w : w_selector w = None → w_selector (on_event o ev p w) = None.
Proof. intros Hs. destruct o, ev, p; simpl; rewrite ?Hs; done. Qed.

Lemma emit_fold_selector_none ev p ls w :
  w_selector w = None →
  w_selector (foldl (λ w' l, if decide (l.2 = ev) then on_event l.1 ev p w' else w') w ls) = None.
Proof.
  revert w. induction ls as [|l ls IH]; intros w Hs; [done|]. simpl.
  apply IH. case_decide; [by apply on_event_selector_none | done].
Qed.

Lemma emit_selector_none ev p w : w_selector w = None → w_selector (emit ev p w) = None.
Proof. apply emit_fold_selector_none. Qed.

Lemma map_owner_eth o f w : w_eth (map_owner o f w) = w_eth w.
Proof. by destruct o. Qed.

Lemma on_event_eth o ev p w : w_eth (on_event o ev p w) = w_eth w.
Proof. destruct o, ev, p; reflexivity. Qed.

Lemma emit_eth ev p w : w_eth (emit ev p w) = w_eth w.
Proof.
  unfold emit. generalize (w_listeners w) as ls. intros ls. revert w.
  induction ls as [|l ls IH]; intros w; [done|]. simpl. rewrite IH.
  case_decide; [apply on_event_eth | done].
Qed.

Lemma expose_eth acs e w : w_eth (expose acs e w) = Some (eth_with_exposed acs e).
Proof. unfold expose. by case_decide; rewrite ?emit_eth. Qed.

Lemma change_chain_eth c e w : w_eth (change_chain c e w) = Some (eth_with_chain c e).
Proof. unfold change_chain. by case_decide; rewrite ?emit_eth. Qed.

Lemma reconcile_eth w : w_eth (reconcile w) = w_eth w.
Proof. unfold reconcile, register, removeAllListeners. by repeat case_match. Qed.

(** The successful path of [connectWallet] from a chain other than BSC,
    when the wallet knows BSC and the user accepts both prompts. *)
Lemma connectWallet_switched o pr w e :
  w_eth w = Some e → pr_connect pr = true → pr_switch pr = true →
  BSC_CHAIN_CONFIG_chainId ∈ eth_chains e →
  num_strict_eq (parseInt16 (eth_chain e)) (Fin (inject_Z BSC_CHAIN_ID)) = false →
  let w1 := map_owner o (λ st, {| address := address st; accounts := accounts st; chainId := chainId st;
                                   isConnecting := true; error := None |}) w in
  let acs := eth_wallet_accounts e in
  connectWallet o pr w =
    map_owner o (λ st, {| address := head acs; accounts := acs; chainId := Some (parseInt16 (eth_chain e));
                          isConnecting := false; error := error st |})
      (change_chain BSC_CHAIN_CONFIG_chainId (eth_with_exposed acs e) (expose acs e w1)).
Proof.
  intros He Hc Hs Hin Hneq. unfold connectWallet. rewrite He. unfold req_requestAccounts. rewrite Hc.
  cbv zeta iota beta. unfold cur_eth. rewrite !expose_eth. cbn [default id eth_chain eth_chains eth_with_exposed].
  rewrite Hneq. cbn [negb]. unfold req_switchChain. rewrite decide_True by exact Hin. by rewrite Hs.
Qed.

Lemma selector_none_map_owner o f w : w_selector w = None → w_selector (map_owner o f w) = None.
Proof. intros Hs. destruct o; simpl; rewrite ?Hs; done. Qed.

Lemma expose_selector_none acs e w : w_selector w = None → w_selector (expose acs e w) = None.
Proof. intros Hs. unfold expose. case_decide; [done|]. by apply emit_selector_none. Qed.

Lemma change_chain_selector_none c e w : w_selector w = None → w_selector (change_chain c e w) = None.
Proof. intros Hs. unfold change_chain. case_decide; [done|]. by apply emit_selector_none. Qed.

(** [connectWallet] of the context never creates the selector's state. *)
Lemma connectWallet_selector_none o pr w : w_selector w = None → w_selector (connectWallet o pr w) = None.
Proof.
  intros Hs. unfold connectWallet, connect_fail, req_requestAccounts, req_switchChain, req_addChain.
  repeat (case_match; simplify_eq/=);
    repeat first [ apply selector_none_map_owner | apply expose_selector_none
                 | apply change_chain_selector_none | done ].
Qed.

Lemma app_start_connect e pr :
  world_do (app_start e) (ClickConnect pr) = Some (reconcile (connectWallet OProvider pr (app_start e))).
Proof. reflexivity. Qed.

(** C19: [connectWallet] records the chain it read before switching: from
    a chain other than BSC, when the user accepts the connection and the
    switch, the wallet ends on ["0x38"] but the context's [chainId] is the
    old chain (the [chainChanged] event of the switch is handled first and
    then overwritten by the handler's last [setState]). *)
Theorem connect_records_chain_before_switch e pr :
  pr_connect pr = true → pr_switch pr = true → BSC_CHAIN_CONFIG_chainId ∈ eth_chains e →
  num_strict_eq (parseInt16 (eth_chain e)) (Fin (inject_Z BSC_CHAIN_ID)) = false →
  ∃ w, world_do (app_start e) (ClickConnect pr) = Some w ∧
       eth_chain <$> w_eth w = Some "0x38" ∧
       chainId (w_provider w) = Some (parseInt16 (eth_chain e)) ∧
       num_strict_eq (parseInt16 (eth_chain e)) (Fin (inject_Z BSC_CHAIN_ID)) = false.
Proof.
  intros Hc Hs Hin Hneq. rewrite app_start_connect.
  eexists; split; [reflexivity|].
  rewrite (connectWallet_switched OProvider pr (app_start e) e) by done.
  rewrite reconcile_eth, reconcile_provider. split; [|done].
  by rewrite map_owner_eth, change_chain_eth.
Qed.

Definition mm_accounts : list string :=
  ["0xAb5801a7D398351b8bE11C439e05C5B3259aeC9B"; "0x1Db3439a222C519ab44bb1144fC28167b4Fa6EE6"].

(** A wallet on Ethereum mainnet that knows BSC, not yet connected. *)
Definition metamask_on_mainnet : Eth :=
  {| eth_wallet_accounts := mm_accounts; eth_exposed := []; eth_chain := "0x1"; eth_chains := ["0x1"; "0x38"] |}.

Definition accept_all : prompts :=
  {| pr_connect := true; pr_switch := true; pr_add := true; pr_permissions := Some mm_accounts |}.

Lemma connect_records_chain_before_switch_witness :
  ∃ w, world_do (app_start metamask_on_mainnet) (ClickConnect accept_all) = Some w ∧
       eth_chain <$> w_eth w = Some "0x38" ∧
       chainId (w_provider w) = Some (parseInt16 "0x1") ∧
       num_strict_eq (parseInt16 "0x1") (Fin (inject_Z BSC_CHAIN_ID)) = false.
Proof.
  apply (connect_records_chain_before_switch metamask_on_mainnet accept_all);
    [reflexivity | reflexivity | vm_compute; set_solver | vm_compute; reflexivity].
Defined.

Lemma register_selector o w : w_selector (register o w) = w_selector w.
Proof. unfold register. by case_match. Qed.

Lemma register_provider o w : w_provider (register o w) = w_provider w.
Proof. unfold register. by case_match. Qed.

(** The [AccountSelector] next to a connected wallet starts from its
    own, empty hook state: right after the first connection its button
    reads "Select Account" and its menu lists no account, while the
    context holds the connected address. *)
Theorem selector_starts_empty e pr w :
  world_do (app_start e) (ClickConnect pr) = Some w → selector_shown w = true →
  (∃ a, address (w_provider w) = Some a) ∧ w_selector w = Some initialState ∧
  AccountSelector_view (default initialState (w_selector w)) = ("Select Account", []).
Proof.
  rewrite app_start_connect. intros [= <-].
  pose proof (connectWallet_selector_none OProvider pr (app_start e) eq_refl) as Hnone.
  set (w0 := connectWallet OProvider pr (app_start e)) in *.
  rewrite (selector_shown_provider _ _ (reconcile_provider w0)). intros Hshown.
  split.
  - rewrite reconcile_provider. revert Hshown. unfold selector_shown, WalletConnect_view.
    destruct (error (w_provider w0)), (address (w_provider w0)) as [a|]; try discriminate.
    by exists a.
  - unfold reconcile. rewrite Hshown, Hnone, register_selector. done.
Qed.

Lemma selector_starts_empty_witness :
  let w := reconcile (connectWallet OProvider accept_all (app_start metamask_on_mainnet)) in
  (∃ a, address (w_provider w) = Some a) ∧ w_selector w = Some initialState ∧
  AccountSelector_view (default initialState (w_selector w)) = ("Select Account", []).
Proof.
  apply (selector_starts_empty metamask_on_mainnet accept_all _ (app_start_connect _ _)).
  vm_compute. reflexivity.
Defined.

(** ** The listeners after an unmount *)

Definition provider_deaf (w : World) : Prop := ∀ ev, (OProvider, ev) ∉ w_listeners w.

Definition wallet_event (act : wallet_action) : bool :=
  match act with WalletAccountsChange _ | WalletChainChange _ | WalletDisconnect => true | _ => false end.

Lemma reconcile_listeners w :
  w_listeners (reconcile w) = w_listeners w ∨
  w_listeners (reconcile w) = app (w_listeners w) [(OSelector, EvAccountsChanged); (OSelector, EvChainChanged); (OSelector, EvDisconnect)] ∨
  w_listeners (reconcile w) = [].
Proof. unfold reconcile, register, removeAllListeners. repeat case_match; simpl; auto. Qed.

Lemma world_do_deaf w act w' : provider_deaf w → world_do w act = Some w' → provider_deaf w'.
Proof.
  unfold world_do. intros Hd (w1 & Hs & ->)%fmap_Some ev.
  pose proof (wallet_step_listeners _ _ _ Hs) as Hl.
  destruct (reconcile_listeners w1) as [->|[->| ->]]; rewrite ?Hl; [apply Hd| |set_solver].
  rewrite elem_of_app. intros [H|H]; [exact (Hd ev H) | set_solver].
Qed.

Lemma world_run_deaf w acts w' : provider_deaf w → world_run w acts = Some w' → provider_deaf w'.
Proof.
  revert w. induction acts as [|act acts IH]; intros w Hd; simpl; [by intros [= <-]|].
  destruct (world_do w act) as [w1|] eqn:H1; [|discriminate].
  apply IH. exact (world_do_deaf _ _ _ Hd H1).
Qed.

Lemma expose_provider_deaf acs e w : provider_deaf w → w_provider (expose acs e w) = w_provider w.
Proof.
  intros Hd. unfold expose. case_decide; [done|]. unfold emit.
  rewrite emit_fold_provider; [done|]. intros [o ev] Hin Ho. simpl in Ho. subst o. exact (Hd ev Hin).
Qed.

Lemma change_chain_provider_deaf c e w : provider_deaf w → w_provider (change_chain c e w) = w_provider w.
Proof.
  intros Hd. unfold change_chain. case_decide; [done|]. unfold emit.
  rewrite emit_fold_provider; [done|]. intros [o ev] Hin Ho. simpl in Ho. subst o. exact (Hd ev Hin).
Qed.

(** A context without listeners does not see the wallet's events. *)
Lemma deaf_wallet_event w act w' :
  provider_deaf w → wallet_event act = true → world_do w act = Some w' → w_provider w' = w_provider w.
Proof.
  intros Hd Hev. unfold world_do. intros (w1 & Hs & ->)%fmap_Some. rewrite reconcile_provider.
  destruct act; try discriminate; simpl in Hs; destruct (w_eth w) as [e|]; try discriminate;
    injection Hs as <-.
  - case_bool_decide; [done|]. by apply expose_provider_deaf.
  - by apply change_chain_provider_deaf.
  - unfold emit. rewrite emit_fold_provider; [done|]. intros [o ev] Hin Ho. simpl in Ho. subst o. exact (Hd ev Hin).
Qed.

Create Rewrite HintDb eth.
#[local] Hint Rewrite map_owner_eth emit_eth expose_eth change_chain_eth reconcile_eth : eth.

Lemma connectWallet_eth o pr w : is_Some (w_eth w) → is_Some (w_eth (connectWallet o pr w)).
Proof.
  unfold connectWallet, connect_fail, req_requestAccounts, req_switchChain, req_addChain.
  intros Hw. repeat (case_match; simplify_eq/=; autorewrite with eth in *); try done; by eexists.
Qed.

Lemma world_do_eth w act w' : is_Some (w_eth w) → world_do w act = Some w' → is_Some (w_eth w').
Proof.
  unfold world_do. intros Hw (w1 & Hs & ->)%fmap_Some. rewrite reconcile_eth.
  destruct act; simpl in Hs; repeat case_match; simplify_eq/=; autorewrite with eth;
    first [done | by eexists | by apply connectWallet_eth | idtac].
  all: unfold addAccount, switchAccount, req_requestPermissions;
    repeat (case_match; simplify_eq/=; autorewrite with eth in *); first [done | by eexists].
Qed.

Lemma world_run_eth w acts w' : is_Some (w_eth w) → world_run w acts = Some w' → is_Some (w_eth w').
Proof.
  revert w. induction acts as [|act acts IH]; intros w Hw; simpl; [by intros [= <-]|].
  destruct (world_do w act) as [w1|] eqn:H1; [|discriminate].
  apply IH. exact (world_do_eth _ _ _ Hw H1).
Qed.

(** Disconnecting unmounts [AccountSelector], whose cleanup empties the
    shared listener list. *)
Lemma disconnect_clears_listeners w w' :
  sel_inv w → is_Some (w_eth w) → world_do w ClickDisconnect = Some w' → w_listeners w' = [].
Proof.
  intros Hinv [e He]. unfold world_do. simpl.
  destruct (selector_shown w) eqn:Hs; [|discriminate]. intros [= <-].
  destruct (proj2 Hinv Hs) as [st Hst].
  unfold reconcile, disconnectWallet, removeAllListeners. simpl.
  by rewrite Hst, He.
Qed.

(** C20: the hook's cleanup [removeAllListeners()] also removes the
    listeners of [WalletProvider] and of [provider.ts]: once the user has
    clicked Disconnect (which unmounts [AccountSelector]), the context
    never again hears an [accountsChanged], [chainChanged] or [disconnect]
    event, even after connecting again. *)
Theorem context_deaf_after_disconnect e acts w w1 acts2 w2 act w3 :
  world_run (app_start e) acts = Some w → world_do w ClickDisconnect = Some w1 →
  world_run w1 acts2 = Some w2 → wallet_event act = true → world_do w2 act = Some w3 →
  w_provider w3 = w_provider w2.
Proof.
  intros Hrun Hdis Hrun2 Hev Hdo.
  assert (Hinv : sel_inv w) by exact (world_run_sel_inv _ _ _ (app_start_sel_inv e) Hrun).
  assert (Heth : is_Some (w_eth w)) by exact (world_run_eth (app_start e) acts w (ex_intro _ e eq_refl) Hrun).
  pose proof (disconnect_clears_listeners _ _ Hinv Heth Hdis) as Hl.
  assert (Hd1 : provider_deaf w1) by (intros ev; rewrite Hl; set_solver).
  exact (deaf_wallet_event _ _ _ (world_run_deaf _ _ _ Hd1 Hrun2) Hev Hdo).
Qed.

Definition reconnected_on_bsc : World :=
  Eval vm_compute in
    default (app_start metamask_on_mainnet)
      (world_run (app_start metamask_on_mainnet) [ClickConnect accept_all; ClickDisconnect; ClickConnect accept_all]).

Definition after_chain_change : World :=
  Eval vm_compute in default reconnected_on_bsc (world_do reconnected_on_bsc (WalletChainChange "0x1")).

Lemma context_deaf_after_disconnect_witness :
  w_provider after_chain_change = w_provider reconnected_on_bsc ∧
  chainId (w_provider after_chain_change) = Some (Fin 56) ∧
  eth_chain <$> w_eth after_chain_change = Some "0x1".
Proof.
  split; [|split; reflexivity].
  apply (context_deaf_after_disconnect metamask_on_mainnet [ClickConnect accept_all]
           (default (app_start metamask_on_mainnet) (world_run (app_start metamask_on_mainnet) [ClickConnect accept_all]))
           (default (app_start metamask_on_mainnet)
              (world_run (app_start metamask_on_mainnet) [ClickConnect accept_all; ClickDisconnect]))
           [ClickConnect accept_all] reconnected_on_bsc (WalletChainChange "0x1") after_chain_change);
    vm_compute; reflexivity.
Defined.

(** [switchAccount(account)] does not use [account]: clicking any two
    accounts of [AccountSelector]'s menu has the same effect (a permission
    request, then the wallet's first account). *)
Theorem switchAccount_ignores_account w st a b pr :
  w_selector w = Some st → a ∈ accounts st → b ∈ accounts st →
  world_do w (ClickAccount a pr) = world_do w (ClickAccount b pr).
Proof.
  intros Hs Ha Hb. unfold world_do, wallet_step. rewrite Hs.
  rewrite !decide_True by done. reflexivity.
Qed.

Definition selector_with_accounts : World :=
  Eval vm_compute in
    default (app_start metamask_on_mainnet)
      (world_run (app_start metamask_on_mainnet) [ClickConnect accept_all; WalletAccountsChange (rev mm_accounts)]).

Lemma switchAccount_ignores_account_witness :
  world_do selector_with_accounts (ClickAccount "0xAb5801a7D398351b8bE11C439e05C5B3259aeC9B" accept_all) =
  world_do selector_with_accounts (ClickAccount "0x1Db3439a222C519ab44bb1144fC28167b4Fa6EE6" accept_all).
Proof.
  apply (switchAccount_ignores_account selector_with_accounts
           (default initialState (w_selector selector_with_accounts))); vm_compute; [reflexivity | set_solver | set_solver].
Defined.

(** ** An error is final *)

Lemma on_event_error o ev p w :
  ev ≠ EvDisconnect → error (w_provider (on_event o ev p w)) = error (w_provider w).
Proof. intros Hev. by destruct o, ev, p. Qed.

Lemma emit_fold_error ev p ls w :
  ev ≠ EvDisconnect →
  error (w_provider (foldl (λ w' l, if decide (l.2 = ev) then on_event l.1 ev p w' else w') w ls))
  = error (w_provider w).
Proof.
  intros Hev. revert w. induction ls as [|l ls IH]; intros w; [done|]. simpl.
  rewrite IH. case_decide; [by apply on_event_error|done].
Qed.

Lemma expose_error acs e w : error (w_provider (expose acs e w)) = error (w_provider w).
Proof. unfold expose. case_decide; [done|]. unfold emit. by rewrite emit_fold_error. Qed.

Lemma change_chain_error c e w : error (w_provider (change_chain c e w)) = error (w_provider w).
Proof. unfold change_chain. case_decide; [done|]. unfold emit. by rewrite emit_fold_error. Qed.

(** The context holds [err] and no [AccountSelector] is mounted: the
    header shows only the error text. *)
Definition wallet_stuck (err : Web3Error) (w : World) : Prop :=
  error (w_provider w) = Some err ∧ w_selector w = None.

Lemma wallet_stuck_view err w : wallet_stuck err w → WalletConnect_view (w_provider w) = WCError (err_message err).
Proof. intros [He _]. unfold WalletConnect_view. by rewrite He. Qed.

Lemma reconcile_stuck err w : wallet_stuck err w → reconcile w = w.
Proof.
  intros Hs. pose proof (wallet_stuck_view _ _ Hs) as Hv. destruct Hs as [_ Hsel].
  unfold reconcile, selector_shown. by rewrite Hv, Hsel.
Qed.

Lemma world_do_stuck err w act w' :
  wallet_stuck err w → act ≠ WalletDisconnect → world_do w act = Some w' → wallet_stuck err w'.
Proof.
  intros Hs Hact. pose proof (wallet_stuck_view _ _ Hs) as Hv. destruct Hs as [He Hsel].
  unfold world_do. intros (w1 & Hstep & ->)%fmap_Some.
  assert (Hw1 : wallet_stuck err w1).
  { destruct act as [pr| |pr|a pr|acs|c|]; simpl in Hstep;
      rewrite ?Hv, ?Hsel in Hstep; unfold selector_shown in Hstep; rewrite ?Hv in Hstep; try discriminate.
    - destruct (w_eth w) as [e|]; [|discriminate]. injection Hstep as <-. case_bool_decide.
      + done.
      + split; [by rewrite expose_error|by apply expose_selector_none].
    - destruct (w_eth w) as [e|]; [|discriminate]. injection Hstep as <-.
      split; [by rewrite change_chain_error|by apply change_chain_selector_none].
    - done. }
  by rewrite (reconcile_stuck _ _ Hw1).
Qed.

(** C21: after the wallet refuses a request, the page can never offer
    the connection again: [WalletConnect] shows only the error message,
    with no button, and no click and no account or chain change of the
    wallet clears the context's error; only a disconnect emitted by the
    wallet itself could, and only while the context still listens. *)
Theorem wallet_error_sticks err w acts w' :
  wallet_stuck err w → Forall (λ a, a ≠ WalletDisconnect) acts → world_run w acts = Some w' →
  error (w_provider w') = Some err ∧ WalletConnect_view (w_provider w') = WCError (err_message err).
Proof.
  intros Hs Hacts. revert w Hs. induction Hacts as [|act acts Hact _ IH]; intros w Hs; simpl.
  - intros [= <-]. split; [apply Hs|by apply wallet_stuck_view].
  - destruct (world_do w act) as [w1|] eqn:E; [|discriminate]. apply IH. by eapply world_do_stuck.
Qed.

Definition reject_all : prompts :=
  {| pr_connect := false; pr_switch := false; pr_add := false; pr_permissions := None |}.

Definition rejected_world : World :=
  Eval vm_compute in
    default (app_start metamask_on_mainnet) (world_run (app_start metamask_on_mainnet) [ClickConnect reject_all]).

Lemma wallet_error_sticks_witness :
  WalletConnect_view
    (w_provider (default rejected_world
                   (world_run rejected_world [WalletChainChange "0x38"; WalletAccountsChange (rev mm_accounts)])))
  = WCError "User rejected the request.".
Proof.
  apply (wallet_error_sticks rejected
           rejected_world [WalletChainChange "0x38"; WalletAccountsChange (rev mm_accounts)]);
    [split; vm_compute; reflexivity|repeat constructor; discriminate|vm_compute; reflexivity].
Defined.
