(* ===== verification/Chain.v ===== *)
(** * On-chain reads: [lib/web3/transactions.ts], [lib/web3/stats.ts],
      [lib/web3/contract.ts], [pages/Transactions], [pages/Dashboard]

    The BSC node is a value ([Node]): its latest block number, the
    [Transfer] events of the XLC contract in chain order, and the
    timestamp of each block ([getBlock] may fail for a block, and the
    whole node may be unreachable).  [getTransactions] keeps a
    module-level cache ([TxCache]) shared by every call: a call within
    30 seconds of the last fetch is served from it.  [fromWei] is web3's
    conversion of wei to an ether string.  The pages are their render
    functions over the states of their queries. *)

From S2P Require Import Prelude Json Wallet.
From stdpp Require Import sorting.
From Stdlib Require Import Ascii.

Local Open Scope string_scope.

(** ** The node *)

Record TransferEvent : Type := {
  ev_hash : string;
  ev_from : string;
  ev_to : string;
  ev_value : Z;          (** in wei *)
  ev_block : Z
}.

Record Node : Type := {
  latest : Z;
  events : list TransferEvent;
  block_time : Z → option Z   (** [getBlock(b).timestamp], in seconds *)
}.

(** [getPastEvents('Transfer', {fromBlock, toBlock})]. *)
Definition past_transfers (n : Node) (fromBlock toBlock : Z) : list TransferEvent :=
  filter (λ e, fromBlock ≤ ev_block e ≤ toBlock)%Z (events n).

(** ** [web3.utils.fromWei(v, 'ether')] *)


(** [while (fraction.length < 18) fraction = '0' + fraction]. *)
Definition pad_left (k : nat) (s : string) : string := zeros (k - String.length s) ++ s.

(** The first group of web3's fraction pattern: the digits up to the last
    non-zero one, or ["0"]. *)
Fixpoint strip_zeros_rev (s : list Ascii.ascii) : list Ascii.ascii :=
  match s with
  | "0"%char :: s' => strip_zeros_rev s'
  | _ => s
  end.

Definition strip_trailing_zeros (s : string) : string :=
  match strip_zeros_rev (rev (String.list_ascii_of_string s)) with
  | [] => "0"
  | r => String.string_of_list_ascii (rev r)
  end.

Definition fromWei (v : Z) : string :=
  let base := (10 ^ 18)%Z in
  let fraction := strip_trailing_zeros (pad_left 18 (print_Z (v mod base))) in
  let whole := print_Z (v / base) in
  if bool_decide (fraction = "0") then whole else whole ++ "." ++ fraction.

(** ** [getTransactions] *)

Record Transaction : Type := {
  hash : string;
  from : string;
  to : string;
  amount : string;
  timestamp : Z;
  blockNumber : Z
}.

(** The [events.map] callback: [null] when [getBlock] fails. *)
Definition tx_of_event (n : Node) (e : TransferEvent) : option Transaction :=
  match block_time n (ev_block e) with
  | Some ts => Some {| hash := ev_hash e; from := ev_from e; to := ev_to e; amount := fromWei (ev_value e);
                      timestamp := ts * 1000; blockNumber := ev_block e |}
  | None => None
  end.

(** The comparator [(a, b) => b.timestamp - a.timestamp], as the order a
    stable sort keeps. *)
Definition newer (a b : Transaction) : Prop := (timestamp b <= timestamp a)%Z.

#[export] Instance newer_dec : RelDecision newer.
Proof. intros a b. unfold newer. apply _. Defined.

Definition CACHE_DURATION : Z := 30 * 1000.

Record TxCache : Type := { c_transactions : list Transaction; c_timestamp : Z }.

Definition initialCache : TxCache := {| c_transactions := []; c_timestamp := 0 |}.

(** [getTransactions(limit)] at time [now]; [None] is a node whose
    [getBlockNumber] or [getPastEvents] rejects. *)
Definition getTransactions (now : Z) (limit : nat) (node : option Node) (c : TxCache) :
    TxCache * list Transaction :=
  if bool_decide (now - c_timestamp c < CACHE_DURATION)%Z then (c, take limit (c_transactions c))
  else
    match node with
    | None => (c, [])
    | Some n =>
        let latestBlock := latest n in
        let fromBlock := Z.max 0 (latestBlock - 5) in
        let txs := map (tx_of_event n) (past_transfers n fromBlock latestBlock) in
        let validTransactions := omap id txs in
        let sortedTransactions := take limit (merge_sort newer validTransactions) in
        ({| c_transactions := sortedTransactions; c_timestamp := now |}, sortedTransactions)
    end.

(** ** [getTokenHolderCount] *)

Definition getTokenHolderCount (node : option Node) : Z :=
  match node with
  | None => 0
  | Some n =>
      let latestBlock := latest n in
      let fromBlock := Z.max 0 (latestBlock - 100000) in
      let holders : gset string :=
        foldl (λ hs e, if bool_decide (ev_value e = 0%Z) then hs else {[ ev_to e ]} ∪ hs) ∅
          (past_transfers n fromBlock latestBlock) in
      Z.of_nat (size holders)
  end.

(** ** The pages *)

(** What [useQuery] gives a page: loading, an error, or data. *)
Inductive query_state (A : Type) : Type :=
| QLoading
| QError
| QData (a : A).
Arguments QLoading {_}.
Arguments QError {_}.
Arguments QData {_} _.

Inductive TxPageView : Type :=
| TxConnectPrompt
| TxLoading
| TxError
| TxEmpty
| TxTable (rows : list (string * string * string * string * string * string)).

(** One row of [TransactionList]: the link and the text of the hash, the
    sender and the recipient, the amount and the time. *)
Definition TransactionList_row (tx : Transaction) : string * string * string * string * string * string :=
  ("https://bscscan.com/tx/" ++ hash tx, formatAddress (hash tx),
   formatAddress (from tx), formatAddress (to tx), amount tx ++ " XLC", print_Z (timestamp tx)).

(** [useTransactions(limit = 100)] runs only when [!!address]. *)
Definition useTransactions_enabled (address : option string) : bool :=
  match address with Some a => negb (bool_decide (a = "")) | None => false end.

Definition Transactions_view (address : option string) (q : query_state (list Transaction)) : TxPageView :=
  if negb (useTransactions_enabled address) then TxConnectPrompt
  else match q with
       | QLoading => TxLoading
       | QError => TxError
       | QData [] => TxEmpty
       | QData txs => TxTable (map TransactionList_row txs)
       end.

(** The "Token Holders" card of the dashboard. *)
Definition Dashboard_holders_card (q : query_state Z) : string :=
  match q with
  | QLoading => "Loading..."
  | QError => "N/A"
  | QData n => print_Z n
  end.

(** ** Lemmas *)

#[export] Instance newer_total : Total newer.
Proof. intros a b. unfold newer. lia. Qed.

#[export] Instance newer_trans : Transitive newer.
Proof. intros a b c. unfold newer. lia. Qed.

Lemma StronglySorted_take {A} (R : relation A) n l : StronglySorted R l → StronglySorted R (take n l).
Proof.
  rewrite <- (take_drop n l) at 1. intros H%StronglySorted_app. tauto.
Qed.

(** What a fetch returns, sorted newest first. *)
Definition fetched (limit : nat) (n : Node) : list Transaction :=
  take limit (merge_sort newer (omap id (map (tx_of_event n)
    (past_transfers n (Z.max 0 (latest n - 5)) (latest n))))).

Lemma getTransactions_stale now limit node c :
  (CACHE_DURATION <= now - c_timestamp c)%Z →
  getTransactions now limit node c =
    match node with
    | None => (c, [])
    | Some n => ({| c_transactions := fetched limit n; c_timestamp := now |}, fetched limit n)
    end.
Proof. intros Hs. unfold getTransactions. rewrite bool_decide_false by lia. by destruct node. Qed.

Lemma getTransactions_cached now limit node c :
  (now - c_timestamp c < CACHE_DURATION)%Z →
  getTransactions now limit node c = (c, take limit (c_transactions c)).
Proof. intros Hs. unfold getTransactions. by rewrite bool_decide_true by lia. Qed.

Lemma fetched_sorted limit n : Sorted newer (fetched limit n).
Proof. apply StronglySorted_Sorted, StronglySorted_take, StronglySorted_merge_sort; apply _. Qed.

Lemma fetched_from_events limit n tx :
  tx ∈ fetched limit n →
  ∃ e, e ∈ events n ∧ (Z.max 0 (latest n - 5) <= ev_block e <= latest n)%Z ∧ tx_of_event n e = Some tx.
Proof.
  intros (i & Hi & _)%elem_of_take. apply list_elem_of_lookup_2 in Hi.
  rewrite (merge_sort_Permutation newer) in Hi.
  apply list_elem_of_omap in Hi as (y & Hy & Hid). unfold id in Hid. subst y.
  apply list_elem_of_fmap in Hy as (e & He & Hin). symmetry in He.
  apply list_elem_of_filter in Hin as [Hw Hin]. by exists e.
Qed.

Lemma fetched_complete limit n :
  (length (omap id (map (tx_of_event n) (past_transfers n (Z.max 0 (latest n - 5)) (latest n)))) ≤ limit)%nat →
  fetched limit n ≡ₚ omap id (map (tx_of_event n) (past_transfers n (Z.max 0 (latest n - 5)) (latest n))).
Proof.
  intros Hlen. unfold fetched. rewrite take_ge; [apply merge_sort_Permutation|].
  by rewrite (merge_sort_Permutation newer).
Qed.

(** C22: a call after the cache has expired fetches the [Transfer] events of
    the last six blocks and returns at most [limit] transactions, newest
    first, each built from an event of that window whose block could be
    read; the cache then holds exactly what was returned.  When the node
    cannot be reached the call returns [[]] and leaves the cache as it was. *)
Theorem getTransactions_fetch now limit node c :
  (CACHE_DURATION <= now - c_timestamp c)%Z →
  let '(c', txs) := getTransactions now limit node c in
  match node with
  | None => c' = c ∧ txs = []
  | Some n =>
      c' = {| c_transactions := txs; c_timestamp := now |} ∧ (length txs ≤ limit)%nat ∧ Sorted newer txs ∧
      ∀ tx, tx ∈ txs → ∃ e, e ∈ events n ∧ (Z.max 0 (latest n - 5) <= ev_block e <= latest n)%Z ∧
                          tx_of_event n e = Some tx
  end.
Proof.
  intros Hs. rewrite getTransactions_stale by done. destruct node as [n|]; [|done].
  split; [done|]. split; [unfold fetched; rewrite length_take; lia|].
  split; [apply fetched_sorted|]. apply fetched_from_events.
Qed.

Definition transfer (h a b : string) (v blk : Z) : TransferEvent :=
  {| ev_hash := h; ev_from := a; ev_to := b; ev_value := v; ev_block := blk |}.

(** Five transfers in the last blocks of a node whose blocks are 3 s apart. *)
Definition busy_node : Node :=
  {| latest := 1000;
     events := [transfer "0x01" "0xA" "0xB" 1000000000000000000 996; transfer "0x02" "0xB" "0xC" 500000000000000000 997;
                transfer "0x03" "0xC" "0xD" 1 998; transfer "0x04" "0xD" "0xA" 2 999;
                transfer "0x05" "0xA" "0xE" 3 1000];
     block_time := λ b, Some (1700000000 + 3 * b)%Z |}.

Lemma getTransactions_fetch_witness :
  (CACHE_DURATION <= 1700003000000 - c_timestamp initialCache)%Z ∧
  let '(c', txs) := getTransactions 1700003000000 3 (Some busy_node) initialCache in
  c' = {| c_transactions := txs; c_timestamp := 1700003000000 |} ∧ (length txs ≤ 3)%nat ∧ Sorted newer txs ∧
  ∀ tx, tx ∈ txs → ∃ e, e ∈ events busy_node ∧ (Z.max 0 (latest busy_node - 5) <= ev_block e <= latest busy_node)%Z ∧
                      tx_of_event busy_node e = Some tx.
Proof.
  assert (H : (CACHE_DURATION <= 1700003000000 - c_timestamp initialCache)%Z) by (unfold CACHE_DURATION; simpl; lia).
  split; [exact H|]. exact (getTransactions_fetch _ 3 (Some busy_node) _ H).
Defined.

(** C23: the cache keeps only the first call's [limit] items: for 30
    seconds after a fetch with [limit = l1], every call returns a prefix of
    that result, whatever its own [limit] and whatever the chain holds by
    then, so never more than [l1] transactions. *)
Theorem cache_serves_first_limit now1 now2 l1 l2 n1 node2 c :
  (CACHE_DURATION <= now1 - c_timestamp c)%Z → (0 <= now2 - now1 < CACHE_DURATION)%Z →
  (getTransactions now2 l2 node2 (getTransactions now1 l1 (Some n1) c).1).2 =
    take l2 (getTransactions now1 l1 (Some n1) c).2 ∧
  (length (getTransactions now2 l2 node2 (getTransactions now1 l1 (Some n1) c).1).2 ≤ l1)%nat.
Proof.
  intros H1 H2. rewrite (getTransactions_stale now1 l1 (Some n1) c H1). cbn [fst snd].
  rewrite getTransactions_cached by (simpl; lia). cbn [snd c_transactions].
  split; [done|]. unfold fetched. rewrite !length_take. lia.
Qed.

Lemma cache_serves_first_limit_witness :
  (getTransactions 1700003001000 100 (Some busy_node)
     (getTransactions 1700003000000 3 (Some busy_node) initialCache).1).2 =
    take 100 (getTransactions 1700003000000 3 (Some busy_node) initialCache).2 ∧
  (length (getTransactions 1700003001000 100 (Some busy_node)
     (getTransactions 1700003000000 3 (Some busy_node) initialCache).1).2 ≤ 3)%nat ∧
  length (fetched 100 busy_node) = 5%nat.
Proof.
  destruct (cache_serves_first_limit 1700003000000 1700003001000 3 100 busy_node (Some busy_node) initialCache)
    as [H1 H2]; [unfold CACHE_DURATION; simpl; lia | unfold CACHE_DURATION; lia |].
  refine (conj H1 (conj H2 _)). vm_compute. reflexivity.
Defined.

Lemma holders_fold_elem (l : list TransferEvent) (hs : gset string) a :
  a ∈ foldl (λ hs e, if bool_decide (ev_value e = 0%Z) then hs else {[ ev_to e ]} ∪ hs) hs l ↔
  a ∈ hs ∨ ∃ e, e ∈ l ∧ ev_to e = a ∧ ev_value e ≠ 0%Z.
Proof.
  revert hs. induction l as [|e l IH]; intros hs; simpl.
  - split; [by left | intros [H|(e & He & _)]; [done | by apply elem_of_nil in He]].
  - rewrite IH. case_bool_decide as Hz.
    + split; [intros [H|(e' & He' & H1 & H2)]; [by left | right; exists e'; split; [by right | done]]|].
      intros [H|(e' & [->|He']%elem_of_cons & H1 & H2)]; [by left | done | right; by exists e'].
    + rewrite elem_of_union, elem_of_singleton. split.
      * intros [[->|H]|(e' & He' & H1 & H2)]; [right; exists e; split; [left | done] | by left |
          right; exists e'; split; [by right | done]].
      * intros [H|(e' & [->|He']%elem_of_cons & H1 & H2)]; [by left; right | by left; left |
          right; by exists e'].
Qed.

(** "Token Holders" counts the distinct addresses that received a
    non-zero transfer in the last 100000 blocks; what they sent away, and
    any older balance, play no part. *)
Theorem holder_count_counts_recipients n :
  ∃ holders : gset string,
    getTokenHolderCount (Some n) = Z.of_nat (size holders) ∧
    ∀ a, a ∈ holders ↔
         ∃ e, e ∈ past_transfers n (Z.max 0 (latest n - 100000)) (latest n) ∧ ev_to e = a ∧ ev_value e ≠ 0%Z.
Proof.
  eexists. split; [reflexivity|]. intros a. rewrite holders_fold_elem. set_solver.
Qed.

(** An address that received tokens and then sent all of them away is
    still counted: [0xB] below. *)
Example holder_count_counts_emptied_address :
  getTokenHolderCount (Some {| latest := 10; events := [transfer "0x1" "0xA" "0xB" 10 9; transfer "0x2" "0xB" "0xC" 10 10];
                               block_time := λ _, None |}) = 2%Z.
Proof. vm_compute. reflexivity. Qed.
