(* ===== verification/Users.v ===== *)
(** * Users and user statistics: [pages/Users], [types/user.ts],
      [services/dashboardService.ts], [pages/Dashboard/api/stats.ts]

    The Firebase nodes [users] and [transactions] are maps from keys to
    flat objects ([gmap string jobj]).  A query [orderByChild(k)] with
    [startAt(v)], [endAt(v)] or [equalTo(v)] keeps the children whose
    value at [k] lies in the range, in Firebase's order of values:
    missing (null) first, then [false], [true], numbers in increasing
    order, strings in lexicographic order ([fb_le]).  [fetchUsers] reads
    the users (all, or one status), then filters them by a search text;
    [fetchUserStats] counts all users, recent users and active addresses.
    The Users page folds the filter bar's changes into its filters and
    queries [fetchUsers] with them ([Users_page]); its [UserList] is not
    in the repository. *)

From S2P Require Import Prelude Json.
From Stdlib Require Import Ascii.

Local Open Scope string_scope.

(** ** Firebase queries on a child *)

Definition fb_rank (v : option jprim) : nat :=
  match v with
  | None | Some JNull => 0
  | Some (JBool false) => 1
  | Some (JBool true) => 2
  | Some (JNum _) => 3
  | Some (JStr _) => 4
  end.

(** Firebase's order on the values of a child. *)
Definition fb_le (a b : option jprim) : bool :=
  match a, b with
  | Some (JNum x), Some (JNum y) => Z.leb x y
  | Some (JStr x), Some (JStr y) => String.leb x y
  | _, _ => Nat.leb (fb_rank a) (fb_rank b)
  end.

Definition fb_child (k : string) (o : jobj) : option jprim := jget k o.

(** [query(ref, orderByChild(k), startAt(lo)?, endAt(hi)?)]. *)
Definition fb_range (k : string) (lo hi : option jprim) (m : gmap string jobj) : gmap string jobj :=
  filter (λ kv, (match lo with Some l => fb_le (Some l) (fb_child k kv.2) | None => true end &&
                 match hi with Some h => fb_le (fb_child k kv.2) (Some h) | None => true end) = true) m.

(** [query(ref, orderByChild(k), equalTo(v))]. *)
Definition fb_equal (k : string) (v : jprim) (m : gmap string jobj) : gmap string jobj :=
  filter (λ kv, fb_child k kv.2 = Some v) m.

(** [snapshot.exists() ? Object.keys(snapshot.val()).length : 0]. *)
Definition count_children (m : gmap string jobj) : nat := size m.

(** ** [fetchUserStats] *)

Record UserStats : Type := {
  totalUsers : nat;
  activeUsers : nat;
  newUsers : nat;
  change : num
}.

(** [new Date(now.setDate(now.getDate() - 30)).getTime()], away from
    daylight-saving changes. *)
Definition thirty_days_ago (now : Z) : Z := (now - 30 * 86400000)%Z.

(** [activeUserSet]: [tx.fromAddress] always (an absent one is
    [undefined], which the set also holds), [tx.toAddress] when truthy. *)
Definition active_addresses (txs : gmap string jobj) : list (option jprim) :=
  map_fold (λ _ tx acc, let acc' := fb_child "fromAddress" tx :: acc in
                        if jtruthy (fb_child "toAddress" tx) then fb_child "toAddress" tx :: acc' else acc')
           [] txs.

Definition fetchUserStats (now : Z) (users txs : gmap string jobj) : UserStats :=
  let since := Some (JNum (thirty_days_ago now)) in
  let total := count_children users in
  let recent := count_children (fb_range "createdAt" since None users) in
  let active := length (remove_dups (active_addresses (fb_range "timestamp" since None txs))) in
  {| totalUsers := total; activeUsers := active; newUsers := recent;
     change := if Nat.ltb 0 total then Fin (inject_Z (Z.of_nat recent) / inject_Z (Z.of_nat total) * 100) else Fin 0 |}.

(** [fetchActiveUsers] and [fetchDailyTransactions] of the dashboard;
    their [change] is a constant. *)
Definition fetchActiveUsers (users : gmap string jobj) : nat * num := (count_children users, Fin (52 # 10)).

Definition fetchDailyTransactions (todayStart now : Z) (txs : gmap string jobj) : nat * num :=
  (count_children (fb_range "timestamp" (Some (JNum todayStart)) (Some (JNum now)) txs), Fin (-15 # 10)).

(** ** [fetchUsers] *)

Record UserFilters : Type := { search : string; status : string }.

Definition defaultFilters : UserFilters := {| search := ""; status := "" |}.

(** [{ id, ...data }]: a property [id] of [data] wins. *)
Definition user_of_entry (id : string) (data : jobj) : jobj := ("id", JStr id) :: data.

(** [user.email.toLowerCase().includes(q) || user.walletAddress...]: a
    field that is not a string makes [toLowerCase] throw. *)
Definition matches_search (q : string) (u : jobj) : jsres bool :=
  match fb_child "email" u with
  | Some (JStr e) =>
      if includes (toLowerCase e) (toLowerCase q) then Ok true
      else match fb_child "walletAddress" u with
           | Some (JStr w) => Ok (includes (toLowerCase w) (toLowerCase q))
           | _ => Throw (TypeError "Cannot read properties of undefined (reading 'toLowerCase')")
           end
  | _ => Throw (TypeError "Cannot read properties of undefined (reading 'toLowerCase')")
  end.

Fixpoint filter_js {A} (p : A → jsres bool) (l : list A) : jsres (list A) :=
  match l with
  | [] => Ok []
  | x :: l' =>
      match p x with
      | Ok b => match filter_js p l' with Ok r => Ok (if b then x :: r else r) | Throw e => Throw e end
      | Throw e => Throw e
      end
  end.

(** [fetchUsers(filters)]: [authed] is [auth.currentUser]; every error is
    caught and gives [[]]. *)
Definition fetchUsers (authed : bool) (f : UserFilters) (users : gmap string jobj) : list jobj :=
  if negb authed then []
  else
    let snapshot := if bool_decide (status f = "") then users else fb_equal "status" (JStr (status f)) users in
    let us := map (λ kv, user_of_entry kv.1 kv.2) (map_to_list snapshot) in
    if bool_decide (search f = "") then us
    else match filter_js (matches_search (search f)) us with Ok r => r | Throw _ => [] end.

(** ** The page's filters ([UserFilters.tsx], [useUserFilters]) *)

Inductive FilterInput : Type := SetSearch (s : string) | SetStatus (s : string).

Definition UserFilters_onChange (i : FilterInput) (f : UserFilters) : UserFilters :=
  match i with
  | SetSearch s => {| search := s; status := status f |}
  | SetStatus s => {| search := search f; status := s |}
  end.

(** The status badge of [UserRow]. *)
Definition UserRow_status_class (u : jobj) : string :=
  if bool_decide (fb_child "status" u = Some (JStr "active")) then "bg-green-100 text-green-800"
  else "bg-red-100 text-red-800".

(** What React renders for a value in JSX: a string or a number as
    text, nothing for [undefined], [null] or a boolean. *)
Definition react_text (v : option jprim) : string :=
  match v with
  | Some (JStr s) => s
  | Some (JNum z) => print_Z z
  | _ => ""
  end.

(** The cells of [UserRow]: email, ["ID: " + id], wallet address, balance
    followed by [" XLC"], the status badge and its text; the three
    buttons have no handler. *)
Definition UserRow_view (u : jobj) : string * string * string * string * string * string :=
  (react_text (fb_child "email" u), "ID: " ++ react_text (fb_child "id" u), react_text (fb_child "walletAddress" u),
   react_text (fb_child "balance" u) ++ " XLC", UserRow_status_class u, react_text (fb_child "status" u)).

(** ** The page ([pages/Users/index.tsx], [useUserFilters]) *)

(** [updateFilters]: [setFilters(newFilters)]. *)
Definition updateFilters (newFilters _ : UserFilters) : UserFilters := newFilters.

(** One change of an input of [UserFilters], passed to [updateFilters]. *)
Definition users_page_step (f : UserFilters) (i : FilterInput) : UserFilters :=
  updateFilters (UserFilters_onChange i f) f.

(** The filters after a sequence of changes, from [defaultFilters]. *)
Definition users_page_filters (inputs : list FilterInput) : UserFilters :=
  foldl users_page_step defaultFilters inputs.

(** The query of the page: its key ['users', filters] and the users its
    function [fetchUsers(filters)] resolves to, which go to [UserList]. *)
Definition Users_page (authed : bool) (users : gmap string jobj) (inputs : list FilterInput) :
    (string * UserFilters) * list jobj :=
  let f := users_page_filters inputs in (("users", f), fetchUsers authed f users).

(** ** Sample data *)

Definition alice : jobj :=
  [("email", JStr "Alice@Example.com"); ("walletAddress", JStr "0xAbC1"); ("balance", JStr "10");
   ("status", JStr "active"); ("createdAt", JStr "2024-05-01T00:00:00.000Z")].

Definition bob : jobj :=
  [("email", JStr "bob@example.com"); ("walletAddress", JStr "0xdef2"); ("balance", JStr "0");
   ("status", JStr "suspended"); ("createdAt", JStr "2020-01-01T00:00:00.000Z")].

(** A record imported with a numeric [email]. *)
Definition imported : jobj :=
  [("email", JNum 42); ("walletAddress", JStr "0x9999"); ("status", JStr "active")].

Definition two_users : gmap string jobj := <["u1" := alice]> (<["u2" := bob]> ∅).

Definition three_users : gmap string jobj := <["u3" := imported]> two_users.

(** ** Lemmas *)

Lemma jget_cons_ne k k' v o : k' ≠ k → jget k ((k', v) :: o) = jget k o.
Proof. intros Hne. unfold jget. simpl. by rewrite bool_decide_false. Qed.

Lemma user_of_entry_child k id d : k ≠ "id" → fb_child k (user_of_entry id d) = fb_child k d.
Proof. intros Hk. apply jget_cons_ne. congruence. Qed.

(** A lower bound below every child keeps the whole node. *)
Lemma fb_range_from_all k lo m :
  (∀ i u, m !! i = Some u → fb_le (Some lo) (fb_child k u) = true) →
  fb_range k (Some lo) None m = m.
Proof.
  intros Hall. unfold fb_range. apply map_filter_id.
  intros i u Hi. cbv beta. cbn [fst snd]. by rewrite (Hall i u Hi).
Qed.

(** A number is below every string in Firebase's order. *)
Lemma fb_le_num_str z s : fb_le (Some (JNum z)) (Some (JStr s)) = true.
Proof. reflexivity. Qed.

Lemma filter_js_ok {A} (p : A → jsres bool) (q : A → bool) l :
  (∀ x, x ∈ l → p x = Ok (q x)) → filter_js p l = Ok (filter q l).
Proof.
  induction l as [|x l IH]; intros Hl; [done|]. simpl.
  rewrite Hl by set_solver. rewrite IH by set_solver.
  rewrite filter_cons. by destruct (q x).
Qed.

Lemma filter_js_throw {A} (p : A → jsres bool) l x e :
  x ∈ l → p x = Throw e → ∃ e', filter_js p l = Throw e'.
Proof.
  induction l as [|y l IH]; intros Hx Hp; [set_solver|]. simpl.
  apply elem_of_cons in Hx as [->|Hx].
  - rewrite Hp. eauto.
  - destruct (p y); [|eauto]. destruct (IH Hx Hp) as [e' ->]. eauto.
Qed.

(** The users a query returns, as [fetchUsers] builds them. *)
Definition snapshot_users (f : UserFilters) (users : gmap string jobj) : list jobj :=
  map (λ kv, user_of_entry kv.1 kv.2)
      (map_to_list (if bool_decide (status f = "") then users
                    else fb_equal "status" (JStr (status f)) users)).

(** The search of the spec: the lower-cased text occurs in the lower-cased
    e-mail or wallet address. *)
Definition search_hit (q : string) (u : jobj) : bool :=
  match fb_child "email" u, fb_child "walletAddress" u with
  | Some (JStr e), Some (JStr w) => includes (toLowerCase e) (toLowerCase q) || includes (toLowerCase w) (toLowerCase q)
  | _, _ => false
  end.

Definition well_typed_user (u : jobj) : Prop :=
  (∃ e, fb_child "email" u = Some (JStr e)) ∧ (∃ w, fb_child "walletAddress" u = Some (JStr w)).

Lemma matches_search_typed q u : well_typed_user u → matches_search q u = Ok (search_hit q u).
Proof.
  intros [[e He] [w Hw]]. unfold matches_search, search_hit. rewrite He, Hw.
  by destruct (includes _ _).
Qed.

Lemma snapshot_users_elem f users u :
  u ∈ snapshot_users f users →
  ∃ id d, (if bool_decide (status f = "") then users else fb_equal "status" (JStr (status f)) users) !! id = Some d
          ∧ u = user_of_entry id d.
Proof.
  unfold snapshot_users. intros (kv & -> & Hkv)%list_elem_of_fmap.
  destruct kv as [id d]. apply elem_of_map_to_list in Hkv. eauto.
Qed.

Lemma filter_js_sub {A} (p : A → jsres bool) l r x : filter_js p l = Ok r → x ∈ r → x ∈ l.
Proof.
  revert r. induction l as [|y l IH]; intros r Hf Hx; simpl in Hf; [by injection Hf as <-|].
  destruct (p y) as [[]|]; [..|discriminate]; destruct (filter_js p l) as [r'|] eqn:E; try discriminate;
    injection Hf as <-; [apply elem_of_cons in Hx as [->|Hx]; [left|]|]; right; eauto.
Qed.

(** What [fetchUsers] returns is drawn from the queried node. *)
Lemma fetchUsers_sub authed f users u : u ∈ fetchUsers authed f users → u ∈ snapshot_users f users.
Proof.
  unfold fetchUsers. destruct authed; [|by intros ?%elem_of_nil]. cbn [negb].
  case_bool_decide; [done|]. destruct (filter_js _ _) eqn:E; [|by intros ?%elem_of_nil].
  intros Hu. exact (filter_js_sub _ _ _ _ E Hu).
Qed.

Lemma fb_equal_child k v m i d : fb_equal k v m !! i = Some d → fb_child k d = Some v.
Proof. unfold fb_equal. by intros [_ ?]%map_lookup_filter_Some. Qed.

(** The last [SetStatus] of the inputs sets the status filter. *)
Lemma users_page_filters_status inputs s rest :
  Forall (λ i, ∀ s', i ≠ SetStatus s') rest →
  status (users_page_filters (inputs ++ SetStatus s :: rest)) = s.
Proof.
  unfold users_page_filters. rewrite foldl_app. cbn [foldl].
  intros Hrest. assert (Hs : status (users_page_step (foldl users_page_step defaultFilters inputs) (SetStatus s)) = s)
    by reflexivity.
  revert Hs. generalize (users_page_step (foldl users_page_step defaultFilters inputs) (SetStatus s)) as f0.
  induction Hrest as [|[q|q] rest Hi _ IH]; intros f0 Hs; [done|by apply IH|by destruct (Hi q)].
Qed.

Lemma fetchUsers_unfold f users :
  search f ≠ "" →
  fetchUsers true f users =
  match filter_js (matches_search (search f)) (snapshot_users f users) with Ok r => r | Throw _ => [] end.
Proof. intros Hs. unfold fetchUsers. simpl. by rewrite bool_decide_false. Qed.

Lemma Q_self_percent (n : nat) : (n ≠ 0)%nat → inject_Z (Z.of_nat n) / inject_Z (Z.of_nat n) * 100 == 100.
Proof.
  intros Hn. field. change (~ inject_Z (Z.of_nat n) == inject_Z 0).
  rewrite inject_Z_injective. lia.
Qed.

(** C24: [createdAt] is a string ([types/user.ts]) while the query starts
    at the number [thirtyDaysAgo.getTime()]; Firebase orders every string
    after every number, so when every user's [createdAt] is a string the
    new-user count is the total user count and the growth is 100%,
    whatever the current date. *)
Theorem new_users_counts_every_user now users txs :
  (∀ i u, users !! i = Some u → ∃ s, fb_child "createdAt" u = Some (JStr s)) →
  users ≠ ∅ →
  newUsers (fetchUserStats now users txs) = totalUsers (fetchUserStats now users txs) ∧
  change (fetchUserStats now users txs) ≡ Fin 100.
Proof.
  intros Hstr Hne. unfold fetchUserStats. cbn [newUsers totalUsers change].
  rewrite fb_range_from_all.
  2:{ intros i u Hi. destruct (Hstr i u Hi) as [s ->]. apply fb_le_num_str. }
  unfold count_children. split; [done|].
  apply map_size_non_empty_iff in Hne.
  destruct (Nat.ltb_spec 0 (size users)); [|lia].
  num_unfold. by apply Q_self_percent.
Qed.

(** With a non-empty search text and well-typed users, [fetchUsers]
    returns, in snapshot order, the users whose lower-cased e-mail or
    wallet address contains the lower-cased search text. *)
Theorem fetchUsers_search f users :
  search f ≠ "" →
  (∀ u, u ∈ snapshot_users f users → well_typed_user u) →
  fetchUsers true f users = filter (search_hit (search f)) (snapshot_users f users).
Proof.
  intros Hs Hwt. rewrite fetchUsers_unfold by done.
  rewrite (filter_js_ok _ (search_hit (search f))); [done|].
  intros u Hu. by apply matches_search_typed, Hwt.
Qed.

(** C25: one user record of the queried node whose [email] is not a
    string makes the search filter throw; the catch turns this into an
    empty list, so every user disappears from the page. *)
Theorem fetchUsers_bad_email_hides_all f users id d :
  search f ≠ "" →
  (if bool_decide (status f = "") then users else fb_equal "status" (JStr (status f)) users) !! id = Some d →
  (∀ e, fb_child "email" d ≠ Some (JStr e)) →
  fetchUsers true f users = [].
Proof.
  intros Hs Hid Hbad. rewrite fetchUsers_unfold by done.
  assert (Hthrow : ∃ e, matches_search (search f) (user_of_entry id d) = Throw e).
  { unfold matches_search. rewrite user_of_entry_child by done.
    destruct (fb_child "email" d) as [[| | |e]|]; eauto. by destruct (Hbad e). }
  destruct Hthrow as [e He].
  assert (Hin : user_of_entry id d ∈ snapshot_users f users).
  { apply list_elem_of_fmap. exists (id, d). split; [done|]. by apply elem_of_map_to_list. }
  by destruct (filter_js_throw _ _ _ _ Hin He) as [e' ->].
Qed.

Lemma new_users_counts_every_user_witness :
  newUsers (fetchUserStats 1717200000000 two_users ∅) = totalUsers (fetchUserStats 1717200000000 two_users ∅) ∧
  change (fetchUserStats 1717200000000 two_users ∅) ≡ Fin 100.
Proof.
  apply new_users_counts_every_user.
  - intros i u Hi. unfold two_users in Hi.
    apply lookup_insert_Some in Hi as [[_ <-]|[_ Hi]]; [eexists; reflexivity|].
    apply lookup_insert_Some in Hi as [[_ <-]|[_ Hi]]; [eexists; reflexivity|].
    by rewrite lookup_empty in Hi.
  - unfold two_users. apply insert_non_empty.
Defined.

Lemma fetchUsers_search_witness :
  fetchUsers true {| search := "ALICE"; status := "" |} two_users = [user_of_entry "u1" alice].
Proof.
  rewrite fetchUsers_search.
  - vm_compute. reflexivity.
  - discriminate.
  - intros u Hu. vm_compute in Hu. apply list_elem_of_In in Hu.
    destruct Hu as [<-|[<-|[]]]; split; eexists; reflexivity.
Defined.

Lemma fetchUsers_bad_email_hides_all_witness :
  fetchUsers true {| search := "alice"; status := "" |} three_users = [].
Proof.
  apply (fetchUsers_bad_email_hides_all _ _ "u3" imported).
  - discriminate.
  - vm_compute. reflexivity.
  - intros e. vm_compute. discriminate.
Defined.

(** C11: the Users page lists only users whose status is the last status
    chosen in the filter bar, whatever the search typed after it: the
    select's change reaches the query key through [updateFilters], and
    [fetchUsers] queries the node with [equalTo] on [status]. *)
Theorem users_page_status_rows authed users inputs s rest u :
  Forall (λ i, ∀ s', i ≠ SetStatus s') rest → s ≠ "" →
  u ∈ (Users_page authed users (inputs ++ SetStatus s :: rest)).2 →
  fb_child "status" u = Some (JStr s).
Proof.
  intros Hrest Hs Hu. apply fetchUsers_sub, snapshot_users_elem in Hu as (id & d & Hd & ->).
  rewrite users_page_filters_status in Hd by done. rewrite bool_decide_false in Hd by done.
  rewrite user_of_entry_child by done. by apply fb_equal_child in Hd.
Qed.

Lemma users_page_status_rows_witness :
  fb_child "status" (user_of_entry "u1" alice) = Some (JStr "active").
Proof.
  apply (users_page_status_rows true two_users [SetSearch "ALICE"] "active" [SetSearch "alice"]).
  - repeat constructor. discriminate.
  - discriminate.
  - vm_compute. left.
Defined.
