(* ===== verification/Deploy.v ===== *)
(** * The contract deployment page: [pages/Deploy]

    [ContractDashboard] lets the administrator pick a template
    ([TemplateSelector], loaded by [services/contractService.ts]), fill in
    its parameters ([ParameterConfig]) and submit; the submission adds a
    pending entry to the list shown by [DeploymentMonitor].  The other tabs
    are [ContractRegistry] (a searchable fixed list), [SecurityControls]
    (switches) and [XLCIntegration] and [TokenDeployment] (forms whose
    submission only logs).

    A parameter value is what the page stores in its [Record<string, any>]:
    a string, a number, a boolean or an array of strings ([pval]); an
    absent key is [undefined].  [new RegExp(pattern).test(value)] is the
    section variable [regex_test]: the theorems hold for every regular
    expression engine. *)

From S2P Require Import Prelude Json.
From Stdlib Require Import Ascii.

Local Open Scope nat_scope.
Local Open Scope string_scope.

(** ** Data ([pages/Deploy/types.ts]) *)

Inductive category : Type := CatToken | CatDefi | CatGovernance | CatUtility.

#[export] Instance category_eq_dec : EqDecision category.
Proof. solve_decision. Defined.

Inductive ptype : Type := TString | TNumber | TBoolean | TAddress | TArray.

Inductive pval : Type :=
| PStr (s : string)
| PNum (n : num)
| PBool (b : bool)
| PArr (l : list string).

Record Validation : Type := {
  v_min : option num;
  v_max : option num;
  v_pattern : option string
}.

Record ContractParameter : Type := {
  p_name : string;
  p_type : ptype;
  p_description : string;
  p_required : bool;
  p_default : option pval;
  p_validation : option Validation
}.

Record ContractTemplate : Type := {
  t_id : string;
  t_name : string;
  t_description : string;
  t_category : category;
  t_version : string;
  t_parameters : list ContractParameter
}.

Inductive dstatus : Type := DPending | DDeploying | DSuccess | DFailed.

Record DeploymentStatus : Type := {
  d_id : string;
  d_contractName : string;
  d_status : dstatus;
  d_address : option string;
  d_txHash : option string;
  d_timestamp : Z;
  d_error : option string
}.

(** ** [Number(s)] on a string

    Surrounding white space is dropped, the empty string is 0, and the
    rest must be a decimal literal: an optional sign, digits with an
    optional fraction, an optional exponent.  [Infinity] and the [0x],
    [0o], [0b] literals, which a number input never produces, give NaN
    here. *)

Definition is_space (c : ascii) : bool :=
  let n := nat_of_ascii c in (Nat.leb 9 n && Nat.leb n 13) || Nat.eqb n 32 || Nat.eqb n 160.

Fixpoint trim_start (s : string) : string :=
  match s with String c s' => if is_space c then trim_start s' else s | EmptyString => EmptyString end.

Definition str_rev (s : string) : string :=
  String.string_of_list_ascii (rev (String.list_ascii_of_string s)).

Definition trim (s : string) : string := str_rev (trim_start (str_rev (trim_start s))).

Fixpoint digits_val (acc : Z) (s : string) : Z :=
  match s with
  | String c s' => digits_val (acc * 10 + Z.of_nat (nat_of_ascii c - 48))%Z s'
  | EmptyString => acc
  end.

Definition take_sign (s : string) : bool * string :=
  match s with
  | String "-"%char r => (true, r)
  | String "+"%char r => (false, r)
  | _ => (false, s)
  end.

(** The exponent part, when an [e] or [E] is followed by digits. *)
Definition take_exponent (s : string) : Z * string :=
  match s with
  | String c r =>
      if (c =? "e")%char || (c =? "E")%char then
        let '(neg, r1) := take_sign r in
        let '(ds, r2) := take_digits r1 in
        if String.eqb ds "" then (0%Z, s)
        else ((if neg then - digits_val 0 ds else digits_val 0 ds)%Z, r2)
      else (0%Z, s)
  | EmptyString => (0%Z, s)
  end.

(** The longest prefix that is a decimal literal, with its value and the
    rest of the text. *)
Definition number_prefix (t : string) : option (Q * string) :=
  let '(neg, t1) := take_sign t in
  let '(ip, t2) := take_digits t1 in
  let '(fp, t3) := match t2 with String "."%char r => take_digits r | _ => ("", t2) end in
  if String.eqb ip "" && String.eqb fp "" then None else
  let '(e, t4) := take_exponent t3 in
  let m := digits_val 0 (ip ++ fp) in
  Some ((inject_Z (if neg then - m else m)%Z * Qpower (inject_Z 10) (e - Z.of_nat (String.length fp))%Z)%Q, t4).

Definition js_Number (s : string) : num :=
  let t := trim s in
  if String.eqb t "" then Fin 0 else
  match number_prefix t with
  | Some (q, EmptyString) => Fin q
  | _ => NaN
  end.

(** [parseFloat(s)]: the literal at the start, after white space. *)
Definition parseFloat (s : string) : num :=
  match number_prefix (trim_start s) with Some (q, _) => Fin q | None => NaN end.

(** [parseInt(s)] in base 10. *)
Definition parseInt10 (s : string) : num :=
  let '(neg, t1) := take_sign (trim_start s) in
  let '(ds, _) := take_digits t1 in
  if String.eqb ds "" then NaN
  else Fin (inject_Z (if neg then - digits_val 0 ds else digits_val 0 ds)%Z).

(** [Number(v)] for the values a parameter input hands over: an array
    converts through its comma-joined text. *)
Definition pval_to_number (v : pval) : num :=
  match v with
  | PStr s => js_Number s
  | PNum n => n
  | PBool b => Fin (if b then 1 else 0)
  | PArr [] => Fin 0
  | PArr [s] => js_Number s
  | PArr _ => NaN
  end.

(** [!value] for a parameter value; [undefined] is [None]. *)
Definition pval_truthy (v : option pval) : bool :=
  match v with
  | None => false
  | Some (PStr s) => negb (String.eqb s "")
  | Some (PNum n) => num_truthy n
  | Some (PBool b) => b
  | Some (PArr _) => true
  end.

(** [e.target.value.split(newline)]. *)
Fixpoint split_lines_go (cur : string) (s : string) : list string :=
  match s with
  | EmptyString => [cur]
  | String c s' =>
      if Nat.eqb (nat_of_ascii c) 10 then cur :: split_lines_go "" s'
      else split_lines_go (cur ++ String c "") s'
  end.

Definition split_lines (s : string) : list string := split_lines_go "" s.

(** ** [ParameterConfig] *)

(** The messages [validateParameter] returns: [This field is required],
    [Value must be at least min], [Value must be at most max],
    [Invalid format]. *)
Inductive param_error : Type :=
| Required
| TooSmall (min : num)
| TooLarge (max : num)
| InvalidFormat.

Record PCState : Type := {
  pc_parameters : gmap string pval;
  pc_errors : gmap string param_error
}.

Definition pc_init : PCState := {| pc_parameters := ∅; pc_errors := ∅ |}.

(** What [handleSubmit] hands on: the next state, the error toast and the
    parameters passed to [onDeploy]. *)
Record PCOutcome : Type := {
  pco_state : PCState;
  pco_toast : option string;
  pco_deploy : option (gmap string pval)
}.

(** What each input of [renderInput] hands to [handleChange] when its text
    changes: the text, or its lines for an array. *)
Definition widget_value (param : ContractParameter) (text : string) : pval :=
  match p_type param with TArray => PArr (split_lines text) | _ => PStr text end.

Section ParameterConfig.

(** [new RegExp(pattern).test(value)]. *)
Variable regex_test : string → string → bool.

(** [typeof value === 'number'] with its [min] and [max] checks; a NaN
    passes both. *)
Definition range_error (val : Validation) (v : option pval) : option param_error :=
  match v with
  | Some (PNum n) =>
      match v_min val with
      | Some m => if num_lt n m then Some (TooSmall m) else None
      | None => None
      end
      ∪ match v_max val with
        | Some x => if num_gt n x then Some (TooLarge x) else None
        | None => None
        end
  | _ => None
  end.

(** [pattern && typeof value === 'string' && !new RegExp(pattern).test(value)]. *)
Definition pattern_error (val : Validation) (v : option pval) : option param_error :=
  match v_pattern val, v with
  | Some pat, Some (PStr s) => if negb (String.eqb pat "") && negb (regex_test pat s) then Some InvalidFormat else None
  | _, _ => None
  end.

Definition validateParameter (param : ContractParameter) (v : option pval) : option param_error :=
  if p_required param && negb (pval_truthy v) then Some Required else
  match p_validation param with
  | Some val => range_error val v ∪ pattern_error val v
  | None => None
  end.

(** The value [handleChange] stores: [value === '' ? '' : Number(value)]
    for a number, [value === 'true'] for a boolean. *)
Definition parse_value (param : ContractParameter) (value : pval) : pval :=
  match p_type param with
  | TNumber => match value with PStr "" => PStr "" | _ => PNum (pval_to_number value) end
  | TBoolean => PBool (match value with PStr s => String.eqb s "true" | _ => false end)
  | _ => value
  end.

Definition handleChange (param : ContractParameter) (value : pval) (st : PCState) : PCState :=
  let parsed := parse_value param value in
  {| pc_parameters := <[p_name param := parsed]> (pc_parameters st);
     pc_errors := match validateParameter param (Some parsed) with
                  | Some e => <[p_name param := e]> (pc_errors st)
                  | None => delete (p_name param) (pc_errors st)
                  end |}.

(** The errors of [template.parameters.forEach], later names winning. *)
Definition submit_step (values : gmap string pval) (acc : gmap string param_error) (param : ContractParameter)
    : gmap string param_error :=
  match validateParameter param (values !! p_name param) with
  | Some e => <[p_name param := e]> acc
  | None => acc
  end.

Definition submit_errors (params : list ContractParameter) (values : gmap string pval) : gmap string param_error :=
  foldl (submit_step values) ∅ params.

Definition handleSubmit (template : ContractTemplate) (st : PCState) : PCOutcome :=
  let newErrors := submit_errors (t_parameters template) (pc_parameters st) in
  if Nat.ltb 0 (size newErrors) then
    {| pco_state := {| pc_parameters := pc_parameters st; pc_errors := newErrors |};
       pco_toast := Some "Please fix the errors before deploying"; pco_deploy := None |}
  else {| pco_state := st; pco_toast := None; pco_deploy := Some (pc_parameters st) |}.

End ParameterConfig.

(** What the inputs show: [parameters[name]?.toString() || 'false'] for a
    boolean (on the values a boolean parameter holds), and whether
    [parameters[name] || ''] shows the stored value for the others. *)
Definition boolean_select_value (st : PCState) (name : string) : string :=
  match pc_parameters st !! name with
  | Some (PBool true) => "true"
  | Some (PStr s) => if String.eqb s "" then "false" else s
  | _ => "false"
  end.

Definition number_input_shows_value (st : PCState) (name : string) : bool :=
  pval_truthy (pc_parameters st !! name).

(** ** [TemplateSelector] *)

Definition category_name (c : category) : string :=
  match c with
  | CatToken => "token" | CatDefi => "defi" | CatGovernance => "governance" | CatUtility => "utility"
  end.

Record TSState : Type := {
  ts_templates : list ContractTemplate;
  ts_isLoading : bool;
  ts_selectedCategory : string
}.

Definition ts_init : TSState := {| ts_templates := []; ts_isLoading := true; ts_selectedCategory := "all" |}.

(** [loadTemplates] with the result of [fetchContractTemplates]: the
    templates, or the toast; [isLoading] ends either way. *)
Definition loadTemplates (r : jsres (list ContractTemplate)) (st : TSState) : TSState * option string :=
  match r with
  | Ok data => ({| ts_templates := data; ts_isLoading := false; ts_selectedCategory := ts_selectedCategory st |}, None)
  | Throw _ => ({| ts_templates := ts_templates st; ts_isLoading := false; ts_selectedCategory := ts_selectedCategory st |},
                Some "Failed to load contract templates")
  end.

(** [[...new Set(xs)]]: first occurrences, in order. *)
Definition set_values (xs : list string) : list string :=
  foldl (λ (acc : list string) x, if bool_decide (x ∈ acc) then acc else app acc [x]) [] xs.

Definition categories (st : TSState) : list string :=
  "all" :: set_values (map (λ t, category_name (t_category t)) (ts_templates st)).

Definition filteredTemplates (st : TSState) : list ContractTemplate :=
  if String.eqb (ts_selectedCategory st) "all" then ts_templates st
  else filter (λ t, category_name (t_category t) = ts_selectedCategory st) (ts_templates st).

Definition setSelectedCategory (c : string) (st : TSState) : TSState :=
  {| ts_templates := ts_templates st; ts_isLoading := ts_isLoading st; ts_selectedCategory := c |}.

(** A template card: the first three parameter names, and [+n more]. *)
Definition template_chips (t : ContractTemplate) : list string * option nat :=
  (map p_name (take 3 (t_parameters t)),
   if Nat.ltb 3 (length (t_parameters t)) then Some (length (t_parameters t) - 3) else None).

Inductive TSView : Type :=
| TSLoading
| TSGrid (buttons : list string) (cards : list ContractTemplate) (noneFound : bool).

Definition TemplateSelector_view (st : TSState) : TSView :=
  if ts_isLoading st then TSLoading
  else TSGrid (categories st) (filteredTemplates st) (Nat.eqb (length (filteredTemplates st)) 0).

(** ** [ContractDashboard] *)

(** [ParameterConfig] is mounted while a template is selected and keeps
    its state when another template is picked: React reuses the element,
    which has no [key]. *)
Record Dash : Type := {
  dash_ts : TSState;
  dash_selected : option ContractTemplate;
  dash_pc : PCState;
  dash_deployments : list DeploymentStatus;
  dash_log : list (gmap string pval)
}.

Definition dash_init : Dash :=
  {| dash_ts := ts_init; dash_selected := None; dash_pc := pc_init; dash_deployments := []; dash_log := [] |}.

(** [handleDeploy]: a pending entry in front of the list, and the
    parameters only reach [console.log]. *)
Definition handleDeploy (uuid : string) (now : Z) (parameters : gmap string pval) (d : Dash) : Dash :=
  match dash_selected d with
  | None => d
  | Some t =>
      let newDeployment := {| d_id := uuid; d_contractName := t_name t; d_status := DPending;
                              d_address := None; d_txHash := None; d_timestamp := now; d_error := None |} in
      {| dash_ts := dash_ts d; dash_selected := dash_selected d; dash_pc := dash_pc d;
         dash_deployments := newDeployment :: dash_deployments d; dash_log := parameters :: dash_log d |}
  end.

Inductive DashAction : Type :=
| DLoad (r : jsres (list ContractTemplate))
| DCategory (i : nat)
| DSelect (i : nat)
| DChange (i : nat) (text : string)
| DSubmit (uuid : string) (now : Z).

Definition set_ts (ts : TSState) (d : Dash) : Dash :=
  {| dash_ts := ts; dash_selected := dash_selected d; dash_pc := dash_pc d;
     dash_deployments := dash_deployments d; dash_log := dash_log d |}.

Definition set_pc (pc : PCState) (d : Dash) : Dash :=
  {| dash_ts := dash_ts d; dash_selected := dash_selected d; dash_pc := pc;
     dash_deployments := dash_deployments d; dash_log := dash_log d |}.

(** [onSelect(template)] on a card of the grid. *)
Definition select_template (t : ContractTemplate) (d : Dash) : Dash :=
  {| dash_ts := dash_ts d; dash_selected := Some t;
     dash_pc := match dash_selected d with None => pc_init | Some _ => dash_pc d end;
     dash_deployments := dash_deployments d; dash_log := dash_log d |}.

Section Dashboard.

Variable regex_test : string → string → bool.

(** One user event: the templates arriving, a category button, a card, a
    parameter input of the selected template, the Deploy button.  An event
    on an element that is not on screen changes nothing. *)
Definition dash_step (a : DashAction) (d : Dash) : Dash * option string :=
  match a with
  | DLoad r => if ts_isLoading (dash_ts d) then let '(ts, msg) := loadTemplates r (dash_ts d) in (set_ts ts d, msg) else (d, None)
  | DCategory i =>
      match TemplateSelector_view (dash_ts d) with
      | TSGrid bs _ _ => match nth_error bs i with Some c => (set_ts (setSelectedCategory c (dash_ts d)) d, None) | None => (d, None) end
      | TSLoading => (d, None)
      end
  | DSelect i =>
      match TemplateSelector_view (dash_ts d) with
      | TSGrid _ cs _ => match nth_error cs i with Some t => (select_template t d, None) | None => (d, None) end
      | TSLoading => (d, None)
      end
  | DChange i text =>
      match dash_selected d ≫= (λ t, nth_error (t_parameters t) i) with
      | Some p => (set_pc (handleChange regex_test p (widget_value p text) (dash_pc d)) d, None)
      | None => (d, None)
      end
  | DSubmit uuid now =>
      match dash_selected d with
      | Some t =>
          let o := handleSubmit regex_test t (dash_pc d) in
          let d' := set_pc (pco_state o) d in
          (match pco_deploy o with Some ps => handleDeploy uuid now ps d' | None => d' end, pco_toast o)
      | None => (d, None)
      end
  end.

Definition dash_run (acts : list DashAction) (d : Dash) : Dash :=
  foldl (λ d a, (dash_step a d).1) d acts.

End Dashboard.

(** ** [DeploymentMonitor] *)

(** [getStatusIcon] of the monitor: the icon and its classes. *)
Definition monitor_getStatusIcon (s : dstatus) : string * string :=
  match s with
  | DSuccess => ("CheckCircle", "h-5 w-5 text-green-500")
  | DFailed => ("XCircle", "h-5 w-5 text-red-500")
  | DPending => ("Clock", "h-5 w-5 text-yellow-500")
  | DDeploying => ("Loader", "h-5 w-5 text-blue-500 animate-spin")
  end.

Definition getStatusColor (s : dstatus) : string :=
  match s with
  | DSuccess => "bg-green-100 text-green-800"
  | DFailed => "bg-red-100 text-red-800"
  | DPending => "bg-yellow-100 text-yellow-800"
  | DDeploying => "bg-blue-100 text-blue-800"
  end.

(** [s.slice(0, n)] and [s.slice(-n)]. *)
Definition slice_first (n : nat) (s : string) : string := String.substring 0 n s.
Definition slice_last (n : nat) (s : string) : string :=
  String.substring (String.length s - n) n s.

Definition short_tx_hash (h : string) : string := slice_first 10 h ++ "..." ++ slice_last 8 h.

Record MonitorCard : Type := {
  mc_icon : string * string;
  mc_name : string;
  mc_status : string;
  mc_address_link : option string;
  mc_tx : option (string * string);
  mc_error : option string;
  mc_actions : bool
}.

Definition monitor_card (dep : DeploymentStatus) : MonitorCard :=
  {| mc_icon := monitor_getStatusIcon (d_status dep);
     mc_name := d_contractName dep;
     mc_status := getStatusColor (d_status dep);
     mc_address_link := match d_address dep with
                        | Some a => if String.eqb a "" then None else Some ("https://bscscan.com/address/" ++ a)
                        | None => None end;
     mc_tx := match d_txHash dep with
              | Some h => if String.eqb h "" then None else Some ("https://bscscan.com/tx/" ++ h, short_tx_hash h)
              | None => None end;
     mc_error := match d_error dep with Some e => if String.eqb e "" then None else Some e | None => None end;
     mc_actions := match d_status dep with DSuccess => true | _ => false end |}.

Definition DeploymentMonitor_view (deps : list DeploymentStatus) : option (list MonitorCard) :=
  match deps with [] => None | _ => Some (map monitor_card deps) end.

(** ** [ContractRegistry] *)

Record RegistryEntry : Type := {
  r_id : string;
  r_name : string;
  r_address : string;
  r_network : string;
  r_version : string;
  r_deployedAt : Z;
  r_features : list string;
  r_verified : bool;
  r_audited : bool
}.

(** The three entries the component starts with, at mount time [now]. *)
Definition registry_contracts (now : Z) : list RegistryEntry :=
  [ {| r_id := "1"; r_name := "XLC Token"; r_address := "0x1234567890abcdef1234567890abcdef12345678";
       r_network := "BSC Mainnet"; r_version := "1.0.0"; r_deployedAt := now;
       r_features := ["ERC20"; "Burnable"; "Pausable"]; r_verified := true; r_audited := true |};
    {| r_id := "2"; r_name := "Staking Pool"; r_address := "0xabcdef1234567890abcdef1234567890abcdef12";
       r_network := "BSC Mainnet"; r_version := "1.1.0"; r_deployedAt := (now - 86400000)%Z;
       r_features := ["Staking"; "Rewards"; "Emergency Withdraw"]; r_verified := true; r_audited := false |};
    {| r_id := "3"; r_name := "Liquidity Pool"; r_address := "0x7890abcdef1234567890abcdef1234567890abcd";
       r_network := "BSC Mainnet"; r_version := "1.0.1"; r_deployedAt := (now - 172800000)%Z;
       r_features := ["AMM"; "Fee Collection"; "Emergency Pause"]; r_verified := false; r_audited := false |} ].

Definition registry_match (q : string) (c : RegistryEntry) : bool :=
  let q' := toLowerCase q in
  includes (toLowerCase (r_name c)) q' || includes (toLowerCase (r_address c)) q'
  || existsb (λ f, includes (toLowerCase f) q') (r_features c).

Definition filteredContracts (searchTerm : string) (cs : list RegistryEntry) : list RegistryEntry :=
  filter (λ c, registry_match searchTerm c = true) cs.

Definition short_address (a : string) : string := slice_first 6 a ++ "..." ++ slice_last 4 a.

(** ** [SecurityControls] *)

Inductive control_type : Type := CAccess | CApproval | CEmergency | CAudit.

Record SecurityControl : Type := {
  sc_id : string;
  sc_type : control_type;
  sc_name : string;
  sc_description : string;
  sc_enabled : bool;
  sc_lastUpdated : Z;
  sc_updatedBy : string
}.

Definition initial_controls (now : Z) : list SecurityControl :=
  [ {| sc_id := "1"; sc_type := CAccess; sc_name := "Admin Access Control";
       sc_description := "Manage deployment permissions for admin users";
       sc_enabled := true; sc_lastUpdated := now; sc_updatedBy := "Admin" |};
    {| sc_id := "2"; sc_type := CApproval; sc_name := "Multi-Signature Approval";
       sc_description := "Require multiple signatures for contract deployment";
       sc_enabled := true; sc_lastUpdated := now; sc_updatedBy := "Admin" |};
    {| sc_id := "3"; sc_type := CEmergency; sc_name := "Emergency Pause";
       sc_description := "Pause all contract deployments in case of emergency";
       sc_enabled := false; sc_lastUpdated := now; sc_updatedBy := "Admin" |};
    {| sc_id := "4"; sc_type := CAudit; sc_name := "Deployment Audit Log";
       sc_description := "Track all deployment activities and changes";
       sc_enabled := true; sc_lastUpdated := now; sc_updatedBy := "Admin" |} ].

(** [handleToggleControl]: [updatedBy] is left as it was. *)
Definition handleToggleControl (controlId : string) (now : Z) (cs : list SecurityControl) : list SecurityControl :=
  map (λ c, if String.eqb (sc_id c) controlId
            then {| sc_id := sc_id c; sc_type := sc_type c; sc_name := sc_name c; sc_description := sc_description c;
                    sc_enabled := negb (sc_enabled c); sc_lastUpdated := now; sc_updatedBy := sc_updatedBy c |}
            else c) cs.

(** ** [XLCIntegration] *)

Definition getSecurityColor (score : Z) : string :=
  if (90 <=? score)%Z then "text-green-600"
  else if (70 <=? score)%Z then "text-yellow-600"
  else "text-red-600".

Inductive feature_status : Type := FPending | FMapped | FVerified.

Record Feature : Type := {
  f_id : string; f_name : string; f_description : string; f_status : feature_status; f_securityScore : Z
}.

Definition xlc_features : list Feature :=
  [ {| f_id := "1"; f_name := "Token Transfer"; f_description := "Standard ERC20 transfer functionality";
       f_status := FVerified; f_securityScore := 95 |};
    {| f_id := "2"; f_name := "Liquidity Pool"; f_description := "Automated market maker pool integration";
       f_status := FMapped; f_securityScore := 85 |};
    {| f_id := "3"; f_name := "Staking Mechanism"; f_description := "Token staking and rewards distribution";
       f_status := FPending; f_securityScore := 75 |} ].

Definition feature_status_color (s : feature_status) : string :=
  match s with
  | FVerified => "bg-green-100 text-green-800"
  | FMapped => "bg-blue-100 text-blue-800"
  | FPending => "bg-yellow-100 text-yellow-800"
  end.

(** ** [TokenDeployment] *)

Record TokenFeatures : Type := {
  burnable : bool; mintable : bool; pausable : bool; upgradeable : bool; accessControl : bool
}.

Record TokenDistribution : Type := {
  team : num; advisors : num; publicSale : num; liquidity : num; marketing : num
}.

Record TokenConfig : Type := {
  tc_name : string;
  tc_symbol : string;
  tc_decimals : num;
  tc_totalSupply : string;
  tc_features : TokenFeatures;
  tc_distribution : TokenDistribution
}.

Definition token_init : TokenConfig :=
  {| tc_name := ""; tc_symbol := ""; tc_decimals := Fin 18; tc_totalSupply := "";
     tc_features := {| burnable := false; mintable := false; pausable := false; upgradeable := false; accessControl := false |};
     tc_distribution := {| team := Fin 15; advisors := Fin 10; publicSale := Fin 40; liquidity := Fin 25; marketing := Fin 10 |} |}.

Inductive TokenInput : Type :=
| TName (s : string)
| TSymbol (s : string)
| TDecimals (text : string)
| TSupply (s : string)
| TFeature (f : string) (checked : bool)
| TShare (category : string) (text : string).

Definition set_feature (f : string) (b : bool) (fs : TokenFeatures) : TokenFeatures :=
  {| burnable := if String.eqb f "burnable" then b else burnable fs;
     mintable := if String.eqb f "mintable" then b else mintable fs;
     pausable := if String.eqb f "pausable" then b else pausable fs;
     upgradeable := if String.eqb f "upgradeable" then b else upgradeable fs;
     accessControl := if String.eqb f "accessControl" then b else accessControl fs |}.

Definition set_share (c : string) (v : num) (d : TokenDistribution) : TokenDistribution :=
  {| team := if String.eqb c "team" then v else team d;
     advisors := if String.eqb c "advisors" then v else advisors d;
     publicSale := if String.eqb c "publicSale" then v else publicSale d;
     liquidity := if String.eqb c "liquidity" then v else liquidity d;
     marketing := if String.eqb c "marketing" then v else marketing d |}.

(** The [onChange] handlers: [parseInt] for the decimals, [parseFloat] for
    a share. *)
Definition token_onChange (i : TokenInput) (c : TokenConfig) : TokenConfig :=
  match i with
  | TName s => {| tc_name := s; tc_symbol := tc_symbol c; tc_decimals := tc_decimals c; tc_totalSupply := tc_totalSupply c; tc_features := tc_features c; tc_distribution := tc_distribution c |}
  | TSymbol s => {| tc_name := tc_name c; tc_symbol := s; tc_decimals := tc_decimals c; tc_totalSupply := tc_totalSupply c; tc_features := tc_features c; tc_distribution := tc_distribution c |}
  | TDecimals t => {| tc_name := tc_name c; tc_symbol := tc_symbol c; tc_decimals := parseInt10 t; tc_totalSupply := tc_totalSupply c; tc_features := tc_features c; tc_distribution := tc_distribution c |}
  | TSupply s => {| tc_name := tc_name c; tc_symbol := tc_symbol c; tc_decimals := tc_decimals c; tc_totalSupply := s; tc_features := tc_features c; tc_distribution := tc_distribution c |}
  | TFeature f b => {| tc_name := tc_name c; tc_symbol := tc_symbol c; tc_decimals := tc_decimals c; tc_totalSupply := tc_totalSupply c; tc_features := set_feature f b (tc_features c); tc_distribution := tc_distribution c |}
  | TShare k t => {| tc_name := tc_name c; tc_symbol := tc_symbol c; tc_decimals := tc_decimals c; tc_totalSupply := tc_totalSupply c; tc_features := tc_features c; tc_distribution := set_share k (parseFloat t) (tc_distribution c) |}
  end.

Definition distribution_total (d : TokenDistribution) : num :=
  (team d + advisors d + publicSale d + liquidity d + marketing d)%js.

(** [handleSubmit] only logs the configuration: nothing is checked and
    nothing is deployed. *)
Definition token_handleSubmit (c : TokenConfig) : list TokenConfig := [c].

(** ** Sample data *)

Definition any_regex : string → string → bool := λ _ _, true.

Definition initialSupply_param : ContractParameter :=
  {| p_name := "initialSupply"; p_type := TNumber; p_description := "Tokens minted at deployment";
     p_required := true; p_default := None;
     p_validation := Some {| v_min := Some (Fin 0); v_max := None; v_pattern := None |} |}.

Definition owner_param : ContractParameter :=
  {| p_name := "owner"; p_type := TAddress; p_description := "Owner address"; p_required := true;
     p_default := None; p_validation := Some {| v_min := None; v_max := None; v_pattern := Some "^0x[a-fA-F0-9]{40}$" |} |}.

Definition pausable_param : ContractParameter :=
  {| p_name := "pausable"; p_type := TBoolean; p_description := "Can be paused"; p_required := true;
     p_default := Some (PBool false); p_validation := None |}.

Definition rewardRate_param : ContractParameter :=
  {| p_name := "rewardRate"; p_type := TNumber; p_description := "Reward rate per block"; p_required := true;
     p_default := None; p_validation := Some {| v_min := Some (Fin 1); v_max := Some (Fin 100); v_pattern := None |} |}.

Definition token_template : ContractTemplate :=
  {| t_id := "erc20"; t_name := "Standard Token"; t_description := "ERC20 token"; t_category := CatToken;
     t_version := "1.0.0"; t_parameters := [initialSupply_param; owner_param; pausable_param] |}.

Definition staking_template : ContractTemplate :=
  {| t_id := "staking"; t_name := "Staking Pool"; t_description := "Single asset staking"; t_category := CatDefi;
     t_version := "1.1.0"; t_parameters := [rewardRate_param] |}.

(** The administrator loads the templates, picks the token template,
    types an owner, then picks the staking template and sets its rate. *)
Definition owner_then_staking : Dash :=
  Eval vm_compute in
  dash_run any_regex
    [DLoad (Ok [token_template; staking_template]); DSelect 0;
     DChange 1 "0x1234567890abcdef1234567890abcdef12345678"; DSelect 1; DChange 0 "5"] dash_init.

(** ** Lemmas *)

Section DeployLemmas.

Variable regex_test : string → string → bool.

Lemma validate_required p v :
  p_required p = true → pval_truthy v = false → validateParameter regex_test p v = Some Required.
Proof. intros Hr Ht. unfold validateParameter. by rewrite Hr, Ht. Qed.

Lemma submit_errors_grow ps vs acc :
  acc ≠ ∅ → foldl (submit_step regex_test vs) acc ps ≠ ∅.
Proof.
  revert acc. induction ps as [|p ps IH]; intros acc Hacc; [done|]. simpl.
  apply IH. unfold submit_step. destruct (validateParameter _ _ _); [apply insert_non_empty|done].
Qed.

Lemma submit_errors_none ps vs acc :
  Forall (λ p, validateParameter regex_test p (vs !! p_name p) = None) ps →
  foldl (submit_step regex_test vs) acc ps = acc.
Proof.
  intros Hall. revert acc. induction Hall as [|p ps Hp _ IH]; intros acc; [done|].
  simpl. unfold submit_step at 2. rewrite Hp. apply IH.
Qed.

Lemma submit_errors_some ps vs acc :
  Exists (λ p, validateParameter regex_test p (vs !! p_name p) ≠ None) ps →
  foldl (submit_step regex_test vs) acc ps ≠ ∅.
Proof.
  intros Hex. revert acc. induction Hex as [p ps Hp|p ps _ IH]; intros acc; simpl; [|apply IH].
  apply submit_errors_grow. unfold submit_step.
  destruct (validateParameter _ _ _); [apply insert_non_empty|done].
Qed.

Lemma handleSubmit_accepts t st :
  Forall (λ p, validateParameter regex_test p (pc_parameters st !! p_name p) = None) (t_parameters t) →
  handleSubmit regex_test t st = {| pco_state := st; pco_toast := None; pco_deploy := Some (pc_parameters st) |}.
Proof. intros Hall. unfold handleSubmit, submit_errors. by rewrite submit_errors_none, map_size_empty. Qed.

Lemma handleSubmit_refuses t st :
  Exists (λ p, validateParameter regex_test p (pc_parameters st !! p_name p) ≠ None) (t_parameters t) →
  handleSubmit regex_test t st =
  {| pco_state := {| pc_parameters := pc_parameters st; pc_errors := submit_errors regex_test (t_parameters t) (pc_parameters st) |};
     pco_toast := Some "Please fix the errors before deploying"; pco_deploy := None |}.
Proof.
  intros Hex. unfold handleSubmit, submit_errors.
  apply (submit_errors_some _ _ ∅), map_size_non_empty_iff in Hex.
  destruct (Nat.ltb_spec 0 (size (foldl (submit_step regex_test (pc_parameters st)) ∅ (t_parameters t)))); [done|lia].
Qed.

(** Every deployment entry the dashboard creates. *)
Definition pending_entry (dep : DeploymentStatus) : Prop :=
  d_status dep = DPending ∧ d_address dep = None ∧ d_txHash dep = None ∧ d_error dep = None.

Lemma handleDeploy_pending uuid now ps d :
  Forall pending_entry (dash_deployments d) → Forall pending_entry (dash_deployments (handleDeploy uuid now ps d)).
Proof.
  intros Hd. unfold handleDeploy. destruct (dash_selected d); [|done].
  constructor; [|done]. repeat split.
Qed.

Lemma dash_step_pending a d :
  Forall pending_entry (dash_deployments d) →
  Forall pending_entry (dash_deployments (dash_step regex_test a d).1).
Proof.
  intros Hd. destruct a as [r|i|i|i text|uuid now]; simpl.
  - destruct (ts_isLoading _); [|done]. by destruct (loadTemplates r _).
  - destruct (TemplateSelector_view _); [done|]. by destruct (nth_error _ _).
  - destruct (TemplateSelector_view _); [done|]. by destruct (nth_error _ _).
  - by destruct (_ ≫= _).
  - destruct (dash_selected d); [|done]. simpl.
    destruct (pco_deploy _); [by apply handleDeploy_pending|done].
Qed.

End DeployLemmas.

Lemma set_values_spec xs : NoDup (set_values xs) ∧ ∀ x, x ∈ set_values xs ↔ x ∈ xs.
Proof.
  unfold set_values.
  assert (∀ acc, NoDup acc →
            NoDup (foldl (λ (acc : list string) x, if bool_decide (x ∈ acc) then acc else app acc [x]) acc xs) ∧
            ∀ x, x ∈ foldl (λ (acc : list string) x, if bool_decide (x ∈ acc) then acc else app acc [x]) acc xs
                 ↔ x ∈ acc ∨ x ∈ xs) as Hgen.
  { induction xs as [|y xs IH]; intros acc Hnd; simpl.
    - split; [done|]. set_solver.
    - case_bool_decide as Hy.
      + destruct (IH acc Hnd) as [Hn Hx]. split; [done|]. intros x. rewrite Hx. set_solver.
      + assert (NoDup (app acc [y])) as Hnd'.
        { apply NoDup_app. split; [done|]. split; [set_solver|]. apply NoDup_singleton. }
        destruct (IH _ Hnd') as [Hn Hx]. split; [done|]. intros x. rewrite Hx. set_solver. }
  destruct (Hgen [] (NoDup_nil_2)) as [Hn Hx]. split; [done|]. intros x. rewrite Hx. set_solver.
Qed.

Lemma category_name_not_all c : category_name c ≠ "all".
Proof. by destruct c. Qed.

Lemma dash_run_pending rt acts d :
  Forall pending_entry (dash_deployments d) → Forall pending_entry (dash_deployments (dash_run rt acts d)).
Proof.
  revert d. induction acts as [|a acts IH]; intros d Hd; [done|].
  apply IH, dash_step_pending, Hd.
Qed.

Lemma dash_run_app rt acts1 acts2 d : dash_run rt (app acts1 acts2) d = dash_run rt acts2 (dash_run rt acts1 d).
Proof. unfold dash_run. by rewrite foldl_app. Qed.

(** C26: a required parameter is refused as missing when its number input
    holds 0 or its select is set to False: [!value] treats 0 and false
    as absent, so the stored value comes with [This field is required]. *)
Theorem required_zero_and_false_refused regex_test p st :
  p_required p = true →
  (p_type p = TNumber →
   handleChange regex_test p (PStr "0") st =
   {| pc_parameters := <[p_name p := PNum (Fin 0)]> (pc_parameters st);
      pc_errors := <[p_name p := Required]> (pc_errors st) |}) ∧
  (p_type p = TBoolean →
   handleChange regex_test p (PStr "false") st =
   {| pc_parameters := <[p_name p := PBool false]> (pc_parameters st);
      pc_errors := <[p_name p := Required]> (pc_errors st) |}).
Proof.
  intros Hr. split; intros Ht; unfold handleChange, parse_value; rewrite Ht;
    by rewrite validate_required.
Qed.

Lemma required_zero_and_false_refused_witness :
  handleChange any_regex initialSupply_param (PStr "0") pc_init =
  {| pc_parameters := {["initialSupply" := PNum (Fin 0)]}; pc_errors := {["initialSupply" := Required]} |} ∧
  handleChange any_regex pausable_param (PStr "false") pc_init =
  {| pc_parameters := {["pausable" := PBool false]}; pc_errors := {["pausable" := Required]} |}.
Proof.
  split.
  - apply (required_zero_and_false_refused any_regex initialSupply_param pc_init); reflexivity.
  - apply (required_zero_and_false_refused any_regex pausable_param pc_init); reflexivity.
Defined.

(** [ParameterConfig]'s submission hands the stored parameters to
    [onDeploy], without toast or state change, exactly when every
    parameter of the template validates; otherwise it deploys nothing,
    shows the toast and replaces the errors by those of the template's
    parameters, keeping the values. *)
Theorem handleSubmit_outcome regex_test t st :
  (Forall (λ p, validateParameter regex_test p (pc_parameters st !! p_name p) = None) (t_parameters t) ∧
   handleSubmit regex_test t st = {| pco_state := st; pco_toast := None; pco_deploy := Some (pc_parameters st) |}) ∨
  (Exists (λ p, validateParameter regex_test p (pc_parameters st !! p_name p) ≠ None) (t_parameters t) ∧
   handleSubmit regex_test t st =
   {| pco_state := {| pc_parameters := pc_parameters st;
                      pc_errors := submit_errors regex_test (t_parameters t) (pc_parameters st) |};
      pco_toast := Some "Please fix the errors before deploying"; pco_deploy := None |}).
Proof.
  destruct (decide (Forall (λ p, validateParameter regex_test p (pc_parameters st !! p_name p) = None)
                      (t_parameters t))) as [Hall|Hnot].
  - left. split; [done|]. by apply handleSubmit_accepts.
  - right. apply not_Forall_Exists in Hnot; [|apply _]. split; [done|]. by apply handleSubmit_refuses.
Qed.

(** C27: once a template is selected, picking another card keeps the
    parameter values and errors typed for the previous one, and a
    submission that validates then logs the whole stored map for
    deployment, previous template's keys included. *)
Theorem deploy_sends_previous_template_values regex_test d i t bs cs nf uuid now :
  dash_selected d ≠ None →
  TemplateSelector_view (dash_ts d) = TSGrid bs cs nf →
  nth_error cs i = Some t →
  Forall (λ p, validateParameter regex_test p (pc_parameters (dash_pc d) !! p_name p) = None) (t_parameters t) →
  dash_selected (dash_run regex_test [DSelect i; DSubmit uuid now] d) = Some t ∧
  dash_pc (dash_run regex_test [DSelect i; DSubmit uuid now] d) = dash_pc d ∧
  head (dash_log (dash_run regex_test [DSelect i; DSubmit uuid now] d)) = Some (pc_parameters (dash_pc d)).
Proof.
  intros Hsel Hview Hnth Hok. unfold dash_run. simpl. rewrite Hview, Hnth. simpl.
  destruct (dash_selected d) as [t0|]; [|done]. simpl.
  rewrite handleSubmit_accepts by done. done.
Qed.

Lemma deploy_sends_previous_template_values_witness :
  pc_parameters (dash_pc owner_then_staking) !! "owner" = Some (PStr "0x1234567890abcdef1234567890abcdef12345678") ∧
  head (dash_log (dash_run any_regex [DSelect 1; DSubmit "c0ffee" 1717200000000] owner_then_staking))
  = Some (pc_parameters (dash_pc owner_then_staking)).
Proof.
  split; [reflexivity|].
  apply (deploy_sends_previous_template_values any_regex owner_then_staking 1 staking_template
           ["all"; "token"; "defi"] [token_template; staking_template] false).
  - discriminate.
  - reflexivity.
  - reflexivity.
  - repeat constructor.
Defined.

(** C28: whatever the administrator does, every entry of the deployment
    list stays [pending], with no address, transaction or error:
    [handleDeploy] only adds pending entries and nothing updates them. *)
Theorem deployments_stay_pending regex_test acts :
  Forall pending_entry (dash_deployments (dash_run regex_test acts dash_init)).
Proof. apply dash_run_pending. constructor. Qed.

(** The category buttons of [TemplateSelector] are [all] followed by
    each category of the loaded templates once, and the button of a
    category shows exactly the templates of that category. *)
Theorem category_buttons_partition st :
  NoDup (categories st) ∧
  (∀ t, t ∈ ts_templates st → category_name (t_category t) ∈ categories st) ∧
  (∀ c t, c ≠ "all" →
     t ∈ filteredTemplates (setSelectedCategory c st) ↔ t ∈ ts_templates st ∧ category_name (t_category t) = c).
Proof.
  destruct (set_values_spec (map (λ t, category_name (t_category t)) (ts_templates st))) as [Hnd Hin].
  unfold categories. split; [|split].
  - constructor; [|done]. rewrite Hin. intros (t & Ht & _)%list_elem_of_fmap.
    by apply (category_name_not_all (t_category t)).
  - intros t Ht. apply elem_of_cons. right. apply Hin, list_elem_of_fmap. eauto.
  - intros c t Hc. unfold filteredTemplates, setSelectedCategory. simpl.
    destruct (String.eqb_spec c "all") as [->|_]; [done|]. rewrite list_elem_of_filter. tauto.
Qed.

Lemma toggle_one_enabled controlId now (c : SecurityControl) :
  sc_enabled (if String.eqb (sc_id c) controlId
              then {| sc_id := sc_id c; sc_type := sc_type c; sc_name := sc_name c; sc_description := sc_description c;
                      sc_enabled := negb (sc_enabled c); sc_lastUpdated := now; sc_updatedBy := sc_updatedBy c |} else c)
  = xorb (String.eqb (sc_id c) controlId) (sc_enabled c).
Proof. by destruct (String.eqb _ _), (sc_enabled c). Qed.

(** Toggling a switch twice gives every control its first state, the
    other controls untouched, [updatedBy] never changed. *)
Theorem toggle_twice_restores controlId n1 n2 cs :
  map sc_enabled (handleToggleControl controlId n2 (handleToggleControl controlId n1 cs)) = map sc_enabled cs ∧
  map sc_updatedBy (handleToggleControl controlId n1 cs) = map sc_updatedBy cs.
Proof.
  unfold handleToggleControl. rewrite !map_map. split; apply map_ext; intros c.
  - destruct (String.eqb (sc_id c) controlId) eqn:E; simpl; [rewrite E; simpl|rewrite E]; by try destruct (sc_enabled c).
  - by destruct (String.eqb _ _).
Qed.

(** The empty search shows the whole contract registry. *)
Lemma includes_empty s : includes s "" = true.
Proof. destruct s; reflexivity. Qed.

Theorem registry_empty_search_shows_all cs : filteredContracts "" cs = cs.
Proof.
  unfold filteredContracts. induction cs as [|c cs IH]; [done|].
  rewrite filter_cons_True, IH; [done|]. unfold registry_match. by rewrite includes_empty.
Qed.
