(* ===== verification/DeployViews.v ===== *)
(** * What the deployment tabs render: [pages/Deploy/index.tsx],
      [ContractRegistry], [XLCIntegration] and [SecurityControls]

    [Deploy] holds the state and the handlers of the deployment tabs; this
    file holds what three of them render, and the page's tab list.  The
    registry's render uses the icon [Shield] without importing it, so
    rendering an audited contract throws a [ReferenceError] ([tsc] would
    reject the file; a bundler that only strips types does not): a render
    is a [jsres], the first exception of its rows ([Prelude.jsres_map]).
    Icons are their component names; dates stay numbers (their
    [toLocaleString] is not modelled). *)

From S2P Require Import Prelude Json Deploy.

Local Open Scope nat_scope.
Local Open Scope string_scope.

(** ** The page *)

Inductive DeployTab : Type := TContractDashboard | TXlcIntegration | TTokenDeployment | TRegistry | TSecurity.

Definition deploy_tabs : list (string * string * DeployTab) :=
  [("dashboard", "Contract Dashboard", TContractDashboard); ("xlc", "XLC Integration", TXlcIntegration);
   ("token", "Token Deployment", TTokenDeployment); ("registry", "Contract Registry", TRegistry);
   ("security", "Security Controls", TSecurity)].

Definition deploy_default_tab : string := "dashboard".

Definition deploy_tab_panel (value : string) : option DeployTab := tab_panel deploy_tabs value.

(** ** [ContractRegistry] *)

Record RegistryRow : Type := {
  rr_name : string; rr_href : string; rr_address : string; rr_network : string; rr_version : string;
  rr_verified : bool; rr_audit : string; rr_features : list string; rr_deployedAt : Z
}.

Definition shield_missing : exn := JsError "ReferenceError: Shield is not defined".

(** One contract: the audited branch evaluates [<Shield .../>], whose
    identifier is not bound in the module. *)
Definition registry_row (c : RegistryEntry) : jsres RegistryRow :=
  if r_audited c then Throw shield_missing
  else Ok {| rr_name := r_name c; rr_href := "https://bscscan.com/address/" ++ r_address c;
             rr_address := short_address (r_address c); rr_network := r_network c;
             rr_version := "v" ++ r_version c; rr_verified := r_verified c; rr_audit := "Unaudited";
             rr_features := r_features c; rr_deployedAt := r_deployedAt c |}.

(** The list under the search input, for the contracts of mount time
    [now]; the input's [onChange] only sets [searchTerm]. *)
Definition ContractRegistry_view (now : Z) (searchTerm : string) : jsres (list RegistryRow) :=
  jsres_map registry_row (filteredContracts searchTerm (registry_contracts now)).

(** ** [XLCIntegration] *)

(** [getStatusIcon]: the icon and its classes. *)
Definition getStatusIcon (s : feature_status) : string * string :=
  match s with
  | FVerified => ("CheckCircle2", "h-5 w-5 text-green-500")
  | FMapped => ("Link2", "h-5 w-5 text-blue-500")
  | FPending => ("AlertTriangle", "h-5 w-5 text-yellow-500")
  end.

Definition feature_status_text (s : feature_status) : string :=
  match s with FVerified => "verified" | FMapped => "mapped" | FPending => "pending" end.

Record FeatureRow : Type := {
  fr_icon : string * string; fr_name : string; fr_description : string;
  fr_statusClass : string; fr_status : string; fr_securityClass : string; fr_security : string
}.

Definition feature_row (f : Feature) : FeatureRow :=
  {| fr_icon := getStatusIcon (f_status f); fr_name := f_name f; fr_description := f_description f;
     fr_statusClass := feature_status_color (f_status f); fr_status := feature_status_text (f_status f);
     fr_securityClass := getSecurityColor (f_securityScore f);
     fr_security := print_Z (f_securityScore f) ++ "% secure" |}.

(** The fixed cards of Security Audit (title, score, remark) and the
    entries of Registry Management (title, text, button); the buttons have
    no handler. *)
Definition security_audit : list (string * string * string) :=
  [("Access Control", "98%", "All checks passed"); ("Vulnerability Scan", "85%", "2 minor issues found");
   ("Code Quality", "92%", "High quality code")].

Definition registry_management : list (string * string * string) :=
  [("Contract Registry", "Manage contract addresses and versions", "View Registry");
   ("Feature Registry", "Manage feature mappings and dependencies", "View Features");
   ("Version Control", "Manage contract versions and upgrades", "View Versions")].

Definition XLCIntegration_view : list FeatureRow * list (string * string * string) * list (string * string * string) :=
  (map feature_row xlc_features, security_audit, registry_management).

(** ** [SecurityControls] *)

(** [getIcon]. *)
Definition control_icon (t : control_type) : string :=
  match t with CAccess => "Key" | CApproval => "Shield" | CEmergency => "AlertTriangle" | CAudit => "FileText" end.

Record ControlCard : Type := {
  cc_class : string; cc_icon : string; cc_name : string; cc_description : string;
  cc_checked : bool; cc_lastUpdated : Z; cc_updatedBy : string
}.

Definition control_card (c : SecurityControl) : ControlCard :=
  {| cc_class := if sc_enabled c then "bg-green-100 text-green-600" else "bg-gray-100 text-gray-600";
     cc_icon := control_icon (sc_type c); cc_name := sc_name c; cc_description := sc_description c;
     cc_checked := sc_enabled c; cc_lastUpdated := sc_lastUpdated c; cc_updatedBy := sc_updatedBy c |}.

(** The cards; each checkbox's [onChange] is [handleToggleControl] of
    its control. *)
Definition SecurityControls_view (cs : list SecurityControl) : list ControlCard := map control_card cs.

(** ** Theorems *)

(** C29: the Contract Registry tab throws while it shows an audited
    contract, and shows exactly when none of the listed contracts is
    audited; its first render, with an empty search, lists the audited XLC
    Token and throws. *)
Theorem registry_render_throws now searchTerm :
  ((∃ e, ContractRegistry_view now searchTerm = Throw e) ↔
   Exists (λ c, r_audited c = true) (filteredContracts searchTerm (registry_contracts now))) ∧
  ContractRegistry_view now "" = Throw shield_missing.
Proof.
  split; [|reflexivity]. unfold ContractRegistry_view. rewrite jsres_map_throws.
  split; intros H; (eapply Exists_impl; [exact H|]); intros c; unfold registry_row;
    destruct (r_audited c); naive_solver.
Qed.

(** A search that leaves out the audited contract renders the others. *)
Lemma registry_search_renders now :
  ContractRegistry_view now "staking" =
  Ok [{| rr_name := "Staking Pool"; rr_href := "https://bscscan.com/address/0xabcdef1234567890abcdef1234567890abcdef12";
         rr_address := "0xabcd...ef12"; rr_network := "BSC Mainnet"; rr_version := "v1.1.0"; rr_verified := true;
         rr_audit := "Unaudited"; rr_features := ["Staking"; "Rewards"; "Emergency Withdraw"];
         rr_deployedAt := (now - 86400000)%Z |}].
Proof. reflexivity. Qed.

(** Toggling a control flips the switch of its card and no other. *)
Lemma toggle_card controlId now cs :
  map cc_checked (SecurityControls_view (handleToggleControl controlId now cs)) =
  map (λ c, xorb (String.eqb (sc_id c) controlId) (sc_enabled c)) cs.
Proof.
  unfold SecurityControls_view, handleToggleControl. rewrite !map_map. apply map_ext. intros c.
  cbn. by destruct (String.eqb (sc_id c) controlId), (sc_enabled c).
Qed.
