(* ===== verification/Distribution.v ===== *)
(** * Distribution and rewards: [pages/Distribution]

    Three tabs read Firebase nodes through [onValue] subscriptions:
    [OffersManagement] (node [offers]), [StakingDashboard] (nodes
    [stakingPools] and [userStakes]) and [RewardsOverview] (node
    [rewards]).  The first two are the same manager written twice: a list
    of cards, an Add button that mounts a form with a blank record, an Edit
    button that mounts it with the card's record, a Delete button, and a
    [handleSave] that [update]s the edited key or [push]es a new one.

    A record is what [snapshot.val()] gives for one child: an object of
    fields ([record]).  The Realtime Database stores no empty array and
    refuses NaN ([fb_update], [fb_push] of [Firebase]); [update] on a key
    merges the given fields into the stored ones and creates the key if it
    is absent.  The subscription copies the node into React state: at once
    after the page's own writes (the client fires local events before the
    server answers), and when the event [MSync] arrives after another
    client's write ([MRemote]), so the cards can lag behind the node.  The
    HTML constraint validation of the forms ([required], and [min] and
    [step] on number inputs) decides whether a submit event reaches
    [handleSubmit]. *)

From S2P Require Import Prelude Firebase Json Deploy.
From Stdlib Require Import Ascii.

Local Open Scope nat_scope.
Local Open Scope string_scope.

(** ** Records as Firebase stores them *)

Inductive fbv : Type :=
| FStr (s : string)
| FNum (n : num)
| FBool (b : bool)
| FList (l : list string).

Abbreviation record := (gmap string fbv).

Definition fbv_valid (v : fbv) : bool :=
  match v with FNum n => num_finite n | _ => true end.

(** Firebase drops an empty array. *)
Definition fbv_stored (v : fbv) : bool :=
  match v with FList [] => false | _ => true end.

Definition normalize (r : record) : record := filter (λ kv, fbv_stored kv.2 = true) r.

#[export] Instance record_FbData : FbData record :=
  λ r, bool_decide (map_Forall (λ _ v, fbv_valid v = true) r).

Definition fb_denied : exn := JsError "PERMISSION_DENIED: Permission denied".

(** [update(ref(db, node/id), data)]: the fields of [data] replace those
    stored under [id], the other stored fields stay; a key left without
    fields disappears. *)
Definition fb_update (denied : bool) (id : string) (data : record) (m : gmap string record)
    : jsres (gmap string record) :=
  if denied then Throw fb_denied else
  if fb_valid data then
    let r := normalize (data ∪ default ∅ (m !! id)) in
    Ok (if Nat.eqb (size r) 0 then delete id m else <[id := r]> m)
  else Throw fb_error.

(** [push(ref(db, node), data)]. *)
Definition fb_push_rec (denied : bool) (data : record) (m : gmap string record)
    : jsres (string * gmap string record) :=
  if denied then Throw fb_denied else fb_push (normalize data) m.

(** [remove(ref(db, node/id))]. *)
Definition fb_remove_rec (denied : bool) (id : string) (m : gmap string record) : jsres (gmap string record) :=
  if denied then Throw fb_denied else Ok (fb_remove id m).

(** Every record of a node as Firebase returns it: valid, with no empty
    array and at least one field. *)
Definition stored_node (m : gmap string record) : Prop :=
  map_Forall (λ _ r, fb_valid r = true ∧ normalize r = r ∧ r ≠ ∅) m.

(** ** The manager shared by [OffersManagement] and [StakingDashboard] *)

Record Mgr : Type := {
  m_remote : gmap string record;
  m_items : gmap string record;
  m_isEditing : bool;
  m_selected : option (string * record);
  m_form : record;
  m_newRequirement : string
}.

Definition mgr_init (remote : gmap string record) : Mgr :=
  {| m_remote := remote; m_items := remote; m_isEditing := false; m_selected := None; m_form := ∅; m_newRequirement := "" |}.

Inductive toast : Type := Success (msg : string) | Failure (msg : string).

Inductive MgrEvent : Type :=
| MAdd (uuid : string)
| MEdit (id : string)
| MDelete (id : string) (denied : bool)
| MInput (k : string) (v : fbv)
| MSubmit (denied : bool)
| MCancel
| MRemote (m : gmap string record)
| MSync.

Section Manager.

(** The form's record when it is mounted without [initialData]. *)
Variable blank : string → record.
(** The HTML constraint validation of the form. *)
Variable submittable : record → bool.
(** The toasts: [entity] is [Offer] or [Staking pool]. *)
Variable entity : string.

Definition set_form (f : record) (s : Mgr) : Mgr :=
  {| m_remote := m_remote s; m_items := m_items s; m_isEditing := m_isEditing s; m_selected := m_selected s;
     m_form := f; m_newRequirement := m_newRequirement s |}.

(** Another client's write: the node changes, the cards do not yet. *)
Definition set_remote (m : gmap string record) (s : Mgr) : Mgr :=
  {| m_remote := m; m_items := m_items s; m_isEditing := m_isEditing s; m_selected := m_selected s;
     m_form := m_form s; m_newRequirement := m_newRequirement s |}.

(** The page's own write, and the [onValue] callback it fires. *)
Definition set_both (m : gmap string record) (s : Mgr) : Mgr :=
  {| m_remote := m; m_items := m; m_isEditing := m_isEditing s; m_selected := m_selected s;
     m_form := m_form s; m_newRequirement := m_newRequirement s |}.

(** [setIsEditing(false); setSelectedX(null)]: the form unmounts. *)
Definition close_form (s : Mgr) : Mgr :=
  {| m_remote := m_remote s; m_items := m_items s; m_isEditing := false; m_selected := None;
     m_form := m_form s; m_newRequirement := m_newRequirement s |}.

(** The form mounts with [initialData || blank]. *)
Definition open_form (sel : option (string * record)) (uuid : string) (s : Mgr) : Mgr :=
  {| m_remote := m_remote s; m_items := m_items s; m_isEditing := true; m_selected := sel;
     m_form := match sel with Some (_, r) => r | None => blank uuid end; m_newRequirement := "" |}.

(** [handleSave(data)]. *)
Definition handleSave (denied : bool) (s : Mgr) : Mgr * toast :=
  match m_selected s with
  | Some (id, _) =>
      match fb_update denied id (m_form s) (m_remote s) with
      | Ok m => (close_form (set_both m s), Success (entity ++ " updated successfully"))
      | Throw _ => (s, Failure ("Failed to save " ++ entity))
      end
  | None =>
      match fb_push_rec denied (m_form s) (m_remote s) with
      | Ok (_, m) => (close_form (set_both m s), Success (entity ++ " created successfully"))
      | Throw _ => (s, Failure ("Failed to save " ++ entity))
      end
  end.

(** [handleDelete(id)]. *)
Definition handleDelete (denied : bool) (id : string) (s : Mgr) : Mgr * toast :=
  match fb_remove_rec denied id (m_remote s) with
  | Ok m => (set_both m s, Success (entity ++ " deleted successfully"))
  | Throw _ => (s, Failure ("Failed to delete " ++ entity))
  end.

(** One event; the list's buttons exist only while no form is shown, the
    form's only while it is. *)
Definition mgr_step (e : MgrEvent) (s : Mgr) : Mgr * option toast :=
  match e with
  | MAdd uuid => if m_isEditing s then (s, None) else (open_form None uuid s, None)
  | MEdit id =>
      if m_isEditing s then (s, None) else
      match m_items s !! id with Some r => (open_form (Some (id, r)) "" s, None) | None => (s, None) end
  | MDelete id denied =>
      if m_isEditing s then (s, None) else
      match m_items s !! id with
      | Some _ => let '(s', t) := handleDelete denied id s in (s', Some t)
      | None => (s, None)
      end
  | MInput k v => if m_isEditing s then (set_form (<[k := v]> (m_form s)) s, None) else (s, None)
  | MSubmit denied =>
      if m_isEditing s && submittable (m_form s) then let '(s', t) := handleSave denied s in (s', Some t)
      else (s, None)
  | MCancel => if m_isEditing s then (close_form s, None) else (s, None)
  | MRemote m => (set_remote m s, None)
  | MSync => (set_both (m_remote s) s, None)
  end.

Definition mgr_run (es : list MgrEvent) (s : Mgr) : Mgr :=
  foldl (λ s e, (mgr_step e s).1) s es.

End Manager.

(** ** [OfferForm] and [OffersManagement] *)

Definition offer_blank (_ : string) : record :=
  list_to_map [("title", FStr ""); ("description", FStr ""); ("rewardAmount", FStr "");
               ("duration", FStr ""); ("maxParticipants", FStr ""); ("requirements", FList []);
               ("active", FBool true); ("startDate", FStr ""); ("endDate", FStr "");
               ("type", FStr "standard")].

Definition str_field (r : record) (k : string) : string :=
  match r !! k with Some (FStr s) => s | _ => "" end.

(** A number input holding its text: the browser accepts a non-empty
    integer (the default [step] is 1). *)
Definition int_text_ok (s : string) : bool :=
  match js_Number s with Fin q => negb (String.eqb s "") && Z.eqb (Zpos (Qden (Qred q))) 1 | NaN => false end.

(** The constraint validation of [OfferForm]: every input is [required]. *)
Definition offer_submittable (r : record) : bool :=
  negb (String.eqb (str_field r "title") "") && negb (String.eqb (str_field r "description") "")
  && int_text_ok (str_field r "rewardAmount") && int_text_ok (str_field r "duration")
  && int_text_ok (str_field r "maxParticipants")
  && negb (String.eqb (str_field r "startDate") "") && negb (String.eqb (str_field r "endDate") "").

Inductive OfferInput : Type :=
| OTitle (s : string) | OType (s : string) | ODescription (s : string) | OReward (s : string)
| ODuration (s : string) | OMaxParticipants (s : string) | OActive (s : string)
| OStart (s : string) | OEnd (s : string).

(** The [onChange] handlers of [OfferForm]: number inputs keep their text. *)
Definition offer_input (i : OfferInput) : string * fbv :=
  match i with
  | OTitle s => ("title", FStr s) | OType s => ("type", FStr s) | ODescription s => ("description", FStr s)
  | OReward s => ("rewardAmount", FStr s) | ODuration s => ("duration", FStr s)
  | OMaxParticipants s => ("maxParticipants", FStr s) | OActive s => ("active", FBool (String.eqb s "true"))
  | OStart s => ("startDate", FStr s) | OEnd s => ("endDate", FStr s)
  end.

(** [prev.requirements || []]. *)
Definition requirements_of (r : record) : list string :=
  match r !! "requirements" with Some (FList l) => l | _ => [] end.

Definition set_newRequirement (t : string) (s : Mgr) : Mgr :=
  {| m_remote := m_remote s; m_items := m_items s; m_isEditing := m_isEditing s; m_selected := m_selected s;
     m_form := m_form s; m_newRequirement := t |}.

(** [addRequirement]: a blank text is ignored. *)
Definition addRequirement (s : Mgr) : Mgr :=
  let t := trim (m_newRequirement s) in
  if String.eqb t "" then s
  else set_newRequirement "" (set_form (<[ "requirements" := FList (app (requirements_of (m_form s)) [t]) ]> (m_form s)) s).

(** [removeRequirement(index)], offered for each listed requirement. *)
Definition removeRequirement (index : nat) (s : Mgr) : Mgr :=
  match m_form s !! "requirements" with
  | Some (FList l) =>
      if Nat.ltb index (length l)
      then set_form (<[ "requirements" := FList (delete index l) ]> (m_form s)) s
      else s
  | _ => s
  end.

Inductive OfferEvent : Type :=
| OMgr (e : MgrEvent)
| OField (i : OfferInput)
| ONewRequirement (t : string)
| OAddRequirement
| ORemoveRequirement (index : nat).

Definition offer_step (e : OfferEvent) (s : Mgr) : Mgr * option toast :=
  match e with
  | OMgr e => mgr_step offer_blank offer_submittable "Offer" e s
  | OField i => let '(k, v) := offer_input i in mgr_step offer_blank offer_submittable "Offer" (MInput k v) s
  | ONewRequirement t => if m_isEditing s then (set_newRequirement t s, None) else (s, None)
  | OAddRequirement => if m_isEditing s then (addRequirement s, None) else (s, None)
  | ORemoveRequirement i => if m_isEditing s then (removeRequirement i s, None) else (s, None)
  end.

(** ** [StakingPoolForm] and [StakingDashboard] *)

Definition pool_blank (uuid : string) : record :=
  list_to_map [("id", FStr uuid); ("name", FStr ""); ("totalStaked", FNum (Fin 0)); ("apy", FNum (Fin 0));
               ("minStakeAmount", FNum (Fin 0)); ("lockPeriod", FNum (Fin 0)); ("active", FBool true);
               ("startDate", FStr ""); ("endDate", FStr "")].

Definition num_field (r : record) (k : string) : option num :=
  match r !! k with Some (FNum n) => Some n | _ => None end.

(** A number input with [min=0] and the given [step]: the shown number
    must be finite, at least 0 and a multiple of the step. *)
Definition step_ok (step : Q) (v : option num) : bool :=
  match v with
  | Some (Fin q) => Qle_bool 0 q && Z.eqb (Zpos (Qden (Qred (q / step)))) 1
  | _ => false
  end.

Definition pool_submittable (r : record) : bool :=
  negb (String.eqb (str_field r "name") "") && step_ok (1 # 10) (num_field r "apy")
  && step_ok 1 (num_field r "minStakeAmount") && step_ok 1 (num_field r "lockPeriod")
  && negb (String.eqb (str_field r "startDate") "") && negb (String.eqb (str_field r "endDate") "").

Inductive PoolInput : Type :=
| PName (s : string) | PApy (s : string) | PMinStake (s : string) | PLockPeriod (s : string)
| PStart (s : string) | PEnd (s : string) | PActive (s : string).

Definition pool_input (i : PoolInput) : string * fbv :=
  match i with
  | PName s => ("name", FStr s) | PApy s => ("apy", FNum (parseFloat s))
  | PMinStake s => ("minStakeAmount", FNum (parseFloat s)) | PLockPeriod s => ("lockPeriod", FNum (parseInt10 s))
  | PStart s => ("startDate", FStr s) | PEnd s => ("endDate", FStr s) | PActive s => ("active", FBool (String.eqb s "true"))
  end.

(** [!value] on a stored field; [undefined] is [None]. *)
Definition fbv_truthy (v : option fbv) : bool :=
  match v with
  | None => false
  | Some (FStr s) => negb (String.eqb s "")
  | Some (FNum n) => num_truthy n
  | Some (FBool b) => b
  | Some (FList _) => true
  end.

(** [togglePoolStatus(id, pool.active)]: [update] with [{ active: !currentStatus }]. *)
Definition togglePoolStatus (denied : bool) (id : string) (s : Mgr) : Mgr * toast :=
  let current := fbv_truthy (m_items s !! id ≫= (λ r, r !! "active")) in
  match fb_update denied id {["active" := FBool (negb current)]} (m_remote s) with
  | Ok m => (set_both m s, Success (if current then "Pool deactivated successfully" else "Pool activated successfully"))
  | Throw _ => (s, Failure "Failed to update pool status")
  end.

Inductive PoolEvent : Type :=
| PMgr (e : MgrEvent)
| PField (i : PoolInput)
| PToggle (id : string) (denied : bool).

Definition pool_step (e : PoolEvent) (s : Mgr) : Mgr * option toast :=
  match e with
  | PMgr e => mgr_step pool_blank pool_submittable "Staking pool" e s
  | PField i => let '(k, v) := pool_input i in mgr_step pool_blank pool_submittable "Staking pool" (MInput k v) s
  | PToggle id denied =>
      if m_isEditing s then (s, None) else
      match m_items s !! id with Some _ => let '(s', t) := togglePoolStatus denied id s in (s', Some t) | None => (s, None) end
  end.

Definition pool_run (es : list PoolEvent) (s : Mgr) : Mgr := foldl (λ s e, (pool_step e s).1) s es.

(** [StakingDashboard]'s own copies of the manager's handlers. *)
Definition pool_handleSave : bool → Mgr → Mgr * toast := handleSave "Staking pool".
Definition pool_handleDelete : bool → string → Mgr → Mgr * toast := handleDelete "Staking pool".

(** The page with its second subscription, [userStakes]. *)
Record PoolsPage : Type := { pp_mgr : Mgr; pp_stakes : gmap string record }.

Definition pools_mount (pools stakes : gmap string record) : PoolsPage :=
  {| pp_mgr := mgr_init pools; pp_stakes := stakes |}.

(** The card's [active stakers]: stakes of the pool's key whose status is
    [active]. *)
Definition active_stakers (stakes : gmap string record) (id : string) : nat :=
  length (filter (λ st, String.eqb (str_field st "poolId") id && String.eqb (str_field st "status") "active" = true)
                 (map snd (map_to_list stakes))).

(** [x ?? 0] on a stored field. *)
Definition or_zero_field (v : option fbv) : fbv := default (FNum (Fin 0)) v.

(** One card of the list: name, badge class and text, the toggle's
    title, APY, total staked, minimum stake, lock period (each [?? 0]),
    the dates, and the number of active stakers. *)
Record PoolCard : Type := {
  pcd_name : option fbv; pcd_class : string; pcd_label : string; pcd_toggleTitle : string;
  pcd_apy : fbv; pcd_totalStaked : fbv; pcd_minStake : fbv; pcd_lockPeriod : fbv;
  pcd_startDate : option fbv; pcd_endDate : option fbv; pcd_stakers : nat
}.

Definition pool_card (stakes : gmap string record) (id : string) (r : record) : PoolCard :=
  let active := fbv_truthy (r !! "active") in
  {| pcd_name := r !! "name";
     pcd_class := if active then "bg-green-100 text-green-800" else "bg-red-100 text-red-800";
     pcd_label := if active then "Active" else "Inactive";
     pcd_toggleTitle := if active then "Deactivate Pool" else "Activate Pool";
     pcd_apy := or_zero_field (r !! "apy"); pcd_totalStaked := or_zero_field (r !! "totalStaked");
     pcd_minStake := or_zero_field (r !! "minStakeAmount"); pcd_lockPeriod := or_zero_field (r !! "lockPeriod");
     pcd_startDate := r !! "startDate"; pcd_endDate := r !! "endDate";
     pcd_stakers := active_stakers stakes id |}.

Inductive PoolsView : Type :=
| PoolsForm (form : record)
| PoolsList (cards : list (string * PoolCard)).

(** The render: the form while editing, otherwise the cards of
    [Object.entries(pools)] (in the order of [map_to_list]). *)
Definition StakingDashboard_view (p : PoolsPage) : PoolsView :=
  if m_isEditing (pp_mgr p) then PoolsForm (m_form (pp_mgr p))
  else PoolsList (map (λ kv, (kv.1, pool_card (pp_stakes p) kv.1 kv.2)) (map_to_list (m_items (pp_mgr p)))).

(** ** [RewardsOverview] *)

(** The running value of [reduce((acc, reward) => acc + reward.amount, 0)]:
    a number, or a text once a string (or an array, through its text) has
    been added, after which [+] keeps concatenating.  The text itself is not
    modelled. *)
Inductive jsacc : Type := ANum (n : num) | AText.

Definition add_amount (acc : jsacc) (amount : option fbv) : jsacc :=
  match acc with
  | AText => AText
  | ANum a =>
      match amount with
      | None => ANum NaN
      | Some (FNum n) => ANum (a + n)%js
      | Some (FBool b) => ANum (a + Fin (if b then 1 else 0))%js
      | Some (FStr _) | Some (FList _) => AText
      end
  end.

Record RewardStats : Type := { rs_total : jsacc; rs_pending : nat; rs_claimed : nat }.

Definition reward_values (rewards : gmap string record) : list record := map snd (map_to_list rewards).

Definition reward_stats (rewards : gmap string record) : RewardStats :=
  {| rs_total := foldl (λ acc r, add_amount acc (r !! "amount")) (ANum (Fin 0)) (reward_values rewards);
     rs_pending := length (filter (λ r, String.eqb (str_field r "status") "pending" = true) (reward_values rewards));
     rs_claimed := length (filter (λ r, String.eqb (str_field r "status") "claimed" = true) (reward_values rewards)) |}.

(** [s.charAt(0).toUpperCase() + s.slice(1)]. *)
Definition upper_char (c : ascii) : ascii :=
  let n := nat_of_ascii c in
  if (Nat.leb 97 n && Nat.leb n 122) || (Nat.leb 224 n && Nat.leb n 254 && negb (Nat.eqb n 247))
  then ascii_of_nat (n - 32) else c.

Definition capitalize (s : string) : string :=
  match s with EmptyString => EmptyString | String c r => String (upper_char c) r end.

(** [getRewardTypeIcon(reward.type)]: the icon and its classes. *)
Definition getRewardTypeIcon (type : option fbv) : string * string :=
  match type with
  | Some (FStr "staking") => ("Clock", "h-5 w-5 text-blue-500")
  | Some (FStr "offer") => ("Award", "h-5 w-5 text-green-500")
  | Some (FStr "referral") => ("Award", "h-5 w-5 text-purple-500")
  | _ => ("Award", "h-5 w-5 text-gray-500")
  end.

(** The subscription to [rewards]: the node's value, [{}] when it does
    not exist. *)
Definition rewards_snapshot (node : option (gmap string record)) : gmap string record :=
  match node with Some m => m | None => ∅ end.

Record RewardRow : Type := {
  rw_icon : string * string; rw_type_label : string; rw_status_label : string; rw_claimed : bool
}.

Section Rewards.

(** Whether [new Date(reward.timestamp)] is a valid date; [date-fns]
    throws on an invalid one. *)
Variable valid_date : fbv → bool.

(** One row of [Recent Rewards], its expressions in render order:
    [reward.amount.toLocaleString()], [reward.type.charAt(0)],
    [reward.status.charAt(0)], [formatDistanceToNow(new Date(reward.timestamp))];
    each throws on a missing field ([charAt] also on a field that is not a
    string). *)
Definition reward_row (r : record) : jsres RewardRow :=
  match r !! "amount" with
  | None => Throw (TypeError "Cannot read properties of undefined (reading 'toLocaleString')")
  | Some _ =>
      match r !! "type" with
      | Some (FStr ty) =>
          match r !! "status" with
          | Some (FStr st) =>
              match r !! "timestamp" with
              | Some t =>
                  if valid_date t
                  then Ok {| rw_icon := getRewardTypeIcon (Some (FStr ty));
                             rw_type_label := capitalize ty ++ " Reward"; rw_status_label := capitalize st;
                             rw_claimed := String.eqb st "claimed" |}
                  else Throw (JsError "RangeError: Invalid time value")
              | None => Throw (JsError "RangeError: Invalid time value")
              end
          | Some _ => Throw (TypeError "reward.status.charAt is not a function")
          | None => Throw (TypeError "Cannot read properties of undefined (reading 'charAt')")
          end
      | Some _ => Throw (TypeError "reward.type.charAt is not a function")
      | None => Throw (TypeError "Cannot read properties of undefined (reading 'charAt')")
      end
  end.

(** The rows in order, or the first row's exception. *)
Fixpoint reward_rows (l : list record) : jsres (list RewardRow) :=
  match l with
  | [] => Ok []
  | r :: l' => match reward_row r with
               | Ok x => match reward_rows l' with Ok xs => Ok (x :: xs) | Throw e => Throw e end
               | Throw e => Throw e
               end
  end.

Definition RewardsOverview_view (rewards : gmap string record) : jsres (RewardStats * list RewardRow) :=
  match reward_rows (reward_values rewards) with
  | Ok rs => Ok (reward_stats rewards, rs)
  | Throw e => Throw e
  end.

End Rewards.

(** ** The page: [pages/Distribution/index.tsx] *)

Inductive DistributionTab : Type := TOffers | TStaking | TRewards.

Definition distribution_tabs : list (string * string * DistributionTab) :=
  [("offers", "Offers & Loyalty", TOffers); ("staking", "Staking", TStaking); ("rewards", "Rewards", TRewards)].

Definition distribution_default_tab : string := "offers".

(** ** Sample data *)

Definition summer_offer : record :=
  list_to_map [("title", FStr "Summer bonus"); ("description", FStr "Double rewards"); ("rewardAmount", FStr "100");
               ("duration", FStr "30"); ("maxParticipants", FStr "500"); ("requirements", FList ["KYC"]);
               ("active", FBool true); ("startDate", FStr "2024-06-01"); ("endDate", FStr "2024-06-30");
               ("type", FStr "standard")].

Definition flexible_pool : record :=
  list_to_map [("id", FStr "5b2f"); ("name", FStr "Flexible"); ("totalStaked", FNum (Fin 1000)); ("apy", FNum (Fin (125 # 10)));
               ("minStakeAmount", FNum (Fin 10)); ("lockPeriod", FNum (Fin 0)); ("active", FBool true);
               ("startDate", FStr "2024-01-01"); ("endDate", FStr "2024-12-31")].

Definition offers_page : Mgr := mgr_init {["-Nx1" := summer_offer]}.

Definition pools_page : Mgr := mgr_init {["-Np1" := flexible_pool]}.

(** The pools page after another administrator deleted the pool, before
    the subscription delivered the deletion. *)
Definition pools_deleted : Mgr := set_remote ∅ pools_page.

Definition reward_without_amount : record :=
  list_to_map [("userId", FStr "u1"); ("type", FStr "staking"); ("status", FStr "pending");
               ("timestamp", FStr "2024-06-01T00:00:00Z"); ("sourceId", FStr "-Np1")].

(** ** Lemmas *)

Lemma normalize_idem r : normalize (normalize r) = normalize r.
Proof.
  apply map_eq. intros i. unfold normalize. rewrite !map_lookup_filter.
  destruct (r !! i) as [v|]; simpl; [|done].
  destruct (fbv_stored v) eqn:E; simpl; rewrite ?option_guard_True, ?option_guard_False by done; simpl;
    rewrite ?option_guard_True by done; done.
Qed.

(** A decision procedure for one record of [stored_node]. *)
Lemma stored_record_check r :
  fb_valid r && bool_decide (map_Forall (λ _ v, fbv_stored v = true) r) && negb (Nat.eqb (size r) 0) = true →
  fb_valid r = true ∧ normalize r = r ∧ r ≠ ∅.
Proof.
  intros (( Hv & Hs)%andb_prop & Hn)%andb_prop. apply bool_decide_eq_true in Hs. split; [done|]. split.
  - apply map_filter_id. intros i v Hi. by apply Hs in Hi.
  - intros ->. by rewrite map_size_empty in Hn.
Qed.

(** Writing back a stored record leaves the node as it was. *)
Lemma fb_update_same id r m :
  m !! id = Some r → fb_valid r = true → normalize r = r → r ≠ ∅ →
  fb_update false id r m = Ok m.
Proof.
  intros Hid Hv Hn Hne. unfold fb_update. rewrite Hv, Hid. simpl.
  assert (E : normalize (r ∪ r) = r) by (by rewrite (idemp (∪) r)). rewrite !E.
  destruct (Nat.eqb_spec (size r) 0) as [Hs|_].
  - apply map_size_empty_iff in Hs. contradiction.
  - rewrite insert_id; [reflexivity|exact Hid].
Qed.

(** An update on a key that is gone stores the given fields under it. *)
Lemma fb_update_absent id data m :
  m !! id = None → fb_valid data = true → normalize data ≠ ∅ →
  fb_update false id data m = Ok (<[id := normalize data]> m).
Proof.
  intros Hid Hv Hne. unfold fb_update. rewrite Hv, Hid. simpl.
  assert (E : normalize (data ∪ ∅) = normalize data) by (by rewrite (right_id ∅ (∪))). rewrite !E.
  destruct (Nat.eqb_spec (size (normalize data)) 0) as [Hs|_]; [|done].
  apply map_size_empty_iff in Hs. contradiction.
Qed.

(** The one-field record [{ active: b }] that [togglePoolStatus] writes. *)
Lemma active_record b :
  fb_valid {["active" := FBool b]} = true ∧ normalize {["active" := FBool b]} = {["active" := FBool b]}.
Proof.
  split.
  - apply bool_decide_eq_true. by apply map_Forall_singleton.
  - by apply map_filter_singleton_True.
Qed.

Lemma reward_rows_throw vd l r e :
  r ∈ l → reward_row vd r = Throw e → ∃ e', reward_rows vd l = Throw e'.
Proof.
  induction l as [|r' l IH]; intros Hin Hr; [set_solver|]. simpl.
  apply elem_of_cons in Hin as [->|Hin].
  - rewrite Hr. eauto.
  - destruct (reward_row vd r'); [|eauto]. destruct (IH Hin Hr) as [e' ->]. eauto.
Qed.

Lemma reward_values_elem rewards id r : rewards !! id = Some r → r ∈ reward_values rewards.
Proof.
  intros Hid. unfold reward_values. apply list_elem_of_fmap.
  exists (id, r). split; [done|]. by apply elem_of_map_to_list.
Qed.

(** C30: opening a stored record in the form and saving it unchanged
    leaves the node as it was and closes the form, for offers and pools
    alike. *)
Theorem edit_save_unchanged blank submittable entity s id r :
  m_isEditing s = false → m_items s !! id = Some r → m_remote s !! id = Some r →
  stored_node (m_remote s) → submittable r = true →
  m_remote (mgr_run blank submittable entity [MEdit id; MSubmit false] s) = m_remote s ∧
  m_isEditing (mgr_run blank submittable entity [MEdit id; MSubmit false] s) = false.
Proof.
  intros He Hi Hr Hst Hsub. destruct (Hst id r Hr) as (Hv & Hn & Hne).
  unfold mgr_run. cbn -[fb_update]. rewrite He, Hi. cbn -[fb_update]. rewrite Hsub. cbn -[fb_update].
  by rewrite (fb_update_same id r).
Qed.

Lemma edit_save_unchanged_witness :
  m_remote (mgr_run offer_blank offer_submittable "Offer" [MEdit "-Nx1"; MSubmit false] offers_page) = m_remote offers_page ∧
  m_isEditing (mgr_run offer_blank offer_submittable "Offer" [MEdit "-Nx1"; MSubmit false] offers_page) = false.
Proof.
  apply (edit_save_unchanged _ _ _ offers_page "-Nx1" summer_offer).
  - reflexivity.
  - apply lookup_insert_eq.
  - apply lookup_insert_eq.
  - unfold offers_page, mgr_init, stored_node. cbn [m_remote]. apply map_Forall_singleton.
    apply stored_record_check. vm_compute. reflexivity.
  - vm_compute. reflexivity.
Defined.

(** C31: a write to a record another administrator has deleted recreates
    it: saving an edit form opened before the deletion stores the form's
    fields under the old key, and the lock button of a pool card shown
    before the deletion stores a pool holding only [active]. *)
Theorem stale_writes_resurrect blank submittable entity s id r m :
  m_isEditing s = false → m_items s !! id = Some r → m !! id = None →
  (fb_valid r = true → submittable r = true → normalize r ≠ ∅ →
   m_remote (mgr_run blank submittable entity [MEdit id; MRemote m; MSubmit false] s) = <[id := normalize r]> m) ∧
  (m_remote s !! id = None →
   m_remote (pool_run [PToggle id false] s) =
   <[id := {["active" := FBool (negb (fbv_truthy (r !! "active")))]}]> (m_remote s)).
Proof.
  intros He Hi Hm. split.
  - intros Hv Hsub Hne. unfold mgr_run. cbn -[fb_update]. rewrite He, Hi. cbn -[fb_update]. rewrite Hsub. cbn -[fb_update].
    by rewrite fb_update_absent.
  - intros Hr. unfold pool_run. cbn -[fb_update]. rewrite He, Hi. cbn -[fb_update]. unfold togglePoolStatus. rewrite Hi. cbn -[fb_update].
    destruct (active_record (negb (fbv_truthy (r !! "active")))) as [Hv Hn].
    rewrite fb_update_absent; [by rewrite Hn|done|done|rewrite Hn; apply map_non_empty_singleton].
Qed.

Lemma stale_writes_resurrect_witness :
  m_remote (mgr_run pool_blank pool_submittable "Staking pool" [MEdit "-Np1"; MRemote ∅; MSubmit false] pools_deleted)
  = <["-Np1" := normalize flexible_pool]> ∅ ∧
  m_remote (pool_run [PToggle "-Np1" false] pools_deleted)
  = <["-Np1" := {["active" := FBool (negb (fbv_truthy (flexible_pool !! "active")))]}]> ∅.
Proof.
  destruct (stale_writes_resurrect pool_blank pool_submittable "Staking pool" pools_deleted "-Np1" flexible_pool ∅)
    as [H1 H2].
  - reflexivity.
  - apply lookup_insert_eq.
  - apply lookup_empty.
  - destruct (stored_record_check flexible_pool) as (Hv & Hn & Hne); [vm_compute; reflexivity|].
    split; [apply H1; [exact Hv|vm_compute; reflexivity|by rewrite Hn]|].
    apply H2, lookup_empty.
Defined.

(** C32: one reward record without [amount], [type], [status] or
    [timestamp] makes the render of [RewardsOverview] throw, so the
    Rewards tab shows nothing for any reward. *)
Theorem reward_missing_field_breaks_tab valid_date rewards id r :
  rewards !! id = Some r →
  (r !! "amount" = None ∨ r !! "type" = None ∨ r !! "status" = None ∨ r !! "timestamp" = None) →
  ∃ e, RewardsOverview_view valid_date rewards = Throw e.
Proof.
  intros Hid Hmiss.
  assert (Hrow : ∃ e, reward_row valid_date r = Throw e).
  { unfold reward_row.
    destruct (r !! "amount"), (r !! "type") as [[]|], (r !! "status") as [[]|], (r !! "timestamp");
      try (destruct (valid_date _)); naive_solver. }
  destruct Hrow as [e He].
  destruct (reward_rows_throw valid_date _ _ _ (reward_values_elem _ _ _ Hid) He) as [e' He'].
  unfold RewardsOverview_view. rewrite He'. eauto.
Qed.

Lemma reward_missing_field_breaks_tab_witness :
  ∃ e, RewardsOverview_view (λ _, true) {["-Nr1" := reward_without_amount]} = Throw e.
Proof.
  apply (reward_missing_field_breaks_tab _ _ "-Nr1" reward_without_amount).
  - apply lookup_insert_eq.
  - left. vm_compute. reflexivity.
Defined.
