(* ===== verification/Collection.v ===== *)
(** * The Distribution nodes as collections

    [Distribution] models the handlers of [OffersManagement] and
    [StakingDashboard] on the concrete Firebase node.  This file states
    what an event may do to a node, abstractly ([coll_spec]: nothing, a
    record created under a key not in use, fields written into the record
    of one key with every other key untouched, one key removed, or another
    client's write), and proves that every event of both pages performs one
    of the operations that event allows: the pages refine the collection.
    It also states [interface StakingPool] of [pages/Distribution/types.ts]
    as a field typing of records ([conforms]) and proves that the pools
    page only creates pools of that type. *)

From S2P Require Import Prelude Firebase Json Deploy Distribution.

Local Open Scope nat_scope.
Local Open Scope string_scope.

(** ** The abstract collection *)

Inductive coll_op : Type :=
| CNone
| CCreate (f : record)
| CWrite (k : string) (f : record)
| CRemove (k : string)
| CExternal (m : gmap string record).

Definition coll_spec (op : coll_op) (m m' : gmap string record) : Prop :=
  match op with
  | CNone => m' = m
  | CCreate f => ∃ k, m !! k = None ∧ m' = <[k := normalize f]> m
  | CWrite k f =>
      (∀ j, j ≠ k → m' !! j = m !! j) ∧
      (∀ x v, f !! x = Some v → fbv_stored v = true → m' !! k ≫= lookup x = Some v)
  | CRemove k => m' = delete k m
  | CExternal m0 => m' = m0
  end.

(** The operations an event may perform: a submit writes the edited key,
    or creates a record when no record was selected, or fails; a delete
    removes its key or fails; a toggle writes the pool's [active]; the
    other events of the list and the form leave the node. *)
Definition mgr_event_ops (e : MgrEvent) (s : Mgr) : list coll_op :=
  match e with
  | MSubmit _ => [CNone; match m_selected s with Some (id, _) => CWrite id (m_form s) | None => CCreate (m_form s) end]
  | MDelete id _ => [CNone; CRemove id]
  | MRemote m => [CExternal m]
  | _ => [CNone]
  end.

Definition offer_event_ops (e : OfferEvent) (s : Mgr) : list coll_op :=
  match e with OMgr e => mgr_event_ops e s | _ => [CNone] end.

Definition pool_event_ops (e : PoolEvent) (s : Mgr) : list coll_op :=
  match e with
  | PMgr e => mgr_event_ops e s
  | PField _ => [CNone]
  | PToggle id _ => [CNone; CWrite id {["active" := FBool (negb (fbv_truthy (m_items s !! id ≫= lookup "active")))]}]
  end.

(** ** Field types *)

(** The TypeScript types a field of these interfaces can have. *)
Inductive ftype : Type := TStr | TNum | TBool | TStrList.

Definition has_type (t : ftype) (v : fbv) : bool :=
  match t, v with
  | TStr, FStr _ | TNum, FNum _ | TBool, FBool _ | TStrList, FList _ => true
  | _, _ => false
  end.

(** [interface StakingPool]: every field is required. *)
Definition StakingPool_type : gmap string ftype :=
  list_to_map [("id", TStr); ("name", TStr); ("totalStaked", TNum); ("apy", TNum);
               ("minStakeAmount", TNum); ("lockPeriod", TNum); ("active", TBool);
               ("startDate", TStr); ("endDate", TStr)].

(** A record has the type when it has exactly its fields, each of its
    field's type. *)
Definition conforms (ty : gmap string ftype) (r : record) : bool :=
  bool_decide (dom r = dom ty)
  && bool_decide (map_Forall (λ k v, match ty !! k with Some t => has_type t v | None => false end = true) r).

(** The form of a pool being created has the type. *)
Definition pool_form_typed (s : Mgr) : Prop :=
  m_isEditing s = true → m_selected s = None → conforms StakingPool_type (m_form s) = true.

(** The events an administrator can cause: the pool form's inputs go
    through [PField], never a raw [MInput]. *)
Definition pool_ui_event (e : PoolEvent) : bool :=
  match e with PMgr (MInput _ _) => false | _ => true end.

(** ** Lemmas on the store *)

Lemma fb_update_frame d id f m m' :
  fb_update d id f m = Ok m' → ∀ j, j ≠ id → m' !! j = m !! j.
Proof.
  unfold fb_update. destruct d; [discriminate|]. destruct (fb_valid f); [|discriminate].
  intros [= <-] j Hj. case_match; [by rewrite lookup_delete_ne|by rewrite lookup_insert_ne].
Qed.

Lemma fb_update_fields d id f m m' x v :
  fb_update d id f m = Ok m' → f !! x = Some v → fbv_stored v = true → m' !! id ≫= lookup x = Some v.
Proof.
  unfold fb_update. destruct d; [discriminate|]. destruct (fb_valid f); [|discriminate].
  intros [= <-] Hx Hs.
  assert (Hr : normalize (f ∪ default ∅ (m !! id)) !! x = Some v).
  { unfold normalize. apply map_lookup_filter_Some. split; [by apply lookup_union_Some_l|done]. }
  destruct (Nat.eqb_spec (size (normalize (f ∪ default ∅ (m !! id)))) 0) as [Hz|_].
  - apply map_size_empty_iff in Hz. rewrite Hz in Hr. discriminate.
  - by rewrite lookup_insert_eq.
Qed.

Lemma fb_update_write d id f m m' : fb_update d id f m = Ok m' → coll_spec (CWrite id f) m m'.
Proof. intros H. split; [exact (fb_update_frame _ _ _ _ _ H)|intros; by eapply fb_update_fields]. Qed.

Lemma fb_push_rec_create d f m k m' : fb_push_rec d f m = Ok (k, m') → coll_spec (CCreate f) m m'.
Proof.
  unfold fb_push_rec. destruct d; [discriminate|]. intros H. exists k.
  split; [by eapply fb_push_fresh|]. by apply fb_push_spec in H as (_ & _ & ->).
Qed.

Lemma op_here (op : coll_op) l : op ∈ op :: l.
Proof. apply list_elem_of_here. Qed.
Lemma op_next (op op' : coll_op) l : op ∈ l → op ∈ op' :: l.
Proof. apply list_elem_of_further. Qed.
#[export] Hint Resolve op_here op_next fb_update_write fb_push_rec_create : xlc.

Ltac unchanged_node := exists CNone; split; [auto with xlc|repeat case_match; reflexivity].

(** The manager's events, for any blank record, validation and entity. *)
Lemma mgr_step_refines blank submittable entity e s :
  ∃ op, op ∈ mgr_event_ops e s ∧ coll_spec op (m_remote s) (m_remote (mgr_step blank submittable entity e s).1).
Proof.
  destruct e as [uuid|id|id d|k v|d| |m|]; cbn [mgr_step mgr_event_ops];
    try unchanged_node.
  - destruct (m_isEditing s); [unchanged_node|]. destruct (m_items s !! id); [|unchanged_node].
    unfold handleDelete, fb_remove_rec. destruct d; [unchanged_node|].
    exists (CRemove id). split; [auto with xlc|reflexivity].
  - destruct (m_isEditing s && submittable (m_form s)); [|unchanged_node].
    unfold handleSave. destruct (m_selected s) as [[id r]|].
    + destruct (fb_update d id (m_form s) (m_remote s)) eqn:E; [|unchanged_node].
      exists (CWrite id (m_form s)). split; [auto with xlc|]. by eapply fb_update_write.
    + destruct (fb_push_rec d (m_form s) (m_remote s)) as [[k m]|] eqn:E; [|unchanged_node].
      exists (CCreate (m_form s)). split; [auto with xlc|]. by eapply fb_push_rec_create.
  - exists (CExternal m). split; [auto with xlc|reflexivity].
Qed.

(** ** Lemmas on types *)

Lemma conforms_insert ty r k t v :
  conforms ty r = true → ty !! k = Some t → has_type t v = true → conforms ty (<[k := v]> r) = true.
Proof.
  unfold conforms. rewrite !andb_true_iff, !bool_decide_eq_true. intros [Hd Hf] Hk Ht. split.
  - rewrite dom_insert_L, Hd. apply elem_of_dom_2 in Hk. set_solver.
  - apply map_Forall_insert_2; [by rewrite Hk|done].
Qed.

Lemma pool_input_typed i : ∃ t, StakingPool_type !! (pool_input i).1 = Some t ∧ has_type t (pool_input i).2 = true.
Proof. destruct i; eexists; split; reflexivity. Qed.

Lemma pool_blank_typed uuid : conforms StakingPool_type (pool_blank uuid) = true.
Proof. vm_compute. reflexivity. Qed.

(** A pool has no array field, so Firebase stores it as it is. *)
Lemma pool_normalize r : conforms StakingPool_type r = true → normalize r = r.
Proof.
  unfold conforms. rewrite andb_true_iff, !bool_decide_eq_true. intros [_ Hf].
  apply map_filter_id. intros i v Hi. specialize (Hf i v Hi). simpl.
  destruct v as [| | |l]; [done..|]. destruct (StakingPool_type !! i) as [[]|] eqn:E; try done.
  exfalso. apply elem_of_list_to_map_2, list_elem_of_In in E. simpl in E. naive_solver.
Qed.

(** The events that leave the form, the selection and the editing flag. *)
Lemma pool_form_typed_same s s' :
  m_isEditing s' = m_isEditing s → m_selected s' = m_selected s → m_form s' = m_form s →
  pool_form_typed s → pool_form_typed s'.
Proof. unfold pool_form_typed. intros -> -> ->. done. Qed.

Lemma pool_form_typed_closed s : m_isEditing s = false → pool_form_typed s.
Proof. unfold pool_form_typed. congruence. Qed.

(** Every administrator event keeps the form of a new pool typed. *)
Lemma pool_step_typed e s : pool_ui_event e = true → pool_form_typed s → pool_form_typed (pool_step e s).1.
Proof.
  intros Hui Hs.
  destruct e as [[uuid|id|id d|k v|d| |m|]|i|id d]; try discriminate Hui; cbn [pool_step mgr_step].
  - destruct (m_isEditing s); [done|]. intros _ _. apply pool_blank_typed.
  - destruct (m_isEditing s); [done|]. destruct (m_items s !! id); [|done]. intros _; discriminate.
  - destruct (m_isEditing s) eqn:E; [done|]. destruct (m_items s !! id); [|done].
    unfold handleDelete. destruct (fb_remove_rec d id (m_remote s)); [|done].
    by apply pool_form_typed_closed.
  - destruct (m_isEditing s && pool_submittable (m_form s)); [|done].
    unfold handleSave. destruct (m_selected s) as [[id r]|].
    + destruct (fb_update d id (m_form s) (m_remote s)); [by apply pool_form_typed_closed|done].
    + destruct (fb_push_rec d (m_form s) (m_remote s)) as [[k m]|]; [by apply pool_form_typed_closed|done].
  - destruct (m_isEditing s); [by apply pool_form_typed_closed|done].
  - by apply (pool_form_typed_same s).
  - by apply (pool_form_typed_same s).
  - destruct (pool_input_typed i) as (t & Ht & Hv). destruct (pool_input i) as [k v]. simpl in *.
    destruct (m_isEditing s) eqn:E; [|done]. intros _ Hsel. eapply conforms_insert; [by apply Hs|done..].
  - destruct (m_isEditing s) eqn:E; [done|]. destruct (m_items s !! id); [|done].
    unfold togglePoolStatus. destruct (fb_update _ id _ (m_remote s)); [|done]. by apply pool_form_typed_closed.
Qed.

Lemma pool_run_typed es s :
  Forall (λ e, pool_ui_event e = true) es → pool_form_typed s → pool_form_typed (pool_run es s).
Proof.
  revert s. induction es as [|e es IH]; intros s Hes Hs; [done|].
  apply Forall_cons in Hes as [He Hes]. apply IH; [done|]. by apply pool_step_typed.
Qed.

Lemma offer_extra_keeps_node e s :
  (∀ e', e ≠ OMgr e') → (∀ i, e ≠ OField i) → m_remote (offer_step e s).1 = m_remote s.
Proof.
  intros Hm Hf. destruct e as [e|i|t| |i]; [by destruct (Hm e)|by destruct (Hf i)|..]; simpl;
    destruct (m_isEditing s); try reflexivity.
  - unfold addRequirement. by case_match.
  - unfold removeRequirement. by repeat case_match.
Qed.

(** C33: the offers and pools pages refine the abstract collection: each
    event performs one of the operations it allows, so it leaves the node,
    creates a record under a key not in use, writes fields into the record
    of the key it edits or toggles (every other key unchanged, every
    written field readable), removes the key it deletes, or is another
    client's write. *)
Theorem pages_refine_collection s :
  (∀ e, ∃ op, op ∈ offer_event_ops e s ∧ coll_spec op (m_remote s) (m_remote (offer_step e s).1)) ∧
  (∀ e, ∃ op, op ∈ pool_event_ops e s ∧ coll_spec op (m_remote s) (m_remote (pool_step e s).1)).
Proof.
  split; intros e.
  - destruct e as [e|i| | |]; [apply mgr_step_refines|cbn [offer_step offer_event_ops]; destruct (offer_input i) as [k v];
       apply (mgr_step_refines _ _ _ (MInput k v))|..];
      exists CNone; (split; [cbn [offer_event_ops]; auto with xlc|]);
      apply offer_extra_keeps_node; intros ? ?; discriminate.
  - destruct e as [e|i|id d]; [apply mgr_step_refines|cbn [pool_step pool_event_ops]; destruct (pool_input i) as [k v];
       apply (mgr_step_refines _ _ _ (MInput k v))|].
    cbn [pool_step pool_event_ops]. destruct (m_isEditing s); [unchanged_node|]. unfold togglePoolStatus.
    destruct (m_items s !! id) as [g|] eqn:Hi; [|unchanged_node].
    destruct (fb_update d id _ (m_remote s)) eqn:E; [|unchanged_node].
    exists (CWrite id {["active" := FBool (negb (fbv_truthy (Some g ≫= lookup "active")))]}).
    split; [apply op_next, op_here|exact (fb_update_write _ _ _ _ _ E)].
Qed.

(** C34: every staking pool the pools page creates has the fields and
    types of [interface StakingPool], with finite numbers: the form
    starts from the typed blank pool, each input writes its field with
    its type, and Firebase stores the form as it is. *)
Theorem new_pools_typed remote es d k r :
  Forall (λ e, pool_ui_event e = true) es →
  m_selected (pool_run es (mgr_init remote)) = None →
  m_remote (pool_run es (mgr_init remote)) !! k = None →
  m_remote (pool_step (PMgr (MSubmit d)) (pool_run es (mgr_init remote))).1 !! k = Some r →
  conforms StakingPool_type r = true ∧ fb_valid r = true.
Proof.
  intros Hes Hsel Hk Hr.
  pose proof (pool_run_typed es (mgr_init remote) Hes (pool_form_typed_closed (mgr_init remote) eq_refl)) as Ht.
  revert Ht Hsel Hk Hr. generalize (pool_run es (mgr_init remote)). intros s Ht Hsel Hk Hr.
  cbn [pool_step mgr_step] in Hr. destruct (m_isEditing s && pool_submittable (m_form s)) eqn:E;
    [|simpl in Hr; congruence].
  apply andb_prop in E as [Hed _]. unfold handleSave in Hr. rewrite Hsel in Hr.
  destruct (fb_push_rec d (m_form s) (m_remote s)) as [[k' m]|] eqn:Ep; [|simpl in Hr; congruence].
  simpl in Hr. unfold fb_push_rec in Ep. destruct d; [discriminate|].
  apply fb_push_spec in Ep as (Hv & _ & ->). rewrite pool_normalize in Hr, Hv by auto.
  destruct (decide (k = k')) as [->|Hne].
  - rewrite lookup_insert_eq in Hr. injection Hr as <-. auto.
  - rewrite lookup_insert_ne in Hr by done. congruence.
Qed.

Definition gold_pool_events : list PoolEvent :=
  [PMgr (MAdd "8c1e"); PField (PName "Gold"); PField (PApy "15"); PField (PStart "2024-01-01");
   PField (PEnd "2024-12-31")].

Lemma new_pools_typed_witness :
  conforms StakingPool_type (m_form (pool_run gold_pool_events (mgr_init ∅))) = true ∧
  fb_valid (m_form (pool_run gold_pool_events (mgr_init ∅))) = true.
Proof.
  apply (new_pools_typed ∅ gold_pool_events false (fresh (dom (∅ : gmap string record))));
    [repeat constructor|vm_compute; exact eq_refl..].
Defined.
