(* ===== verification/APIManagement.v ===== *)
(** * The API management page: [pages/APIManagement]

    Six tabs over simulated services (each fetch returns fixed data after a
    delay): [Dashboard], [UsersPanel], [TransactionsPanel], [StakingPanel],
    [LiquidityPanel] and [SettingsPanel].  A panel reads its react-query
    state ([query]: loading flag, error flag, data); the list panels share
    one render shape ([panel_view]).  The buttons of the users, staking and
    transactions panels only log ([console]); the liquidity panel computes
    its overview (sums, and the average price impact through
    [toFixed(2)]) and its rows; the transactions panel filters; the
    settings form is copied from the first configuration the query
    delivers and its submission only logs before its success toast. *)

From S2P Require Import Prelude Json Deploy.

Local Open Scope nat_scope.
Local Open Scope string_scope.

(** ** Queries, panels and the console *)

(** What [useQuery] hands a component: [isLoading], [error] (here only
    whether there is one) and [data], [None] for [undefined]. *)
Record query (A : Type) : Type := { q_isLoading : bool; q_error : bool; q_data : option A }.
Arguments q_isLoading {A}.
Arguments q_error {A}.
Arguments q_data {A}.

(** The query's states as the panels see them: loading on mount, the
    fetched data on success; a failure keeps the previous data beside the
    error, and a later success clears the error. *)
Definition query_init {A} : query A := {| q_isLoading := true; q_error := false; q_data := None |}.
Definition query_success {A} (d : A) (q : query A) : query A :=
  {| q_isLoading := false; q_error := false; q_data := Some d |}.
Definition query_failure {A} (q : query A) : query A :=
  {| q_isLoading := false; q_error := true; q_data := q_data q |}.

(** The list panels ([UsersPanel], [TransactionsPanel], [StakingPanel],
    [LiquidityPanel]) share one shape: [if (error) return <error text>],
    then the loading text, or [rows?.map(...)] over the data. *)
Inductive panel (R : Type) : Type :=
| PanelError (msg : string)
| PanelLoading (msg : string)
| PanelRows (rows : option (list R)).
Arguments PanelError {R}.
Arguments PanelLoading {R}.
Arguments PanelRows {R}.

Definition panel_view {A R} (err loading : string) (rows : A → list R) (q : query A) : panel R :=
  if q_error q then PanelError err
  else if q_isLoading q then PanelLoading loading
  else PanelRows (option_map rows (q_data q)).

(** [console.log(...)]: each call is the list of its arguments as text;
    the console keeps the calls in order. *)
Abbreviation console := (list (list string)).

Definition bool_text (b : bool) : string := if b then "true" else "false".

(** ** [Dashboard] and [services/metrics.ts] *)

Record Activity : Type := { act_type : string; act_message : string; act_timestamp : string }.

Record APIMetrics : Type := {
  am_health : string; am_healthChange : num;
  am_requestVolume : num; am_volumeChange : num;
  am_errorRate : num; am_errorChange : num;
  am_activeUsers : num; am_userChange : num;
  am_successRate : num; am_successChange : num;
  am_cacheHitRate : num; am_cacheChange : num;
  am_recentActivity : list Activity
}.

(** [getSystemMetrics], the timestamps ([new Date(...).toISOString()] for
    now, five and ten minutes ago) given as arguments. *)
Definition getSystemMetrics (t0 t5 t10 : string) : APIMetrics :=
  {| am_health := "Healthy"; am_healthChange := Fin 0;
     am_requestVolume := Fin 15234; am_volumeChange := Fin (125 # 10);
     am_errorRate := Fin (5 # 10); am_errorChange := Fin (-23 # 10);
     am_activeUsers := Fin 1250; am_userChange := Fin (57 # 10);
     am_successRate := Fin (995 # 10); am_successChange := Fin (2 # 10);
     am_cacheHitRate := Fin (853 # 10); am_cacheChange := Fin (31 # 10);
     am_recentActivity :=
       [ {| act_type := "success"; act_message := "API rate limit updated successfully"; act_timestamp := t0 |};
         {| act_type := "warning"; act_message := "High request volume detected"; act_timestamp := t5 |};
         {| act_type := "error"; act_message := "Failed authentication attempt from unauthorized IP";
            act_timestamp := t10 |} ] |}.

(** The value of a [StatCard]: a text, or a number (printed by [toString])
    followed by a suffix. *)
Inductive card_value : Type :=
| CardText (s : string)
| CardNumber (n : num) (suffix : string).

(** [undefined || 0] and [x || 0]. *)
Definition or_zero (o : option num) : num :=
  match o with Some x => (x || Fin 0)%js | None => Fin 0 end.

(** The six cards: title, value and [change].  [x?.toString() || '0']
    is the number itself, since [toString] never gives the empty text, and
    ['0'] when there are no metrics. *)
Definition dashboard_cards (q : query APIMetrics) : list (string * card_value * option num) :=
  let m := q_data q in
  let value v := if q_isLoading q then CardText "Loading..." else v in
  [ ("API Health",
      value (CardText (match m with
                       | Some x => if String.eqb (am_health x) "" then "Healthy" else am_health x
                       | None => "Healthy" end)),
      option_map am_healthChange m);
    ("Request Volume",
      value (match m with Some x => CardNumber (am_requestVolume x) "" | None => CardText "0" end),
      option_map am_volumeChange m);
    ("Error Rate", value (CardNumber (or_zero (option_map am_errorRate m)) "%"), option_map am_errorChange m);
    ("Active Users",
      value (match m with Some x => CardNumber (am_activeUsers x) "" | None => CardText "0" end),
      option_map am_userChange m);
    ("Success Rate", value (CardNumber (or_zero (option_map am_successRate m)) "%"), option_map am_successChange m);
    ("Cache Hit Rate", value (CardNumber (or_zero (option_map am_cacheHitRate m)) "%"), option_map am_cacheChange m) ].

Definition activity_class (type : string) : string :=
  if String.eqb type "error" then "bg-red-100 text-red-800"
  else if String.eqb type "warning" then "bg-yellow-100 text-yellow-800"
  else "bg-green-100 text-green-800".

(** Recent activity: the loading text ([None]), or the rows (class, type,
    message, timestamp) of [metrics?.recentActivity?.map(...)]. *)
Definition dashboard_activity (q : query APIMetrics) : option (option (list (string * string * string * string))) :=
  if q_isLoading q then None
  else Some (option_map (map (λ a, (activity_class (act_type a), act_type a, act_message a, act_timestamp a)))
                        (option_map am_recentActivity (q_data q))).

(** ** [LiquidityPanel] *)

Record PoolToken : Type := { token_symbol : string; token_amount : num; token_value : num }.

Record LiquidityPool : Type := {
  lp_id : string;
  lp_name : string;
  lp_token0 : PoolToken;
  lp_token1 : PoolToken;
  lp_tvl : num;
  lp_volume24h : num;
  lp_fees24h : num;
  lp_apy : num;
  lp_priceImpact : num;
  lp_lastUpdated : string
}.

(** [fetchLiquidityPools], with [new Date().toISOString()] as [now]. *)
Definition fetchLiquidityPools (now : string) : list LiquidityPool :=
  [ {| lp_id := "1"; lp_name := "XLC/USDT";
       lp_token0 := {| token_symbol := "XLC"; token_amount := Fin 1000000; token_value := Fin 1000000 |};
       lp_token1 := {| token_symbol := "USDT"; token_amount := Fin 1000000; token_value := Fin 1000000 |};
       lp_tvl := Fin 2000000; lp_volume24h := Fin 150000;
       lp_fees24h := Fin 450; lp_apy := Fin (245 # 10); lp_priceImpact := Fin (15 # 100); lp_lastUpdated := now |};
    {| lp_id := "2"; lp_name := "XLC/BUSD";
       lp_token0 := {| token_symbol := "XLC"; token_amount := Fin 500000; token_value := Fin 500000 |};
       lp_token1 := {| token_symbol := "BUSD"; token_amount := Fin 500000; token_value := Fin 500000 |};
       lp_tvl := Fin 1000000; lp_volume24h := Fin 75000;
       lp_fees24h := Fin 225; lp_apy := Fin (1875 # 100); lp_priceImpact := Fin (25 # 100); lp_lastUpdated := now |} ].

(** [pools?.reduce((sum, pool) => sum + pool.f, 0)]. *)
Definition pools_sum (f : LiquidityPool → num) (pools : option (list LiquidityPool)) : option num :=
  match pools with
  | Some ps => Some (foldl (λ s p, (s + f p)%js) (Fin 0) ps)
  | None => None
  end.

(** The four overview cards: three sums ([undefined] while loading, which
    renders as nothing after the dollar sign) and
    [(sum / (pools?.length || 1)).toFixed(2)], where [undefined / 1] is NaN. *)
Record LiquidityOverview : Type := {
  lo_tvl : option num;
  lo_volume : option num;
  lo_fees : option num;
  lo_avgImpact : string
}.

Definition liquidity_overview (pools : option (list LiquidityPool)) : LiquidityOverview :=
  {| lo_tvl := pools_sum lp_tvl pools;
     lo_volume := pools_sum lp_volume24h pools;
     lo_fees := pools_sum lp_fees24h pools;
     lo_avgImpact :=
       toFixed 2 (match pools_sum lp_priceImpact pools with
                  | Some s => (s / (Fin (inject_Z (Z.of_nat (match pools with Some ps => length ps | None => 0 end)))
                                    || Fin 1))%js
                  | None => NaN
                  end) |}.

(** [(a / b).toFixed(f)] with JavaScript's division: a nonzero number over
    zero is an infinity, which [toFixed] prints as [Infinity] or
    [-Infinity], and [0 / 0] is NaN. *)
Definition div_toFixed (f : nat) (a b : num) : string :=
  match a, b with
  | Fin x, Fin y =>
      if Qeq_bool y 0 then
        (if Qeq_bool x 0 then "NaN" else if Qle_bool 0 x then "Infinity" else "-Infinity")
      else toFixed f (Fin (x / y))
  | _, _ => "NaN"
  end.

(** One pool of the list: name, [lastUpdated], the token pair, TVL,
    volume, [apy.toFixed(2)], fees, [priceImpact.toFixed(2)] and the token
    ratio [1 A = (value1 / value0).toFixed(4) B]. *)
Record LiquidityRow : Type := {
  lq_name : string; lq_lastUpdated : string;
  lq_pair : (num * string) * (num * string);
  lq_tvl : num; lq_volume : num; lq_apy : string;
  lq_fees : num; lq_impact : string; lq_ratio : string
}.

Definition liquidity_row (p : LiquidityPool) : LiquidityRow :=
  let t0 := lp_token0 p in let t1 := lp_token1 p in
  {| lq_name := lp_name p; lq_lastUpdated := lp_lastUpdated p;
     lq_pair := ((token_amount t0, token_symbol t0), (token_amount t1, token_symbol t1));
     lq_tvl := lp_tvl p; lq_volume := lp_volume24h p; lq_apy := toFixed 2 (lp_apy p);
     lq_fees := lp_fees24h p; lq_impact := toFixed 2 (lp_priceImpact p);
     lq_ratio := "1 " ++ token_symbol t0 ++ " = " ++ div_toFixed 4 (token_value t1) (token_value t0)
                 ++ " " ++ token_symbol t1 |}.

(** The panel: nothing but the error text on an error; otherwise the
    overview cards, and the loading text or the pools. *)
Definition LiquidityPanel_view (q : query (list LiquidityPool)) : option LiquidityOverview * panel LiquidityRow :=
  (if q_error q then None else Some (liquidity_overview (q_data q)),
   panel_view "Error loading liquidity pools" "Loading liquidity pools..." (map liquidity_row) q).

Record LiquidityState : Type := { ls_selected : option LiquidityPool; ls_console : console }.

(** [handleViewDetails]: select the pool and log. *)
Definition handleViewPoolDetails (p : LiquidityPool) (s : LiquidityState) : LiquidityState :=
  {| ls_selected := Some p; ls_console := app (ls_console s) [["Viewing pool details:"; lp_id p]] |}.

(** ** [TransactionsPanel] *)

Record ApiTransaction : Type := {
  tx_id : string;
  tx_userId : string;
  tx_type : string;
  tx_status : string;
  tx_amount : num;
  tx_timestamp : string;
  tx_details : jobj
}.

(** [fetchTransactions], with the timestamps of five, ten and fifteen
    minutes ago. *)
Definition fetchTransactions (t5 t10 t15 : string) : list ApiTransaction :=
  [ {| tx_id := "1"; tx_userId := "user_123"; tx_type := "API_CALL"; tx_status := "success";
       tx_amount := Fin 1000; tx_timestamp := t5;
       tx_details := [("endpoint", JStr "/api/v1/balance"); ("method", JStr "GET"); ("responseTime", JNum 123)] |};
    {| tx_id := "2"; tx_userId := "user_456"; tx_type := "TOKEN_TRANSFER"; tx_status := "pending";
       tx_amount := Fin 500; tx_timestamp := t10;
       tx_details := [("endpoint", JStr "/api/v1/transfer"); ("method", JStr "POST"); ("responseTime", JNum 245)] |};
    {| tx_id := "3"; tx_userId := "user_789"; tx_type := "STAKE"; tx_status := "failed";
       tx_amount := Fin 2500; tx_timestamp := t15;
       tx_details := [("endpoint", JStr "/api/v1/stake"); ("method", JStr "POST"); ("responseTime", JNum 89);
                      ("error", JStr "Insufficient balance")] |} ].

Definition tx_matches (searchTerm statusFilter : string) (tx : ApiTransaction) : bool :=
  let q := toLowerCase searchTerm in
  let matchesSearch := String.eqb searchTerm ""
    || includes (toLowerCase (tx_id tx)) q || includes (toLowerCase (tx_userId tx)) q
    || includes (toLowerCase (tx_type tx)) q in
  let matchesStatus := String.eqb statusFilter "all" || String.eqb (tx_status tx) statusFilter in
  matchesSearch && matchesStatus.

Definition filteredTransactions (searchTerm statusFilter : string) (txs : option (list ApiTransaction))
    : option (list ApiTransaction) :=
  match txs with Some l => Some (filter (λ tx, tx_matches searchTerm statusFilter tx = true) l) | None => None end.

Definition tx_status_class (status : string) : string :=
  if String.eqb status "success" then "bg-green-100 text-green-800"
  else if String.eqb status "pending" then "bg-yellow-100 text-yellow-800"
  else "bg-red-100 text-red-800".

(** One row: the fields shown, the badge, and whether the row has the
    Retry button ([tx.status === 'failed']). *)
Record TxRow : Type := {
  txr_id : string; txr_userId : string; txr_type : string; txr_amount : num;
  txr_class : string; txr_status : string; txr_timestamp : string; txr_retry : bool
}.

Definition tx_row (tx : ApiTransaction) : TxRow :=
  {| txr_id := tx_id tx; txr_userId := tx_userId tx; txr_type := tx_type tx; txr_amount := tx_amount tx;
     txr_class := tx_status_class (tx_status tx); txr_status := tx_status tx; txr_timestamp := tx_timestamp tx;
     txr_retry := String.eqb (tx_status tx) "failed" |}.

Record TxState : Type := { txs_searchTerm : string; txs_statusFilter : string; txs_console : console }.

Definition tx_init : TxState := {| txs_searchTerm := ""; txs_statusFilter := "all"; txs_console := [] |}.

Inductive TxEvent : Type :=
| TxSearch (s : string)
| TxStatusFilter (s : string)
| TxViewDetails (id : string)
| TxRetry (id : string)
| TxRefresh.

(** The inputs set the filters; [handleViewDetails] and [handleRetry] only
    log; Refresh calls [refetch()], which reaches the query and not the
    component's state. *)
Definition tx_step (e : TxEvent) (s : TxState) : TxState :=
  match e with
  | TxSearch t => {| txs_searchTerm := t; txs_statusFilter := txs_statusFilter s; txs_console := txs_console s |}
  | TxStatusFilter f => {| txs_searchTerm := txs_searchTerm s; txs_statusFilter := f; txs_console := txs_console s |}
  | TxViewDetails id =>
      {| txs_searchTerm := txs_searchTerm s; txs_statusFilter := txs_statusFilter s;
         txs_console := app (txs_console s) [["Viewing transaction details:"; id]] |}
  | TxRetry id =>
      {| txs_searchTerm := txs_searchTerm s; txs_statusFilter := txs_statusFilter s;
         txs_console := app (txs_console s) [["Retrying transaction:"; id]] |}
  | TxRefresh => s
  end.

(** The buttons of a row. *)
Definition tx_buttons (r : TxRow) : list TxEvent :=
  TxViewDetails (txr_id r) :: (if txr_retry r then [TxRetry (txr_id r)] else []).

Definition TransactionsPanel_view (s : TxState) (q : query (list ApiTransaction)) : panel TxRow :=
  panel_view "Error loading transactions" "Loading transactions..."
    (λ txs, map tx_row (filter (λ tx, tx_matches (txs_searchTerm s) (txs_statusFilter s) tx = true) txs)) q.

(** ** [UsersPanel] *)

Record APIUser : Type := {
  au_id : string; au_name : string; au_email : string; au_apiKey : string;
  au_status : string; au_requests : num; au_period : string;
  au_createdAt : string; au_lastActive : string
}.

(** [fetchAPIUsers], with the timestamps of two hours, one day, five
    minutes and ten minutes ago. *)
Definition fetchAPIUsers (t2h t1d t5m t10m : string) : list APIUser :=
  [ {| au_id := "1"; au_name := "Trading Bot A"; au_email := "bot.a@example.com"; au_apiKey := "xlc_key_123456789";
       au_status := "active"; au_requests := Fin 1000; au_period := "1m"; au_createdAt := t2h; au_lastActive := t5m |};
    {| au_id := "2"; au_name := "Exchange Integration"; au_email := "exchange@example.com";
       au_apiKey := "xlc_key_987654321"; au_status := "active"; au_requests := Fin 5000; au_period := "1m";
       au_createdAt := t1d; au_lastActive := t10m |} ].

Definition user_is_active (u : APIUser) : bool := String.eqb (au_status u) "active".

Record UserRow : Type := {
  ur_name : string; ur_email : string; ur_apiKey : string; ur_rate : num * string;
  ur_class : string; ur_status : string; ur_lastActive : string; ur_statusTitle : string
}.

Definition user_row (u : APIUser) : UserRow :=
  {| ur_name := au_name u; ur_email := au_email u; ur_apiKey := au_apiKey u; ur_rate := (au_requests u, au_period u);
     ur_class := if user_is_active u then "bg-green-100 text-green-800" else "bg-red-100 text-red-800";
     ur_status := au_status u; ur_lastActive := au_lastActive u;
     ur_statusTitle := if user_is_active u then "Suspend User" else "Activate User" |}.

Inductive UsersEvent : Type :=
| URegenerateKey (id : string)
| UUpdateStatus (id newStatus : string)
| UUpdateRateLimits (id : string).

(** The buttons of a row, in order: the key's refresh, then rate limits,
    key and status; the status button asks for [suspended] for an active
    user and [active] for any other. *)
Definition user_buttons (u : APIUser) : list UsersEvent :=
  [URegenerateKey (au_id u); UUpdateRateLimits (au_id u); URegenerateKey (au_id u);
   UUpdateStatus (au_id u) (if user_is_active u then "suspended" else "active")].

(** The handlers only log; [selectedUser] is never set. *)
Definition users_step (e : UsersEvent) (c : console) : console :=
  match e with
  | URegenerateKey id => app c [["Regenerating API key for user:"; id]]
  | UUpdateStatus id st => app c [["Updating status for user:"; id; "to:"; st]]
  | UUpdateRateLimits id => app c [["Updating rate limits for user:"; id]]
  end.

Definition UsersPanel_view (q : query (list APIUser)) : panel UserRow :=
  panel_view "Error loading API users" "Loading users..." (map user_row) q.

(** ** [StakingPanel] *)

Record ApiStakingPool : Type := {
  sp_id : string; sp_name : string; sp_totalStaked : num; sp_apy : num;
  sp_minStakeAmount : num; sp_lockPeriod : num; sp_active : bool;
  sp_startDate : string; sp_endDate : string
}.

(** [fetchStakingPools], with now and the ends of its 90- and 180-day
    windows. *)
Definition fetchStakingPools (now in90 in180 : string) : list ApiStakingPool :=
  [ {| sp_id := "1"; sp_name := "Standard Pool"; sp_totalStaked := Fin 1000000; sp_apy := Fin (125 # 10);
       sp_minStakeAmount := Fin 1000; sp_lockPeriod := Fin 30; sp_active := true;
       sp_startDate := now; sp_endDate := in90 |};
    {| sp_id := "2"; sp_name := "Premium Pool"; sp_totalStaked := Fin 5000000; sp_apy := Fin (1875 # 100);
       sp_minStakeAmount := Fin 5000; sp_lockPeriod := Fin 90; sp_active := true;
       sp_startDate := now; sp_endDate := in180 |} ].

Record StakingCard : Type := {
  stc_name : string; stc_class : string; stc_label : string; stc_toggleTitle : string;
  stc_apy : num; stc_totalStaked : num; stc_minStake : num; stc_lockPeriod : num;
  stc_startDate : string; stc_endDate : string
}.

Definition staking_card (p : ApiStakingPool) : StakingCard :=
  {| stc_name := sp_name p;
     stc_class := if sp_active p then "bg-green-100 text-green-800" else "bg-red-100 text-red-800";
     stc_label := if sp_active p then "Active" else "Inactive";
     stc_toggleTitle := if sp_active p then "Deactivate Pool" else "Activate Pool";
     stc_apy := sp_apy p; stc_totalStaked := sp_totalStaked p; stc_minStake := sp_minStakeAmount p;
     stc_lockPeriod := sp_lockPeriod p; stc_startDate := sp_startDate p; stc_endDate := sp_endDate p |}.

Inductive StakingEvent : Type :=
| SCreatePool
| SEditPool (p : ApiStakingPool)
| SDeletePool (id : string)
| STogglePool (id : string) (currentStatus : bool)
| SViewDetails (id : string)
| SViewStakers (id : string)
| SRefresh.

Record StakingPanelState : Type := { sps_selected : option ApiStakingPool; sps_console : console }.

Definition staking_log (entry : list string) (s : StakingPanelState) : StakingPanelState :=
  {| sps_selected := sps_selected s; sps_console := app (sps_console s) [entry] |}.

(** The handlers: edit selects the pool; every handler logs, none
    writes; Refresh reaches the query only. *)
Definition staking_step (e : StakingEvent) (s : StakingPanelState) : StakingPanelState :=
  match e with
  | SCreatePool => staking_log ["Creating new staking pool"] s
  | SEditPool p => staking_log ["Editing pool:"; sp_id p] {| sps_selected := Some p; sps_console := sps_console s |}
  | SDeletePool id => staking_log ["Deleting pool:"; id] s
  | STogglePool id cur => staking_log ["Toggling pool status:"; id; "to:"; bool_text (negb cur)] s
  | SViewDetails id => staking_log ["View pool details:"; id] s
  | SViewStakers id => staking_log ["View stakers:"; id] s
  | SRefresh => s
  end.

Definition staking_run (es : list StakingEvent) (s : StakingPanelState) : StakingPanelState :=
  foldl (λ s e, staking_step e s) s es.

(** The buttons of a card, in order. *)
Definition pool_buttons (p : ApiStakingPool) : list StakingEvent :=
  [STogglePool (sp_id p) (sp_active p); SEditPool p; SDeletePool (sp_id p); SViewDetails (sp_id p); SViewStakers (sp_id p)].

Definition StakingPanel_view (q : query (list ApiStakingPool)) : panel StakingCard :=
  panel_view "Error loading staking pools" "Loading staking pools..." (map staking_card) q.

(** ** [SettingsPanel] *)

Record SystemConfig : Type := {
  rl_default : num;
  rl_premium : num;
  rl_period : string;
  sec_ipWhitelist : list string;
  sec_webhookUrl : string;
  sec_apiKeyExpiration : num;
  cache_enabled : bool;
  cache_ttl : num;
  cache_maxSize : num
}.

Definition fetchSystemConfig : SystemConfig :=
  {| rl_default := Fin 1000; rl_premium := Fin 5000; rl_period := "1m";
     sec_ipWhitelist := ["192.168.1.1"; "10.0.0.1"]; sec_webhookUrl := "https://api.example.com/webhook";
     sec_apiKeyExpiration := Fin 90; cache_enabled := true; cache_ttl := Fin 300; cache_maxSize := Fin 1000 |}.

Inductive SettingsTab : Type := TabRateLimits | TabSecurity | TabCaching.

Record SettingsState : Type := {
  ss_config : option SystemConfig;
  ss_form : option SystemConfig;
  ss_tab : SettingsTab;
  ss_log : list SystemConfig
}.

Definition settings_init : SettingsState :=
  {| ss_config := None; ss_form := None; ss_tab := TabRateLimits; ss_log := [] |}.

Inductive SettingsInput : Type :=
| SDefault (text : string) | SPremium (text : string) | SPeriod (s : string)
| SWhitelist (text : string) | SWebhook (s : string) | SExpiration (text : string)
| SCacheEnabled (b : bool) | STtl (text : string) | SMaxSize (text : string).

(** [handleInputChange(section, field, value)] with the value each input
    passes: [parseInt] for numbers, the lines for the whitelist. *)
Definition settings_input (i : SettingsInput) (c : SystemConfig) : SystemConfig :=
  let '{| rl_default := d; rl_premium := p; rl_period := per; sec_ipWhitelist := w; sec_webhookUrl := u;
          sec_apiKeyExpiration := e; cache_enabled := en; cache_ttl := t; cache_maxSize := m |} := c in
  match i with
  | SDefault s => Build_SystemConfig (parseInt10 s) p per w u e en t m
  | SPremium s => Build_SystemConfig d (parseInt10 s) per w u e en t m
  | SPeriod s => Build_SystemConfig d p s w u e en t m
  | SWhitelist s => Build_SystemConfig d p per (split_lines s) u e en t m
  | SWebhook s => Build_SystemConfig d p per w s e en t m
  | SExpiration s => Build_SystemConfig d p per w u (parseInt10 s) en t m
  | SCacheEnabled b => Build_SystemConfig d p per w u e b t m
  | STtl s => Build_SystemConfig d p per w u e en (parseInt10 s) m
  | SMaxSize s => Build_SystemConfig d p per w u e en t (parseInt10 s)
  end.

(** The tab whose panel holds the input. *)
Definition input_tab (i : SettingsInput) : SettingsTab :=
  match i with
  | SDefault _ | SPremium _ | SPeriod _ => TabRateLimits
  | SWhitelist _ | SWebhook _ | SExpiration _ => TabSecurity
  | SCacheEnabled _ | STtl _ | SMaxSize _ => TabCaching
  end.

Definition tab_eqb (a b : SettingsTab) : bool :=
  match a, b with
  | TabRateLimits, TabRateLimits | TabSecurity, TabSecurity | TabCaching, TabCaching => true
  | _, _ => false
  end.

Inductive SettingsEvent : Type :=
| ConfigLoaded (c : SystemConfig)
| SelectTab (t : SettingsTab)
| SInput (i : SettingsInput)
| SSubmit
| SReload.

(** One event; an input changes the form only on its own tab.
    [ConfigLoaded] is the query's data arriving (first load or refetch);
    the effect [if (config && !formData) setFormData(config)]
    fills the form only once.  [handleSubmit] logs the form and always
    shows [Settings updated successfully].  The Refresh button calls
    [window.location.reload()]: the page starts again, the form's edits
    are lost. *)
Definition settings_step (e : SettingsEvent) (s : SettingsState) : SettingsState * option string :=
  match e with
  | ConfigLoaded c =>
      ({| ss_config := Some c; ss_form := match ss_form s with None => Some c | Some f => Some f end;
          ss_tab := ss_tab s; ss_log := ss_log s |}, None)
  | SelectTab t =>
      match ss_form s with
      | Some _ => ({| ss_config := ss_config s; ss_form := ss_form s; ss_tab := t; ss_log := ss_log s |}, None)
      | None => (s, None)
      end
  | SInput i =>
      match ss_form s with
      | Some f => if negb (tab_eqb (input_tab i) (ss_tab s)) then (s, None) else ({| ss_config := ss_config s; ss_form := Some (settings_input i f); ss_tab := ss_tab s; ss_log := ss_log s |}, None)
      | None => (s, None)
      end
  | SSubmit =>
      match ss_form s with
      | Some f => ({| ss_config := ss_config s; ss_form := ss_form s; ss_tab := ss_tab s; ss_log := f :: ss_log s |},
                   Some "Settings updated successfully")
      | None => (s, None)
      end
  | SReload => (settings_init, None)
  end.

Definition settings_run (es : list SettingsEvent) (s : SettingsState) : SettingsState :=
  foldl (λ s e, (settings_step e s).1) s es.

(** The tab bar: each tab's label and the classes of its button. *)
Definition settings_tabs : list (SettingsTab * string) :=
  [(TabRateLimits, "Rate Limits"); (TabSecurity, "Security"); (TabCaching, "Caching")].

Definition settings_tab_class (active : bool) : string :=
  if active then "border-indigo-500 text-indigo-600"
  else "border-transparent text-gray-500 hover:text-gray-700 hover:border-gray-300".

Inductive SettingsView : Type :=
| SVError
| SVLoading
| SVForm (tabs : list (string * string)) (tab : SettingsTab) (form : SystemConfig).

(** What the panel renders: the query's error text, the loading text
    while there is no form, or the tab bar over the active tab's fields. *)
Definition SettingsPanel_view (queryError : bool) (s : SettingsState) : SettingsView :=
  if queryError then SVError
  else match ss_form s with
       | None => SVLoading
       | Some f => SVForm (map (λ tl, (tl.2, settings_tab_class (tab_eqb tl.1 (ss_tab s)))) settings_tabs) (ss_tab s) f
       end.

(** ** The page: [pages/APIManagement/index.tsx] *)

Inductive ApiPanel : Type := PDashboardTab | PUsersTab | PTransactionsTab | PStakingTab | PLiquidityTab | PSettingsTab.

(** The triggers (value and label) and the content of each tab. *)
Definition api_tabs : list (string * string * ApiPanel) :=
  [("dashboard", "Dashboard", PDashboardTab); ("users", "Users", PUsersTab);
   ("transactions", "Transactions", PTransactionsTab); ("staking", "Staking", PStakingTab);
   ("liquidity", "Liquidity", PLiquidityTab); ("settings", "Settings", PSettingsTab)].

Definition api_default_tab : string := "dashboard".

(** The panel shown for the selected value: the [TabsContent] with that
    value. *)
Definition api_tab_panel (value : string) : option ApiPanel := tab_panel api_tabs value.

(** ** Theorems *)

(** The average price impact card shows [NaN%] while the pools load,
    [0.00%] for no pool, and the mean of the pools' impacts otherwise. *)
Theorem avg_price_impact ps :
  lo_avgImpact (liquidity_overview None) = "NaN" ∧
  lo_avgImpact (liquidity_overview (Some [])) = "0.00" ∧
  (ps ≠ [] →
   lo_avgImpact (liquidity_overview (Some ps)) =
   toFixed 2 (foldl (λ s p, (s + lp_priceImpact p)%js) (Fin 0) ps / Fin (inject_Z (Z.of_nat (length ps))))%js).
Proof.
  split; [reflexivity|]. split; [reflexivity|]. intros Hne.
  unfold liquidity_overview, pools_sum. cbn [lo_avgImpact]. f_equal. f_equal.
  destruct ps as [|p ps]; [done|]. unfold num_or. simpl length.
  destruct (num_truthy (Fin (inject_Z (Z.of_nat (S (length ps)))))) eqn:E; [done|].
  simpl in E. discriminate E.
Qed.

Lemma avg_price_impact_witness : lo_avgImpact (liquidity_overview (Some (fetchLiquidityPools "2024-01-01T00:00:00.000Z"))) = "0.20".
Proof.
  destruct (avg_price_impact (fetchLiquidityPools "2024-01-01T00:00:00.000Z")) as (_ & _ & H).
  rewrite H by discriminate. vm_compute. reflexivity.
Defined.

(** A refetch never changes the settings form: once the first
    configuration has filled it, a submission logs that configuration (with
    the administrator's edits) and reports success, although nothing is
    sent. *)
Theorem settings_submit_logs_first_config c1 c2 :
  head (ss_log (settings_run [ConfigLoaded c1; ConfigLoaded c2; SSubmit] settings_init)) = Some c1 ∧
  (settings_step SSubmit (settings_run [ConfigLoaded c1; ConfigLoaded c2] settings_init)).2
  = Some "Settings updated successfully".
Proof. split; reflexivity. Qed.

(** With an empty search and a status, the transactions panel shows exactly
    the transactions of that status, in order. *)
Theorem transactions_status_filter st txs :
  filteredTransactions "" st (Some txs) =
  Some (filter (λ tx, (String.eqb st "all" || String.eqb (tx_status tx) st) = true) txs).
Proof.
  unfold filteredTransactions. f_equal.
Qed.

(** The metrics the dashboard shows when it has none. *)
Definition no_metrics_cards : list (string * card_value * option num) :=
  [("API Health", CardText "Healthy", None); ("Request Volume", CardText "0", None);
   ("Error Rate", CardNumber (Fin 0) "%", None); ("Active Users", CardText "0", None);
   ("Success Rate", CardNumber (Fin 0) "%", None); ("Cache Hit Rate", CardNumber (Fin 0) "%", None)].

(** [Dashboard] has no error branch: once the metrics query has
    stopped loading without data (its fetch failed), the page reports the
    API as Healthy, with 0% errors, a success rate of 0% and no activity.
    The mock [getSystemMetrics] never rejects, so this is latent. *)
Lemma dashboard_failure_reads_healthy q :
  q_isLoading q = false → q_data q = None →
  dashboard_cards q = no_metrics_cards ∧ dashboard_activity q = Some None.
Proof. intros Hl Hd. unfold dashboard_cards, dashboard_activity. by rewrite Hl, Hd. Qed.

Lemma dashboard_failure_reads_healthy_witness :
  dashboard_cards (query_failure query_init) = no_metrics_cards ∧
  dashboard_activity (query_failure query_init) = Some None.
Proof. apply dashboard_failure_reads_healthy; reflexivity. Defined.

(** A panel whose query has an error shows only its error text, also
    when the query still holds the data of an earlier fetch. *)
Lemma panel_view_error {A R} err loading (rows : A → list R) q :
  q_error q = true → panel_view err loading rows q = PanelError err.
Proof. intros He. unfold panel_view. by rewrite He. Qed.

Theorem failed_refetch_hides_rows qu qt qs ql st :
  UsersPanel_view (query_failure qu) = PanelError "Error loading API users" ∧
  TransactionsPanel_view st (query_failure qt) = PanelError "Error loading transactions" ∧
  StakingPanel_view (query_failure qs) = PanelError "Error loading staking pools" ∧
  LiquidityPanel_view (query_failure ql) = (None, PanelError "Error loading liquidity pools").
Proof. repeat split; reflexivity. Qed.

(** The transactions search is a case-insensitive substring search on
    the id, the user id and the type, and the status filter keeps [all]
    or exactly the selected status. *)
Theorem tx_matches_spec searchTerm statusFilter tx :
  let q := toLowerCase searchTerm in
  tx_matches searchTerm statusFilter tx = true ↔
  (searchTerm = "" ∨ (∃ a b, toLowerCase (tx_id tx) = a ++ q ++ b) ∨
   (∃ a b, toLowerCase (tx_userId tx) = a ++ q ++ b) ∨ (∃ a b, toLowerCase (tx_type tx) = a ++ q ++ b)) ∧
  (statusFilter = "all" ∨ tx_status tx = statusFilter).
Proof. unfold tx_matches; cbv zeta. rewrite andb_true_iff, !orb_true_iff, !String.eqb_eq, !includes_spec. tauto. Qed.

Lemma tx_matches_spec_witness :
  tx_matches "stake" "all"
    {| tx_id := "3"; tx_userId := "user_789"; tx_type := "STAKE"; tx_status := "failed";
       tx_amount := Fin 2500; tx_timestamp := ""; tx_details := [] |} = true.
Proof.
  apply tx_matches_spec. split; [right; right; right|by left]. by exists "", "".
Defined.

(** A row has the Retry button exactly when its transaction failed. *)
Theorem retry_only_on_failed tx :
  TxRetry (tx_id tx) ∈ tx_buttons (tx_row tx) ↔ tx_status tx = "failed".
Proof.
  unfold tx_buttons, tx_row. cbn [txr_retry txr_id]. rewrite <- String.eqb_eq.
  destruct (String.eqb (tx_status tx) "failed"); rewrite elem_of_cons.
  - split; [done|intros _; right; by left].
  - rewrite elem_of_nil. split; [intros [H|[]]; discriminate|discriminate].
Qed.

(** The token ratio of a pool whose first token has no value is
    [Infinity], not NaN. *)
Theorem ratio_of_empty_token p :
  token_value (lp_token0 p) = Fin 0 → (∃ x, token_value (lp_token1 p) = Fin x ∧ 0 < x)%Q →
  lq_ratio (liquidity_row p) =
  "1 " ++ token_symbol (lp_token0 p) ++ " = Infinity " ++ token_symbol (lp_token1 p).
Proof.
  intros H0 (x & H1 & Hx). unfold liquidity_row. cbn [lq_ratio]. rewrite H0, H1.
  unfold div_toFixed. rewrite Qeq_bool_refl.
  destruct (Qeq_bool x 0) eqn:E; [apply Qeq_bool_iff in E; lra|].
  by rewrite (proj2 (Qle_bool_iff 0 x)) by lra.
Qed.

(** A number field of the settings cleared, or holding no digits, is
    [parseInt]'s NaN: the submit logs a configuration with NaN and still
    shows [Settings updated successfully]. *)
Theorem settings_cleared_field_submits_NaN c text :
  parseInt10 text = NaN →
  let s := settings_run [ConfigLoaded c; SInput (SDefault text)] settings_init in
  (settings_step SSubmit s).2 = Some "Settings updated successfully" ∧
  option_map rl_default (head (ss_log (settings_step SSubmit s).1)) = Some NaN.
Proof. intros Hp. destruct c. cbn. by rewrite Hp. Qed.

Lemma settings_cleared_field_submits_NaN_witness :
  option_map rl_default
    (head (ss_log (settings_step SSubmit (settings_run [ConfigLoaded fetchSystemConfig; SInput (SDefault "")] settings_init)).1))
  = Some NaN.
Proof. apply (settings_cleared_field_submits_NaN fetchSystemConfig ""). reflexivity. Defined.

(** Refresh drops the form's edits: after a reload and the query's data,
    the form is the fetched configuration again. *)
Lemma settings_refresh_drops_edits es c :
  ss_form (settings_run (es ++ [SReload; ConfigLoaded c]) settings_init) = Some c.
Proof. unfold settings_run. rewrite foldl_app. reflexivity. Qed.
