(* ===== verification/Token.v ===== *)
(** * Reads of the XLC contract and the second connect function:
      [lib/web3/contract.ts], [lib/web3/provider.ts], [lib/web3/wallet.ts],
      [pages/Dashboard/index.tsx], [pages/Dashboard/components/StatsOverview.tsx]
      and [pages/Dashboard/hooks/useAccountBalance.ts]

    The contract is a value ([XLCContract]): what [name()],
    [totalSupply()] and [balanceOf(a)] return, [None] when the call
    fails.  [getXLCBalance] turns a failure into ["0"]; the dashboard's
    supply query turns one into ["N/A"].  [StatsOverview] (rendered by no
    page) labels the connected account's balance "Total Supply".
    [lib/web3/wallet.ts] is a second [connectWallet], used by no module,
    written over the wallet of [Wallet]. *)

From S2P Require Import Prelude Json Wallet Chain Deploy APIManagement.

Local Open Scope string_scope.

(** ** [lib/web3/provider.ts] *)

Inductive web3_provider : Type := InjectedProvider | HttpProvider (url : string).

Definition BSC_RPC_URL : string := "https://bsc-dataseed1.binance.org".

(** [getWeb3Provider]: the injected [window.ethereum] when there is one. *)
Definition getWeb3Provider (w : World) : web3_provider :=
  match w_eth w with Some _ => InjectedProvider | None => HttpProvider BSC_RPC_URL end.

(** ** [lib/web3/contract.ts] *)

Record XLCContract : Type := {
  xc_name : option string;
  xc_totalSupply : option Z;
  xc_balanceOf : string → option Z
}.

(** [verifyContractConnection], run when the module loads: the result
    and the toast. *)
Definition verifyContractConnection (c : XLCContract) : bool * string :=
  match xc_name c with
  | Some _ => (true, "Successfully connected to XLC contract")
  | None => (false, "Failed to connect to XLC contract")
  end.

(** [getXLCBalance(address)]: a failing call logs and returns ['0']. *)
Definition getXLCBalance (c : XLCContract) (address : string) : string :=
  match xc_balanceOf c address with Some b => fromWei b | None => "0" end.

(** ** [pages/Dashboard/index.tsx] *)

(** The [totalSupply] query's function: a failure is caught as ['N/A']. *)
Definition totalSupply_query (c : XLCContract) : string :=
  match xc_totalSupply c with Some s => fromWei s | None => "N/A" end.

(** The balance query's function ([null] without an address); it does not
    catch a failing call. *)
Definition balance_query (c : XLCContract) (address : option string) : jsres (option string) :=
  match address with
  | Some a => if String.eqb a "" then Ok None
              else match xc_balanceOf c a with
                   | Some b => Ok (Some (fromWei b))
                   | None => Throw (JsError "Returned values aren't valid, did it run Out of Gas?")
                   end
  | None => Ok None
  end.

(** The Total Supply card: its value and [subValue]. *)
Definition Dashboard_supply_card (supply : query string) (balance : query (option string)) : string * option string :=
  (if q_isLoading supply then "Loading..."
   else match q_data supply with Some s => s ++ " XLC" | None => "undefined XLC" end,
   match q_data balance with
   | Some (Some b) => if String.eqb b "" then None else Some ("Your Balance: " ++ b ++ " XLC")
   | _ => None
   end).

(** The dashboard's three cards: title, value, [subValue] and [change]. *)
Definition Dashboard_view (supply : query string) (balance : query (option string)) (holders : query_state Z) :
    list (string * string * option string * num) :=
  [("Total Supply", (Dashboard_supply_card supply balance).1, (Dashboard_supply_card supply balance).2, Fin (25 # 10));
   ("Token Holders", Dashboard_holders_card holders, None, Fin (52 # 10));
   ("24h Transactions", "1,234", None, Fin (-15 # 10))].

(** ** [StatsOverview] and [useAccountBalance] *)

(** The query function of both: [getXLCBalance(address || '')], and in
    the hook [address ? getXLCBalance(address) : '0']. *)
Definition useAccountBalance_query (c : XLCContract) (address : option string) : string :=
  match address with Some a => if String.eqb a "" then "0" else getXLCBalance c a | None => "0" end.

(** [displayValue] and the "Total Supply" card's text. *)
Definition StatsOverview_total (q : query string) : string :=
  let displayValue :=
    if q_error q then "N/A"
    else if q_isLoading q then "Loading..."
    else match q_data q with Some b => if String.eqb b "" then "N/A" else b | None => "N/A" end in
  let has_balance := match q_data q with Some b => negb (String.eqb b "") | None => false end in
  displayValue ++ (if negb (q_error q) && has_balance then " XLC" else "").

(** The three fixed cards of [StatsOverview]: title, value, change. *)
Definition StatsOverview_fixed : list (string * string * num) :=
  [("Active Users", "2,345", Fin (52 # 10)); ("24h Transactions", "1,234", Fin (-15 # 10));
   ("Tokens Burned", "50,000 XLC", Fin (32 # 10))].

(** ** [lib/web3/wallet.ts] *)

Definition LIB_BSC_CHAIN_ID : string := "0x38".

Definition web3_exn (e : Web3Error) : exn := JsError (err_message e).

(** [connectWallet()] of [lib/web3/wallet.ts]: it needs
    [window.ethereum.isMetaMask], always asks to switch to BSC, adds the
    chain on error 4902, and returns [accounts[0]] ([None]: [undefined]). *)
Definition lib_connectWallet (isMetaMask : bool) (pr : prompts) (w : World) : World * jsres (option string) :=
  match w_eth w with
  | None => (w, Throw (JsError "MetaMask is not installed"))
  | Some e =>
      if negb isMetaMask then (w, Throw (JsError "MetaMask is not installed")) else
      match req_requestAccounts pr e w with
      | (w1, inl err) => (w1, Throw (web3_exn err))
      | (w1, inr acs) =>
          match req_switchChain LIB_BSC_CHAIN_ID pr (cur_eth w1 e) w1 with
          | (w2, None) => (w2, Ok (head acs))
          | (w2, Some err) =>
              if decide (err_code err = Some 4902%Z) then
                match req_addChain LIB_BSC_CHAIN_ID pr (cur_eth w2 e) w2 with
                | (w3, None) => (w3, Ok (head acs))
                | (w3, Some err') => (w3, Throw (web3_exn err'))
                end
              else (w2, Throw (web3_exn err))
          end
      end
  end.

(** ** Theorems *)

Lemma fromWei_nonempty v : String.eqb (fromWei v) "" = false.
Proof.
  unfold fromWei. destruct (print_Z_head (v / 10 ^ 18)) as (c & s & -> & _).
  by case_bool_decide.
Qed.

(** The "Total Supply" card of [StatsOverview] shows the connected
    account's balance ([0] when the call fails), whatever the contract's
    total supply. *)
Theorem stats_total_is_balance c a q :
  a ≠ "" →
  StatsOverview_total (query_success (useAccountBalance_query c (Some a)) q) =
  match xc_balanceOf c a with Some b => fromWei b | None => "0" end ++ " XLC".
Proof.
  intros Ha. unfold useAccountBalance_query, getXLCBalance, StatsOverview_total.
  rewrite (proj2 (String.eqb_neq a "") Ha). cbn [q_error q_isLoading q_data negb andb].
  destruct (xc_balanceOf c a); cbn -[fromWei]; [by rewrite fromWei_nonempty|reflexivity].
Qed.

Lemma stats_total_is_balance_witness :
  StatsOverview_total
    (query_success (useAccountBalance_query
                      {| xc_name := Some "XLC"; xc_totalSupply := Some (10 ^ 27)%Z; xc_balanceOf := λ _, Some (5 * 10 ^ 17)%Z |}
                      (Some "0xAb58")) query_init)
  = "0.5 XLC".
Proof. rewrite stats_total_is_balance by discriminate. reflexivity. Defined.

(** With every prompt accepted, the connect function of
    [lib/web3/wallet.ts] leaves the wallet on BSC and returns its first
    account, whether BSC was known to the wallet or had to be added. *)
Theorem lib_connect_reaches_bsc pr w e :
  w_eth w = Some e → pr_connect pr = true → pr_switch pr = true → pr_add pr = true →
  option_map eth_chain (w_eth (lib_connectWallet true pr w).1) = Some LIB_BSC_CHAIN_ID ∧
  (lib_connectWallet true pr w).2 = Ok (head (eth_wallet_accounts e)).
Proof.
  intros He Hc Hs Ha. unfold lib_connectWallet. rewrite He. cbn [negb].
  unfold req_requestAccounts. rewrite Hc. unfold req_switchChain, cur_eth. rewrite expose_eth. simpl default.
  case_decide.
  - rewrite Hs. simpl. by rewrite change_chain_eth.
  - cbn. rewrite decide_True by done. unfold req_addChain. rewrite Ha. simpl. by rewrite change_chain_eth.
Qed.

Lemma lib_connect_reaches_bsc_witness :
  (lib_connectWallet true accept_all (app_start metamask_on_mainnet)).2 = Ok (head mm_accounts).
Proof. by apply (lib_connect_reaches_bsc accept_all (app_start metamask_on_mainnet) metamask_on_mainnet). Defined.

(** A failing [totalSupply()] call shows "N/A XLC" on the dashboard. *)
Lemma supply_failure_text c q b :
  xc_totalSupply c = None → (Dashboard_supply_card (query_success (totalSupply_query c) q) b).1 = "N/A XLC".
Proof. intros H. unfold totalSupply_query. by rewrite H. Qed.
