(* ===== verification/Tokenomics.v ===== *)
(** * The tokenomics page: [pages/Tokenomics]

    [TokenomicsForm] keeps seventeen text fields, starts with all of them
    empty, and on submit [set]s the Firebase node [tokenomics] to the whole
    form.  [TokenomicsDisplay] subscribes to the node and shows the last
    snapshot that existed.  A tokenomics object is a map from the field
    names of [pages/Tokenomics/types.ts] to their text. *)

From S2P Require Import Prelude Firebase.

Local Open Scope nat_scope.
Local Open Scope string_scope.

Abbreviation tokenomics := (gmap string string).

(** The fields of [interface Tokenomics], which are also the [name]s of
    the form's inputs. *)
Definition tokenomics_fields : list string :=
  ["totalSupply"; "circulatingSupply"; "burned"; "marketCap"; "fullyDilutedMarketCap"; "holders";
   "transferTax"; "liquidityTax"; "marketingTax"; "devTax"; "liquidityPair"; "liquidityLocked";
   "contractAddress"; "launchDate"; "initialPrice"; "allTimeHigh"; "allTimeLow"].

(** The form's initial state: every field empty. *)
Definition tokenomics_blank : tokenomics := list_to_map (map (λ k, (k, "")) tokenomics_fields).

Record TokenomicsPage : Type := {
  tp_remote : option tokenomics;
  tp_form : tokenomics;
  tp_display : option tokenomics
}.

(** The page as mounted: the form is blank whatever the node holds; the
    display waits for the first snapshot. *)
Definition tokenomics_mount (remote : option tokenomics) : TokenomicsPage :=
  {| tp_remote := remote; tp_form := tokenomics_blank; tp_display := None |}.

Inductive TokenomicsEvent : Type :=
| TChange (name value : string)
| TSubmit (denied : bool)
| TSnapshot
| TRemote (r : option tokenomics).

(** [handleChange]: [{ ...prev, [name]: value }] for one of the inputs. *)
Definition tk_handleChange (name value : string) (f : tokenomics) : tokenomics :=
  if bool_decide (name ∈ tokenomics_fields) then <[name := value]> f else f.

(** [handleSubmit]: [set(ref(db, 'tokenomics'), tokenomics)] replaces the
    node; the form keeps its text. *)
Definition tk_handleSubmit (denied : bool) (p : TokenomicsPage) : TokenomicsPage * string :=
  if denied then (p, "Failed to update tokenomics")
  else ({| tp_remote := Some (tp_form p); tp_form := tp_form p; tp_display := tp_display p |},
        "Tokenomics updated successfully").

(** The [onValue] callback: [if (snapshot.exists()) setTokenomics(val)],
    with no branch for a node that is gone. *)
Definition tk_snapshot (p : TokenomicsPage) : TokenomicsPage :=
  match tp_remote p with
  | Some r => {| tp_remote := tp_remote p; tp_form := tp_form p; tp_display := Some r |}
  | None => p
  end.

(** One event.  The page's own [set] fires the subscription at once;
    [TRemote] is another client's write, delivered by [TSnapshot]. *)
Definition tokenomics_step (e : TokenomicsEvent) (p : TokenomicsPage) : TokenomicsPage * option string :=
  match e with
  | TChange k v => ({| tp_remote := tp_remote p; tp_form := tk_handleChange k v (tp_form p); tp_display := tp_display p |}, None)
  | TSubmit denied => let '(p', t) := tk_handleSubmit denied p in (tk_snapshot p', Some t)
  | TSnapshot => (tk_snapshot p, None)
  | TRemote r => ({| tp_remote := r; tp_form := tp_form p; tp_display := tp_display p |}, None)
  end.

Definition tokenomics_run (es : list TokenomicsEvent) (p : TokenomicsPage) : TokenomicsPage :=
  foldl (λ p e, (tokenomics_step e p).1) p es.

(** The form's inputs, section by section in render order: label,
    [name] and placeholder; every input is [type="text"] with
    [value={tokenomics[name]}] and [onChange={handleChange}]. *)
Definition supply_inputs : list (string * string * string) :=
  [("Total Supply", "totalSupply", "e.g. 1,000,000,000"); ("Circulating Supply", "circulatingSupply", "e.g. 750,000,000");
   ("Burned Tokens", "burned", "e.g. 250,000,000"); ("Number of Holders", "holders", "e.g. 10,000")].

Definition market_inputs : list (string * string * string) :=
  [("Market Cap", "marketCap", "e.g. $1,000,000"); ("Fully Diluted Market Cap", "fullyDilutedMarketCap", "e.g. $1,500,000")].

Definition tax_inputs : list (string * string * string) :=
  [("Transfer Tax (%)", "transferTax", "e.g. 2"); ("Liquidity Tax (%)", "liquidityTax", "e.g. 2");
   ("Marketing Tax (%)", "marketingTax", "e.g. 1"); ("Development Tax (%)", "devTax", "e.g. 1")].

Definition liquidity_inputs : list (string * string * string) :=
  [("Liquidity Pair", "liquidityPair", "e.g. XLC/WBNB"); ("Liquidity Locked Until", "liquidityLocked", "e.g. 2025-12-31")].

Definition contract_inputs : list (string * string * string) :=
  [("Contract Address", "contractAddress", "e.g. 0x...")].

Definition price_inputs : list (string * string * string) :=
  [("Initial Price", "initialPrice", "e.g. $0.001"); ("Launch Date", "launchDate", "e.g. 2023-01-01");
   ("All Time High", "allTimeHigh", "e.g. $0.01"); ("All Time Low", "allTimeLow", "e.g. $0.0001")].

Definition tokenomics_inputs : list (string * string * string) :=
  supply_inputs ++ market_inputs ++ tax_inputs ++ liquidity_inputs ++ contract_inputs ++ price_inputs.

(** The rendered form: each input with the text it shows ([undefined] for
    a field the state lacks). *)
Definition TokenomicsForm_view (f : tokenomics) : list (string * string * option string * string) :=
  map (λ i, (i.1.1, i.1.2, f !! i.1.2, i.2)) tokenomics_inputs.

(** The fields [TokenomicsDisplay] shows, in its order. *)
Definition display_fields : list string :=
  ["totalSupply"; "circulatingSupply"; "burned"; "holders"; "marketCap"; "fullyDilutedMarketCap";
   "transferTax"; "liquidityTax"; "marketingTax"; "devTax"; "initialPrice"; "allTimeHigh"; "allTimeLow";
   "contractAddress"; "launchDate"; "liquidityLocked"].

(** The display: the placeholder text, or the values of its fields
    ([undefined] for a field the snapshot lacks). *)
Definition TokenomicsDisplay_view (p : TokenomicsPage) : option (list (option string)) :=
  match tp_display p with
  | Some t => Some (map (λ k, t !! k) display_fields)
  | None => None
  end.

(** A node as another administrator saved it. *)
Definition saved_tokenomics : tokenomics :=
  <["totalSupply" := "1,000,000,000"]> (<["holders" := "9,500"]> tokenomics_blank).

(** ** Theorems *)

Lemma tk_edit_lookup_other es f k :
  k ∉ map fst es →
  foldl (λ f e, tk_handleChange e.1 e.2 f) f es !! k = f !! k.
Proof.
  revert f. induction es as [|[k' v] es IH]; intros f Hk; [done|]. simpl in *.
  rewrite IH by set_solver. unfold tk_handleChange.
  case_bool_decide; [|done]. rewrite lookup_insert_ne; [done|set_solver].
Qed.

Lemma tokenomics_blank_lookup k : k ∈ tokenomics_fields → tokenomics_blank !! k = Some "".
Proof.
  intros Hk. unfold tokenomics_blank. apply elem_of_list_to_map_1.
  - apply (bool_decide_eq_true_1 (NoDup (map fst (map (λ k, (k, "")) tokenomics_fields)))). vm_compute. reflexivity.
  - apply list_elem_of_fmap. eauto.
Qed.

Lemma tokenomics_run_changes edits p :
  tokenomics_run (map (λ e, TChange e.1 e.2) edits) p =
  {| tp_remote := tp_remote p; tp_form := foldl (λ f e, tk_handleChange e.1 e.2 f) (tp_form p) edits;
     tp_display := tp_display p |}.
Proof.
  revert p. induction edits as [|[k v] edits IH]; intros [r f d]; [done|].
  unfold tokenomics_run in *. simpl. apply IH.
Qed.

(** C35: the form starts blank instead of loading the node, and submitting
    replaces the node by the form: every field the administrator did not
    type is stored empty, whatever the node held before. *)
Theorem submit_clears_untouched_fields remote edits k :
  k ∈ tokenomics_fields → k ∉ map fst edits →
  option_map (lookup k) (tp_remote (tokenomics_run (map (λ e, TChange e.1 e.2) edits ++ [TSubmit false])
                                                   (tokenomics_mount remote)))
  = Some (Some "").
Proof.
  intros Hk Hnot. unfold tokenomics_run. rewrite foldl_app.
  change (foldl _ (tokenomics_mount remote) (map _ edits)) with
    (tokenomics_run (map (λ e, TChange e.1 e.2) edits) (tokenomics_mount remote)).
  rewrite tokenomics_run_changes. simpl. f_equal.
  rewrite tk_edit_lookup_other by done. by apply tokenomics_blank_lookup.
Qed.

Lemma submit_clears_untouched_fields_witness :
  option_map (lookup "totalSupply")
    (tp_remote (tokenomics_run (map (λ e, TChange e.1 e.2) [("holders", "10,000")] ++ [TSubmit false])
                               (tokenomics_mount (Some saved_tokenomics))))
  = Some (Some "").
Proof. apply submit_clears_untouched_fields; [set_solver|set_solver]. Defined.

(** The display keeps showing the last snapshot after the node is
    removed. *)
Theorem display_keeps_removed_node p :
  tp_remote p = None →
  TokenomicsDisplay_view (tokenomics_run [TSnapshot] p) = TokenomicsDisplay_view p.
Proof. intros Hr. unfold tokenomics_run. simpl. unfold tk_snapshot. by rewrite Hr. Qed.

(** The form has exactly one input per field of [Tokenomics], so every
    field can be typed and the fields [handleChange] accepts are the
    inputs' names. *)
Lemma tokenomics_inputs_fields : map (λ i, i.1.2) tokenomics_inputs ≡ₚ tokenomics_fields.
Proof. by apply (bool_decide_eq_true_1 (_ ≡ₚ _)); vm_compute. Qed.

(** A blank form shows every input empty. *)
Lemma blank_form_empty :
  Forall (λ r, r.1.2 = Some "") (TokenomicsForm_view tokenomics_blank).
Proof.
  unfold TokenomicsForm_view. apply Forall_forall. intros r (i & -> & Hi)%list_elem_of_fmap. simpl.
  apply tokenomics_blank_lookup. rewrite <- tokenomics_inputs_fields. apply list_elem_of_fmap. eauto.
Qed.
