(* ===== verification/Shell.v ===== *)
(** * The dashboard shell: [components/Sidebar.tsx], [components/Header]

    Every protected page is drawn inside a layout (its module
    [components/Layout] is not in the repository) with the sidebar and the
    header.  The sidebar lists the navigation links and shows the contract
    owner read once from the XLC contract; a link is highlighted by
    react-router's [isActive] ([nav_active]).  The header holds the wallet
    button ([Wallet]), the notifications bell, which subscribes to the
    unread notifications, and the user menu, whose Sign out calls Firebase
    [auth.signOut()] and navigates to [/login].  The authentication state
    of [Auth] is untouched by that sign out. *)

From S2P Require Import Prelude Json Auth Users Wallet.

Local Open Scope nat_scope.
Local Open Scope string_scope.

(** ** [Sidebar] *)

Record NavItem : Type := { nav_name : string; nav_href : string }.

Definition navigation : list NavItem :=
  [ {| nav_name := "Dashboard"; nav_href := "/" |};
    {| nav_name := "Users"; nav_href := "/users" |};
    {| nav_name := "Transactions"; nav_href := "/transactions" |};
    {| nav_name := "Token Operations"; nav_href := "/token-operations" |};
    {| nav_name := "API Management"; nav_href := "/api-management" |};
    {| nav_name := "Distribution"; nav_href := "/distribution" |};
    {| nav_name := "Deploy"; nav_href := "/deploy" |};
    {| nav_name := "Tokenomics"; nav_href := "/tokenomics" |};
    {| nav_name := "Settings"; nav_href := "/settings" |} ].

(** [NavLink]'s [isActive] (react-router 6, no [end], not case
    sensitive): the lower-cased path is the lower-cased target, or starts
    with it followed by a slash. *)
Definition nav_active (path href : string) : bool :=
  let p := toLowerCase path in
  let h := toLowerCase href in
  String.eqb p h || String.prefix (h ++ "/") p.

(** The [NavLink] classes: an active link is highlighted. *)
Definition nav_class (path : string) (item : NavItem) : string :=
  if nav_active path (nav_href item) then "bg-indigo-50 text-indigo-600" else "text-gray-600 hover:bg-gray-50".

(** [fetchOwner] with the result of [owner().call()]: the owner, or the
    toast; an empty owner hides the box. *)
Definition fetchOwner (r : jsres string) : string * option string :=
  match r with
  | Ok owner => (owner, None)
  | Throw _ => ("", Some "Failed to fetch contract owner")
  end.

Definition owner_box (contractOwner : string) : option string :=
  if String.eqb contractOwner "" then None else Some contractOwner.

(** The sidebar: its title, each link (name, target, classes) and the
    owner box. *)
Record SidebarView : Type := {
  sb_title : string;
  sb_links : list (string * string * string);
  sb_owner : option string
}.

Definition Sidebar_view (path contractOwner : string) : SidebarView :=
  {| sb_title := "XLC Admin"; sb_links := map (λ it, (nav_name it, nav_href it, nav_class path it)) navigation;
     sb_owner := owner_box contractOwner |}.

(** ** [UserMenu] *)

Record MenuState : Type := { menu_open : bool; menu_path : string }.

Inductive MenuEvent : Type := ToggleMenu | MenuSettings | MenuSignOut (signOutFails : bool).

(** One click.  [handleLogout] awaits Firebase's [auth.signOut()] and then
    navigates; it never calls the [logout] of [AuthContext], so the
    context's user and [authService]'s storage stay as they were. *)
Definition menu_step (e : MenuEvent) (m : MenuState) : MenuState :=
  match e with
  | ToggleMenu => {| menu_open := negb (menu_open m); menu_path := menu_path m |}
  | MenuSettings => if menu_open m then {| menu_open := menu_open m; menu_path := "/settings" |} else m
  | MenuSignOut fails =>
      if menu_open m && negb fails then {| menu_open := menu_open m; menu_path := "/login" |} else m
  end.

(** Where a navigation lands: [App]'s route for the path, following its
    redirects ([Navigate] to [/login] or [/]) up to [fuel] times. *)
Fixpoint land (fuel : nat) (path : string) (st : AuthState) (a : Auth) : string * option app_view :=
  match fuel with
  | O => (path, App_view path st a)
  | S f =>
      match App_view path st a with
      | Some (ViewRedirect to) => land f to st a
      | v => (path, v)
      end
  end.

(** Whether a view is final, that is, not a [Navigate]. *)
Definition settled (v : option app_view) : bool :=
  match v with Some (ViewRedirect _) => false | _ => true end.

(** ** [NotificationsMenu] and [useNotifications] *)

(** [query(ref(db, 'notifications'), orderByChild('read'), equalTo(false))]. *)
Definition unread_notifications (ns : gmap string jobj) : list jobj :=
  map (λ kv, user_of_entry kv.1 kv.2) (map_to_list (fb_equal "read" (JBool false) ns)).

(** The red dot on the bell. *)
Definition bell_dot (ns : gmap string jobj) : bool := Nat.ltb 0 (length (unread_notifications ns)).

(** [NotificationsMenu]: the bell's click flips [isOpen]; the render is the
    button's label and the dot, and reads neither [isOpen] nor the
    notifications' contents. *)
Definition notifications_click (isOpen : bool) : bool := negb isOpen.

Definition NotificationsMenu_view (isOpen : bool) (ns : gmap string jobj) : string * bool :=
  ("View notifications", bell_dot ns).

(** [UserMenu]'s dropdown: its two entries while open. *)
Definition UserMenu_view (m : MenuState) : list string :=
  if menu_open m then ["Settings"; "Sign out"] else [].

(** ** [Header] *)

Record HeaderState : Type := { hd_notificationsOpen : bool; hd_menu : MenuState }.

Inductive HeaderEvent : Type := BellClick | UserMenuClick (e : MenuEvent).

Definition header_step (e : HeaderEvent) (h : HeaderState) : HeaderState :=
  match e with
  | BellClick => {| hd_notificationsOpen := notifications_click (hd_notificationsOpen h); hd_menu := hd_menu h |}
  | UserMenuClick me => {| hd_notificationsOpen := hd_notificationsOpen h; hd_menu := menu_step me (hd_menu h) |}
  end.

(** The header: the wallet button of [Wallet], the bell, the user menu. *)
Definition Header_view (w : WalletState) (ns : gmap string jobj) (h : HeaderState) :
    wc_view * (string * bool) * list string :=
  (WalletConnect_view w, NotificationsMenu_view (hd_notificationsOpen h) ns, UserMenu_view (hd_menu h)).

(** ** Theorems *)

(** Two links active on one path have equal targets, or one target
    followed by a slash is a prefix of the other target or of the other
    target followed by a slash. *)
Lemma nav_active_pair path h1 h2 :
  toLowerCase h1 = h1 → toLowerCase h2 = h2 → nav_active path h1 = true → nav_active path h2 = true →
  String.eqb h1 h2 || String.prefix (h2 ++ "/") h1 || String.prefix (h1 ++ "/") h2 ||
  String.prefix (h1 ++ "/") (h2 ++ "/") || String.prefix (h2 ++ "/") (h1 ++ "/") = true.
Proof.
  unfold nav_active. intros -> ->. generalize (toLowerCase path) as p. intros p.
  rewrite !orb_true_iff, !String.eqb_eq. intros [<-|H1] [E|H2]; subst; auto 6.
  destruct (prefix_comparable _ _ _ H1 H2); auto.
Qed.

Lemma App_view_login st a : App_view "/login" st a = Some (Login_view st).
Proof. reflexivity. Qed.

(** A path of the route table shows its page to a loaded user. *)
Lemma App_view_route path st a :
  st_isLoading st = false → is_Some (st_user st) →
  is_Some (list_find (λ r, r.1 = path) protected_routes) →
  ∃ p, App_view path st a = Some (ViewPage p).
Proof.
  intros Hl Hu [[i [q p]] Hf]. exists p. unfold App_view.
  case_bool_decide as Hlogin.
  - subst path. discriminate Hf.
  - rewrite Hf. by rewrite ProtectedRoute_open.
Qed.

Lemma land_settled n path st a :
  settled (App_view path st a) = true → land n path st a = (path, App_view path st a).
Proof. intros H. destruct n; [done|]. simpl. by destruct (App_view path st a) as [[]|]. Qed.

(** A redirect of [App] leads to a view that does not redirect again:
    [ProtectedRoute] sends a visitor without user to the login form, and
    the login page sends a user to the dashboard, which shows it. *)
Lemma App_view_redirect path to st a :
  App_view path st a = Some (ViewRedirect to) → settled (App_view to st a) = true.
Proof.
  unfold App_view at 1. case_bool_decide.
  - unfold Login_view. destruct (st_isLoading st) eqn:Hl; [discriminate|].
    destruct (st_user st) eqn:Hu; [|discriminate]. intros [= <-].
    rewrite (App_view_protected "/" PDashboard); [done|set_solver|done|by rewrite Hu].
  - destruct (list_find _ _) as [[? [? p]]|]; [|discriminate].
    unfold ProtectedRoute. destruct (st_isLoading st) eqn:Hl; [discriminate|].
    destruct (st_user st) eqn:Hu; [discriminate|]. intros [= <-].
    rewrite App_view_login. unfold Login_view. by rewrite Hl, Hu.
Qed.

(** C36: Sign out in the user menu does not end the session: it leaves
    the context's user and the stored session as they were, and the
    navigation to [/login] is sent back to the dashboard because the login
    page redirects a user it still sees. *)
Theorem sign_out_lands_on_dashboard st a m u :
  st_isLoading st = false → st_user st = Some u → menu_open m = true →
  menu_path (menu_step (MenuSignOut false) m) = "/login" ∧
  land 2 (menu_path (menu_step (MenuSignOut false) m)) st a = ("/", Some (ViewPage PDashboard)).
Proof.
  intros Hl Hu Hm. unfold menu_step. rewrite Hm. cbn [andb negb menu_path]. split; [done|].
  change (land 2 "/login" st a) with
    (match App_view "/login" st a with Some (ViewRedirect to) => land 1 to st a | v => ("/login", v) end).
  rewrite App_view_login. unfold Login_view. rewrite Hl, Hu.
  change (land 1 "/" st a) with
    (match App_view "/" st a with Some (ViewRedirect to) => land 0 to st a | v => ("/", v) end).
  rewrite (App_view_protected "/" PDashboard); [done|set_solver|done|by rewrite Hu].
Qed.

Definition signed_in : AuthState :=
  {| st_user := Some [("id", JStr "1"); ("email", JStr "admin@xlc.io"); ("role", JStr "admin")];
     st_token := None; st_isLoading := false; st_error := None |}.

Lemma sign_out_lands_on_dashboard_witness :
  land 2 (menu_path (menu_step (MenuSignOut false) {| menu_open := true; menu_path := "/users" |})) signed_in
       (clearAuth {| a_token := None; a_user := None; a_storage := ∅ |})
  = ("/", Some (ViewPage PDashboard)).
Proof. apply (sign_out_lands_on_dashboard _ _ _ [("id", JStr "1"); ("email", JStr "admin@xlc.io"); ("role", JStr "admin")]); reflexivity. Defined.

(** Every sidebar link but Settings reaches its page; the Settings
    link, like the Settings entry of the user menu, goes to [/settings],
    which no route of [App] matches. *)
Theorem settings_link_unrouted st a :
  st_isLoading st = false → is_Some (st_user st) →
  (∀ item, item ∈ navigation → nav_name item ≠ "Settings" →
     ∃ p, App_view (nav_href item) st a = Some (ViewPage p)) ∧
  App_view "/settings" st a = None ∧
  menu_path (menu_step MenuSettings {| menu_open := true; menu_path := "/" |}) = "/settings".
Proof.
  intros Hl Hu. split; [|split; reflexivity].
  intros item Hin Hname. apply App_view_route; [done|done|].
  unfold navigation in Hin.
  repeat (apply elem_of_cons in Hin as [->|Hin]; [first [by exfalso; apply Hname | eexists; reflexivity]|]).
  by apply elem_of_nil in Hin.
Qed.

Lemma settings_link_unrouted_witness :
  App_view "/settings" signed_in (clearAuth {| a_token := None; a_user := None; a_storage := ∅ |}) = None.
Proof. apply (settings_link_unrouted signed_in); [reflexivity|eexists; reflexivity]. Defined.

(** C37: following [App]'s redirects terminates after at most one: with
    any fuel from 1 on, a navigation lands where it lands with fuel 1, on
    a view that is not a redirect. *)
Theorem navigation_settles path st a n :
  (1 ≤ n)%nat → land n path st a = land 1 path st a ∧ settled (land 1 path st a).2 = true.
Proof.
  intros Hn. destruct n as [|n]; [lia|]. simpl land.
  destruct (App_view path st a) as [[| to | |]|] eqn:E; try (split; reflexivity).
  apply App_view_redirect in E. by rewrite !land_settled.
Qed.

Definition signed_out : AuthState :=
  {| st_user := None; st_token := None; st_isLoading := false; st_error := None |}.

Lemma navigation_settles_witness :
  land 5 "/users" signed_out (clearAuth {| a_token := None; a_user := None; a_storage := ∅ |})
  = ("/login", Some ViewLoginForm).
Proof.
  destruct (navigation_settles "/users" signed_out (clearAuth {| a_token := None; a_user := None; a_storage := ∅ |}) 5)
    as [-> _]; [lia|reflexivity].
Defined.

(** C38: the sidebar highlights at most one link, whatever the path:
    no target of the navigation list, followed by a slash, starts another
    one, so react-router's [isActive] holds for at most one of them. *)
Theorem sidebar_one_active path :
  (length (filter (λ it, nav_active path (nav_href it) = true) navigation) ≤ 1)%nat.
Proof.
  apply filter_at_most_one.
  - apply (NoDup_fmap_1 nav_href navigation). apply (bool_decide_unpack (NoDup (nav_href <$> navigation))). vm_compute. reflexivity.
  - intros x y Hx Hy Ax Ay. apply list_elem_of_In in Hx, Hy. cbn [navigation In] in Hx, Hy.
    repeat destruct Hx as [<-|Hx]; try contradiction; repeat destruct Hy as [<-|Hy]; try contradiction;
    first [reflexivity | pose proof (nav_active_pair _ _ _ eq_refl eq_refl Ax Ay) as C; vm_compute in C; discriminate C].
Qed.
